(** * SimpleSvmHook: the stealth-hook state machine and its NPT engine

    A shallow embedding of the VMM side of SimpleSvmHook
    (HookCommon.cpp, HookVmmAlwaysOptimized.cpp, HookVmmCommon.cpp,
    VmmMain.cpp, HookKernelProcessorData.cpp) and the properties of it
    that the design document states.

    Conventions of the embedding.
    - A 64-bit quantity is a [Z] in [0, 2^64); bit fields of the unions
      (PT_ENTRY_4KB, EVENTINJ, ...) are read and written with [get_field]
      and [set_field] on the [AsUInt64] view.
    - A nested page table is a 4 KiB page holding 512 entries.  Tables are
      named by their page frame number: the code converts between the two
      with GetVaFromPfn / GetPfnFromVa, which are inverse to each other on
      non-paged memory.  Physical memory is therefore a function from a
      page frame number and an entry index to the 64-bit entry.
    - NT_ASSERT is compiled in only in checked builds; the flag [dbg]
      selects the build, and a failed assertion is the outcome
      [AssertionFailure].  KeBugCheckEx does not return: [BugCheck].
      Dereferencing nullptr is [AccessViolation]. *)

From Stdlib Require Import ZArith Lia Bool List String.
From coqutil Require Import Z.bitblast.
Import ListNotations.
Local Open Scope Z_scope.

(* ================================================================== *)
(** * Part I: the embedding                                            *)
(* ================================================================== *)

(** ** Bit fields of a 64-bit union *)

Definition get_field (lo w e : Z) : Z :=
  Z.land (Z.shiftr e lo) (Z.ones w).

Definition set_field (lo w e v : Z) : Z :=
  Z.lor (Z.ldiff e (Z.shiftl (Z.ones w) lo))
        (Z.shiftl (Z.land v (Z.ones w)) lo).

Definition BOOLEAN (b : bool) : Z := if b then 1 else 0.

Definition MAXULONG64 : Z := 2 ^ 64 - 1.
Definition MAXUINT32 : Z := 2 ^ 32 - 1.
Definition PAGE_SHIFT : Z := 12.
Definition PAGE_SIZE : Z := 4096.

(** PML4_ENTRY_4KB, PDP_ENTRY_4KB, PD_ENTRY_4KB and PT_ENTRY_4KB agree on
    every field the VMM touches. *)
Module Fields.
Definition Valid (e : Z) : Z := get_field 0 1 e.
Definition Write (e : Z) : Z := get_field 1 1 e.
Definition User (e : Z) : Z := get_field 2 1 e.
Definition PageFrameNumber (e : Z) : Z := get_field 12 40 e.
Definition NoExecute (e : Z) : Z := get_field 63 1 e.

Definition set_Valid (e v : Z) : Z := set_field 0 1 e v.
Definition set_Write (e v : Z) : Z := set_field 1 1 e v.
Definition set_User (e v : Z) : Z := set_field 2 1 e v.
Definition set_PageFrameNumber (e v : Z) : Z := set_field 12 40 e v.
Definition set_NoExecute (e v : Z) : Z := set_field 63 1 e v.
End Fields.

(** ** Outcomes *)

Inductive outcome (A : Type) : Type :=
| Done (a : A)
| AssertionFailure
| BugCheck
| AccessViolation.

Arguments Done {A} a.
Arguments AssertionFailure {A}.
Arguments BugCheck {A}.
Arguments AccessViolation {A}.

Definition bind {A B : Type} (c : outcome A) (k : A -> outcome B) : outcome B :=
  match c with
  | Done a => k a
  | AssertionFailure => AssertionFailure
  | BugCheck => BugCheck
  | AccessViolation => AccessViolation
  end.

Notation "x <- c ;; k" := (bind c (fun x => k))
  (at level 61, c at next level, right associativity).
Notation "c ;;; k" := (bind c (fun _ => k))
  (at level 61, right associativity).

Definition NT_ASSERT (dbg : bool) (c : bool) : outcome unit :=
  if dbg && negb c then AssertionFailure else Done tt.

(** [p->...] for a pointer that may be nullptr. *)
Definition deref {A : Type} (p : option A) : outcome A :=
  match p with
  | Some a => Done a
  | None => AccessViolation
  end.

Definition is_some {A : Type} (o : option A) : bool :=
  match o with Some _ => true | None => false end.

(** ** Physical memory and the kernel's page allocator *)

(** [qword p t i] is entry [i] of the page with frame number [t];
    [free_pages] are the zero-initialisable pages the kernel allocators
    (ExAllocatePoolWithTag, MmAllocateContiguousMemorySpecifyCacheNode)
    will hand out next, in order; an empty list is allocation failure. *)
Record phys : Type := mkPhys {
  qword : Z -> Z -> Z;
  free_pages : list Z
}.

Definition entry_ptr : Type := (Z * Z)%type.

Definition load (p : phys) (e : entry_ptr) : Z := qword p (fst e) (snd e).

Definition store (p : phys) (e : entry_ptr) (v : Z) : phys :=
  mkPhys (fun t i => if (t =? fst e) && (i =? snd e) then v else qword p t i)
         (free_pages p).

(** RtlZeroMemory(page, PAGE_SIZE) *)
Definition RtlZeroMemory (p : phys) (page : Z) : phys :=
  mkPhys (fun t i => if (t =? page) && (0 <=? i) && (i <? 512) then 0
                     else qword p t i)
         (free_pages p).

(** ** HookCommon.hpp *)

Record HOOK_ENTRY : Type := mkHookEntry {
  HookAddress : Z;
  Handler : Z;
  PageBaseForExecution : Z;
  PhyPageBase : Z;
  PhyPageBaseForExecution : Z;
  OriginalCallStub : Z
}.

Record HOOK_REGISTRATION_ENTRY : Type := mkRegistration {
  FunctionName : string;
  RegistrationHandler : Z;
  HookEntry : HOOK_ENTRY
}.

Inductive NPT_STATE : Type :=
| NptDefault
| NptHookEnabledInvisible
| NptHookEnabledVisible.

Definition NPT_STATE_eqb (a b : NPT_STATE) : bool :=
  match a, b with
  | NptDefault, NptDefault => true
  | NptHookEnabledInvisible, NptHookEnabledInvisible => true
  | NptHookEnabledVisible, NptHookEnabledVisible => true
  | _, _ => false
  end.

(** RTL_NUMBER_OF(HookData->PreAllocatedNptEntries) *)
Definition NumberOfPreAllocatedNptEntries : Z := 50.

Record HOOK_DATA : Type := mkHookData {
  Pml4Table : Z;
  PreAllocatedNptEntries : list Z;
  UsedPreAllocatedEntriesCount : Z;
  MaxNptPdpEntriesUsed : Z;
  ActiveHookEntry : option HOOK_ENTRY;
  NptState : NPT_STATE
}.

Definition set_UsedPreAllocatedEntriesCount (hd : HOOK_DATA) (n : Z) : HOOK_DATA :=
  mkHookData (Pml4Table hd) (PreAllocatedNptEntries hd) n
             (MaxNptPdpEntriesUsed hd) (ActiveHookEntry hd) (NptState hd).

Definition set_ActiveHookEntry (hd : HOOK_DATA) (a : option HOOK_ENTRY) : HOOK_DATA :=
  mkHookData (Pml4Table hd) (PreAllocatedNptEntries hd)
             (UsedPreAllocatedEntriesCount hd)
             (MaxNptPdpEntriesUsed hd) a (NptState hd).

Definition set_NptState (hd : HOOK_DATA) (s : NPT_STATE) : HOOK_DATA :=
  mkHookData (Pml4Table hd) (PreAllocatedNptEntries hd)
             (UsedPreAllocatedEntriesCount hd)
             (MaxNptPdpEntriesUsed hd) (ActiveHookEntry hd) s.

Definition k_PxiShift : Z := 39.
Definition k_PpiShift : Z := 30.
Definition k_PdiShift : Z := 21.
Definition k_PtiShift : Z := 12.
Definition k_PtxMask : Z := 0x1ff.

Definition GetPxeIndex (PhysicalAddress : Z) : Z :=
  Z.land (Z.shiftr PhysicalAddress k_PxiShift) k_PtxMask.
Definition GetPpeIndex (PhysicalAddress : Z) : Z :=
  Z.land (Z.shiftr PhysicalAddress k_PpiShift) k_PtxMask.
Definition GetPdeIndex (PhysicalAddress : Z) : Z :=
  Z.land (Z.shiftr PhysicalAddress k_PdiShift) k_PtxMask.
Definition GetPteIndex (PhysicalAddress : Z) : Z :=
  Z.land (Z.shiftr PhysicalAddress k_PtiShift) k_PtxMask.

Definition GetPfnFromPa (PhysicalAddress : Z) : Z :=
  Z.shiftr PhysicalAddress PAGE_SHIFT.

(** PAGE_ALIGN on a ULONG64: clear the low twelve bits. *)
Definition PAGE_ALIGN (a : Z) : Z := Z.ldiff a (PAGE_SIZE - 1).

(** Two's complement views of a 32-bit cell. *)
Definition to_ULONG (x : Z) : Z := x mod 2 ^ 32.
Definition to_LONG (x : Z) : Z :=
  let u := x mod 2 ^ 32 in if u <? 2 ^ 31 then u else u - 2 ^ 32.

(** ** HookCommon.cpp *)

(** AllocateNptEntry.  With HookData the next pre-allocated page is
    taken; without, a page comes from the kernel pool and is zeroed. *)
Definition AllocateNptEntry (p : phys) (HookData : option HOOK_DATA)
  : outcome (option Z * phys * option HOOK_DATA) :=
  match HookData with
  | Some hd =>
      let incremented := to_LONG (UsedPreAllocatedEntriesCount hd + 1) in
      let hd' := set_UsedPreAllocatedEntriesCount hd incremented in
      let usedCount := to_ULONG incremented in
      if usedCount >? NumberOfPreAllocatedNptEntries then BugCheck
      else
        match nth_error (PreAllocatedNptEntries hd')
                        (Z.to_nat (to_ULONG (usedCount - 1))) with
        | Some entry => Done (Some entry, p, Some hd')
        | None => AccessViolation
        end
  | None =>
      match free_pages p with
      | [] => Done (None, p, None)
      | entry :: rest =>
          Done (Some entry,
                RtlZeroMemory (mkPhys (qword p) rest) entry,
                None)
      end
  end.

Definition BuildNestedPageTableEntry (p : phys) (Entry : entry_ptr)
    (PhysicalAddress : Z) (HookData : option HOOK_DATA)
  : outcome (bool * phys * option HOOK_DATA) :=
  (* GetPfnFromVa(subTable) is the name of the page itself *)
  r <- (if PhysicalAddress =? MAXULONG64
        then AllocateNptEntry p HookData
        else Done (Some (GetPfnFromPa PhysicalAddress), p, HookData)) ;;
  let '(pageFrameNumber, p1, hd1) := r in
  match pageFrameNumber with
  | None => Done (false, p1, hd1)
  | Some pfn =>
      let p2 := store p1 Entry (Fields.set_Valid (load p1 Entry) 1) in
      let p3 := store p2 Entry (Fields.set_Write (load p2 Entry) 1) in
      let p4 := store p3 Entry (Fields.set_User (load p3 Entry) 1) in
      let p5 := store p4 Entry (Fields.set_PageFrameNumber (load p4 Entry) pfn) in
      Done (true, p5, hd1)
  end.

Inductive NESTED_PAGE_TABLES_OPERATION : Type :=
| FindOperation
| BuildOperation.

Definition is_BuildOperation (o : NESTED_PAGE_TABLES_OPERATION) : bool :=
  match o with BuildOperation => true | FindOperation => false end.

(** The block repeated at the PML4, PDPT and PDT levels: an invalid
    entry ends a find, and is given a fresh sub table by a build.  The
    boolean is false when the code takes [goto Exit]. *)
Definition EnsureSubTable (p : phys) (Entry : entry_ptr)
    (Operation : NESTED_PAGE_TABLES_OPERATION) (HookData : option HOOK_DATA)
  : outcome (bool * phys * option HOOK_DATA) :=
  if Fields.Valid (load p Entry) =? 0
  then
    if negb (is_BuildOperation Operation) then Done (false, p, HookData)
    else BuildNestedPageTableEntry p Entry MAXULONG64 HookData
  else Done (true, p, HookData).

Definition OperateOnNestedPageTables (dbg : bool) (p : phys)
    (Pml4Table PhysicalAddress : Z)
    (Operation : NESTED_PAGE_TABLES_OPERATION) (HookData : option HOOK_DATA)
  : outcome (option entry_ptr * phys * option HOOK_DATA) :=
  (* PML4 (512 GB) *)
  let pxeIndex := GetPxeIndex PhysicalAddress in
  let pml4Entry := (Pml4Table, pxeIndex) in
  r <- EnsureSubTable p pml4Entry Operation HookData ;;
  let '(ok, p, HookData) := r in
  if negb ok then Done (None, p, HookData) else
  let pageDirectoryPointerTable := Fields.PageFrameNumber (load p pml4Entry) in
  (* PDPT (1 GB) *)
  let ppeIndex := GetPpeIndex PhysicalAddress in
  let pdptEntry := (pageDirectoryPointerTable, ppeIndex) in
  r <- EnsureSubTable p pdptEntry Operation HookData ;;
  let '(ok, p, HookData) := r in
  if negb ok then Done (None, p, HookData) else
  let pageDirectoryTable := Fields.PageFrameNumber (load p pdptEntry) in
  (* PDT (2 MB) *)
  let pdeIndex := GetPdeIndex PhysicalAddress in
  let pdtEntry := (pageDirectoryTable, pdeIndex) in
  r <- EnsureSubTable p pdtEntry Operation HookData ;;
  let '(ok, p, HookData) := r in
  if negb ok then Done (None, p, HookData) else
  let pageTable := Fields.PageFrameNumber (load p pdtEntry) in
  (* PT (4 KB) *)
  let pteIndex := GetPteIndex PhysicalAddress in
  let ptEntry := (pageTable, pteIndex) in
  match Operation with
  | FindOperation => Done (Some ptEntry, p, HookData)
  | BuildOperation =>
      NT_ASSERT dbg (Fields.Valid (load p ptEntry) =? 0) ;;;
      r <- BuildNestedPageTableEntry p ptEntry PhysicalAddress HookData ;;
      let '(_, p, HookData) := r in
      Done (Some ptEntry, p, HookData)
  end.

Definition BuildSubTables (dbg : bool) (p : phys)
    (Pml4Table PhysicalAddress : Z) (HookData : option HOOK_DATA)
  : outcome (option entry_ptr * phys * option HOOK_DATA) :=
  OperateOnNestedPageTables dbg p Pml4Table PhysicalAddress
                            BuildOperation HookData.

(** GetNestedPageTableEntry: a find allocates nothing, asserts nothing
    and changes nothing; only the pointer is of interest. *)
Definition GetNestedPageTableEntry (p : phys) (Pml4Table PhysicalAddress : Z)
  : option entry_ptr :=
  match OperateOnNestedPageTables false p Pml4Table PhysicalAddress
                                  FindOperation None with
  | Done (e, _, _) => e
  | _ => None
  end.

(** ** HookVmmAlwaysOptimized.cpp *)

Definition store_NoExecute (p : phys) (e : entry_ptr) (nx : bool) : phys :=
  store p e (Fields.set_NoExecute (load p e) (BOOLEAN nx)).

Definition store_PageFrameNumber (p : phys) (e : entry_ptr) (pfn : Z) : phys :=
  store p e (Fields.set_PageFrameNumber (load p e) pfn).

(** [for (index = first; index < first + count; ++index)
       table[index].Fields.NoExecute = nx;] *)
Fixpoint ForEachEntrySetNoExecute (count : nat) (first : Z) (table : Z)
    (nx : bool) (p : phys) : phys :=
  match count with
  | O => p
  | S count' =>
      ForEachEntrySetNoExecute count' (first + 1) table nx
                               (store_NoExecute p (table, first) nx)
  end.

(** The three stages of ChangePermissionOfPage, in program order. *)
Record ChangePermissionOfPage_trace : Type := mkCppTrace {
  after_pdpt_stage : phys;
  after_pdt_stage : phys;
  after_leaf_write : phys
}.

Definition ChangePermissionOfPage_stages (dbg : bool) (p : phys)
    (Pml4Table PhysicalAddress : Z) (DisallowExecution : bool)
  : outcome ChangePermissionOfPage_trace :=
  let pxeIndex := GetPxeIndex PhysicalAddress in
  let pml4Entry := (Pml4Table, pxeIndex) in
  NT_ASSERT dbg (negb (Fields.Valid (load p pml4Entry) =? 0)) ;;;
  let pageDirectoryPointerTable := Fields.PageFrameNumber (load p pml4Entry) in
  let ppeIndex := GetPpeIndex PhysicalAddress in
  let pdptEntry := (pageDirectoryPointerTable, ppeIndex) in
  NT_ASSERT dbg (negb (Fields.Valid (load p pdptEntry) =? 0)) ;;;
  let pageDirectoryTable := Fields.PageFrameNumber (load p pdptEntry) in
  let p1 :=
    if negb DisallowExecution && negb (Fields.NoExecute (load p pdptEntry) =? 0)
    then ForEachEntrySetNoExecute 512 0 pageDirectoryTable true
                                  (store_NoExecute p pdptEntry false)
    else p in
  let pdeIndex := GetPdeIndex PhysicalAddress in
  let pdtEntry := (pageDirectoryTable, pdeIndex) in
  NT_ASSERT dbg (negb (Fields.Valid (load p1 pdtEntry) =? 0)) ;;;
  let pageTable := Fields.PageFrameNumber (load p1 pdtEntry) in
  let p2 :=
    if negb DisallowExecution && negb (Fields.NoExecute (load p1 pdtEntry) =? 0)
    then ForEachEntrySetNoExecute 512 0 pageTable true
                                  (store_NoExecute p1 pdtEntry false)
    else p1 in
  let pteIndex := GetPteIndex PhysicalAddress in
  let ptEntry := (pageTable, pteIndex) in
  NT_ASSERT dbg (negb (Fields.Valid (load p2 pdtEntry) =? 0)) ;;;
  Done (mkCppTrace p1 p2 (store_NoExecute p2 ptEntry DisallowExecution)).

Definition ChangePermissionOfPage (dbg : bool) (p : phys)
    (Pml4Table PhysicalAddress : Z) (DisallowExecution : bool)
  : outcome phys :=
  t <- ChangePermissionOfPage_stages dbg p Pml4Table PhysicalAddress
                                     DisallowExecution ;;
  Done (after_leaf_write t).

Definition MakeAllSubTablesExecutable (dbg : bool) (p : phys)
    (PageDirectoryPointerTable ActiveHookPa : Z) : outcome phys :=
  let ppeIndex := GetPpeIndex ActiveHookPa in
  let pdptEntry := (PageDirectoryPointerTable, ppeIndex) in
  NT_ASSERT dbg (negb (Fields.Valid (load p pdptEntry) =? 0)) ;;;
  let pageDirectoryTable := Fields.PageFrameNumber (load p pdptEntry) in
  let p1 := ForEachEntrySetNoExecute 512 0 pageDirectoryTable false p in
  let pdeIndex := GetPdeIndex ActiveHookPa in
  let pdtEntry := (pageDirectoryTable, pdeIndex) in
  NT_ASSERT dbg (negb (Fields.Valid (load p1 pdtEntry) =? 0)) ;;;
  let pageTable := Fields.PageFrameNumber (load p1 pdtEntry) in
  Done (ForEachEntrySetNoExecute 512 0 pageTable false p1).

Definition ChangePermissionsOfAllPages (dbg : bool) (p : phys)
    (Pml4Table ActiveHookPa : Z) (DisallowExecution : bool) (MaxPpeIndex : Z)
  : outcome phys :=
  let pml4Entry := (Pml4Table, 0) in
  let pageDirectoryPointerTable := Fields.PageFrameNumber (load p pml4Entry) in
  let p1 := ForEachEntrySetNoExecute (Z.to_nat MaxPpeIndex) 0
                                     pageDirectoryPointerTable
                                     DisallowExecution p in
  if negb DisallowExecution
  then MakeAllSubTablesExecutable dbg p1 pageDirectoryPointerTable ActiveHookPa
  else Done p1.

(** ** HookVmmCommon.cpp *)

Section HookVmmCommon.

Variable dbg : bool.
Variable g_HookRegistrationEntries : list HOOK_REGISTRATION_ENTRY.

Fixpoint FindHookEntryByPhysicalPage_in
    (registrations : list HOOK_REGISTRATION_ENTRY) (PhysicalAddress : Z)
  : option HOOK_ENTRY :=
  match registrations with
  | [] => None
  | registration :: rest =>
      if PAGE_ALIGN PhysicalAddress
         =? PAGE_ALIGN (PhyPageBase (HookEntry registration))
      then Some (HookEntry registration)
      else FindHookEntryByPhysicalPage_in rest PhysicalAddress
  end.

Definition FindHookEntryByPhysicalPage (PhysicalAddress : Z)
  : option HOOK_ENTRY :=
  FindHookEntryByPhysicalPage_in g_HookRegistrationEntries PhysicalAddress.

Fixpoint FindHookEntryByAddress_in
    (registrations : list HOOK_REGISTRATION_ENTRY) (VirtualAddress : Z)
  : option HOOK_ENTRY :=
  match registrations with
  | [] => None
  | registration :: rest =>
      if VirtualAddress =? HookAddress (HookEntry registration)
      then Some (HookEntry registration)
      else FindHookEntryByAddress_in rest VirtualAddress
  end.

Definition FindHookEntryByAddress (VirtualAddress : Z) : option HOOK_ENTRY :=
  FindHookEntryByAddress_in g_HookRegistrationEntries VirtualAddress.

(** [for (const auto& registration : g_HookRegistrationEntries)
       ChangePermissionOfPage(Pml4Table,
                              registration.HookEntry.PhyPageBase, nx);] *)
Fixpoint ForEachRegistrationChangePermission
    (registrations : list HOOK_REGISTRATION_ENTRY) (p : phys)
    (Pml4Table : Z) (DisallowExecution : bool) : outcome phys :=
  match registrations with
  | [] => Done p
  | registration :: rest =>
      p1 <- ChangePermissionOfPage dbg p Pml4Table
              (PhyPageBase (HookEntry registration)) DisallowExecution ;;
      ForEachRegistrationChangePermission rest p1 Pml4Table DisallowExecution
  end.

Definition TransitionNptState1To2 (p : phys) (HookData : HOOK_DATA)
    (CurrentHookEntry : HOOK_ENTRY) : outcome (phys * HOOK_DATA) :=
  NT_ASSERT dbg (NPT_STATE_eqb (NptState HookData) NptHookEnabledInvisible) ;;;
  NT_ASSERT dbg (negb (is_some (ActiveHookEntry HookData))) ;;;
  (* Make all pages non-executable. *)
  p1 <- ChangePermissionsOfAllPages dbg p (Pml4Table HookData) 0 true
                                    (MaxNptPdpEntriesUsed HookData) ;;
  (* Switch the current page to the executable, exec page backed page. *)
  let nptEntry := GetNestedPageTableEntry p1 (Pml4Table HookData)
                                          (PhyPageBase CurrentHookEntry) in
  NT_ASSERT dbg (is_some nptEntry) ;;;
  entry <- deref nptEntry ;;
  NT_ASSERT dbg (negb (Fields.NoExecute (load p1 entry) =? 0)) ;;;
  NT_ASSERT dbg (Fields.PageFrameNumber (load p1 entry)
                 =? GetPfnFromPa (PhyPageBase CurrentHookEntry)) ;;;
  let p2 := store_PageFrameNumber p1 entry
              (GetPfnFromPa (PhyPageBaseForExecution CurrentHookEntry)) in
  p3 <- ChangePermissionOfPage dbg p2 (Pml4Table HookData)
                               (PhyPageBase CurrentHookEntry) false ;;
  (* Transition completed. *)
  Done (p3, set_NptState (set_ActiveHookEntry HookData (Some CurrentHookEntry))
                         NptHookEnabledVisible).

Definition TransitionNtpState2To1 (p : phys) (HookData : HOOK_DATA)
  : outcome (phys * HOOK_DATA) :=
  NT_ASSERT dbg (NPT_STATE_eqb (NptState HookData) NptHookEnabledVisible) ;;;
  NT_ASSERT dbg (is_some (ActiveHookEntry HookData)) ;;;
  (* Make all pages executable. *)
  active <- deref (ActiveHookEntry HookData) ;;
  p1 <- ChangePermissionsOfAllPages dbg p (Pml4Table HookData)
                                    (PhyPageBase active) false
                                    (MaxNptPdpEntriesUsed HookData) ;;
  (* Make all hooked pages non-executable. *)
  p2 <- ForEachRegistrationChangePermission g_HookRegistrationEntries p1
                                            (Pml4Table HookData) true ;;
  (* Switch the current page to be backed by the original physical page. *)
  let nptEntry := GetNestedPageTableEntry p2 (Pml4Table HookData)
                                          (PhyPageBase active) in
  NT_ASSERT dbg (is_some nptEntry) ;;;
  entry <- deref nptEntry ;;
  NT_ASSERT dbg (negb (Fields.NoExecute (load p2 entry) =? 0)) ;;;
  NT_ASSERT dbg (Fields.PageFrameNumber (load p2 entry)
                 =? GetPfnFromPa (PhyPageBaseForExecution active)) ;;;
  let p3 := store_PageFrameNumber p2 entry
                                  (GetPfnFromPa (PhyPageBase active)) in
  (* Transition completed. *)
  Done (p3, set_NptState (set_ActiveHookEntry HookData None)
                         NptHookEnabledInvisible).

Definition TransitionNptState (p : phys) (HookData : HOOK_DATA)
    (FaultPhysicalAddress : Z) : outcome (phys * HOOK_DATA) :=
  NT_ASSERT dbg (negb (NPT_STATE_eqb (NptState HookData) NptDefault)) ;;;
  match FindHookEntryByPhysicalPage FaultPhysicalAddress with
  | Some hookEntry =>
      match ActiveHookEntry HookData with
      | None => TransitionNptState1To2 p HookData hookEntry
      | Some _ =>
          r <- TransitionNtpState2To1 p HookData ;;
          let '(p1, HookData1) := r in
          TransitionNptState1To2 p1 HookData1 hookEntry
      end
  | None => TransitionNtpState2To1 p HookData
  end.

Definition EnableHooks (p : phys) (HookData : HOOK_DATA)
  : outcome (phys * HOOK_DATA) :=
  NT_ASSERT dbg (NPT_STATE_eqb (NptState HookData) NptDefault) ;;;
  NT_ASSERT dbg (negb (is_some (ActiveHookEntry HookData))) ;;;
  p1 <- ForEachRegistrationChangePermission g_HookRegistrationEntries p
                                            (Pml4Table HookData) true ;;
  Done (p1, set_NptState HookData NptHookEnabledInvisible).

Definition DisableHooks (p : phys) (HookData : HOOK_DATA)
  : outcome (phys * HOOK_DATA) :=
  NT_ASSERT dbg (negb (NPT_STATE_eqb (NptState HookData) NptDefault)) ;;;
  r <- (if NPT_STATE_eqb (NptState HookData) NptHookEnabledInvisible
        then
          NT_ASSERT dbg (negb (is_some (ActiveHookEntry HookData))) ;;;
          p1 <- ForEachRegistrationChangePermission
                  g_HookRegistrationEntries p (Pml4Table HookData) false ;;
          Done (p1, HookData)
        else
          NT_ASSERT dbg (is_some (ActiveHookEntry HookData)) ;;;
          NT_ASSERT dbg false ;;;
          active <- deref (ActiveHookEntry HookData) ;;
          p1 <- ChangePermissionsOfAllPages dbg p (Pml4Table HookData)
                                            (PhyPageBase active) false
                                            (MaxNptPdpEntriesUsed HookData) ;;
          let entry := GetNestedPageTableEntry p1 (Pml4Table HookData)
                                               (PhyPageBase active) in
          NT_ASSERT dbg (is_some entry) ;;;
          entry <- deref entry ;;
          NT_ASSERT dbg (Fields.PageFrameNumber (load p1 entry)
                         =? GetPfnFromPa (PhyPageBaseForExecution active)) ;;;
          let p2 := store_PageFrameNumber p1 entry
                                          (GetPfnFromPa (PhyPageBase active)) in
          Done (p2, set_ActiveHookEntry HookData None)) ;;
  let '(p1, HookData1) := r in
  Done (p1, set_NptState HookData1 NptDefault).

End HookVmmCommon.

(** ** Svm.hpp, x86_64.hpp, VmmMain.hpp: the parts of the VMCB and of the
       guest context that the exit handlers read or write *)

Record VMCB_CONTROL_AREA : Type := mkControlArea {
  ExitCode : Z;
  ExitInfo1 : Z;
  ExitInfo2 : Z;
  EventInj : Z;
  NRip : Z
}.

Record VMCB_STATE_SAVE_AREA : Type := mkStateSaveArea {
  SsAttrib : Z;
  Efer : Z;
  Rflags : Z;
  Rip : Z;
  Rsp : Z;
  Rax : Z
}.

Record VMCB : Type := mkVmcb {
  ControlArea : VMCB_CONTROL_AREA;
  StateSaveArea : VMCB_STATE_SAVE_AREA
}.

Definition set_EventInj (v : VMCB) (e : Z) : VMCB :=
  let c := ControlArea v in
  mkVmcb (mkControlArea (ExitCode c) (ExitInfo1 c) (ExitInfo2 c) e (NRip c))
         (StateSaveArea v).

Definition set_Efer (v : VMCB) (e : Z) : VMCB :=
  let s := StateSaveArea v in
  mkVmcb (ControlArea v)
         (mkStateSaveArea (SsAttrib s) e (Rflags s) (Rip s) (Rsp s) (Rax s)).

Definition set_Rip (v : VMCB) (r : Z) : VMCB :=
  let s := StateSaveArea v in
  mkVmcb (ControlArea v)
         (mkStateSaveArea (SsAttrib s) (Efer s) (Rflags s) r (Rsp s) (Rax s)).

Definition set_Rax (v : VMCB) (r : Z) : VMCB :=
  let s := StateSaveArea v in
  mkVmcb (ControlArea v)
         (mkStateSaveArea (SsAttrib s) (Efer s) (Rflags s) (Rip s) (Rsp s) r).

Module EVENTINJ.
Definition Vector (e : Z) : Z := get_field 0 8 e.
Definition Type_ (e : Z) : Z := get_field 8 3 e.
Definition ErrorCodeValid (e : Z) : Z := get_field 11 1 e.
Definition Valid (e : Z) : Z := get_field 31 1 e.
Definition ErrorCode (e : Z) : Z := get_field 32 32 e.

Definition set_Vector (e v : Z) : Z := set_field 0 8 e v.
Definition set_Type (e v : Z) : Z := set_field 8 3 e v.
Definition set_ErrorCodeValid (e v : Z) : Z := set_field 11 1 e v.
Definition set_Valid (e v : Z) : Z := set_field 31 1 e v.
End EVENTINJ.

Module NPF_EXITINFO1.
Definition Valid (e : Z) : Z := get_field 0 1 e.
Definition Execute (e : Z) : Z := get_field 4 1 e.
End NPF_EXITINFO1.

Module SEGMENT_ATTRIBUTE.
Definition Dpl (a : Z) : Z := get_field 5 2 a.
End SEGMENT_ATTRIBUTE.

Definition IA32_MSR_EFER : Z := 0xc0000080.
Definition EFER_SVME : Z := Z.shiftl 1 12.
Definition DPL_SYSTEM : Z := 0.
Definition CPUID_FN0000_0001_ECX_HYPERVISOR_PRESENT : Z := Z.shiftl 1 31.
Definition CPUID_PROCESSOR_AND_PROCESSOR_FEATURE_IDENTIFIERS : Z := 0x00000001.
Definition CPUID_HV_VENDOR_AND_MAX_FUNCTIONS : Z := 0x40000000.
Definition CPUID_HV_INTERFACE : Z := 0x40000001.
Definition CPUID_HV_MAX : Z := CPUID_HV_INTERFACE.
Definition CPUID_LEAF_SIMPLE_SVM_CALL : Z := 0x41414141.
Definition CPUID_SUBLEAF_UNLOAD_SIMPLE_SVM : Z := 0x41414141.
Definition CPUID_SUBLEAF_ENABLE_HOOKS : Z := 0x41414142.
Definition CPUID_SUBLEAF_DISABLE_HOOKS : Z := 0x41414143.

Definition VMEXIT_EXCEPTION_BP : Z := 0x0043.
Definition VMEXIT_CPUID : Z := 0x0072.
Definition VMEXIT_MSR : Z := 0x007c.
Definition VMEXIT_VMRUN : Z := 0x0080.
Definition VMEXIT_NPF : Z := 0x0400.

Record GUEST_REGISTERS : Type := mkGuestRegisters {
  R15 : Z; R14 : Z; R13 : Z; R12 : Z; R11 : Z; R10 : Z; R9 : Z; R8 : Z;
  Rdi : Z; Rsi : Z; Rbp : Z; GprRsp : Z; Rbx : Z; Rdx : Z; Rcx : Z; GprRax : Z
}.

Definition set_GprRax (g : GUEST_REGISTERS) (v : Z) : GUEST_REGISTERS :=
  mkGuestRegisters (R15 g) (R14 g) (R13 g) (R12 g) (R11 g) (R10 g) (R9 g)
                   (R8 g) (Rdi g) (Rsi g) (Rbp g) (GprRsp g) (Rbx g) (Rdx g)
                   (Rcx g) v.
Definition set_Rbx (g : GUEST_REGISTERS) (v : Z) : GUEST_REGISTERS :=
  mkGuestRegisters (R15 g) (R14 g) (R13 g) (R12 g) (R11 g) (R10 g) (R9 g)
                   (R8 g) (Rdi g) (Rsi g) (Rbp g) (GprRsp g) v (Rdx g)
                   (Rcx g) (GprRax g).
Definition set_Rcx (g : GUEST_REGISTERS) (v : Z) : GUEST_REGISTERS :=
  mkGuestRegisters (R15 g) (R14 g) (R13 g) (R12 g) (R11 g) (R10 g) (R9 g)
                   (R8 g) (Rdi g) (Rsi g) (Rbp g) (GprRsp g) (Rbx g) (Rdx g)
                   v (GprRax g).
Definition set_Rdx (g : GUEST_REGISTERS) (v : Z) : GUEST_REGISTERS :=
  mkGuestRegisters (R15 g) (R14 g) (R13 g) (R12 g) (R11 g) (R10 g) (R9 g)
                   (R8 g) (Rdi g) (Rsi g) (Rbp g) (GprRsp g) (Rbx g) v
                   (Rcx g) (GprRax g).

Record GUEST_CONTEXT : Type := mkGuestContext {
  VpRegs : GUEST_REGISTERS;
  ExitVm : bool
}.

Record VIRTUAL_PROCESSOR_DATA : Type := mkVpData {
  GuestVmcb : VMCB;
  HookData : HOOK_DATA
}.

(** [int registers[4]]: EAX, EBX, ECX and EDX, each a 32-bit cell held
    as its unsigned bit pattern. *)
Record cpuid_registers : Type := mkCpuidRegisters {
  registers0 : Z;
  registers1 : Z;
  registers2 : Z;
  registers3 : Z
}.

(** Storing an [int] into a UINT64 field sign-extends it. *)
Definition int_to_UINT64 (x : Z) : Z := to_LONG x mod 2 ^ 64.

(** ** HookVmmCommon.cpp, continued: the exit handlers of the engine *)

Section ExitHandlers.

Variable dbg : bool.
Variable g_HookRegistrationEntries : list HOOK_REGISTRATION_ENTRY.
(** The CPUID instruction of the processor the VMM runs on. *)
Variable cpuidex : Z -> Z -> cpuid_registers.

Definition HandleNestedPageFault (p : phys) (GuestVmcb : VMCB)
    (HookData : HOOK_DATA) : outcome (phys * HOOK_DATA) :=
  let faultingPa := ExitInfo2 (ControlArea GuestVmcb) in
  let exitInfo := ExitInfo1 (ControlArea GuestVmcb) in
  if NPF_EXITINFO1.Valid exitInfo =? 0
  then
    (* #if DBG *)
    (if dbg
     then
       match GetNestedPageTableEntry p (Pml4Table HookData) faultingPa with
       | None => Done tt
       | Some nptEntry => NT_ASSERT dbg (Fields.Valid (load p nptEntry) =? 0)
       end
     else Done tt) ;;;
    r <- BuildSubTables dbg p (Pml4Table HookData) faultingPa (Some HookData) ;;
    let '(nptEntry, p1, HookData1) := r in
    match nptEntry with
    | None => BugCheck
    | Some _ =>
        (* the same HOOK_DATA object, with its counter advanced *)
        Done (p1, match HookData1 with Some h => h | None => HookData end)
    end
  else
    NT_ASSERT dbg (negb (NPF_EXITINFO1.Execute exitInfo =? 0)) ;;;
    TransitionNptState dbg g_HookRegistrationEntries p HookData faultingPa.

Definition InjectBreakPointException (GuestVmcb : VMCB) : VMCB :=
  let event := 0 in
  let event := EVENTINJ.set_Vector event 3 in
  let event := EVENTINJ.set_Type event 3 in
  let event := EVENTINJ.set_Valid event 1 in
  let GuestVmcb := set_EventInj GuestVmcb event in
  set_Rip GuestVmcb (NRip (ControlArea GuestVmcb)).

Definition HandleBreakPointException (GuestVmcb : VMCB) (HookData : HOOK_DATA)
  : VMCB :=
  match FindHookEntryByAddress g_HookRegistrationEntries
                               (Rip (StateSaveArea GuestVmcb)) with
  | Some entry => set_Rip GuestVmcb (Handler entry)
  | None => InjectBreakPointException GuestVmcb
  end.

(** ** VmmMain.cpp *)

Definition InjectGeneralProtectionException (VpData : VIRTUAL_PROCESSOR_DATA)
  : VIRTUAL_PROCESSOR_DATA :=
  let event := 0 in
  let event := EVENTINJ.set_Vector event 13 in
  let event := EVENTINJ.set_Type event 3 in
  let event := EVENTINJ.set_ErrorCodeValid event 1 in
  let event := EVENTINJ.set_Valid event 1 in
  mkVpData (set_EventInj (GuestVmcb VpData) event) (HookData VpData).

Definition HandleCpuid (p : phys) (VpData : VIRTUAL_PROCESSOR_DATA)
    (GuestContext : GUEST_CONTEXT)
  : outcome (phys * VIRTUAL_PROCESSOR_DATA * GUEST_CONTEXT) :=
  (* Execute CPUID as requested. *)
  let leaf := to_ULONG (GprRax (VpRegs GuestContext)) in
  let subLeaf := to_ULONG (Rcx (VpRegs GuestContext)) in
  let registers := cpuidex leaf subLeaf in
  r <- (if leaf =? CPUID_PROCESSOR_AND_PROCESSOR_FEATURE_IDENTIFIERS then
          Done (mkCpuidRegisters
                  (registers0 registers) (registers1 registers)
                  (registers2 registers)
                  (Z.lor (registers3 registers)
                         CPUID_FN0000_0001_ECX_HYPERVISOR_PRESENT),
                p, VpData, GuestContext)
        else if leaf =? CPUID_HV_VENDOR_AND_MAX_FUNCTIONS then
          Done (mkCpuidRegisters CPUID_HV_MAX
                                 0x706D6953 (* 'pmiS' *)
                                 0x7653656C (* 'vSel' *)
                                 0x2020206D (* '   m' *),
                p, VpData, GuestContext)
        else if leaf =? CPUID_HV_INTERFACE then
          Done (mkCpuidRegisters 0x30237648 (* '0#vH' *) 0 0 0,
                p, VpData, GuestContext)
        else if leaf =? CPUID_LEAF_SIMPLE_SVM_CALL then
          (* Only accept VMCALLs from the kernel-mode. *)
          let attribute := SsAttrib (StateSaveArea (GuestVmcb VpData)) in
          if negb (SEGMENT_ATTRIBUTE.Dpl attribute =? DPL_SYSTEM)
          then Done (registers, p, VpData, GuestContext)
          else if subLeaf =? CPUID_SUBLEAF_UNLOAD_SIMPLE_SVM then
            Done (registers, p, VpData,
                  mkGuestContext (VpRegs GuestContext) true)
          else if subLeaf =? CPUID_SUBLEAF_ENABLE_HOOKS then
            e <- EnableHooks dbg g_HookRegistrationEntries p (HookData VpData) ;;
            Done (registers, fst e, mkVpData (GuestVmcb VpData) (snd e),
                  GuestContext)
          else if subLeaf =? CPUID_SUBLEAF_DISABLE_HOOKS then
            e <- DisableHooks dbg g_HookRegistrationEntries p (HookData VpData) ;;
            Done (registers, fst e, mkVpData (GuestVmcb VpData) (snd e),
                  GuestContext)
          else
            NT_ASSERT dbg false ;;;
            Done (registers, p, VpData, GuestContext)
        else Done (registers, p, VpData, GuestContext)) ;;
  let '(registers, p, VpData, GuestContext) := r in
  (* Update guest's GPRs with results. *)
  let regs := VpRegs GuestContext in
  let regs := set_GprRax regs (int_to_UINT64 (registers0 registers)) in
  let regs := set_Rbx regs (int_to_UINT64 (registers1 registers)) in
  let regs := set_Rcx regs (int_to_UINT64 (registers2 registers)) in
  let regs := set_Rdx regs (int_to_UINT64 (registers3 registers)) in
  (* Then, advance RIP to "complete" the instruction. *)
  let vmcb := GuestVmcb VpData in
  Done (p,
        mkVpData (set_Rip vmcb (NRip (ControlArea vmcb))) (HookData VpData),
        mkGuestContext regs (ExitVm GuestContext)).

Definition HandleMsrAccess (VpData : VIRTUAL_PROCESSOR_DATA)
    (GuestContext : GUEST_CONTEXT) : outcome VIRTUAL_PROCESSOR_DATA :=
  NT_ASSERT dbg (Rcx (VpRegs GuestContext) =? IA32_MSR_EFER) ;;;
  NT_ASSERT dbg (negb (ExitInfo1 (ControlArea (GuestVmcb VpData)) =? 0)) ;;;
  let writeValueLow := Z.land (GprRax (VpRegs GuestContext)) MAXUINT32 in
  let VpData :=
    if Z.land writeValueLow EFER_SVME =? 0
    then InjectGeneralProtectionException VpData
    else VpData in
  let writeValueHi := Z.land (Rdx (VpRegs GuestContext)) MAXUINT32 in
  let writeValue := Z.lor (Z.shiftl writeValueHi 32) writeValueLow in
  let vmcb := set_Efer (GuestVmcb VpData) writeValue in
  (* Then, advance RIP to "complete" the instruction. *)
  Done (mkVpData (set_Rip vmcb (NRip (ControlArea vmcb))) (HookData VpData)).

Definition HandleVmrun (VpData : VIRTUAL_PROCESSOR_DATA)
    (GuestContext : GUEST_CONTEXT) : VIRTUAL_PROCESSOR_DATA :=
  InjectGeneralProtectionException VpData.

End ExitHandlers.

(** ** HookKernelProcessorData.cpp: building the NPT at initialisation *)

Definition to_ULONG64 (x : Z) : Z := x mod 2 ^ 64.

(** One run of PHYSICAL_MEMORY_DESCRIPTOR; the descriptor is its list of
    runs. *)
Record PHYSICAL_MEMORY_RUN : Type := mkRun {
  BasePage : Z;
  PageCount : Z
}.

(** AllocateContiguousMemory(PAGE_SIZE): a zeroed page, or nullptr. *)
Definition AllocateContiguousMemory (p : phys) : option Z * phys :=
  match free_pages p with
  | [] => (None, p)
  | page :: rest => (Some page, RtlZeroMemory (mkPhys (qword p) rest) page)
  end.

Definition IA32_APIC_BASE : Z := 0x0000001b.

Module APIC_BASE.
Definition ApicBase (e : Z) : Z := get_field 12 24 e.
End APIC_BASE.

Definition oneGigabyte : Z := 1024 * 1024 * 1024.

Definition ROUND_TO_SIZE (_length _alignment : Z) : Z :=
  Z.ldiff (to_ULONG64 (_length + (_alignment - 1))) (_alignment - 1).

(** [for (pageIndex = first; pageIndex < first + count; ++pageIndex)
       BuildSubTables(pml4Table, baseAddr + pageIndex * PAGE_SIZE, FALSE);]
    The boolean is false when a BuildSubTables returned nullptr. *)
Fixpoint BuildRun (dbg : bool) (count : nat) (pageIndex : Z) (p : phys)
    (pml4Table baseAddr : Z) : outcome (bool * phys) :=
  match count with
  | O => Done (true, p)
  | S count' =>
      let indexedAddr := to_ULONG64 (baseAddr + pageIndex * PAGE_SIZE) in
      r <- BuildSubTables dbg p pml4Table indexedAddr None ;;
      let '(entry, p1, _) := r in
      match entry with
      | None => Done (false, p1)
      | Some _ => BuildRun dbg count' (pageIndex + 1) p1 pml4Table baseAddr
      end
  end.

Fixpoint BuildRuns (dbg : bool) (runs : list PHYSICAL_MEMORY_RUN) (p : phys)
    (pml4Table : Z) : outcome (bool * phys) :=
  match runs with
  | [] => Done (true, p)
  | currentRun :: rest =>
      let baseAddr := to_ULONG64 (BasePage currentRun * PAGE_SIZE) in
      r <- BuildRun dbg (Z.to_nat (PageCount currentRun)) 0 p pml4Table baseAddr ;;
      let '(ok, p1) := r in
      if ok then BuildRuns dbg rest p1 pml4Table else Done (false, p1)
  end.

(** BuildNestedPageTables.  [apicBaseMsr] is __readmsr(IA32_APIC_BASE).
    The result is the PML4 and MaxPpeIndex on STATUS_SUCCESS and [None] on
    STATUS_INSUFFICIENT_RESOURCES (the release of the partial tables is
    not modelled). *)
Definition BuildNestedPageTables (dbg : bool) (p : phys)
    (MemoryDescriptor : list PHYSICAL_MEMORY_RUN) (apicBaseMsr : Z)
  : outcome (option (Z * Z) * phys) :=
  match AllocateContiguousMemory p with
  | (None, p1) => Done (None, p1)
  | (Some pml4Table, p1) =>
      r <- BuildRuns dbg MemoryDescriptor p1 pml4Table ;;
      let '(ok, p2) := r in
      if negb ok then Done (None, p2) else
      r <- BuildSubTables dbg p2 pml4Table
             (to_ULONG64 (APIC_BASE.ApicBase apicBaseMsr * PAGE_SIZE)) None ;;
      let '(entry, p3, _) := r in
      match entry with
      | None => Done (None, p3)
      | Some _ =>
          currentRun <- deref (nth_error MemoryDescriptor
                                 (List.length MemoryDescriptor - 1)) ;;
          let baseAddr := to_ULONG64 (BasePage currentRun * PAGE_SIZE) in
          let maxPpeIndex :=
            ROUND_TO_SIZE
              (to_ULONG64 (baseAddr + to_ULONG64 (PageCount currentRun * PAGE_SIZE)))
              oneGigabyte / oneGigabyte in
          Done (Some (pml4Table, to_ULONG maxPpeIndex), p3)
      end
  end.

(** [for (i = 0; i < NumberOfEntries; ++i) Entries[i] = AllocateNptEntry(nullptr);]
    [None] is STATUS_INSUFFICIENT_RESOURCES. *)
Fixpoint InitializePreAllocatedEntries (NumberOfEntries : nat) (p : phys)
  : outcome (option (list Z) * phys) :=
  match NumberOfEntries with
  | O => Done (Some [], p)
  | S n =>
      r <- AllocateNptEntry p None ;;
      let '(entry, p1, _) := r in
      match entry with
      | None => Done (None, p1)
      | Some e =>
          r <- InitializePreAllocatedEntries n p1 ;;
          let '(entries, p2) := r in
          Done (option_map (cons e) entries, p2)
      end
  end.

(** InitializeHookData: the HOOK_DATA is zeroed (NptDefault, no active
    hook, no pre-allocated entry used), then given its NPT and its pool. *)
Definition InitializeHookData (dbg : bool) (p : phys)
    (g_PhysicalMemoryDescriptor : list PHYSICAL_MEMORY_RUN) (apicBaseMsr : Z)
  : outcome (option HOOK_DATA * phys) :=
  r <- BuildNestedPageTables dbg p g_PhysicalMemoryDescriptor apicBaseMsr ;;
  let '(tables, p1) := r in
  match tables with
  | None => Done (None, p1)
  | Some (pml4Table, maxPpeIndex) =>
      r <- InitializePreAllocatedEntries
             (Z.to_nat NumberOfPreAllocatedNptEntries) p1 ;;
      let '(entries, p2) := r in
      match entries with
      | None => Done (None, p2)
      | Some pool =>
          Done (Some (mkHookData pml4Table pool 0 maxPpeIndex None NptDefault),
                p2)
      end
  end.

(** ** Vocabulary of the properties *)

(** The entry operations of the hook state engine. *)
Inductive engine_operation : Type :=
| OpEnableHooks
| OpDisableHooks
| OpTransition1To2 (CurrentHookEntry : HOOK_ENTRY)
| OpTransition2To1.

Definition run_operation (dbg : bool) (g : list HOOK_REGISTRATION_ENTRY)
    (op : engine_operation) (p : phys) (hd : HOOK_DATA)
  : outcome (phys * HOOK_DATA) :=
  match op with
  | OpEnableHooks => EnableHooks dbg g p hd
  | OpDisableHooks => DisableHooks dbg g p hd
  | OpTransition1To2 e => TransitionNptState1To2 dbg p hd e
  | OpTransition2To1 => TransitionNtpState2To1 dbg g p hd
  end.

(** [HookData] as InitializeHookData leaves it: RtlZeroMemory gives
    NptDefault and a null ActiveHookEntry. *)
Definition initial_hook_data (hd : HOOK_DATA) : Prop :=
  NptState hd = NptDefault /\ ActiveHookEntry hd = None.

(** The states the engine reaches: from a HOOK_DATA as InitializeHookData
    leaves it, by any of its operations that returns. *)
Inductive reachable (dbg : bool) (g : list HOOK_REGISTRATION_ENTRY)
  : phys -> HOOK_DATA -> Prop :=
| reachable_initial p hd :
    initial_hook_data hd -> reachable dbg g p hd
| reachable_step p hd op p' hd' :
    reachable dbg g p hd ->
    run_operation dbg g op p hd = Done (p', hd') ->
    reachable dbg g p' hd'.

Definition active_iff_visible (hd : HOOK_DATA) : Prop :=
  is_some (ActiveHookEntry hd) = true <-> NptState hd = NptHookEnabledVisible.

(** ** Sample data *)

Definition sample_entry_1 : HOOK_ENTRY :=
  mkHookEntry 0xFFFFF80002A31234 0xFFFFF88003C01000 0xFFFFF88004000000
              0x2A31000 0x7F000 0xFFFFF88003D00000.

Definition sample_entry_2 : HOOK_ENTRY :=
  mkHookEntry 0xFFFFF80002C45678 0xFFFFF88003C02000 0xFFFFF88004001000
              0x2C45000 0x7E000 0xFFFFF88003D00100.

Definition sample_registrations : list HOOK_REGISTRATION_ENTRY :=
  [ mkRegistration "ZwQuerySystemInformation" 0xFFFFF88003C01000 sample_entry_1;
    mkRegistration "ExAllocatePoolWithTag" 0xFFFFF88003C02000 sample_entry_2 ].

Definition sample_vmcb (exitcode info1 info2 rip nrip ssattrib : Z) : VMCB :=
  mkVmcb (mkControlArea exitcode info1 info2 0 nrip)
         (mkStateSaveArea ssattrib 0x1500 0x246 rip 0xFFFFF88005000000 0).

Definition sample_registers (rax rcx rdx : Z) : GUEST_REGISTERS :=
  mkGuestRegisters 0 0 0 0 0 0 0 0 0 0 0 0 0 rdx rcx rax.

(** A CPUID that answers every leaf like an AMD family 17h part answers
    leaf 1. *)
Definition sample_cpuidex (leaf subLeaf : Z) : cpuid_registers :=
  mkCpuidRegisters 0x00800F11 0x00100800 0x7ED8320B 0x178BFBFF.

(** The EVENTINJ value of #GP(0): vector 13, type 3, error code valid,
    valid, error code 0. *)
Definition GP_event : Z := 0x80000B0D.

(** ** The walk of a physical address, as the code computes it *)

(** The four entries ChangePermissionOfPage and OperateOnNestedPageTables
    visit for an address: each table is the one the previous entry's
    PageFrameNumber names. *)
Definition pml4_entry (Pml4Table pa : Z) : entry_ptr :=
  (Pml4Table, GetPxeIndex pa).

Definition pdpt_entry (p : phys) (Pml4Table pa : Z) : entry_ptr :=
  (Fields.PageFrameNumber (load p (pml4_entry Pml4Table pa)), GetPpeIndex pa).

Definition pdt_entry (p : phys) (Pml4Table pa : Z) : entry_ptr :=
  (Fields.PageFrameNumber (load p (pdpt_entry p Pml4Table pa)), GetPdeIndex pa).

Definition pt_entry (p : phys) (Pml4Table pa : Z) : entry_ptr :=
  (Fields.PageFrameNumber (load p (pdt_entry p Pml4Table pa)), GetPteIndex pa).

(** The walk succeeds: the three interior entries are valid. *)
Definition walk_succeeds (p : phys) (Pml4Table pa : Z) : Prop :=
  Fields.Valid (load p (pml4_entry Pml4Table pa)) = 1 /\
  Fields.Valid (load p (pdpt_entry p Pml4Table pa)) = 1 /\
  Fields.Valid (load p (pdt_entry p Pml4Table pa)) = 1.

(** The PDPT, the PDT and the PT of the walk are three different pages. *)
Definition walk_tables_distinct (p : phys) (Pml4Table pa : Z) : Prop :=
  let t3 := fst (pdpt_entry p Pml4Table pa) in
  let t2 := fst (pdt_entry p Pml4Table pa) in
  let t1 := fst (pt_entry p Pml4Table pa) in
  t3 <> t2 /\ t3 <> t1 /\ t2 <> t1.

(** Two memories that differ at most in NoExecute bits. *)
Definition same_but_nx (p p' : phys) : Prop :=
  (forall t i, Fields.set_NoExecute (qword p' t i) 0
               = Fields.set_NoExecute (qword p t i) 0) /\
  free_pages p' = free_pages p.

(** Two memories with the same contents. *)
Definition same_contents (p p' : phys) : Prop :=
  (forall t i, qword p' t i = qword p t i) /\ free_pages p' = free_pages p.

(** Memory after the PDPT stage and after the PDT stage of
    ChangePermissionOfPage, in terms of the walk. *)
Definition stage_pdpt (p : phys) (Pml4Table pa : Z) (nx : bool) : phys :=
  if negb nx && negb (Fields.NoExecute (load p (pdpt_entry p Pml4Table pa)) =? 0)
  then ForEachEntrySetNoExecute 512 0 (fst (pdt_entry p Pml4Table pa)) true
         (store_NoExecute p (pdpt_entry p Pml4Table pa) false)
  else p.

Definition stage_pdt (p : phys) (Pml4Table pa : Z) (nx : bool) : phys :=
  let p1 := stage_pdpt p Pml4Table pa nx in
  if negb nx && negb (Fields.NoExecute (load p1 (pdt_entry p Pml4Table pa)) =? 0)
  then ForEachEntrySetNoExecute 512 0 (fst (pt_entry p Pml4Table pa)) true
         (store_NoExecute p1 (pdt_entry p Pml4Table pa) false)
  else p1.

(** ** Well-formed hierarchies *)

(** [level] says which pages are tables and of which kind: 4 for the
    PML4, 3 for a PDPT, 2 for a PDT, 1 for a PT and 0 for any other page.
    A valid entry of a PML4, PDPT or PDT names a table one level down. *)
Definition NptHierarchy (p : phys) (Pml4Table : Z) (level : Z -> nat) : Prop :=
  level Pml4Table = 4%nat /\
  forall t i k,
    level t = S (S k) -> 0 <= i < 512 ->
    Fields.Valid (qword p t i) = 1 ->
    level (Fields.PageFrameNumber (qword p t i)) = S k.

(** No entry of any table has NoExecute set. *)
Definition AllExecutable (p : phys) (level : Z -> nat) : Prop :=
  forall t i, level t <> 0%nat -> 0 <= i < 512 ->
              Fields.NoExecute (qword p t i) = 0.

(** The walk of every registered hook page succeeds. *)
Definition hooks_mapped (g : list HOOK_REGISTRATION_ENTRY) (p : phys)
    (Pml4Table : Z) : Prop :=
  forall r, In r g -> walk_succeeds p Pml4Table (PhyPageBase (HookEntry r)).

(** The leaf entries of the registered hook pages. *)
Definition hook_leaves (g : list HOOK_REGISTRATION_ENTRY) (p : phys)
    (Pml4Table : Z) : list entry_ptr :=
  map (fun r => pt_entry p Pml4Table (PhyPageBase (HookEntry r))) g.

Definition cell_in (t i : Z) (cells : list entry_ptr) : bool :=
  existsb (fun e => (t =? fst e) && (i =? snd e)) cells.

(** ** Building entries *)

(** The value BuildNestedPageTableEntry leaves in an entry that held
    [old]. *)
Definition built_entry (old pfn : Z) : Z :=
  Fields.set_PageFrameNumber
    (Fields.set_User (Fields.set_Write (Fields.set_Valid old 1) 1) 1) pfn.

(** The pages AllocateNptEntry will hand out, in order: the unused
    pre-allocated entries with HookData, the kernel's free pages without. *)
Definition source_pages (p : phys) (HookData : option HOOK_DATA) : list Z :=
  match HookData with
  | Some hd => skipn (Z.to_nat (UsedPreAllocatedEntriesCount hd))
                     (PreAllocatedNptEntries hd)
  | None => free_pages p
  end.

(** Pages that are no tables, are named exactly by a 40-bit
    PageFrameNumber, and differ from each other. *)
Definition fresh_pages (level : Z -> nat) (pages : list Z) : Prop :=
  NoDup pages /\
  forall q, In q pages -> level q = 0%nat /\ 0 <= q < 2 ^ 40.

Definition page_zeroed (p : phys) (q : Z) : Prop :=
  forall i, 0 <= i < 512 -> qword p q i = 0.

(** The pool of a HOOK_DATA: 50 slots, the counter within them, and the
    unused slots zeroed as AllocateNptEntry(nullptr) left them. *)
Definition pool_ok (p : phys) (hd : HOOK_DATA) : Prop :=
  0 <= UsedPreAllocatedEntriesCount hd <= NumberOfPreAllocatedNptEntries /\
  Z.of_nat (List.length (PreAllocatedNptEntries hd))
  = NumberOfPreAllocatedNptEntries /\
  forall q, In q (source_pages p (Some hd)) -> page_zeroed p q.

(** What the allocating operations need of their source of pages. *)
Definition source_ok (p : phys) (level : Z -> nat)
    (HookData : option HOOK_DATA) : Prop :=
  fresh_pages level (source_pages p HookData) /\
  match HookData with
  | Some hd => pool_ok p hd
  | None => True
  end.

(** The invariant of building: a hierarchy without NoExecute bits, and a
    good source of pages. *)
Definition build_invariant (p : phys) (Pml4Table : Z) (level : Z -> nat)
    (HookData : option HOOK_DATA) : Prop :=
  NptHierarchy p Pml4Table level /\
  AllExecutable p level /\
  source_ok p level HookData.

(** [level'] knows every table [level] knows. *)
Definition level_extends (level level' : Z -> nat) : Prop :=
  forall t, level t <> 0%nat -> level' t = level t.

(** Valid entries of PML4s, PDPTs and PDTs are kept. *)
Definition interior_preserved (p p' : phys) (level : Z -> nat) : Prop :=
  forall t i, (2 <= level t)%nat -> 0 <= i < 512 ->
              Fields.Valid (qword p t i) = 1 ->
              qword p' t i = qword p t i.

(** ** Addresses of RAM *)

(** The addresses BuildNestedPageTables maps for a descriptor: page [k]
    of a run, computed in 64 bits as the code computes it. *)
Definition ram_address (runs : list PHYSICAL_MEMORY_RUN) (pa : Z) : Prop :=
  exists run k,
    In run runs /\ 0 <= k < PageCount run /\
    pa = to_ULONG64 (to_ULONG64 (BasePage run * PAGE_SIZE) + k * PAGE_SIZE).

(** The pre-allocated counter moved on by [n]; nothing else of HOOK_DATA
    changed. *)
Definition count_advanced (H H' : option HOOK_DATA) (n : nat) : Prop :=
  match H with
  | None => H' = None
  | Some hd =>
      H' = Some (set_UsedPreAllocatedEntriesCount hd
                   (UsedPreAllocatedEntriesCount hd + Z.of_nat n))
  end.

(** Every entry outside [written] is kept: with a pool, all of memory;
    without, every page that was a table (fresh pages get zeroed). *)
Definition cells_kept (p p' : phys) (H : option HOOK_DATA) (level : Z -> nat)
    (written : list entry_ptr) : Prop :=
  forall t i,
    cell_in t i written = false ->
    H <> None \/ level t <> 0%nat ->
    qword p' t i = qword p t i.

(** A small machine: 80 free pages, RAM in three runs that hold the two
    exec pages and the two hooked pages, the local APIC at 0xFEE00000.
    Memory starts out as all ones, so that only zeroing makes a page a
    usable table. *)
Definition sample_free_pages : list Z := map Z.of_nat (seq 256 80).

Definition sample_runs : list PHYSICAL_MEMORY_RUN :=
  [ mkRun 0x7E 2; mkRun 0x2A31 1; mkRun 0x2C45 1 ].

Definition sample_boot_phys : phys :=
  mkPhys (fun _ _ => 0xFFFFFFFFFFFFFFFF) sample_free_pages.

Definition sample_initialised : outcome (option HOOK_DATA * phys) :=
  InitializeHookData true sample_boot_phys sample_runs 0xFEE00900.

Definition sample_hook_data : HOOK_DATA :=
  match sample_initialised with
  | Done (Some hd, _) => hd
  | _ => mkHookData 0 [] 0 0 None NptDefault
  end.

Definition sample_phys : phys :=
  match sample_initialised with
  | Done (_, p) => p
  | _ => sample_boot_phys
  end.

(** ** States of the hook engine *)

(** Two memories whose PML4s, PDPTs and PDTs agree on Valid and
    PageFrameNumber: the same walks. *)
Definition same_interior (p p' : phys) (level : Z -> nat) : Prop :=
  forall t i, (2 <= level t)%nat ->
    Fields.PageFrameNumber (qword p' t i) = Fields.PageFrameNumber (qword p t i) /\
    Fields.Valid (qword p' t i) = Fields.Valid (qword p t i).

(** Hooked pages lie below 512 GB (ChangePermissionsOfAllPages only looks
    at the first PML4 entry) and exec pages are physical addresses. *)
Definition hooks_in_range (g : list HOOK_REGISTRATION_ENTRY) : Prop :=
  forall r, In r g ->
    0 <= PhyPageBase (HookEntry r) < 2 ^ 39 /\
    0 <= PhyPageBaseForExecution (HookEntry r) < 2 ^ 52.

Definition hook_leaf (p : phys) (Pml4Table : Z) (h : HOOK_ENTRY) : entry_ptr :=
  pt_entry p Pml4Table (PhyPageBase h).

Definition engine_frame (g : list HOOK_REGISTRATION_ENTRY) (p : phys)
    (Pml4Table : Z) (level : Z -> nat) : Prop :=
  NptHierarchy p Pml4Table level /\
  hooks_mapped g p Pml4Table /\
  hooks_in_range g.

(** State 1: every hook leaf is non-executable and backed by the
    original page; no hook is active. *)
Definition armed_state (g : list HOOK_REGISTRATION_ENTRY) (p : phys)
    (hd : HOOK_DATA) (level : Z -> nat) : Prop :=
  engine_frame g p (Pml4Table hd) level /\
  NptState hd = NptHookEnabledInvisible /\
  ActiveHookEntry hd = None /\
  forall r, In r g ->
    Fields.NoExecute (load p (hook_leaf p (Pml4Table hd) (HookEntry r))) = 1 /\
    Fields.PageFrameNumber (load p (hook_leaf p (Pml4Table hd) (HookEntry r)))
    = GetPfnFromPa (PhyPageBase (HookEntry r)).

(** State 2: the leaf of the active hook is backed by its exec page;
    the leaves of the hooks on other pages are backed by the original
    pages. *)
Definition visible_state (g : list HOOK_REGISTRATION_ENTRY) (p : phys)
    (hd : HOOK_DATA) (level : Z -> nat) (active : HOOK_ENTRY) : Prop :=
  engine_frame g p (Pml4Table hd) level /\
  NptState hd = NptHookEnabledVisible /\
  ActiveHookEntry hd = Some active /\
  In active (map HookEntry g) /\
  Fields.PageFrameNumber (load p (hook_leaf p (Pml4Table hd) active))
  = GetPfnFromPa (PhyPageBaseForExecution active) /\
  forall r, In r g ->
    (hook_leaf p (Pml4Table hd) (HookEntry r)
     = hook_leaf p (Pml4Table hd) active /\
     GetPfnFromPa (PhyPageBase (HookEntry r))
     = GetPfnFromPa (PhyPageBase active)) \/
    (hook_leaf p (Pml4Table hd) (HookEntry r)
     <> hook_leaf p (Pml4Table hd) active /\
     Fields.PageFrameNumber (load p (hook_leaf p (Pml4Table hd) (HookEntry r)))
     = GetPfnFromPa (PhyPageBase (HookEntry r))).

(** ** What the guest may execute *)

(** AMD64 nested paging refuses an instruction fetch from an address when
    NoExecute is set in any entry of its walk.  The PML4 entry is never
    touched by the engine; the three entries below it are. *)
Definition execution_blocked (p : phys) (Pml4Table pa : Z) : Prop :=
  Fields.NoExecute (load p (pdpt_entry p Pml4Table pa)) = 1 \/
  Fields.NoExecute (load p (pdt_entry p Pml4Table pa)) = 1 \/
  Fields.NoExecute (load p (pt_entry p Pml4Table pa)) = 1.

Definition execution_open (p : phys) (Pml4Table pa : Z) : Prop :=
  Fields.NoExecute (load p (pdpt_entry p Pml4Table pa)) = 0 /\
  Fields.NoExecute (load p (pdt_entry p Pml4Table pa)) = 0 /\
  Fields.NoExecute (load p (pt_entry p Pml4Table pa)) = 0.

(** Index [i] of a table. *)
Definition in_table (i : Z) : bool := (0 <=? i) && (i <? 512).

(** State 1, entry by entry: NoExecute is set in the leaves of the hooked
    pages and nowhere else in the tables, and the PDPT entries
    ChangePermissionsOfAllPages flips are entries of the PDPT and include
    those of the hooked pages. *)
Definition armed_exactly (g : list HOOK_REGISTRATION_ENTRY) (p : phys)
    (hd : HOOK_DATA) (level : Z -> nat) : Prop :=
  armed_state g p hd level /\
  0 <= MaxNptPdpEntriesUsed hd <= 512 /\
  (forall r, In r g ->
     GetPpeIndex (PhyPageBase (HookEntry r)) < MaxNptPdpEntriesUsed hd) /\
  forall t i, level t <> 0%nat -> 0 <= i < 512 ->
    Fields.NoExecute (qword p t i)
    = if cell_in t i (hook_leaves g p (Pml4Table hd)) then 1 else 0.

(** ** VmmMain.cpp, continued: HandleVmExit *)

(** What HandleVmExit does to the host processor, in program order. *)
Inductive host_action : Type :=
| svm_vmload (pa : Z)
| KeRaiseIrqlToDpcLevel
| KeLowerIrql (irql : Z)
| disable_interrupts
| svm_stgi
| writemsr (msr value : Z)
| writeeflags (value : Z).

Definition DISPATCH_LEVEL : Z := 2.
Definition MAXUINT64 : Z := 2 ^ 64 - 1.

(** What one call of HandleVmExit reads besides its arguments: the
    address of VpData itself, HostStackLayout.HostVmcbPa and .Reserved1,
    MmGetPhysicalAddress(&VpData->GuestVmcb), KeGetCurrentIrql() and
    __readmsr(IA32_MSR_EFER). *)
Record vmexit_environment : Type := mkVmexitEnvironment {
  VpDataAddress : Z;
  HostVmcbPa : Z;
  Reserved1 : Z;
  GuestVmcbPa : Z;
  CurrentIrql : Z;
  HostEfer : Z
}.

(** [~EFER_SVME]: EFER_SVME is an unsigned long, 32 bits wide. *)
Definition not_EFER_SVME : Z := to_ULONG (Z.lnot EFER_SVME).

Section VmExit.

Variable dbg : bool.
Variable g_HookRegistrationEntries : list HOOK_REGISTRATION_ENTRY.
Variable cpuidex : Z -> Z -> cpuid_registers.

(** HandleVmExit.  The result is the returned BOOLEAN, memory, VpData,
    the guest registers and the host actions taken.  The performance
    instrumentation (PERFORMANCE_MEASURE_THIS_SCOPE) is left out. *)
Definition HandleVmExit (env : vmexit_environment) (p : phys)
    (VpData : VIRTUAL_PROCESSOR_DATA) (GuestRegisters : GUEST_REGISTERS)
  : outcome (bool * phys * VIRTUAL_PROCESSOR_DATA * GUEST_REGISTERS
             * list host_action) :=
  (* Load some host state that are not loaded on #VMEXIT. *)
  let actions := [svm_vmload (HostVmcbPa env)] in
  NT_ASSERT dbg (Reserved1 env =? MAXUINT64) ;;;
  let oldIrql := CurrentIrql env in
  let actions :=
    actions ++ (if oldIrql <? DISPATCH_LEVEL then [KeRaiseIrqlToDpcLevel]
                else []) in
  (* Reflect the guest RAX to the context. *)
  let GuestRegisters :=
    set_GprRax GuestRegisters (Rax (StateSaveArea (GuestVmcb VpData))) in
  let guestContext := mkGuestContext GuestRegisters false in
  (* Handle #VMEXIT according with its reason. *)
  let exitCode := ExitCode (ControlArea (GuestVmcb VpData)) in
  r <- (if exitCode =? VMEXIT_CPUID then
          HandleCpuid dbg g_HookRegistrationEntries cpuidex p VpData guestContext
        else if exitCode =? VMEXIT_MSR then
          v <- HandleMsrAccess dbg VpData guestContext ;;
          Done (p, v, guestContext)
        else if exitCode =? VMEXIT_VMRUN then
          Done (p, HandleVmrun VpData guestContext, guestContext)
        else if exitCode =? VMEXIT_EXCEPTION_BP then
          Done (p,
                mkVpData (HandleBreakPointException g_HookRegistrationEntries
                            (GuestVmcb VpData) (HookData VpData))
                         (HookData VpData),
                guestContext)
        else if exitCode =? VMEXIT_NPF then
          e <- HandleNestedPageFault dbg g_HookRegistrationEntries p
                 (GuestVmcb VpData) (HookData VpData) ;;
          Done (fst e, mkVpData (GuestVmcb VpData) (snd e), guestContext)
        else BugCheck) ;;
  let '(p, VpData, guestContext) := r in
  let actions :=
    actions ++ (if oldIrql <? DISPATCH_LEVEL then [KeLowerIrql oldIrql]
                else []) in
  (* Cleanup our hypervisor if requested. *)
  if ExitVm guestContext then
    NT_ASSERT dbg (ExitCode (ControlArea (GuestVmcb VpData)) =? VMEXIT_CPUID) ;;;
    let regs := VpRegs guestContext in
    let regs := set_GprRax regs (Z.land (VpDataAddress env) MAXUINT32) in
    let regs := set_Rbx regs (NRip (ControlArea (GuestVmcb VpData))) in
    let regs := set_Rcx regs (Rsp (StateSaveArea (GuestVmcb VpData))) in
    let regs := set_Rdx regs (Z.shiftr (VpDataAddress env) 32) in
    let actions :=
      actions ++ [svm_vmload (GuestVmcbPa env);
                  disable_interrupts;
                  svm_stgi;
                  writemsr IA32_MSR_EFER (Z.land (HostEfer env) not_EFER_SVME);
                  writeeflags (Rflags (StateSaveArea (GuestVmcb VpData)))] in
    NT_ASSERT dbg (Reserved1 env =? MAXUINT64) ;;;
    Done (true, p, VpData, regs, actions)
  else
    (* Reflect potentially updated guest's RAX to VMCB. *)
    let VpData :=
      mkVpData (set_Rax (GuestVmcb VpData) (GprRax (VpRegs guestContext)))
               (HookData VpData) in
    NT_ASSERT dbg (Reserved1 env =? MAXUINT64) ;;;
    Done (false, p, VpData, VpRegs guestContext, actions).

End VmExit.

(** ** Virtualization.cpp: the kernel side of the CPUID interface *)

Definition k_PoolTag : Z := 0x4D565353. (* 'MVSS' *)

(** x64.asm, SvLaunchVm after HandleVmExit returned FALSE: POPAQ restores
    the guest registers from GUEST_REGISTERS and VMRUN loads RAX from the
    VMCB; [__cpuid]/[__cpuidex] in the guest then store EAX, EBX, ECX and
    EDX into [int registers[4]]. *)
Definition resumed_cpuid_registers (VpData : VIRTUAL_PROCESSOR_DATA)
    (regs : GUEST_REGISTERS) : cpuid_registers :=
  mkCpuidRegisters (to_ULONG (Rax (StateSaveArea (GuestVmcb VpData))))
                   (to_ULONG (Rbx regs)) (to_ULONG (Rcx regs))
                   (to_ULONG (Rdx regs)).

(** x64.asm, SvLV20, after HandleVmExit returned TRUE: POPAQ, then
    [mov rsp, rcx], [mov ecx, 'MVSS'], [jmp rbx]. *)
Definition unloaded_cpuid_registers (regs : GUEST_REGISTERS)
  : cpuid_registers :=
  mkCpuidRegisters (to_ULONG (GprRax regs)) (to_ULONG (Rbx regs))
                   k_PoolTag (to_ULONG (Rdx regs)).

(** The four bytes of an [int] in memory, lowest first. *)
Definition bytes_of_int (x : Z) : list Z :=
  [ Z.land x 0xFF; Z.land (Z.shiftr x 8) 0xFF;
    Z.land (Z.shiftr x 16) 0xFF; Z.land (Z.shiftr x 24) 0xFF ].

Definition bytes_of_string (s : string) : list Z :=
  map (fun c => Z.of_N (Ascii.N_of_ascii c)) (list_ascii_of_string s).

(** [strcmp(a, b) == 0] for byte strings held without their terminators,
    [b] a literal. *)
Fixpoint strcmp_equal (a b : list Z) : bool :=
  match a, b with
  | [], [] => true
  | x :: a', y :: b' => if x =? 0 then false
                        else if x =? y then strcmp_equal a' b' else false
  | x :: _, [] => x =? 0
  | [], _ :: _ => false
  end.

(** IsOurHypervisorInstalled, given what CPUID answers. *)
Definition IsOurHypervisorInstalled (cpuid : Z -> cpuid_registers) : bool :=
  let registers := cpuid CPUID_HV_VENDOR_AND_MAX_FUNCTIONS in
  let vendorId := bytes_of_int (registers1 registers)
                  ++ bytes_of_int (registers2 registers)
                  ++ bytes_of_int (registers3 registers) in
  strcmp_equal vendorId (bytes_of_string "SimpleSvm   ").

(** DevirtualizeProcessor: the address of the per processor data it
    frees, from the answer to the unload request.
    [high = registers[3]; low = registers[0] & MAXUINT32;
     vpData = high << 32 | low] *)
Definition DevirtualizeProcessor_vpData (registers : cpuid_registers) : Z :=
  let high := int_to_UINT64 (registers3 registers) in
  let low := Z.land (to_ULONG (registers0 registers)) MAXUINT32 in
  Z.lor (to_ULONG64 (Z.shiftl high 32)) low.

Definition sample_environment : vmexit_environment :=
  mkVmexitEnvironment 0xFFFFD000A1B2C000 0x11000 MAXUINT64 0x12000 0 0x1D01.

Definition sample_cpuid_vp (rax : Z) : VIRTUAL_PROCESSOR_DATA :=
  mkVpData (set_Rax (sample_vmcb VMEXIT_CPUID 0 0 0xFFFFF80002000010
                                 0xFFFFF80002000012 0x0093) rax)
           (mkHookData 1 [] 0 1 None NptDefault).

(** ** HookKernelRegistration.cpp: installing the hooks *)

(** Virtual memory of the kernel, one byte per address. *)
Definition vmem : Type := Z -> Z.

(** [Add2Ptr(P, I)] on 64-bit pointers and [BYTE_OFFSET(Va)]. *)
Definition Add2Ptr (P I : Z) : Z := (P + I) mod 2 ^ 64.
Definition BYTE_OFFSET (Va : Z) : Z := Z.land Va (PAGE_SIZE - 1).

Definition write_byte (m : vmem) (a v : Z) : vmem :=
  fun x => if x =? a then v else m x.

Fixpoint write_bytes (m : vmem) (a : Z) (bytes : list Z) : vmem :=
  match bytes with
  | [] => m
  | b :: rest => write_bytes (write_byte m a b) (Add2Ptr a 1) rest
  end.

Definition read_bytes (m : vmem) (a : Z) (n : nat) : list Z :=
  map (fun i => m (Add2Ptr a (Z.of_nat i))) (seq 0 n).

(** A little-endian 64-bit value read back from memory. *)
Definition read_ULONG64 (m : vmem) (a : Z) : Z :=
  fold_right (fun b acc => Z.lor b (Z.shiftl acc 8)) 0 (read_bytes m a 8).

Definition RtlCopyMemory (m : vmem) (Destination Source Length : Z) : vmem :=
  write_bytes m Destination (read_bytes m Source (Z.to_nat Length)).

Definition STATUS_SUCCESS : Z := 0.
Definition STATUS_UNSUCCESSFUL : Z := to_LONG 0xC0000001.
Definition STATUS_INSUFFICIENT_RESOURCES : Z := to_LONG 0xC000009A.
Definition NT_SUCCESS (Status : Z) : bool := 0 <=? Status.

(** What the kernel answers to the calls made while one hook is
    installed: the pool allocator by the size asked for (0 is nullptr),
    IoAllocateMdl by the address described, MmProbeAndLockPages by the
    exception code it raises, if any, and MmGetPhysicalAddress. *)
Record kernel_answers : Type := mkKernelAnswers {
  ExAllocatePoolWithTag : Z -> Z;
  IoAllocateMdl : Z -> Z;
  MmProbeAndLockPages : Z -> option Z;
  GetPaFromVa : Z -> Z
}.

Inductive kernel_release : Type :=
| ExFreePoolWithTag (P : Z)
| IoFreeMdl (Mdl : Z).

Record SHARED_MEMORY_ENTRY : Type := mkSharedMemoryEntry {
  HookAddressBase : Z;
  ExecPage : Z;
  HookAddressMdl : Z
}.

(** The loop of GetSharedMemoryEntry: the index of the entry it stops at,
    and whether that entry already manages the page. *)
Fixpoint GetSharedMemoryEntry_loop (entries : list SHARED_MEMORY_ENTRY)
    (hookAddressBase : Z) (index : nat) : option (nat * bool) :=
  match entries with
  | [] => None
  | sharedMemoryEntry :: rest =>
      if HookAddressBase sharedMemoryEntry =? hookAddressBase
      then Some (index, true)
      else if HookAddressBase sharedMemoryEntry =? 0
      then Some (index, false)
      else GetSharedMemoryEntry_loop rest hookAddressBase (S index)
  end.

Fixpoint assign_entry {A : Type} (l : list A) (index : nat) (x : A) : list A :=
  match l, index with
  | [], _ => []
  | _ :: rest, O => x :: rest
  | y :: rest, S index' => y :: assign_entry rest index' x
  end.

(** GetSharedMemoryEntry.  The result is the status, the index of the
    entry stored through SharedMemoryEntry (None for nullptr), the table
    g_HookSharedMemoryEntries, memory, and what was released on the way. *)
Definition GetSharedMemoryEntry (dbg : bool) (k : kernel_answers)
    (g_HookSharedMemoryEntries : list SHARED_MEMORY_ENTRY) (m : vmem)
    (HookAddress : Z)
  : outcome (Z * option nat * list SHARED_MEMORY_ENTRY * vmem
             * list kernel_release) :=
  let hookAddressBase := PAGE_ALIGN HookAddress in
  match GetSharedMemoryEntry_loop g_HookSharedMemoryEntries hookAddressBase 0 with
  | Some (index, true) =>
      Done (STATUS_SUCCESS, Some index, g_HookSharedMemoryEntries, m, [])
  | found =>
      let memoryEntry := match found with
                         | Some (index, _) => Some index
                         | None => None
                         end in
      NT_ASSERT dbg (is_some memoryEntry) ;;;
      (* No entry found. Create a new one for the hook address and copy
         the original contents. *)
      let execPage := ExAllocatePoolWithTag k PAGE_SIZE in
      if execPage =? 0
      then Done (STATUS_INSUFFICIENT_RESOURCES, None,
                 g_HookSharedMemoryEntries, m, [])
      else
        NT_ASSERT dbg (execPage =? PAGE_ALIGN execPage) ;;;
        let m := RtlCopyMemory m execPage hookAddressBase PAGE_SIZE in
        let mdl := IoAllocateMdl k hookAddressBase in
        if mdl =? 0
        then Done (STATUS_UNSUCCESSFUL, None, g_HookSharedMemoryEntries, m,
                   [ExFreePoolWithTag execPage])
        else
          match MmProbeAndLockPages k mdl with
          | Some status =>
              Done (status, None, g_HookSharedMemoryEntries, m,
                    IoFreeMdl mdl
                    :: (if negb (NT_SUCCESS status)
                        then [ExFreePoolWithTag execPage] else []))
          | None =>
              index <- deref memoryEntry ;;
              Done (STATUS_SUCCESS, Some index,
                    assign_entry g_HookSharedMemoryEntries index
                      (mkSharedMemoryEntry hookAddressBase execPage mdl),
                    m, [])
          end
  end.

(** JMP_CODE, packed: Nop, Jmp[6] and the eight bytes of Address. *)
Definition bytes_of_PVOID (x : Z) : list Z :=
  map (fun i => Z.land (Z.shiftr x (8 * Z.of_nat i)) 0xFF) (seq 0 8).

Definition sizeof_JMP_CODE : Z := 15.

Definition CreateJumpCode (Destination : Z) : list Z :=
  [0x90] ++ [0xff; 0x25; 0x00; 0x00; 0x00; 0x00] ++ bytes_of_PVOID Destination.

Record BYTE_PATTERN : Type := mkBytePattern {
  InsructionLength : Z;
  MatchLength : Z;
  Bytes : list Z
}.

Definition knownPatterns : list BYTE_PATTERN :=
  [ mkBytePattern 2 2 [0x40; 0x53];                   (* push rbx *)
    mkBytePattern 2 2 [0x40; 0x55];                   (* push rbp *)
    mkBytePattern 2 2 [0x40; 0x57];                   (* push rdi *)
    mkBytePattern 4 3 [0x48; 0x83; 0xEC];             (* sub rsp, Imm *)
    mkBytePattern 5 5 [0x48; 0x89; 0x54; 0x24; 0x10]; (* mov [rsp-8+arg_8], rdx *)
    mkBytePattern 5 4 [0x48; 0x89; 0x5c; 0x24];       (* mov [rsp+Offset], rbx *)
    mkBytePattern 3 3 [0x48; 0x8B; 0xC4];             (* mov rax, rsp *)
    mkBytePattern 2 2 [0x33; 0xD2] ].                 (* xor edx, edx *)

(** [RtlEqualMemory(Source1, Source2, Length)], Source2 an array of the
    program. *)
Definition RtlEqualMemory (m : vmem) (Source1 : Z) (Source2 : list Z)
    (Length : Z) : bool :=
  forallb (fun i => m (Add2Ptr Source1 (Z.of_nat i)) =? nth i Source2 0)
          (seq 0 (Z.to_nat Length)).

Fixpoint FindFirstInstruction_in (patterns : list BYTE_PATTERN) (m : vmem)
    (HookAddress : Z) : bool * Z :=
  match patterns with
  | [] => (false, 0)
  | pattern :: rest =>
      if RtlEqualMemory m HookAddress (Bytes pattern) (MatchLength pattern)
      then (true, InsructionLength pattern)
      else FindFirstInstruction_in rest m HookAddress
  end.

(** FindFirstInstruction: the returned BOOLEAN and *InstructionLength. *)
Definition FindFirstInstruction (m : vmem) (HookAddress : Z) : bool * Z :=
  FindFirstInstruction_in knownPatterns m HookAddress.

(** InstallHookOnExecPage: the status, *OriginalCallStub (0 is nullptr)
    and memory.  KeInvalidateAllCaches does not change memory. *)
Definition InstallHookOnExecPage (k : kernel_answers) (m : vmem)
    (HookAddress ExecPage : Z) : Z * Z * vmem :=
  let '(ok, instrLength) := FindFirstInstruction m HookAddress in
  if negb ok then (STATUS_UNSUCCESSFUL, 0, m)
  else
    (* Bail out if the instruction belongs to two pages. *)
    if negb (PAGE_ALIGN (Add2Ptr HookAddress (instrLength - 1))
             =? PAGE_ALIGN HookAddress)
    then (STATUS_UNSUCCESSFUL, 0, m)
    else
      let originalCallStub :=
        ExAllocatePoolWithTag k (instrLength + sizeof_JMP_CODE) in
      if originalCallStub =? 0
      then (STATUS_INSUFFICIENT_RESOURCES, 0, m)
      else
        let jmpCode := CreateJumpCode (Add2Ptr HookAddress instrLength) in
        (* Copy the first instruction and the jmp code to the stub. *)
        let m := RtlCopyMemory m originalCallStub HookAddress instrLength in
        let m := write_bytes m (Add2Ptr originalCallStub instrLength) jmpCode in
        (* Install a breakpoint to the exec page. *)
        let hookAddrInExecPage := Add2Ptr ExecPage (BYTE_OFFSET HookAddress) in
        let m := write_byte m hookAddrInExecPage 0xcc in
        (STATUS_SUCCESS, originalCallStub, m).

(** InitializeHookEntry: the status, *HookEntry, the table of shared
    memory entries, memory, and what was released. *)
Definition InitializeHookEntry (dbg : bool) (k : kernel_answers)
    (g_HookSharedMemoryEntries : list SHARED_MEMORY_ENTRY) (m : vmem)
    (Handler_ HookAddress_ : Z)
  : outcome (Z * HOOK_ENTRY * list SHARED_MEMORY_ENTRY * vmem
             * list kernel_release) :=
  let HookEntry_ := mkHookEntry 0 0 0 0 0 0 in
  (* Get a memory resource for install hook on the address. *)
  r <- GetSharedMemoryEntry dbg k g_HookSharedMemoryEntries m HookAddress_ ;;
  let '(status, sharedMemoryEntry, table, m, released) := r in
  if negb (NT_SUCCESS status)
  then Done (status, HookEntry_, table, m, released)
  else
    index <- deref sharedMemoryEntry ;;
    entry <- deref (nth_error table index) ;;
    NT_ASSERT dbg (negb (ExecPage entry =? 0)) ;;;
    (* Install a hook (0xcc) to the ExecPage and get a stub to call the
       original code. *)
    let '(status, originalCallStub, m) :=
      InstallHookOnExecPage k m HookAddress_ (ExecPage entry) in
    if negb (NT_SUCCESS status)
    then Done (status, HookEntry_, table, m,
               released ++ (if negb (originalCallStub =? 0)
                            then [ExFreePoolWithTag originalCallStub]
                            else []))
    else
      Done (status,
            mkHookEntry HookAddress_ Handler_ (ExecPage entry)
                        (GetPaFromVa k (PAGE_ALIGN HookAddress_))
                        (GetPaFromVa k (ExecPage entry))
                        originalCallStub,
            table, m, released).
(** A hook on [mov [rsp+8], rbx] at the address of the first sample entry,
    and a kernel that hands out the pages of that entry. *)
Definition sample_vmem : vmem :=
  write_bytes (fun _ => 0) 0xFFFFF80002A31234 [0x48; 0x89; 0x5c; 0x24; 0x08].

(** The same instruction three bytes before the end of a page. *)
Definition sample_vmem_page_end : vmem :=
  write_bytes (fun _ => 0) 0xFFFFF80002A31FFD [0x48; 0x89; 0x5c; 0x24; 0x08].

Definition sample_kernel : kernel_answers :=
  mkKernelAnswers
    (fun NumberOfBytes => if NumberOfBytes =? PAGE_SIZE
                          then 0xFFFFF88004000000 else 0xFFFFF88003D00000)
    (fun _ => 0xFFFFFA8001000000)
    (fun _ => None)
    (fun va => if va =? 0xFFFFF80002A31000 then 0x2A31000
               else if va =? 0xFFFFF88004000000 then 0x7F000 else 0).

Definition sample_shared_table : list SHARED_MEMORY_ENTRY :=
  [mkSharedMemoryEntry 0 0 0; mkSharedMemoryEntry 0 0 0].

(** ** Virtualization.cpp *)

Module SEGMENT_DESCRIPTOR.
Definition Type_ (d : Z) : Z := get_field 40 4 d.
Definition System (d : Z) : Z := get_field 44 1 d.
Definition Dpl (d : Z) : Z := get_field 45 2 d.
Definition Present (d : Z) : Z := get_field 47 1 d.
Definition Avl (d : Z) : Z := get_field 52 1 d.
Definition LongMode (d : Z) : Z := get_field 53 1 d.
Definition DefaultBit (d : Z) : Z := get_field 54 1 d.
Definition Granularity (d : Z) : Z := get_field 55 1 d.
End SEGMENT_DESCRIPTOR.

Module SEGMENT_ATTRIBUTE_set.
Definition Type_ (a v : Z) : Z := set_field 0 4 a v.
Definition System (a v : Z) : Z := set_field 4 1 a v.
Definition Dpl (a v : Z) : Z := set_field 5 2 a v.
Definition Present (a v : Z) : Z := set_field 7 1 a v.
Definition Avl (a v : Z) : Z := set_field 8 1 a v.
Definition LongMode (a v : Z) : Z := set_field 9 1 a v.
Definition DefaultBit (a v : Z) : Z := set_field 10 1 a v.
Definition Granularity (a v : Z) : Z := set_field 11 1 a v.
Definition Reserved1 (a v : Z) : Z := set_field 12 4 a v.
End SEGMENT_ATTRIBUTE_set.

Definition RPL_MASK : Z := 3.

(** GetSegmentAccessRight.  [read_descriptor] reads the eight bytes of a
    descriptor; [uninitialised] is what the local [attribute] holds
    before its fields are assigned. *)
Definition GetSegmentAccessRight (read_descriptor : Z -> Z) (uninitialised : Z)
    (SegmentSelector GdtBase : Z) : Z :=
  let descriptor :=
    read_descriptor
      (to_ULONG64 (GdtBase + Z.land SegmentSelector (Z.lnot RPL_MASK))) in
  let attribute := uninitialised in
  let attribute :=
    SEGMENT_ATTRIBUTE_set.Type_ attribute (SEGMENT_DESCRIPTOR.Type_ descriptor) in
  let attribute :=
    SEGMENT_ATTRIBUTE_set.System attribute (SEGMENT_DESCRIPTOR.System descriptor) in
  let attribute :=
    SEGMENT_ATTRIBUTE_set.Dpl attribute (SEGMENT_DESCRIPTOR.Dpl descriptor) in
  let attribute :=
    SEGMENT_ATTRIBUTE_set.Present attribute (SEGMENT_DESCRIPTOR.Present descriptor) in
  let attribute :=
    SEGMENT_ATTRIBUTE_set.Avl attribute (SEGMENT_DESCRIPTOR.Avl descriptor) in
  let attribute :=
    SEGMENT_ATTRIBUTE_set.LongMode attribute (SEGMENT_DESCRIPTOR.LongMode descriptor) in
  let attribute :=
    SEGMENT_ATTRIBUTE_set.DefaultBit attribute
      (SEGMENT_DESCRIPTOR.DefaultBit descriptor) in
  let attribute :=
    SEGMENT_ATTRIBUTE_set.Granularity attribute
      (SEGMENT_DESCRIPTOR.Granularity descriptor) in
  let attribute := SEGMENT_ATTRIBUTE_set.Reserved1 attribute 0 in
  attribute.

Section ExecuteOnEachProcessor.

(** The state the callback works on. *)
Variable State : Type.
Variable dbg : bool.
(** The status of KeGetProcessorNumberFromIndex for an index. *)
Variable KeGetProcessorNumberFromIndex : Z -> Z.
(** The callback, run on the processor of the given index. *)
Variable Callback : Z -> State -> Z * State.

(** The [for] loop: [status], [i] and the state at the label Exit. *)
Fixpoint ExecuteOnEachProcessor_loop (remaining : nat) (i : Z) (status : Z)
    (s : State) : Z * Z * State :=
  match remaining with
  | O => (status, i, s)
  | S remaining' =>
      let status := KeGetProcessorNumberFromIndex i in
      if negb (NT_SUCCESS status) then (status, i, s)
      else
        let '(status, s) := Callback i s in
        if negb (NT_SUCCESS status) then (status, i, s)
        else ExecuteOnEachProcessor_loop remaining' (i + 1) status s
  end.

(** ExecuteOnEachProcessor: the status, *NumOfProcessorCompleted and the
    state. *)
Definition ExecuteOnEachProcessor (numOfProcessors : Z) (s : State)
  : outcome (Z * Z * State) :=
  let '(status, i, s) :=
    ExecuteOnEachProcessor_loop (Z.to_nat numOfProcessors) 0 STATUS_SUCCESS s in
  NT_ASSERT dbg (negb (NT_SUCCESS status) || (i =? numOfProcessors)) ;;;
  Done (status, i, s).

(** The state after the callback has run on the processors [first],
    [first + 1], ... [first + count - 1], one after the other. *)
Fixpoint state_after (count : nat) (first : Z) (s : State) : State :=
  match count with
  | O => s
  | S count' => state_after count' (first + 1) (snd (Callback first s))
  end.

End ExecuteOnEachProcessor.

(** ** HookKernelHandlers.cpp *)

Section TagToString.

(** [isspace] and [isprint] of the C run-time, on an unsigned char. *)
Variable isspace : Z -> bool.
Variable isprint : Z -> bool.

Definition ANSI_NULL : Z := 0.

(** The body of the loop of TagToString, for one character. *)
Definition TagToString_char (c : Z) : Z :=
  let c := if (c =? ANSI_NULL) || isspace c then 0x20 (* ' ' *) else c in
  let c := if negb (isprint c) then 0x2E (* '.' *) else c in
  c.

(** TagToString: the eight bytes of TAG_VALUE, AsUchars[0..3] first. *)
Definition TagToString (TagValue : Z) : list Z :=
  let tag := bytes_of_PVOID (to_ULONG TagValue) in
  map TagToString_char (firstn 4 tag) ++ skipn 4 tag.

End TagToString.

(** [isspace] and [isprint] in the C locale. *)
Definition isspace_C (c : Z) : bool := ((9 <=? c) && (c <=? 13)) || (c =? 32).
Definition isprint_C (c : Z) : bool := (32 <=? c) && (c <=? 126).

(** GetOriginalCallStub, for a handler given by its address. *)
Fixpoint GetOriginalCallStub_in (dbg : bool)
    (registrations : list HOOK_REGISTRATION_ENTRY) (Handler_ : Z) : outcome Z :=
  match registrations with
  | [] => NT_ASSERT dbg false ;;; Done 0
  | registration :: rest =>
      if RegistrationHandler registration =? Handler_
      then
        NT_ASSERT dbg
          (negb (OriginalCallStub (HookEntry registration) =? 0)) ;;;
        Done (OriginalCallStub (HookEntry registration))
      else GetOriginalCallStub_in dbg rest Handler_
  end.

Definition GetOriginalCallStub (dbg : bool)
    (g_HookRegistrationEntries : list HOOK_REGISTRATION_ENTRY) (Handler_ : Z)
  : outcome Z :=
  GetOriginalCallStub_in dbg g_HookRegistrationEntries Handler_.

(** The invariant at run time: a hierarchy, with whatever NoExecute bits
    the hook engine has set in it, and a good source of pages. *)
Definition table_invariant (p : phys) (Pml4Table : Z) (level : Z -> nat)
    (HookData : option HOOK_DATA) : Prop :=
  NptHierarchy p Pml4Table level /\ source_ok p level HookData.

(* ================================================================== *)
(** * Part II: properties                                              *)
(* ================================================================== *)

(** ** Bit fields *)

Lemma get_set_field_same lo w e v :
  0 <= lo -> 0 <= w ->
  get_field lo w (set_field lo w e v) = Z.land v (Z.ones w).
Proof. intros. unfold get_field, set_field. Z.bitblast. Qed.

Lemma get_set_field_other lo1 w1 lo2 w2 e v :
  0 <= lo1 -> 0 <= w1 -> 0 <= lo2 -> 0 <= w2 ->
  lo1 + w1 <= lo2 \/ lo2 + w2 <= lo1 ->
  get_field lo1 w1 (set_field lo2 w2 e v) = get_field lo1 w1 e.
Proof. intros. unfold get_field, set_field. Z.bitblast. Qed.

Lemma set_field_idem lo w e v v' :
  0 <= lo -> 0 <= w ->
  set_field lo w (set_field lo w e v) v' = set_field lo w e v'.
Proof. intros. unfold set_field. Z.bitblast. Qed.

Lemma set_get_field lo w e :
  0 <= lo -> 0 <= w -> set_field lo w e (get_field lo w e) = e.
Proof. intros. unfold get_field, set_field. Z.bitblast. Qed.

Lemma set_field_comm lo1 w1 lo2 w2 e v1 v2 :
  0 <= lo1 -> 0 <= w1 -> 0 <= lo2 -> 0 <= w2 ->
  lo1 + w1 <= lo2 \/ lo2 + w2 <= lo1 ->
  set_field lo1 w1 (set_field lo2 w2 e v2) v1
  = set_field lo2 w2 (set_field lo1 w1 e v1) v2.
Proof. intros. unfold set_field. Z.bitblast. Qed.

Lemma get_field_range lo w e : 0 <= w -> 0 <= get_field lo w e < 2 ^ w.
Proof.
  intros. unfold get_field. rewrite Z.land_ones by lia.
  apply Z.mod_pos_bound. apply Z.pow_pos_nonneg; lia.
Qed.

Lemma get_field_bit lo e : get_field lo 1 e = 0 \/ get_field lo 1 e = 1.
Proof. pose proof (get_field_range lo 1 e). change (2 ^ 1) with 2 in *. lia. Qed.

Lemma land_ones_small v w : 0 <= w -> 0 <= v < 2 ^ w -> Z.land v (Z.ones w) = v.
Proof. intros. rewrite Z.land_ones by lia. apply Z.mod_small; lia. Qed.

Lemma set_field_range lo w e v :
  0 <= lo -> 0 <= w -> lo + w <= 64 ->
  0 <= e < 2 ^ 64 -> 0 <= set_field lo w e v < 2 ^ 64.
Proof.
  intros Hlo Hw Hlw He.
  assert (Hx : set_field lo w e v = Z.land (set_field lo w e v) (Z.ones 64)).
  { assert (He' : e = Z.land e (Z.ones 64)) by (symmetry; apply land_ones_small; lia).
    unfold set_field. rewrite He' at 1. Z.bitblast. }
  rewrite Hx, Z.land_ones by lia. apply Z.mod_pos_bound. lia.
Qed.

(** ** The outcome monad *)

Lemma bind_Done_inv {A B : Type} (c : outcome A) (k : A -> outcome B) (b : B) :
  bind c k = Done b -> exists a, c = Done a /\ k a = Done b.
Proof. destruct c; simpl; intros H; try discriminate. eauto. Qed.

Lemma NT_ASSERT_true dbg : NT_ASSERT dbg true = Done tt.
Proof. unfold NT_ASSERT. destruct dbg; reflexivity. Qed.


Lemma NT_ASSERT_holds dbg c : c = true -> NT_ASSERT dbg c = Done tt.
Proof. intros ->. apply NT_ASSERT_true. Qed.

Lemma NT_ASSERT_Done_inv dbg c u :
  NT_ASSERT dbg c = Done u -> dbg = false \/ c = true.
Proof. unfold NT_ASSERT. destruct dbg, c; simpl; intros; auto; discriminate. Qed.

(** Peel one [bind] off a hypothesis [bind c k = Done _]. *)
Ltac bind_inv H :=
  let a := fresh "a" in
  let Ha := fresh "Hc" in
  apply bind_Done_inv in H; destruct H as [a [Ha H]].

(** ** C8: the breakpoint handler *)

Lemma FindHookEntryByAddress_in_Some g va e :
  FindHookEntryByAddress_in g va = Some e ->
  In e (map HookEntry g) /\ HookAddress e = va.
Proof.
  induction g as [|r g IH]; simpl; [discriminate|].
  destruct (va =? HookAddress (HookEntry r)) eqn:E.
  - intros [= <-]. apply Z.eqb_eq in E. auto.
  - intros H. destruct (IH H). auto.
Qed.

Lemma FindHookEntryByAddress_in_None g va :
  FindHookEntryByAddress_in g va = None <->
  (forall r, In r g -> HookAddress (HookEntry r) <> va).
Proof.
  induction g as [|r g IH]; simpl.
  - split; [intros _ r []|reflexivity].
  - destruct (va =? HookAddress (HookEntry r)) eqn:E.
    + apply Z.eqb_eq in E. split; [discriminate|].
      intros H. exfalso. apply (H r); auto.
    + apply Z.eqb_neq in E. rewrite IH. split.
      * intros H r' [<-|Hin]; [congruence|auto].
      * intros H r' Hin. apply H. auto.
Qed.

(** C8.  On a #BP exit, if a registered hook entry has its HookAddress
    at the guest RIP, the guest RIP becomes that entry's Handler and the
    control area (EventInj included) is left as it was, so nothing is
    injected; if no entry has, EventInj becomes a valid event of vector 3,
    type 3 (exception) without error code, and the guest RIP becomes NRip. *)
Theorem HandleBreakPointException_redirects_or_reinjects
    (g : list HOOK_REGISTRATION_ENTRY) (GuestVmcb : VMCB) (hd : HOOK_DATA) :
  let rip := Rip (StateSaveArea GuestVmcb) in
  let after := HandleBreakPointException g GuestVmcb hd in
  ((exists r, In r g /\ HookAddress (HookEntry r) = rip) ->
   exists entry,
     In entry (map HookEntry g) /\ HookAddress entry = rip /\
     FindHookEntryByAddress g rip = Some entry /\
     Rip (StateSaveArea after) = Handler entry /\
     ControlArea after = ControlArea GuestVmcb)
  /\
  ((forall r, In r g -> HookAddress (HookEntry r) <> rip) ->
   let event := EventInj (ControlArea after) in
   EVENTINJ.Vector event = 3 /\ EVENTINJ.Type_ event = 3 /\
   EVENTINJ.ErrorCodeValid event = 0 /\ EVENTINJ.Valid event = 1 /\
   EVENTINJ.ErrorCode event = 0 /\
   Rip (StateSaveArea after) = NRip (ControlArea GuestVmcb)).
Proof.
  intros rip after. subst after. unfold HandleBreakPointException.
  fold rip. unfold FindHookEntryByAddress.
  destruct (FindHookEntryByAddress_in g rip) as [entry|] eqn:F; split.
  - intros _. destruct (FindHookEntryByAddress_in_Some _ _ _ F) as [Hin Hva].
    exists entry. repeat split; auto.
  - intros Hno. destruct (FindHookEntryByAddress_in_Some _ _ _ F) as [Hin Hva].
    apply in_map_iff in Hin. destruct Hin as [r [<- Hr]].
    exfalso. exact (Hno r Hr Hva).
  - intros [r [Hr Hva]]. exfalso.
    apply (proj1 (FindHookEntryByAddress_in_None g rip) F r Hr Hva).
  - intros _. cbv zeta. unfold InjectBreakPointException. simpl.
    repeat split; reflexivity.
Qed.

Lemma HandleBreakPointException_redirects_or_reinjects_witness :
  let hooked := sample_vmcb VMEXIT_EXCEPTION_BP 0 0 0xFFFFF80002A31234
                            0xFFFFF80002A31235 0 in
  let stray := sample_vmcb VMEXIT_EXCEPTION_BP 0 0 0xFFFFF80002000010
                           0xFFFFF80002000011 0 in
  let hd := mkHookData 1 [] 0 1 (Some sample_entry_1) NptHookEnabledVisible in
  Rip (StateSaveArea (HandleBreakPointException sample_registrations hooked hd))
  = 0xFFFFF88003C01000 /\
  EventInj (ControlArea (HandleBreakPointException sample_registrations stray hd))
  = 0x80000303 /\
  Rip (StateSaveArea (HandleBreakPointException sample_registrations stray hd))
  = 0xFFFFF80002000011.
Proof.
  intros hooked stray hd.
  destruct (HandleBreakPointException_redirects_or_reinjects
              sample_registrations hooked hd) as [Hhit _].
  destruct (HandleBreakPointException_redirects_or_reinjects
              sample_registrations stray hd) as [_ Hmiss].
  split; [|split].
  - destruct Hhit as [entry [_ [_ [Hfind [Hrip _]]]]].
    + exists (mkRegistration "ZwQuerySystemInformation" 0xFFFFF88003C01000
                             sample_entry_1).
      split; [left; reflexivity|reflexivity].
    + rewrite Hrip. vm_compute in Hfind. injection Hfind as <-. reflexivity.
  - reflexivity.
  - apply Hmiss. intros r Hr. simpl in Hr.
    destruct Hr as [<-|[<-|[]]]; vm_compute; discriminate.
Defined.

(** ** 32-bit cells *)

Lemma to_ULONG_range x : 0 <= to_ULONG x < 2 ^ 32.
Proof. unfold to_ULONG. apply Z.mod_pos_bound. lia. Qed.

Lemma to_ULONG_small x : 0 <= x < 2 ^ 32 -> to_ULONG x = x.
Proof. intros. unfold to_ULONG. apply Z.mod_small. lia. Qed.

Lemma to_LONG_small x : 0 <= x < 2 ^ 31 -> to_LONG x = x.
Proof.
  intros. unfold to_LONG. rewrite Z.mod_small by lia.
  destruct (Z.ltb_spec x (2 ^ 31)); lia.
Qed.

(** The low half of a sign-extended [int] is the [int]: the guest reads
    EAX, EBX, ECX and EDX as CPUID left them in [registers]. *)
Lemma to_ULONG_int_to_UINT64 x : to_ULONG (int_to_UINT64 x) = to_ULONG x.
Proof.
  unfold int_to_UINT64, to_LONG, to_ULONG.
  pose proof (Z.mod_pos_bound x (2 ^ 32) ltac:(lia)) as Hu.
  remember (x mod 2 ^ 32) as u eqn:Eu. clear Eu.
  destruct (Z.ltb_spec u (2 ^ 31)).
  - rewrite (Z.mod_small u (2 ^ 64)) by lia. apply Z.mod_small. lia.
  - replace ((u - 2 ^ 32) mod 2 ^ 64) with (u + (2 ^ 32 - 1) * 2 ^ 32).
    + rewrite Z.mod_add by lia. apply Z.mod_small. lia.
    + apply Z.mod_unique with (q := -1); lia.
Qed.

(** ** C9: the back-door leaf outside kernel mode *)

(** C9.  A CPUID exit with EAX = 0x41414141 taken while SS.DPL is not 0
    completes in every build, leaves physical memory and the whole
    HOOK_DATA (NptState and ActiveHookEntry included) as they were, leaves
    ExitVm as it was, hands the guest the four registers of the hardware
    CPUID (sign-extended into the 64-bit GPRs), and moves RIP to NRip with
    the rest of the VMCB untouched. *)
Theorem HandleCpuid_backdoor_ignored_outside_kernel
    (dbg : bool) (g : list HOOK_REGISTRATION_ENTRY)
    (cpuidex : Z -> Z -> cpuid_registers)
    (p : phys) (VpData : VIRTUAL_PROCESSOR_DATA) (GuestContext : GUEST_CONTEXT) :
  to_ULONG (GprRax (VpRegs GuestContext)) = CPUID_LEAF_SIMPLE_SVM_CALL ->
  SEGMENT_ATTRIBUTE.Dpl (SsAttrib (StateSaveArea (GuestVmcb VpData)))
    <> DPL_SYSTEM ->
  let hardware := cpuidex (to_ULONG (GprRax (VpRegs GuestContext)))
                          (to_ULONG (Rcx (VpRegs GuestContext))) in
  exists VpData' GuestContext',
    HandleCpuid dbg g cpuidex p VpData GuestContext
    = Done (p, VpData', GuestContext') /\
    HookData VpData' = HookData VpData /\
    ExitVm GuestContext' = ExitVm GuestContext /\
    GprRax (VpRegs GuestContext') = int_to_UINT64 (registers0 hardware) /\
    Rbx (VpRegs GuestContext') = int_to_UINT64 (registers1 hardware) /\
    Rcx (VpRegs GuestContext') = int_to_UINT64 (registers2 hardware) /\
    Rdx (VpRegs GuestContext') = int_to_UINT64 (registers3 hardware) /\
    to_ULONG (GprRax (VpRegs GuestContext')) = to_ULONG (registers0 hardware) /\
    to_ULONG (Rbx (VpRegs GuestContext')) = to_ULONG (registers1 hardware) /\
    to_ULONG (Rcx (VpRegs GuestContext')) = to_ULONG (registers2 hardware) /\
    to_ULONG (Rdx (VpRegs GuestContext')) = to_ULONG (registers3 hardware) /\
    Rip (StateSaveArea (GuestVmcb VpData'))
    = NRip (ControlArea (GuestVmcb VpData)) /\
    ControlArea (GuestVmcb VpData') = ControlArea (GuestVmcb VpData) /\
    Efer (StateSaveArea (GuestVmcb VpData'))
    = Efer (StateSaveArea (GuestVmcb VpData)).
Proof.
  intros Hleaf Hdpl hardware. subst hardware.
  unfold HandleCpuid. rewrite Hleaf.
  change (CPUID_LEAF_SIMPLE_SVM_CALL
          =? CPUID_PROCESSOR_AND_PROCESSOR_FEATURE_IDENTIFIERS) with false.
  change (CPUID_LEAF_SIMPLE_SVM_CALL =? CPUID_HV_VENDOR_AND_MAX_FUNCTIONS)
    with false.
  change (CPUID_LEAF_SIMPLE_SVM_CALL =? CPUID_HV_INTERFACE) with false.
  change (CPUID_LEAF_SIMPLE_SVM_CALL =? CPUID_LEAF_SIMPLE_SVM_CALL) with true.
  cbv iota.
  apply Z.eqb_neq in Hdpl. rewrite Hdpl. simpl.
  eexists. eexists. split; [reflexivity|]. simpl.
  rewrite !to_ULONG_int_to_UINT64.
  repeat split; reflexivity.
Qed.

Lemma HandleCpuid_backdoor_ignored_outside_kernel_witness :
  let vp := mkVpData
              (sample_vmcb VMEXIT_CPUID 0 0 0x7FF612340000 0x7FF612340002 0x0cf3)
              (mkHookData 1 [] 0 1 None NptHookEnabledInvisible) in
  let ctx := mkGuestContext
               (sample_registers 0x41414141 CPUID_SUBLEAF_DISABLE_HOOKS 0) false in
  exists vp' ctx',
    HandleCpuid true sample_registrations sample_cpuidex
                (mkPhys (fun _ _ => 0) []) vp ctx
    = Done (mkPhys (fun _ _ => 0) [], vp', ctx') /\
    NptState (HookData vp') = NptHookEnabledInvisible /\
    ExitVm ctx' = false /\
    GprRax (VpRegs ctx') = 0x00800F11 /\
    Rip (StateSaveArea (GuestVmcb vp')) = 0x7FF612340002.
Proof.
  intros vp ctx.
  destruct (HandleCpuid_backdoor_ignored_outside_kernel
              true sample_registrations sample_cpuidex
              (mkPhys (fun _ _ => 0) []) vp ctx)
    as [vp' [ctx' [Hrun [Hhd [Hexit [Hrax [_ [_ [_ [_ [_ [_ [_ [Hrip _]]]]]]]]]]]]]].
  - reflexivity.
  - vm_compute. discriminate.
  - exists vp', ctx'. rewrite Hrun, Hhd, Hexit, Hrax, Hrip.
    repeat split; reflexivity.
Defined.

(** ** C6: CPUID leaf 1 *)

(** On leaf 1 the handler ors the hypervisor-present bit into
    [registers[3]], the cell that is copied to RDX; [registers[2]], the
    cell copied to RCX, is passed on as the hardware produced it. *)
Lemma HandleCpuid_leaf1
    (dbg : bool) (g : list HOOK_REGISTRATION_ENTRY)
    (cpuidex : Z -> Z -> cpuid_registers)
    (p : phys) (VpData : VIRTUAL_PROCESSOR_DATA) (GuestContext : GUEST_CONTEXT) :
  to_ULONG (GprRax (VpRegs GuestContext))
  = CPUID_PROCESSOR_AND_PROCESSOR_FEATURE_IDENTIFIERS ->
  let hardware := cpuidex (to_ULONG (GprRax (VpRegs GuestContext)))
                          (to_ULONG (Rcx (VpRegs GuestContext))) in
  exists VpData' GuestContext',
    HandleCpuid dbg g cpuidex p VpData GuestContext
    = Done (p, VpData', GuestContext') /\
    GprRax (VpRegs GuestContext') = int_to_UINT64 (registers0 hardware) /\
    Rbx (VpRegs GuestContext') = int_to_UINT64 (registers1 hardware) /\
    Rcx (VpRegs GuestContext') = int_to_UINT64 (registers2 hardware) /\
    Rdx (VpRegs GuestContext')
    = int_to_UINT64 (Z.lor (registers3 hardware)
                           CPUID_FN0000_0001_ECX_HYPERVISOR_PRESENT).
Proof.
  intros Hleaf hardware. subst hardware.
  unfold HandleCpuid. rewrite Hleaf.
  change (CPUID_PROCESSOR_AND_PROCESSOR_FEATURE_IDENTIFIERS
          =? CPUID_PROCESSOR_AND_PROCESSOR_FEATURE_IDENTIFIERS) with true.
  cbv iota. simpl.
  eexists. eexists. split; [reflexivity|]. simpl. repeat split; reflexivity.
Qed.

(** C6, on the code.  A guest asks for leaf 1 on a processor whose CPUID
    answers ECX = 0x7ED8320B and EDX = 0x178BFBFF, both with bit 31 clear.
    The guest gets ECX back unchanged, bit 31 still clear, and gets
    EDX = 0x978BFBFF, bit 31 set: the hypervisor-present bit lands in EDX. *)
Theorem HandleCpuid_leaf1_hypervisor_bit_lands_in_edx :
  let p := mkPhys (fun _ _ => 0) [] in
  let vp := mkVpData
              (sample_vmcb VMEXIT_CPUID 0 0 0xFFFFF80002000010
                           0xFFFFF80002000012 0x0093)
              (mkHookData 1 [] 0 1 None NptDefault) in
  let ctx := mkGuestContext (sample_registers 1 0 0) false in
  exists vp' ctx',
    HandleCpuid false sample_registrations sample_cpuidex p vp ctx
    = Done (p, vp', ctx') /\
    registers2 (sample_cpuidex 1 0) = 0x7ED8320B /\
    registers3 (sample_cpuidex 1 0) = 0x178BFBFF /\
    to_ULONG (Rcx (VpRegs ctx')) = 0x7ED8320B /\
    Z.testbit (Rcx (VpRegs ctx')) 31 = false /\
    to_ULONG (Rdx (VpRegs ctx')) = 0x978BFBFF /\
    Z.testbit (Rdx (VpRegs ctx')) 31 = true.
Proof.
  intros p vp ctx. eexists. eexists.
  split; [vm_compute; reflexivity|].
  repeat split; reflexivity.
Qed.

(** ** C5: writes to EFER *)

Lemma testbit_shiftl_1 n i :
  0 <= n -> 0 <= i -> Z.testbit (Z.shiftl 1 n) i = (i =? n).
Proof.
  intros Hn Hi. rewrite Z.shiftl_spec by lia.
  destruct (Z.eqb_spec i n) as [->|Hne].
  - rewrite Z.sub_diag. reflexivity.
  - destruct (Z.ltb_spec i n).
    + apply Z.testbit_neg_r. lia.
    + apply Z.bits_above_log2; simpl; lia.
Qed.

Lemma land_bit x n :
  0 <= n ->
  Z.land x (Z.shiftl 1 n) = if Z.testbit x n then Z.shiftl 1 n else 0.
Proof.
  intros Hn. apply Z.bits_inj'. intros i Hi.
  rewrite Z.land_spec, testbit_shiftl_1 by lia.
  destruct (Z.eqb_spec i n) as [->|Hne].
  - destruct (Z.testbit x n).
    + rewrite testbit_shiftl_1, Z.eqb_refl by lia. reflexivity.
    + rewrite Z.bits_0. reflexivity.
  - rewrite andb_false_r. destruct (Z.testbit x n).
    + rewrite testbit_shiftl_1 by lia. symmetry. apply Z.eqb_neq. exact Hne.
    + rewrite Z.bits_0. reflexivity.
Qed.

Lemma InjectGeneralProtectionException_event vp :
  EventInj (ControlArea (GuestVmcb (InjectGeneralProtectionException vp)))
  = GP_event.
Proof. reflexivity. Qed.

Lemma GP_event_fields :
  EVENTINJ.Vector GP_event = 13 /\ EVENTINJ.Type_ GP_event = 3 /\
  EVENTINJ.ErrorCodeValid GP_event = 1 /\ EVENTINJ.Valid GP_event = 1 /\
  EVENTINJ.ErrorCode GP_event = 0.
Proof. repeat split; reflexivity. Qed.

(** What HandleMsrAccess does in every case in which it returns: the
    value of EDX:EAX goes to the EFER field of the VMCB and RIP goes to
    NRip, and #GP(0) is injected exactly when bit 12 of the value is
    clear. *)
Lemma HandleMsrAccess_always_writes
    (dbg : bool) (VpData : VIRTUAL_PROCESSOR_DATA) (GuestContext : GUEST_CONTEXT) :
  Rcx (VpRegs GuestContext) = IA32_MSR_EFER ->
  ExitInfo1 (ControlArea (GuestVmcb VpData)) <> 0 ->
  let low := Z.land (GprRax (VpRegs GuestContext)) MAXUINT32 in
  let high := Z.land (Rdx (VpRegs GuestContext)) MAXUINT32 in
  let value := Z.lor (Z.shiftl high 32) low in
  exists VpData',
    HandleMsrAccess dbg VpData GuestContext = Done VpData' /\
    Efer (StateSaveArea (GuestVmcb VpData')) = value /\
    Rip (StateSaveArea (GuestVmcb VpData'))
    = NRip (ControlArea (GuestVmcb VpData)) /\
    EventInj (ControlArea (GuestVmcb VpData'))
    = (if Z.testbit value 12 then EventInj (ControlArea (GuestVmcb VpData))
       else GP_event).
Proof.
  intros Hrcx Hinfo low high value.
  unfold HandleMsrAccess.
  rewrite (NT_ASSERT_holds dbg) by (apply Z.eqb_eq; exact Hrcx).
  rewrite (NT_ASSERT_holds dbg)
    by (apply negb_true_iff, Z.eqb_neq; exact Hinfo).
  simpl bind. fold low. fold high. fold value.
  assert (Hbit : (Z.land low EFER_SVME =? 0) = negb (Z.testbit value 12)).
  { unfold EFER_SVME. rewrite land_bit by lia.
    assert (Hv : Z.testbit value 12 = Z.testbit low 12).
    { subst value. rewrite Z.lor_spec, Z.shiftl_spec by lia.
      rewrite Z.testbit_neg_r by lia. reflexivity. }
    rewrite Hv. destruct (Z.testbit low 12); reflexivity. }
  rewrite Hbit.
  eexists. split; [reflexivity|].
  destruct (Z.testbit value 12); simpl; repeat split; reflexivity.
Qed.

(** C5, on the code.  The guest writes EDX:EAX = 0xD01 (SCE, LME, LMA and
    NXE, SVME clear) to EFER while the VMCB holds EFER = 0x1500.  The
    handler injects #GP(0), and it also stores 0xD01 into the EFER field
    of the VMCB and moves RIP to NRip. *)
Theorem HandleMsrAccess_svme_cleared_still_written :
  let vp := mkVpData
              (sample_vmcb VMEXIT_MSR 1 0 0xFFFFF80002000010
                           0xFFFFF80002000012 0x0093)
              (mkHookData 1 [] 0 1 None NptDefault) in
  let ctx := mkGuestContext (sample_registers 0xD01 IA32_MSR_EFER 0) false in
  exists vp',
    HandleMsrAccess true vp ctx = Done vp' /\
    Z.testbit 0xD01 12 = false /\
    EventInj (ControlArea (GuestVmcb vp')) = GP_event /\
    Efer (StateSaveArea (GuestVmcb vp)) = 0x1500 /\
    Efer (StateSaveArea (GuestVmcb vp')) = 0xD01 /\
    Rip (StateSaveArea (GuestVmcb vp)) = 0xFFFFF80002000010 /\
    Rip (StateSaveArea (GuestVmcb vp')) = 0xFFFFF80002000012.
Proof.
  intros vp ctx. eexists. split; [vm_compute; reflexivity|].
  repeat split; reflexivity.
Qed.

(** ** C10: the pre-allocated pool *)

(** The two ways an allocation from the pool can go. *)
Lemma AllocateNptEntry_pool_cases (p : phys) (hd : HOOK_DATA) :
  0 <= UsedPreAllocatedEntriesCount hd <= NumberOfPreAllocatedNptEntries ->
  Z.of_nat (List.length (PreAllocatedNptEntries hd)) = NumberOfPreAllocatedNptEntries ->
  (UsedPreAllocatedEntriesCount hd < NumberOfPreAllocatedNptEntries ->
   exists entry,
     nth_error (PreAllocatedNptEntries hd)
               (Z.to_nat (UsedPreAllocatedEntriesCount hd)) = Some entry /\
     AllocateNptEntry p (Some hd)
     = Done (Some entry, p,
             Some (set_UsedPreAllocatedEntriesCount hd
                     (UsedPreAllocatedEntriesCount hd + 1))) /\
     UsedPreAllocatedEntriesCount hd + 1 <= NumberOfPreAllocatedNptEntries)
  /\
  (UsedPreAllocatedEntriesCount hd = NumberOfPreAllocatedNptEntries ->
   AllocateNptEntry p (Some hd) = BugCheck).
Proof.
  unfold NumberOfPreAllocatedNptEntries. intros Hused Hlen.
  unfold AllocateNptEntry.
  rewrite to_LONG_small by lia. rewrite to_ULONG_small by lia.
  split.
  - intros Hlt.
    destruct (Z.gtb_spec (UsedPreAllocatedEntriesCount hd + 1)
                         NumberOfPreAllocatedNptEntries) as [Hgt|_];
      [unfold NumberOfPreAllocatedNptEntries in Hgt; lia|].
    rewrite to_ULONG_small by lia.
    replace (UsedPreAllocatedEntriesCount hd + 1 - 1)
      with (UsedPreAllocatedEntriesCount hd) by lia.
    simpl PreAllocatedNptEntries.
    destruct (nth_error (PreAllocatedNptEntries hd)
                        (Z.to_nat (UsedPreAllocatedEntriesCount hd)))
      as [entry|] eqn:E.
    + exists entry. split; [reflexivity|]. split; [reflexivity|lia].
    + apply nth_error_None in E. lia.
  - intros Hfull. rewrite Hfull. reflexivity.
Qed.

(** C10.  While the counter is within [0, 50] and the pool has its 50
    slots: below 50, AllocateNptEntry returns the slot at the old counter
    value (inside the array) and leaves the counter one higher, still at
    most 50; at 50 it bug-checks and returns nothing.  Nothing else of
    HOOK_DATA and nothing of memory changes. *)
Theorem AllocateNptEntry_counter_within_capacity (p : phys) (hd : HOOK_DATA) :
  0 <= UsedPreAllocatedEntriesCount hd <= NumberOfPreAllocatedNptEntries ->
  Z.of_nat (List.length (PreAllocatedNptEntries hd)) = NumberOfPreAllocatedNptEntries ->
  (UsedPreAllocatedEntriesCount hd < NumberOfPreAllocatedNptEntries ->
   exists entry,
     nth_error (PreAllocatedNptEntries hd)
               (Z.to_nat (UsedPreAllocatedEntriesCount hd)) = Some entry /\
     AllocateNptEntry p (Some hd)
     = Done (Some entry, p,
             Some (set_UsedPreAllocatedEntriesCount hd
                     (UsedPreAllocatedEntriesCount hd + 1))) /\
     UsedPreAllocatedEntriesCount hd + 1 <= NumberOfPreAllocatedNptEntries)
  /\
  (UsedPreAllocatedEntriesCount hd = NumberOfPreAllocatedNptEntries ->
   AllocateNptEntry p (Some hd) = BugCheck).
Proof. exact (AllocateNptEntry_pool_cases p hd). Qed.

Lemma AllocateNptEntry_counter_within_capacity_witness :
  let pool := map Z.of_nat (seq 100 50) in
  let hd := mkHookData 1 pool 49 1 None NptDefault in
  let full := mkHookData 1 pool 50 1 None NptDefault in
  let p := mkPhys (fun _ _ => 0) [] in
  AllocateNptEntry p (Some hd)
  = Done (Some 149, p, Some (set_UsedPreAllocatedEntriesCount hd 50)) /\
  AllocateNptEntry p (Some full) = BugCheck.
Proof.
  intros pool hd full p. split.
  - destruct (AllocateNptEntry_counter_within_capacity p hd) as [Hroom _].
    + vm_compute. split; discriminate.
    + reflexivity.
    + destruct Hroom as [entry [Hnth [Hrun _]]]; [reflexivity|].
      vm_compute in Hnth. injection Hnth as <-. exact Hrun.
  - apply (AllocateNptEntry_counter_within_capacity p full).
    + vm_compute. split; discriminate.
    + reflexivity.
    + reflexivity.
Defined.

(** Every allocation that returns leaves the counter within capacity. *)
Lemma AllocateNptEntry_Done_bound p hd r :
  0 <= UsedPreAllocatedEntriesCount hd <= NumberOfPreAllocatedNptEntries ->
  Z.of_nat (List.length (PreAllocatedNptEntries hd)) = NumberOfPreAllocatedNptEntries ->
  AllocateNptEntry p (Some hd) = Done r ->
  exists entry hd',
    r = (Some entry, p, Some hd') /\
    hd' = set_UsedPreAllocatedEntriesCount hd (UsedPreAllocatedEntriesCount hd + 1) /\
    nth_error (PreAllocatedNptEntries hd)
              (Z.to_nat (UsedPreAllocatedEntriesCount hd)) = Some entry /\
    0 <= UsedPreAllocatedEntriesCount hd' <= NumberOfPreAllocatedNptEntries.
Proof.
  intros Hused Hlen Hrun.
  destruct (AllocateNptEntry_pool_cases p hd Hused Hlen)
    as [Hroom Hfull].
  destruct (Z.eq_dec (UsedPreAllocatedEntriesCount hd)
                     NumberOfPreAllocatedNptEntries) as [E|E].
  - rewrite (Hfull E) in Hrun. discriminate.
  - destruct Hroom as [entry [Hnth [Hrun' Hle]]]; [lia|].
    rewrite Hrun' in Hrun. injection Hrun as <-.
    exists entry. eexists. repeat split; [exact Hnth|simpl; lia|exact Hle].
Qed.

(** ** C1: the active hook and the visible state *)

Lemma EnableHooks_Done dbg g p hd p' hd' :
  EnableHooks dbg g p hd = Done (p', hd') ->
  hd' = set_NptState hd NptHookEnabledInvisible.
Proof.
  unfold EnableHooks. intros H.
  bind_inv H. bind_inv H. bind_inv H.
  injection H as _ <-. reflexivity.
Qed.

Lemma DisableHooks_Done dbg g p hd p' hd' :
  DisableHooks dbg g p hd = Done (p', hd') ->
  (NptState hd = NptHookEnabledInvisible /\
   hd' = set_NptState hd NptDefault) \/
  (NptState hd <> NptHookEnabledInvisible /\
   hd' = set_NptState (set_ActiveHookEntry hd None) NptDefault).
Proof.
  unfold DisableHooks. intros H.
  bind_inv H. bind_inv H. destruct a0 as [p1 hd1].
  injection H as _ <-.
  destruct (NptState hd) eqn:E; simpl in Hc0.
  - right. split; [discriminate|].
    repeat (bind_inv Hc0). injection Hc0 as _ <-. reflexivity.
  - left. split; [reflexivity|].
    repeat (bind_inv Hc0). injection Hc0 as _ <-. reflexivity.
  - right. split; [discriminate|].
    repeat (bind_inv Hc0). injection Hc0 as _ <-. reflexivity.
Qed.

Lemma TransitionNptState1To2_Done dbg p hd e p' hd' :
  TransitionNptState1To2 dbg p hd e = Done (p', hd') ->
  hd' = set_NptState (set_ActiveHookEntry hd (Some e)) NptHookEnabledVisible.
Proof.
  unfold TransitionNptState1To2. intros H.
  repeat (bind_inv H). injection H as _ <-. reflexivity.
Qed.

Lemma TransitionNtpState2To1_Done dbg g p hd p' hd' :
  TransitionNtpState2To1 dbg g p hd = Done (p', hd') ->
  hd' = set_NptState (set_ActiveHookEntry hd None) NptHookEnabledInvisible.
Proof.
  unfold TransitionNtpState2To1. intros H.
  repeat (bind_inv H). injection H as _ <-. reflexivity.
Qed.

(** What a checked build demands on entry to EnableHooks. *)
Lemma EnableHooks_checked_entry g p hd r :
  EnableHooks true g p hd = Done r ->
  NptState hd = NptDefault /\ ActiveHookEntry hd = None.
Proof.
  unfold EnableHooks. intros H.
  bind_inv H. bind_inv H.
  apply NT_ASSERT_Done_inv in Hc, Hc0.
  destruct Hc as [Hc|Hc]; [discriminate|].
  destruct Hc0 as [Hc0|Hc0]; [discriminate|].
  split.
  - destruct (NptState hd); [reflexivity|discriminate|discriminate].
  - destruct (ActiveHookEntry hd); [discriminate|reflexivity].
Qed.

(** One operation keeps the invariant, unless it is EnableHooks entered
    with an active hook: EnableHooks does not write ActiveHookEntry. *)
Lemma run_operation_keeps_active_iff_visible dbg g op p hd p' hd' :
  active_iff_visible hd ->
  (op = OpEnableHooks -> ActiveHookEntry hd = None) ->
  run_operation dbg g op p hd = Done (p', hd') ->
  active_iff_visible hd'.
Proof.
  unfold active_iff_visible. intros IH Hentry Hrun.
  destruct op; simpl in Hrun.
  - specialize (Hentry eq_refl).
    apply EnableHooks_Done in Hrun. subst hd'. simpl.
    rewrite Hentry. simpl. split; discriminate.
  - apply DisableHooks_Done in Hrun.
    destruct Hrun as [[Hs ->]|[Hs ->]]; simpl.
    + destruct (ActiveHookEntry hd); simpl in *.
      * destruct IH as [IH _]. rewrite Hs in IH.
        specialize (IH eq_refl). discriminate.
      * split; discriminate.
    + split; discriminate.
  - apply TransitionNptState1To2_Done in Hrun. subst hd'. simpl.
    split; reflexivity.
  - apply TransitionNtpState2To1_Done in Hrun. subst hd'. simpl.
    split; discriminate.
Qed.

(** In a checked build the invariant holds in every state the engine
    reaches: an EnableHooks entered with an active hook stops at its
    assertion and reaches no state. *)
Lemma active_iff_visible_checked_build g p hd :
  reachable true g p hd -> active_iff_visible hd.
Proof.
  induction 1 as [p hd [Hstate Hactive]|p hd op p' hd' Hreach IH Hrun].
  - unfold active_iff_visible. rewrite Hstate, Hactive. simpl.
    split; discriminate.
  - apply (run_operation_keeps_active_iff_visible true g op p hd p' hd' IH);
      [|exact Hrun].
    intros ->. simpl in Hrun.
    apply (EnableHooks_checked_entry g p hd _ Hrun).
Qed.

(** ** Fields of an NPT entry *)

Lemma BOOLEAN_bit b : Z.land (BOOLEAN b) (Z.ones 1) = BOOLEAN b.
Proof. destruct b; reflexivity. Qed.

Lemma NoExecute_set_NoExecute e b :
  Fields.NoExecute (Fields.set_NoExecute e (BOOLEAN b)) = BOOLEAN b.
Proof.
  unfold Fields.NoExecute, Fields.set_NoExecute.
  rewrite get_set_field_same by lia. apply BOOLEAN_bit.
Qed.

Lemma NoExecute_set_NoExecute_0 e :
  Fields.NoExecute (Fields.set_NoExecute e 0) = 0.
Proof. apply (NoExecute_set_NoExecute e false). Qed.

Lemma NoExecute_set_NoExecute_1 e :
  Fields.NoExecute (Fields.set_NoExecute e 1) = 1.
Proof. apply (NoExecute_set_NoExecute e true). Qed.

Lemma PageFrameNumber_set_NoExecute e v :
  Fields.PageFrameNumber (Fields.set_NoExecute e v) = Fields.PageFrameNumber e.
Proof. apply get_set_field_other; lia. Qed.

Lemma Valid_set_NoExecute e v :
  Fields.Valid (Fields.set_NoExecute e v) = Fields.Valid e.
Proof. apply get_set_field_other; lia. Qed.

Lemma Write_set_NoExecute e v :
  Fields.Write (Fields.set_NoExecute e v) = Fields.Write e.
Proof. apply get_set_field_other; lia. Qed.

Lemma User_set_NoExecute e v :
  Fields.User (Fields.set_NoExecute e v) = Fields.User e.
Proof. apply get_set_field_other; lia. Qed.

Lemma set_NoExecute_idem e v v' :
  Fields.set_NoExecute (Fields.set_NoExecute e v) v' = Fields.set_NoExecute e v'.
Proof. apply set_field_idem; lia. Qed.

Lemma set_NoExecute_same e :
  Fields.set_NoExecute e (Fields.NoExecute e) = e.
Proof. apply set_get_field; lia. Qed.

Lemma NoExecute_set_PageFrameNumber e v :
  Fields.NoExecute (Fields.set_PageFrameNumber e v) = Fields.NoExecute e.
Proof. apply get_set_field_other; lia. Qed.

Lemma Valid_set_PageFrameNumber e v :
  Fields.Valid (Fields.set_PageFrameNumber e v) = Fields.Valid e.
Proof. apply get_set_field_other; lia. Qed.

Lemma PageFrameNumber_set_PageFrameNumber e v :
  0 <= v < 2 ^ 40 ->
  Fields.PageFrameNumber (Fields.set_PageFrameNumber e v) = v.
Proof.
  intros. unfold Fields.PageFrameNumber, Fields.set_PageFrameNumber.
  rewrite get_set_field_same by lia. apply land_ones_small; lia.
Qed.

Lemma set_PageFrameNumber_idem e v v' :
  Fields.set_PageFrameNumber (Fields.set_PageFrameNumber e v) v'
  = Fields.set_PageFrameNumber e v'.
Proof. apply set_field_idem; lia. Qed.

Lemma set_PageFrameNumber_same e :
  Fields.set_PageFrameNumber e (Fields.PageFrameNumber e) = e.
Proof. apply set_get_field; lia. Qed.

Lemma set_NoExecute_set_PageFrameNumber e v w :
  Fields.set_NoExecute (Fields.set_PageFrameNumber e v) w
  = Fields.set_PageFrameNumber (Fields.set_NoExecute e w) v.
Proof. apply set_field_comm; lia. Qed.

Lemma NoExecute_bit e : Fields.NoExecute e = 0 \/ Fields.NoExecute e = 1.
Proof. apply get_field_bit. Qed.

Lemma Valid_bit e : Fields.Valid e = 0 \/ Fields.Valid e = 1.
Proof. apply get_field_bit. Qed.

Lemma PageFrameNumber_range e : 0 <= Fields.PageFrameNumber e < 2 ^ 40.
Proof. apply get_field_range. lia. Qed.

(** ** Indices *)

Lemma index_range pa s : 0 <= Z.land (Z.shiftr pa s) k_PtxMask < 512.
Proof.
  change k_PtxMask with (Z.ones 9). rewrite Z.land_ones by lia.
  apply Z.mod_pos_bound. lia.
Qed.

Lemma GetPxeIndex_range pa : 0 <= GetPxeIndex pa < 512.
Proof. apply index_range. Qed.
Lemma GetPpeIndex_range pa : 0 <= GetPpeIndex pa < 512.
Proof. apply index_range. Qed.
Lemma GetPdeIndex_range pa : 0 <= GetPdeIndex pa < 512.
Proof. apply index_range. Qed.
Lemma GetPteIndex_range pa : 0 <= GetPteIndex pa < 512.
Proof. apply index_range. Qed.

(** ** Loads and stores *)

Lemma qword_store p e v t i :
  qword (store p e v) t i
  = if (t =? fst e) && (i =? snd e) then v else qword p t i.
Proof. reflexivity. Qed.

Lemma load_store_same p e v : load (store p e v) e = v.
Proof. unfold load. rewrite qword_store, !Z.eqb_refl. reflexivity. Qed.

Lemma load_store_other p e e' v : e' <> e -> load (store p e v) e' = load p e'.
Proof.
  intros Hne. unfold load. rewrite qword_store.
  destruct (Z.eqb_spec (fst e') (fst e)); [|reflexivity].
  destruct (Z.eqb_spec (snd e') (snd e)); [|reflexivity].
  exfalso. apply Hne. destruct e, e'; simpl in *; congruence.
Qed.

Lemma load_store_other_table p e e' v :
  fst e' <> fst e -> load (store p e v) e' = load p e'.
Proof. intros H. apply load_store_other. congruence. Qed.

Lemma qword_store_NoExecute p e nx t i :
  qword (store_NoExecute p e nx) t i
  = if (t =? fst e) && (i =? snd e)
    then Fields.set_NoExecute (qword p t i) (BOOLEAN nx)
    else qword p t i.
Proof.
  unfold store_NoExecute. rewrite qword_store. unfold load.
  destruct (Z.eqb_spec t (fst e)) as [->|]; [|reflexivity].
  destruct (Z.eqb_spec i (snd e)) as [->|]; reflexivity.
Qed.

Lemma qword_ForEachEntrySetNoExecute count first table nx p t i :
  qword (ForEachEntrySetNoExecute count first table nx p) t i
  = if (t =? table) && (first <=? i) && (i <? first + Z.of_nat count)
    then Fields.set_NoExecute (qword p t i) (BOOLEAN nx)
    else qword p t i.
Proof.
  revert first p. induction count as [|n IH]; intros first p.
  - cbn [ForEachEntrySetNoExecute].
    destruct (t =? table); [|reflexivity].
    destruct (Z.leb_spec first i), (Z.ltb_spec i (first + Z.of_nat 0));
      cbn [andb]; try reflexivity; lia.
  - cbn [ForEachEntrySetNoExecute]. rewrite IH, qword_store_NoExecute.
    cbn [fst snd].
    destruct (Z.eqb_spec t table) as [->|]; [|reflexivity]. cbn [andb].
    destruct (Z.eqb_spec i first) as [->|Hne].
    + destruct (Z.leb_spec (first + 1) first); [lia|]. cbn [andb].
      destruct (Z.leb_spec first first); [|lia].
      destruct (Z.ltb_spec first (first + Z.of_nat (S n))); [|lia].
      reflexivity.
    + destruct (Z.leb_spec (first + 1) i), (Z.leb_spec first i),
        (Z.ltb_spec i (first + 1 + Z.of_nat n)),
        (Z.ltb_spec i (first + Z.of_nat (S n)));
        cbn [andb]; try reflexivity; lia.
Qed.

Lemma free_pages_ForEachEntrySetNoExecute count first table nx p :
  free_pages (ForEachEntrySetNoExecute count first table nx p) = free_pages p.
Proof.
  revert first p. induction count as [|n IH]; intros first p; [reflexivity|].
  cbn [ForEachEntrySetNoExecute]. rewrite IH. reflexivity.
Qed.

(** The 512-iteration loops touch exactly the entries of one table. *)
Lemma qword_ForEachEntry_512 table nx p t i :
  0 <= i < 512 ->
  qword (ForEachEntrySetNoExecute 512 0 table nx p) t i
  = if t =? table
    then Fields.set_NoExecute (qword p t i) (BOOLEAN nx)
    else qword p t i.
Proof.
  intros Hi. rewrite qword_ForEachEntrySetNoExecute.
  destruct (t =? table); [|reflexivity]. cbn [andb].
  destruct (Z.leb_spec 0 i); [|lia].
  destruct (Z.ltb_spec i (0 + Z.of_nat 512)); [reflexivity|lia].
Qed.

Lemma qword_ForEachEntry_other_table count first table nx p t i :
  t <> table ->
  qword (ForEachEntrySetNoExecute count first table nx p) t i = qword p t i.
Proof.
  intros Hne. rewrite qword_ForEachEntrySetNoExecute.
  destruct (Z.eqb_spec t table); [contradiction|reflexivity].
Qed.

(** ** Memories that differ in NoExecute bits only *)

Lemma same_but_nx_refl p : same_but_nx p p.
Proof. split; reflexivity. Qed.

Lemma same_but_nx_trans p q r :
  same_but_nx p q -> same_but_nx q r -> same_but_nx p r.
Proof.
  intros [H1 F1] [H2 F2]. split; [|congruence].
  intros t i. rewrite H2. apply H1.
Qed.

Lemma same_but_nx_sym p q : same_but_nx p q -> same_but_nx q p.
Proof. intros [H F]. split; [|congruence]. intros t i. symmetry. apply H. Qed.

Lemma same_but_nx_store_NoExecute p e nx :
  same_but_nx p (store_NoExecute p e nx).
Proof.
  split; [|reflexivity]. intros t i. rewrite qword_store_NoExecute.
  destruct ((t =? fst e) && (i =? snd e)); [|reflexivity].
  apply set_NoExecute_idem.
Qed.

Lemma same_but_nx_ForEachEntry count first table nx p :
  same_but_nx p (ForEachEntrySetNoExecute count first table nx p).
Proof.
  split; [|apply free_pages_ForEachEntrySetNoExecute].
  intros t i. rewrite qword_ForEachEntrySetNoExecute.
  destruct ((t =? table) && (first <=? i) && (i <? first + Z.of_nat count));
    [|reflexivity].
  apply set_NoExecute_idem.
Qed.

Lemma same_but_nx_PageFrameNumber p p' e :
  same_but_nx p p' ->
  Fields.PageFrameNumber (load p' e) = Fields.PageFrameNumber (load p e).
Proof.
  intros [H _]. unfold load.
  rewrite <- (PageFrameNumber_set_NoExecute (qword p' _ _) 0), H.
  apply PageFrameNumber_set_NoExecute.
Qed.

Lemma same_but_nx_Valid p p' e :
  same_but_nx p p' -> Fields.Valid (load p' e) = Fields.Valid (load p e).
Proof.
  intros [H _]. unfold load.
  rewrite <- (Valid_set_NoExecute (qword p' _ _) 0), H.
  apply Valid_set_NoExecute.
Qed.

Lemma same_but_nx_pdpt_entry p p' pml4 pa :
  same_but_nx p p' -> pdpt_entry p' pml4 pa = pdpt_entry p pml4 pa.
Proof.
  intros H. unfold pdpt_entry.
  rewrite (same_but_nx_PageFrameNumber p p') by exact H. reflexivity.
Qed.

Lemma same_but_nx_pdt_entry p p' pml4 pa :
  same_but_nx p p' -> pdt_entry p' pml4 pa = pdt_entry p pml4 pa.
Proof.
  intros H. unfold pdt_entry.
  rewrite (same_but_nx_pdpt_entry p p') by exact H.
  rewrite (same_but_nx_PageFrameNumber p p') by exact H. reflexivity.
Qed.

Lemma same_but_nx_pt_entry p p' pml4 pa :
  same_but_nx p p' -> pt_entry p' pml4 pa = pt_entry p pml4 pa.
Proof.
  intros H. unfold pt_entry.
  rewrite (same_but_nx_pdt_entry p p') by exact H.
  rewrite (same_but_nx_PageFrameNumber p p') by exact H. reflexivity.
Qed.

Lemma same_but_nx_walk_succeeds p p' pml4 pa :
  same_but_nx p p' -> walk_succeeds p pml4 pa -> walk_succeeds p' pml4 pa.
Proof.
  intros H [H4 [H3 H2]]. unfold walk_succeeds.
  rewrite (same_but_nx_pdt_entry p p'), (same_but_nx_pdpt_entry p p') by exact H.
  rewrite !(same_but_nx_Valid p p') by exact H. auto.
Qed.

(** ** ChangePermissionOfPage, stage by stage *)

Lemma stage_pdpt_same_but_nx p Pml4Table pa nx :
  same_but_nx p (stage_pdpt p Pml4Table pa nx).
Proof.
  unfold stage_pdpt.
  destruct (negb nx && negb (Fields.NoExecute
                               (load p (pdpt_entry p Pml4Table pa)) =? 0)).
  - eapply same_but_nx_trans;
      [apply same_but_nx_store_NoExecute|apply same_but_nx_ForEachEntry].
  - apply same_but_nx_refl.
Qed.

Lemma stage_pdt_same_but_nx p Pml4Table pa nx :
  same_but_nx p (stage_pdt p Pml4Table pa nx).
Proof.
  unfold stage_pdt.
  eapply same_but_nx_trans; [apply stage_pdpt_same_but_nx|].
  destruct (negb nx && _).
  - eapply same_but_nx_trans;
      [apply same_but_nx_store_NoExecute|apply same_but_nx_ForEachEntry].
  - apply same_but_nx_refl.
Qed.

(** The stages in closed form.  A free build checks nothing; a checked
    build needs the three interior entries valid. *)
Lemma ChangePermissionOfPage_stages_eq dbg p Pml4Table pa nx :
  dbg = false \/ walk_succeeds p Pml4Table pa ->
  ChangePermissionOfPage_stages dbg p Pml4Table pa nx
  = Done (mkCppTrace (stage_pdpt p Pml4Table pa nx)
                     (stage_pdt p Pml4Table pa nx)
                     (store_NoExecute (stage_pdt p Pml4Table pa nx)
                                      (pt_entry p Pml4Table pa) nx)).
Proof.
  intros Hok. unfold ChangePermissionOfPage_stages.
  assert (Ha : forall q, same_but_nx p q -> forall e,
             e = pml4_entry Pml4Table pa \/ e = pdpt_entry p Pml4Table pa
             \/ e = pdt_entry p Pml4Table pa ->
             NT_ASSERT dbg (negb (Fields.Valid (load q e) =? 0)) = Done tt).
  { intros q Hq e He. destruct Hok as [->|[H4 [H3 H2]]]; [reflexivity|].
    apply NT_ASSERT_holds. rewrite (same_but_nx_Valid p q) by exact Hq.
    destruct He as [-> | [-> | ->]];
      rewrite ?H4, ?H3, ?H2; reflexivity. }
  fold (pml4_entry Pml4Table pa). fold (pdpt_entry p Pml4Table pa).
  rewrite (Ha p (same_but_nx_refl p)) by auto. cbn [bind].
  rewrite (Ha p (same_but_nx_refl p)) by auto. cbn [bind].
  fold (pdt_entry p Pml4Table pa).
  change (Fields.PageFrameNumber (load p (pdpt_entry p Pml4Table pa)))
    with (fst (pdt_entry p Pml4Table pa)).
  fold (stage_pdpt p Pml4Table pa nx).
  rewrite (Ha _ (stage_pdpt_same_but_nx p Pml4Table pa nx)) by auto.
  cbn [bind].
  assert (Hpt1 : Fields.PageFrameNumber
                   (load (stage_pdpt p Pml4Table pa nx) (pdt_entry p Pml4Table pa))
                 = fst (pt_entry p Pml4Table pa)).
  { rewrite (same_but_nx_PageFrameNumber p)
      by apply stage_pdpt_same_but_nx. reflexivity. }
  rewrite Hpt1.
  change (fst (pt_entry p Pml4Table pa), GetPteIndex pa)
    with (pt_entry p Pml4Table pa).
  fold (stage_pdt p Pml4Table pa nx).
  rewrite (Ha _ (stage_pdt_same_but_nx p Pml4Table pa nx)) by auto.
  reflexivity.
Qed.

Lemma load_ForEachEntry_512 table nx p e :
  0 <= snd e < 512 ->
  load (ForEachEntrySetNoExecute 512 0 table nx p) e
  = if fst e =? table
    then Fields.set_NoExecute (load p e) (BOOLEAN nx)
    else load p e.
Proof. intros H. unfold load. apply qword_ForEachEntry_512. exact H. Qed.

Lemma load_store_NoExecute_same p e nx :
  load (store_NoExecute p e nx) e = Fields.set_NoExecute (load p e) (BOOLEAN nx).
Proof. unfold store_NoExecute. apply load_store_same. Qed.

Lemma load_store_NoExecute_other_table p e e' nx :
  fst e' <> fst e -> load (store_NoExecute p e nx) e' = load p e'.
Proof. unfold store_NoExecute. apply load_store_other_table. Qed.

Lemma pdpt_entry_index p pml4 pa : snd (pdpt_entry p pml4 pa) = GetPpeIndex pa.
Proof. reflexivity. Qed.
Lemma pdt_entry_index p pml4 pa : snd (pdt_entry p pml4 pa) = GetPdeIndex pa.
Proof. reflexivity. Qed.
Lemma pt_entry_index p pml4 pa : snd (pt_entry p pml4 pa) = GetPteIndex pa.
Proof. reflexivity. Qed.

(** ** C4: the single-leaf permission operation *)

(** C4.  For an address whose walk succeeds through three different
    pages (PDPT, PDT, PT), ChangePermissionOfPage returns in every build
    and:
    - asked to make the leaf executable, if the PDPT entry has
      NoExecute = 1 it is given NoExecute = 0 and all 512 entries of the
      PDT get NoExecute = 1; if the PDT entry then has NoExecute = 1
      (which is the case when it had it before or when the PDPT entry
      had it) it is given NoExecute = 0 and all 512 entries of the PT get
      NoExecute = 1; both happen before the leaf is written; the leaf
      write changes the leaf's NoExecute bit to 0 and nothing else, and
      in the end the PDPT entry, the PDT entry and the leaf all have
      NoExecute = 0;
    - asked to make the leaf non-executable, neither stage changes
      anything and the only change is the leaf's NoExecute bit, set to 1. *)
Theorem ChangePermissionOfPage_masks_siblings_before_leaf
    (dbg : bool) (p : phys) (Pml4Table pa : Z) :
  walk_succeeds p Pml4Table pa ->
  walk_tables_distinct p Pml4Table pa ->
  let e3 := pdpt_entry p Pml4Table pa in
  let e2 := pdt_entry p Pml4Table pa in
  let e1 := pt_entry p Pml4Table pa in
  (exists tr,
      ChangePermissionOfPage_stages dbg p Pml4Table pa false = Done tr /\
      ChangePermissionOfPage dbg p Pml4Table pa false
      = Done (after_leaf_write tr) /\
      (Fields.NoExecute (load p e3) = 1 ->
       Fields.NoExecute (load (after_pdpt_stage tr) e3) = 0 /\
       forall i, 0 <= i < 512 ->
         Fields.NoExecute (qword (after_pdpt_stage tr) (fst e2) i) = 1) /\
      (Fields.NoExecute (load p e3) = 1 \/ Fields.NoExecute (load p e2) = 1 ->
       Fields.NoExecute (load (after_pdpt_stage tr) e2) = 1) /\
      (Fields.NoExecute (load (after_pdpt_stage tr) e2) = 1 ->
       Fields.NoExecute (load (after_pdt_stage tr) e2) = 0 /\
       forall i, 0 <= i < 512 ->
         Fields.NoExecute (qword (after_pdt_stage tr) (fst e1) i) = 1) /\
      (forall t i,
          qword (after_leaf_write tr) t i
          = if (t =? fst e1) && (i =? snd e1)
            then Fields.set_NoExecute (qword (after_pdt_stage tr) t i) 0
            else qword (after_pdt_stage tr) t i) /\
      Fields.NoExecute (load (after_leaf_write tr) e3) = 0 /\
      Fields.NoExecute (load (after_leaf_write tr) e2) = 0 /\
      Fields.NoExecute (load (after_leaf_write tr) e1) = 0)
  /\
  (exists tr,
      ChangePermissionOfPage_stages dbg p Pml4Table pa true = Done tr /\
      ChangePermissionOfPage dbg p Pml4Table pa true
      = Done (after_leaf_write tr) /\
      after_pdpt_stage tr = p /\
      after_pdt_stage tr = p /\
      (forall t i,
          qword (after_leaf_write tr) t i
          = if (t =? fst e1) && (i =? snd e1)
            then Fields.set_NoExecute (qword p t i) 1
            else qword p t i)).
Proof.
  intros Hwalk [H32 [H31 H21]] e3 e2 e1.
  assert (Hi3 : 0 <= snd e3 < 512) by apply GetPpeIndex_range.
  assert (Hi2 : 0 <= snd e2 < 512) by apply GetPdeIndex_range.
  assert (Hi1 : 0 <= snd e1 < 512) by apply GetPteIndex_range.
  fold e3 e2 e1 in H32, H31, H21.
  split.
  - eexists. split; [apply ChangePermissionOfPage_stages_eq; auto|].
    split.
    { unfold ChangePermissionOfPage.
      rewrite ChangePermissionOfPage_stages_eq by auto. reflexivity. }
    cbn [after_pdpt_stage after_pdt_stage after_leaf_write].
    fold e1.
    (* the PDPT stage *)
    assert (S1 : Fields.NoExecute (load p e3) = 1 ->
                 stage_pdpt p Pml4Table pa false
                 = ForEachEntrySetNoExecute 512 0 (fst e2) true
                                            (store_NoExecute p e3 false)).
    { intros E. unfold stage_pdpt. fold e3 e2. rewrite E. reflexivity. }
    assert (S1' : Fields.NoExecute (load p e3) = 0 ->
                  stage_pdpt p Pml4Table pa false = p).
    { intros E. unfold stage_pdpt. fold e3 e2. rewrite E. reflexivity. }
    assert (A3 : Fields.NoExecute (load (stage_pdpt p Pml4Table pa false) e3) = 0).
    { destruct (NoExecute_bit (load p e3)) as [E|E].
      - rewrite S1' by exact E. exact E.
      - rewrite S1 by exact E. rewrite load_ForEachEntry_512 by exact Hi3.
        destruct (Z.eqb_spec (fst e3) (fst e2)); [contradiction|].
        rewrite load_store_NoExecute_same. apply NoExecute_set_NoExecute_0. }
    set (q1 := stage_pdpt p Pml4Table pa false) in *.
    (* the PDT stage *)
    assert (S2 : Fields.NoExecute (load q1 e2) = 1 ->
                 stage_pdt p Pml4Table pa false
                 = ForEachEntrySetNoExecute 512 0 (fst e1) true
                                            (store_NoExecute q1 e2 false)).
    { intros E. unfold stage_pdt. fold q1 e2 e1. rewrite E. reflexivity. }
    assert (S2' : Fields.NoExecute (load q1 e2) = 0 ->
                  stage_pdt p Pml4Table pa false = q1).
    { intros E. unfold stage_pdt. fold q1 e2 e1. rewrite E. reflexivity. }
    assert (B2 : Fields.NoExecute (load (stage_pdt p Pml4Table pa false) e2) = 0).
    { destruct (NoExecute_bit (load q1 e2)) as [E|E].
      - rewrite S2' by exact E. exact E.
      - rewrite S2 by exact E. rewrite load_ForEachEntry_512 by exact Hi2.
        destruct (Z.eqb_spec (fst e2) (fst e1)); [contradiction|].
        rewrite load_store_NoExecute_same. apply NoExecute_set_NoExecute_0. }
    assert (B3 : Fields.NoExecute (load (stage_pdt p Pml4Table pa false) e3) = 0).
    { destruct (NoExecute_bit (load q1 e2)) as [E|E].
      - rewrite S2' by exact E. exact A3.
      - rewrite S2 by exact E. rewrite load_ForEachEntry_512 by exact Hi3.
        destruct (Z.eqb_spec (fst e3) (fst e1)); [contradiction|].
        rewrite load_store_NoExecute_other_table by auto. exact A3. }
    set (q2 := stage_pdt p Pml4Table pa false) in *.
    repeat split.
    + exact A3.
    + intros i Hi. subst q1. rewrite S1 by assumption.
      rewrite qword_ForEachEntry_512 by exact Hi. rewrite Z.eqb_refl.
      apply NoExecute_set_NoExecute_1.
    + intros [E|E].
      * subst q1. rewrite S1 by exact E.
        rewrite load_ForEachEntry_512 by exact Hi2. rewrite Z.eqb_refl.
        apply NoExecute_set_NoExecute_1.
      * destruct (NoExecute_bit (load p e3)) as [E3|E3].
        -- subst q1. rewrite S1' by exact E3. exact E.
        -- subst q1. rewrite S1 by exact E3.
           rewrite load_ForEachEntry_512 by exact Hi2. rewrite Z.eqb_refl.
           apply NoExecute_set_NoExecute_1.
    + exact B2.
    + intros i Hi. subst q2. rewrite S2 by assumption.
      rewrite qword_ForEachEntry_512 by exact Hi. rewrite Z.eqb_refl.
      apply NoExecute_set_NoExecute_1.
    + intros t i. apply qword_store_NoExecute.
    + rewrite load_store_NoExecute_other_table by auto. exact B3.
    + rewrite load_store_NoExecute_other_table by auto. exact B2.
    + rewrite load_store_NoExecute_same. apply NoExecute_set_NoExecute_0.
  - eexists. split; [apply ChangePermissionOfPage_stages_eq; auto|].
    split.
    { unfold ChangePermissionOfPage.
      rewrite ChangePermissionOfPage_stages_eq by auto. reflexivity. }
    cbn [after_pdpt_stage after_pdt_stage after_leaf_write].
    repeat split.
    intros t i. apply qword_store_NoExecute.
Qed.

(** ** Hierarchies *)

Lemma hierarchy_walk_levels p pml4 level pa :
  NptHierarchy p pml4 level -> walk_succeeds p pml4 pa ->
  level (fst (pdpt_entry p pml4 pa)) = 3%nat /\
  level (fst (pdt_entry p pml4 pa)) = 2%nat /\
  level (fst (pt_entry p pml4 pa)) = 1%nat.
Proof.
  intros [Hroot Hchild] [H4 [H3 H2]].
  assert (L3 : level (fst (pdpt_entry p pml4 pa)) = 3%nat).
  { apply (Hchild pml4 (GetPxeIndex pa) 2%nat Hroot (GetPxeIndex_range pa)).
    exact H4. }
  assert (L2 : level (fst (pdt_entry p pml4 pa)) = 2%nat).
  { apply (Hchild _ (GetPpeIndex pa) 1%nat L3 (GetPpeIndex_range pa)).
    exact H3. }
  assert (L1 : level (fst (pt_entry p pml4 pa)) = 1%nat).
  { apply (Hchild _ (GetPdeIndex pa) 0%nat L2 (GetPdeIndex_range pa)).
    exact H2. }
  auto.
Qed.

Lemma hierarchy_walk_tables_distinct p pml4 level pa :
  NptHierarchy p pml4 level -> walk_succeeds p pml4 pa ->
  walk_tables_distinct p pml4 pa.
Proof.
  intros Hh Hw. destruct (hierarchy_walk_levels _ _ _ _ Hh Hw) as [L3 [L2 L1]].
  unfold walk_tables_distinct. repeat split; intros E; congruence.
Qed.

(** ** Cells *)

Lemma cell_in_spec t i cells : cell_in t i cells = true <-> In (t, i) cells.
Proof.
  unfold cell_in. rewrite existsb_exists. split.
  - intros [e [Hin He]]. apply andb_true_iff in He. destruct He as [Ht Hi].
    apply Z.eqb_eq in Ht, Hi. destruct e; simpl in *. subst. exact Hin.
  - intros Hin. exists (t, i). split; [exact Hin|]. simpl.
    rewrite !Z.eqb_refl. reflexivity.
Qed.

Lemma cell_in_cons t i e cells :
  cell_in t i (e :: cells) = ((t =? fst e) && (i =? snd e)) || cell_in t i cells.
Proof. reflexivity. Qed.

(** ** The loops over the registered hooks *)

(** Arming: every ChangePermissionOfPage(..., TRUE) writes one leaf. *)
Lemma ForEachRegistration_arm dbg p pml4 rs :
  forall q,
    same_but_nx p q ->
    (forall r, In r rs -> walk_succeeds p pml4 (PhyPageBase (HookEntry r))) ->
    exists q',
      ForEachRegistrationChangePermission dbg rs q pml4 true = Done q' /\
      free_pages q' = free_pages q /\
      forall t i,
        qword q' t i
        = if cell_in t i (hook_leaves rs p pml4)
          then Fields.set_NoExecute (qword q t i) 1
          else qword q t i.
Proof.
  induction rs as [|r rs IH]; intros q Hq Hmapped.
  - exists q. repeat split.
  - cbn [ForEachRegistrationChangePermission].
    unfold ChangePermissionOfPage.
    rewrite ChangePermissionOfPage_stages_eq
      by (right; apply (same_but_nx_walk_succeeds p q); auto; apply Hmapped;
          left; reflexivity).
    cbn [bind after_leaf_write].
    replace (stage_pdt q pml4 (PhyPageBase (HookEntry r)) true) with q
      by reflexivity.
    rewrite (same_but_nx_pt_entry p q) by exact Hq.
    set (e1 := pt_entry p pml4 (PhyPageBase (HookEntry r))).
    destruct (IH (store_NoExecute q e1 true)) as [q' [Hrun [Hfree Hq']]].
    { eapply same_but_nx_trans; [exact Hq|apply same_but_nx_store_NoExecute]. }
    { intros r' Hr'. apply Hmapped. right. exact Hr'. }
    exists q'. split; [exact Hrun|]. split; [rewrite Hfree; reflexivity|].
    intros t i. rewrite Hq', qword_store_NoExecute.
    cbn [hook_leaves map]. fold (hook_leaves rs p pml4). fold e1.
    rewrite cell_in_cons.
    destruct ((t =? fst e1) && (i =? snd e1)); cbn [orb];
      destruct (cell_in t i (hook_leaves rs p pml4)); try reflexivity.
    apply set_NoExecute_idem.
Qed.

(** Disarming, when no interior entry on the way to a hook page has
    NoExecute set: every ChangePermissionOfPage(..., FALSE) writes one
    leaf. *)
Lemma ForEachRegistration_disarm dbg p pml4 rs :
  forall q,
    same_but_nx p q ->
    (forall r, In r rs ->
       walk_succeeds p pml4 (PhyPageBase (HookEntry r)) /\
       Fields.NoExecute (load q (pdpt_entry p pml4 (PhyPageBase (HookEntry r)))) = 0 /\
       Fields.NoExecute (load q (pdt_entry p pml4 (PhyPageBase (HookEntry r)))) = 0) ->
    exists q',
      ForEachRegistrationChangePermission dbg rs q pml4 false = Done q' /\
      free_pages q' = free_pages q /\
      forall t i,
        qword q' t i
        = if cell_in t i (hook_leaves rs p pml4)
          then Fields.set_NoExecute (qword q t i) 0
          else qword q t i.
Proof.
  induction rs as [|r rs IH]; intros q Hq Hpre.
  - exists q. repeat split.
  - cbn [ForEachRegistrationChangePermission].
    destruct (Hpre r (or_introl eq_refl)) as [Hw [N3 N2]].
    unfold ChangePermissionOfPage.
    rewrite ChangePermissionOfPage_stages_eq
      by (right; apply (same_but_nx_walk_succeeds p q); auto).
    cbn [bind after_leaf_write].
    assert (S1 : stage_pdpt q pml4 (PhyPageBase (HookEntry r)) false = q).
    { unfold stage_pdpt. rewrite (same_but_nx_pdpt_entry p q) by exact Hq.
      rewrite N3. reflexivity. }
    assert (S2 : stage_pdt q pml4 (PhyPageBase (HookEntry r)) false = q).
    { unfold stage_pdt. rewrite S1.
      rewrite (same_but_nx_pdt_entry p q) by exact Hq.
      rewrite N2. reflexivity. }
    rewrite S2. rewrite (same_but_nx_pt_entry p q) by exact Hq.
    set (e1 := pt_entry p pml4 (PhyPageBase (HookEntry r))).
    destruct (IH (store_NoExecute q e1 false)) as [q' [Hrun [Hfree Hq']]].
    { eapply same_but_nx_trans; [exact Hq|apply same_but_nx_store_NoExecute]. }
    { intros r' Hr'. destruct (Hpre r' (or_intror Hr')) as [Hw' [N3' N2']].
      split; [exact Hw'|].
      unfold load in *. rewrite !qword_store_NoExecute.
      split.
      - destruct (_ && _); [apply NoExecute_set_NoExecute_0|exact N3'].
      - destruct (_ && _); [apply NoExecute_set_NoExecute_0|exact N2']. }
    exists q'. split; [exact Hrun|]. split; [rewrite Hfree; reflexivity|].
    intros t i. rewrite Hq', qword_store_NoExecute.
    cbn [hook_leaves map]. fold (hook_leaves rs p pml4). fold e1.
    rewrite cell_in_cons.
    destruct ((t =? fst e1) && (i =? snd e1)); cbn [orb];
      destruct (cell_in t i (hook_leaves rs p pml4)); try reflexivity.
    apply set_NoExecute_idem.
Qed.

Lemma hook_leaves_level g p pml4 level t i :
  NptHierarchy p pml4 level -> hooks_mapped g p pml4 ->
  In (t, i) (hook_leaves g p pml4) -> level t = 1%nat /\ 0 <= i < 512.
Proof.
  intros Hh Hm Hin. unfold hook_leaves in Hin. apply in_map_iff in Hin.
  destruct Hin as [r [E Hr]].
  destruct (hierarchy_walk_levels _ _ _ _ Hh (Hm r Hr)) as [_ [_ L1]].
  rewrite E in L1. simpl in L1. split; [exact L1|].
  replace i with (snd (pt_entry p pml4 (PhyPageBase (HookEntry r))))
    by (rewrite E; reflexivity).
  apply GetPteIndex_range.
Qed.

Lemma cell_in_false_by_level g p pml4 level e :
  NptHierarchy p pml4 level -> hooks_mapped g p pml4 ->
  level (fst e) <> 1%nat -> cell_in (fst e) (snd e) (hook_leaves g p pml4) = false.
Proof.
  intros Hh Hm Hl. destruct (cell_in _ _ _) eqn:E; [|reflexivity].
  apply cell_in_spec in E.
  destruct (hook_leaves_level _ _ _ _ _ _ Hh Hm E) as [L _]. contradiction.
Qed.

(** ** C3: enabling and then disabling the hooks *)

(** What EnableHooks does to a hierarchy whose hook pages are mapped: it
    returns, and it sets the NoExecute bit of the leaf of every registered
    hook page and changes nothing else. *)
Lemma EnableHooks_arms_leaves dbg g p hd :
  hooks_mapped g p (Pml4Table hd) ->
  NptState hd = NptDefault -> ActiveHookEntry hd = None ->
  exists p1,
    EnableHooks dbg g p hd
    = Done (p1, set_NptState hd NptHookEnabledInvisible) /\
    free_pages p1 = free_pages p /\
    forall t i,
      qword p1 t i
      = if cell_in t i (hook_leaves g p (Pml4Table hd))
        then Fields.set_NoExecute (qword p t i) 1
        else qword p t i.
Proof.
  intros Hm Hs Ha. unfold EnableHooks. rewrite Hs, Ha.
  rewrite !NT_ASSERT_true. cbn [bind].
  destruct (ForEachRegistration_arm dbg p (Pml4Table hd) g p
              (same_but_nx_refl p) Hm) as [p1 [Hrun [Hfree Hq]]].
  rewrite Hrun. cbn [bind]. exists p1. auto.
Qed.

(** C3.  Take a hierarchy with no NoExecute bit set in any table and
    with every registered hook page mapped (the NPT as initialisation
    builds it), and a HOOK_DATA in NptDefault with no active hook.
    EnableHooks returns in NptHookEnabledInvisible, DisableHooks then
    returns, and afterwards every entry of physical memory, hence every
    NPT entry at every level, has the value it had before EnableHooks;
    the HOOK_DATA is again what it was: NptDefault, no active hook. *)
Theorem EnableHooks_then_DisableHooks_restores_npt
    (dbg : bool) (g : list HOOK_REGISTRATION_ENTRY) (p : phys)
    (hd : HOOK_DATA) (level : Z -> nat) :
  NptHierarchy p (Pml4Table hd) level ->
  AllExecutable p level ->
  hooks_mapped g p (Pml4Table hd) ->
  NptState hd = NptDefault ->
  ActiveHookEntry hd = None ->
  exists p1 hd1 p2 hd2,
    EnableHooks dbg g p hd = Done (p1, hd1) /\
    NptState hd1 = NptHookEnabledInvisible /\
    DisableHooks dbg g p1 hd1 = Done (p2, hd2) /\
    same_contents p p2 /\
    hd2 = hd /\
    NptState hd2 = NptDefault /\
    ActiveHookEntry hd2 = None.
Proof.
  intros Hh Hx Hm Hs Ha.
  destruct (EnableHooks_arms_leaves dbg g p hd Hm Hs Ha)
    as [p1 [Hen [Hfree1 Hq1]]].
  set (pml4 := Pml4Table hd) in *.
  assert (Hsame : same_but_nx p p1).
  { split; [|exact Hfree1]. intros t i. rewrite Hq1.
    destruct (cell_in t i _); [apply set_NoExecute_idem|reflexivity]. }
  assert (Hinterior : forall e, level (fst e) <> 0%nat -> level (fst e) <> 1%nat ->
                                0 <= snd e < 512 ->
                                Fields.NoExecute (load p1 e) = 0).
  { intros e L0 L1 Hi. unfold load. rewrite Hq1.
    rewrite (cell_in_false_by_level g p pml4 level e Hh Hm L1).
    apply Hx; assumption. }
  destruct (ForEachRegistration_disarm dbg p pml4 g p1 Hsame)
    as [p2 [Hdis [Hfree2 Hq2]]].
  { intros r Hr. split; [apply Hm; exact Hr|].
    destruct (hierarchy_walk_levels _ _ _ _ Hh (Hm r Hr)) as [L3 [L2 _]].
    split; apply Hinterior; rewrite ?L3, ?L2; try discriminate.
    - apply GetPpeIndex_range.
    - apply GetPdeIndex_range. }
  exists p1, (set_NptState hd NptHookEnabledInvisible), p2, hd.
  split; [exact Hen|]. split; [reflexivity|]. split.
  { unfold DisableHooks. cbn [NptState set_NptState ActiveHookEntry].
    rewrite Ha. cbn [NPT_STATE_eqb negb is_some].
    rewrite !NT_ASSERT_true. cbn [bind Pml4Table set_NptState].
    fold pml4. rewrite Hdis. cbn [bind].
    destruct hd; simpl in *; subst; reflexivity. }
  split.
  { split; [|congruence]. intros t i. rewrite Hq2, Hq1.
    destruct (cell_in t i (hook_leaves g p pml4)) eqn:E; [|reflexivity].
    apply cell_in_spec in E.
    destruct (hook_leaves_level _ _ _ _ _ _ Hh Hm E) as [L1 Hi].
    rewrite set_NoExecute_idem.
    rewrite <- (Hx t i) by (rewrite ?L1; auto; discriminate).
    apply set_NoExecute_same. }
  auto.
Qed.

(** ** Building entries *)

Lemma built_entry_Valid old pfn : Fields.Valid (built_entry old pfn) = 1.
Proof.
  unfold built_entry, Fields.Valid, Fields.set_PageFrameNumber,
    Fields.set_User, Fields.set_Write, Fields.set_Valid.
  rewrite !get_set_field_other by lia. rewrite get_set_field_same by lia.
  reflexivity.
Qed.

Lemma built_entry_Write old pfn : Fields.Write (built_entry old pfn) = 1.
Proof.
  unfold built_entry, Fields.Write, Fields.set_PageFrameNumber,
    Fields.set_User, Fields.set_Write, Fields.set_Valid.
  rewrite !get_set_field_other by lia. rewrite get_set_field_same by lia.
  reflexivity.
Qed.

Lemma built_entry_User old pfn : Fields.User (built_entry old pfn) = 1.
Proof.
  unfold built_entry, Fields.User, Fields.set_PageFrameNumber,
    Fields.set_User, Fields.set_Write, Fields.set_Valid.
  rewrite !get_set_field_other by lia. rewrite get_set_field_same by lia.
  reflexivity.
Qed.

Lemma built_entry_PageFrameNumber old pfn :
  Fields.PageFrameNumber (built_entry old pfn) = Z.land pfn (Z.ones 40).
Proof.
  unfold built_entry, Fields.PageFrameNumber, Fields.set_PageFrameNumber.
  apply get_set_field_same; lia.
Qed.

Lemma built_entry_PageFrameNumber_small old pfn :
  0 <= pfn < 2 ^ 40 -> Fields.PageFrameNumber (built_entry old pfn) = pfn.
Proof.
  intros. rewrite built_entry_PageFrameNumber. apply land_ones_small; lia.
Qed.

Lemma built_entry_NoExecute old pfn :
  Fields.NoExecute (built_entry old pfn) = Fields.NoExecute old.
Proof.
  unfold built_entry, Fields.NoExecute, Fields.set_PageFrameNumber,
    Fields.set_User, Fields.set_Write, Fields.set_Valid.
  rewrite !get_set_field_other by lia. reflexivity.
Qed.

Lemma skipn_nth_error {A : Type} (l : list A) (n : nat) (x : A) :
  nth_error l n = Some x -> skipn n l = x :: skipn (S n) l.
Proof.
  revert l. induction n as [|n IH]; intros [|y l] H; try discriminate.
  - injection H as ->. reflexivity.
  - simpl in H. rewrite (skipn_cons n y l). rewrite (IH l H). reflexivity.
Qed.

(** The four field stores of BuildNestedPageTableEntry, as one. *)
Lemma qword_build_stores p e pfn t i :
  let p2 := store p e (Fields.set_Valid (load p e) 1) in
  let p3 := store p2 e (Fields.set_Write (load p2 e) 1) in
  let p4 := store p3 e (Fields.set_User (load p3 e) 1) in
  let p5 := store p4 e (Fields.set_PageFrameNumber (load p4 e) pfn) in
  qword p5 t i
  = if (t =? fst e) && (i =? snd e) then built_entry (qword p t i) pfn
    else qword p t i.
Proof.
  cbv zeta. rewrite !load_store_same. rewrite !qword_store.
  destruct (Z.eqb_spec t (fst e)) as [->|]; [|reflexivity].
  destruct (Z.eqb_spec i (snd e)) as [->|]; reflexivity.
Qed.

(** BuildNestedPageTableEntry for an address: no allocation. *)
Lemma BuildNestedPageTableEntry_address p e pa H :
  pa <> MAXULONG64 ->
  exists p',
    BuildNestedPageTableEntry p e pa H = Done (true, p', H) /\
    free_pages p' = free_pages p /\
    forall t i,
      qword p' t i
      = if (t =? fst e) && (i =? snd e)
        then built_entry (qword p t i) (GetPfnFromPa pa)
        else qword p t i.
Proof.
  intros Hpa. unfold BuildNestedPageTableEntry.
  destruct (Z.eqb_spec pa MAXULONG64); [contradiction|].
  cbn [bind]. eexists. split; [reflexivity|]. split; [reflexivity|].
  intros t i. apply qword_build_stores.
Qed.

(** What a successful allocation gives: the head of the source, zeroed,
    with the rest of memory as it was. *)
Lemma AllocateNptEntry_Some p level H q p1 H1 :
  source_ok p level H ->
  AllocateNptEntry p H = Done (Some q, p1, H1) ->
  exists rest,
    source_pages p H = q :: rest /\
    source_pages p1 H1 = rest /\
    page_zeroed p1 q /\
    (forall t i, t <> q -> qword p1 t i = qword p t i) /\
    match H with
    | None => H1 = None
    | Some hd =>
        p1 = p /\
        H1 = Some (set_UsedPreAllocatedEntriesCount hd
                     (UsedPreAllocatedEntriesCount hd + 1)) /\
        UsedPreAllocatedEntriesCount hd + 1 <= NumberOfPreAllocatedNptEntries
    end.
Proof.
  intros [Hfresh Hpool] Hrun. destruct H as [hd|].
  - destruct Hpool as [Hused [Hlen Hzero]].
    destruct (AllocateNptEntry_Done_bound p hd _ Hused Hlen Hrun)
      as [entry [hd' [E [Ehd [Hnth Hused']]]]].
    injection E as -> -> ->. subst hd'.
    exists (skipn (S (Z.to_nat (UsedPreAllocatedEntriesCount hd)))
                  (PreAllocatedNptEntries hd)).
    cbn [source_pages UsedPreAllocatedEntriesCount PreAllocatedNptEntries
         set_UsedPreAllocatedEntriesCount].
    rewrite (skipn_nth_error _ _ _ Hnth).
    replace (Z.to_nat (UsedPreAllocatedEntriesCount hd + 1))
      with (S (Z.to_nat (UsedPreAllocatedEntriesCount hd))) by lia.
    split; [reflexivity|]. split; [reflexivity|]. split.
    { apply Hzero. cbn [source_pages]. rewrite (skipn_nth_error _ _ _ Hnth).
      left. reflexivity. }
    split; [reflexivity|]. split; [reflexivity|]. split; [reflexivity|].
    simpl in Hused'. lia.
  - unfold AllocateNptEntry in Hrun. cbn [source_pages].
    destruct (free_pages p) as [|entry rest] eqn:E; [discriminate|].
    injection Hrun as <- <- <-. exists rest.
    split; [reflexivity|]. split; [reflexivity|]. split.
    { intros i Hi. cbn [RtlZeroMemory qword]. rewrite Z.eqb_refl.
      destruct (Z.leb_spec 0 i), (Z.ltb_spec i 512); try lia. reflexivity. }
    split; [|reflexivity].
    intros t i Ht. cbn [RtlZeroMemory qword].
    destruct (Z.eqb_spec t entry); [contradiction|]. reflexivity.
Qed.

Lemma AllocateNptEntry_None p H p1 H1 :
  AllocateNptEntry p H = Done (None, p1, H1) ->
  H = None /\ p1 = p /\ H1 = None.
Proof.
  unfold AllocateNptEntry. destruct H as [hd|].
  - destruct (_ >? _); [discriminate|].
    destruct (nth_error _ _); discriminate.
  - destruct (free_pages p); [|discriminate].
    intros [= <- <-]. auto.
Qed.

(** The three ways EnsureSubTable can go in a build. *)
Lemma EnsureSubTable_build_cases p level H e ok p' H' :
  source_ok p level H ->
  EnsureSubTable p e BuildOperation H = Done (ok, p', H') ->
  (Fields.Valid (load p e) = 1 /\ ok = true /\ p' = p /\ H' = H) \/
  (Fields.Valid (load p e) = 0 /\ ok = false /\ H = None /\ p' = p /\ H' = None) \/
  (Fields.Valid (load p e) = 0 /\ ok = true /\
   exists q p1,
     AllocateNptEntry p H = Done (Some q, p1, H') /\
     free_pages p' = free_pages p1 /\
     forall t i,
       qword p' t i
       = if (t =? fst e) && (i =? snd e) then built_entry (qword p1 t i) q
         else qword p1 t i).
Proof.
  intros Hsrc. unfold EnsureSubTable.
  destruct (Valid_bit (load p e)) as [E|E]; rewrite E.
  - cbn [Z.eqb negb is_BuildOperation]. unfold BuildNestedPageTableEntry.
    rewrite Z.eqb_refl.
    destruct (AllocateNptEntry p H) as [[[r p1] H1]| | |] eqn:A;
      cbn [bind]; try discriminate.
    destruct r as [q|].
    + intros [= <- <- <-]. right. right.
      split; [reflexivity|]. split; [reflexivity|].
      exists q, p1. split; [reflexivity|]. split; [reflexivity|].
      intros t i. apply qword_build_stores.
    + intros [= <- <- <-]. right. left.
      destruct (AllocateNptEntry_None _ _ _ _ A) as [-> [-> ->]]. auto.
  - change (1 =? 0) with false. cbn iota.
    intros [= <- <- <-]. left. auto.
Qed.

(** ** The invariant of building *)

Lemma level_extends_refl level : level_extends level level.
Proof. intros t _. reflexivity. Qed.

Lemma level_extends_trans l1 l2 l3 :
  level_extends l1 l2 -> level_extends l2 l3 -> level_extends l1 l3.
Proof.
  intros H12 H23 t Ht. rewrite H23; [apply H12; exact Ht|].
  rewrite H12; exact Ht.
Qed.

Lemma interior_preserved_refl p level : interior_preserved p p level.
Proof. intros t i _ _ _. reflexivity. Qed.

Lemma interior_preserved_trans p1 p2 p3 l1 l2 :
  interior_preserved p1 p2 l1 -> interior_preserved p2 p3 l2 ->
  level_extends l1 l2 ->
  interior_preserved p1 p3 l1.
Proof.
  intros H12 H23 Hext t i Hl Hi Hv.
  assert (E : qword p2 t i = qword p1 t i) by (apply H12; assumption).
  rewrite <- E. apply H23; [|exact Hi|rewrite E; exact Hv].
  rewrite Hext; [exact Hl|lia].
Qed.

(** Walks that succeed keep succeeding, through the same entries. *)
Lemma interior_preserved_walk p p' pml4 level pa :
  NptHierarchy p pml4 level -> interior_preserved p p' level ->
  walk_succeeds p pml4 pa ->
  walk_succeeds p' pml4 pa /\
  pdpt_entry p' pml4 pa = pdpt_entry p pml4 pa /\
  pdt_entry p' pml4 pa = pdt_entry p pml4 pa /\
  pt_entry p' pml4 pa = pt_entry p pml4 pa.
Proof.
  intros Hh Hp Hw.
  destruct (hierarchy_walk_levels _ _ _ _ Hh Hw) as [L3 [L2 L1]].
  destruct Hh as [L4 _]. destruct Hw as [V4 [V3 V2]].
  assert (E4 : load p' (pml4_entry pml4 pa) = load p (pml4_entry pml4 pa)).
  { apply Hp; [cbn [fst pml4_entry]; lia|apply GetPxeIndex_range|exact V4]. }
  assert (P3 : pdpt_entry p' pml4 pa = pdpt_entry p pml4 pa).
  { unfold pdpt_entry. rewrite E4. reflexivity. }
  assert (E3 : load p' (pdpt_entry p pml4 pa) = load p (pdpt_entry p pml4 pa)).
  { apply Hp; [lia|apply GetPpeIndex_range|exact V3]. }
  assert (P2 : pdt_entry p' pml4 pa = pdt_entry p pml4 pa).
  { unfold pdt_entry. rewrite P3, E3. reflexivity. }
  assert (E2 : load p' (pdt_entry p pml4 pa) = load p (pdt_entry p pml4 pa)).
  { apply Hp; [lia|apply GetPdeIndex_range|exact V2]. }
  assert (P1 : pt_entry p' pml4 pa = pt_entry p pml4 pa).
  { unfold pt_entry. rewrite P2, E2. reflexivity. }
  unfold walk_succeeds. rewrite P3, P2, E4, E3, E2. auto.
Qed.

Lemma Valid_zero : Fields.Valid 0 = 0.
Proof. reflexivity. Qed.

Lemma NoExecute_zero : Fields.NoExecute 0 = 0.
Proof. reflexivity. Qed.

(** A new sub table: the page taken from the source becomes a table one
    level below the entry that names it. *)
Lemma build_invariant_created p pml4 level H e k q p1 H' p' :
  build_invariant p pml4 level H ->
  level (fst e) = S (S k) -> 0 <= snd e < 512 ->
  Fields.Valid (load p e) = 0 ->
  AllocateNptEntry p H = Done (Some q, p1, H') ->
  free_pages p' = free_pages p1 ->
  (forall t i,
      qword p' t i
      = if (t =? fst e) && (i =? snd e) then built_entry (qword p1 t i) q
        else qword p1 t i) ->
  let level' := fun t => if t =? q then S k else level t in
  build_invariant p' pml4 level' H' /\
  level_extends level level' /\
  interior_preserved p p' level /\
  Fields.Valid (load p' e) = 1 /\
  Fields.PageFrameNumber (load p' e) = q /\
  level q = 0%nat /\
  page_zeroed p' q.
Proof.
  intros [[Hroot Hchild] [Hx Hsrc]] Le Hi Hinvalid Halloc Hfree Hq level'.
  destruct (AllocateNptEntry_Some _ _ _ _ _ _ Hsrc Halloc)
    as [rest [Hsp [Hsp' [Hzero [Hframe Hcase]]]]].
  destruct Hsrc as [[Hnodup Hfresh] Hpool].
  rewrite Hsp in Hnodup, Hfresh.
  destruct (Hfresh q (or_introl eq_refl)) as [Lq Rq].
  assert (Hnotin : ~ In q rest) by (inversion Hnodup; assumption).
  assert (Hnodup' : NoDup rest) by (inversion Hnodup; assumption).
  assert (Heq : fst e <> q) by (intros E; rewrite E in Le; congruence).
  assert (Hcell : forall t i, (t =? fst e) && (i =? snd e) = true ->
                              t = fst e /\ i = snd e).
  { intros t i E. apply andb_true_iff in E. destruct E as [E1 E2].
    apply Z.eqb_eq in E1, E2. auto. }
  assert (Hqpage : forall i, 0 <= i < 512 -> qword p' q i = 0).
  { intros i Hi'. rewrite Hq.
    destruct ((q =? fst e) && (i =? snd e)) eqn:E.
    - apply Hcell in E. destruct E as [E _]. congruence.
    - apply Hzero. exact Hi'. }
  assert (Hother : forall t i, t <> q ->
             (t =? fst e) && (i =? snd e) = false ->
             qword p' t i = qword p t i).
  { intros t i Ht E. rewrite Hq, E. apply Hframe. exact Ht. }
  assert (He : load p' e = built_entry (qword p1 (fst e) (snd e)) q).
  { unfold load. rewrite Hq, !Z.eqb_refl. reflexivity. }
  assert (Hlq : level' q = S k) by (unfold level'; rewrite Z.eqb_refl; reflexivity).
  assert (Hl : forall t, t <> q -> level' t = level t).
  { intros t Ht. unfold level'. destruct (Z.eqb_spec t q); [contradiction|].
    reflexivity. }
  assert (Hsrc' : source_pages p' H' = rest).
  { destruct H as [hd|].
    - destruct Hcase as [-> [-> _]]. exact Hsp'.
    - subst H'. cbn [source_pages] in *. rewrite Hfree. exact Hsp'. }
  assert (B1 : NptHierarchy p' pml4 level').
  { split.
    - rewrite Hl; [exact Hroot|]. intros E. rewrite E in Hroot. congruence.
    - intros t i k' Lt Hi' Hv.
      destruct (Z.eq_dec t q) as [->|Ht].
      + rewrite Hqpage in Hv by exact Hi'. rewrite Valid_zero in Hv.
        discriminate.
      + rewrite Hl in Lt by exact Ht.
        destruct ((t =? fst e) && (i =? snd e)) eqn:E.
        * apply Hcell in E. destruct E as [-> ->].
          change (qword p' (fst e) (snd e)) with (load p' e).
          rewrite He, built_entry_PageFrameNumber_small by exact Rq.
          rewrite Hlq. congruence.
        * rewrite Hother in * by assumption.
          specialize (Hchild t i k' Lt Hi' Hv).
          rewrite Hl; [exact Hchild|].
          intros Eq. rewrite Eq in Hchild. congruence. }
  assert (B2 : AllExecutable p' level').
  { intros t i Lt Hi'.
    destruct (Z.eq_dec t q) as [->|Ht].
    - rewrite Hqpage by exact Hi'. apply NoExecute_zero.
    - rewrite Hl in Lt by exact Ht.
      destruct ((t =? fst e) && (i =? snd e)) eqn:E.
      + rewrite Hq, E, built_entry_NoExecute, Hframe by exact Ht.
        apply Hx; assumption.
      + rewrite Hother by assumption. apply Hx; assumption. }
  assert (B3 : source_ok p' level' H').
  { split.
    - rewrite Hsrc'. split; [exact Hnodup'|].
      intros q' Hin.
      rewrite Hl by (intros ->; contradiction).
      apply Hfresh. right. exact Hin.
    - destruct H as [hd|]; [|subst H'; exact I].
      destruct Hcase as [-> [-> Hle]].
      destruct Hpool as [Hused [Hlen Hz]].
      split; [cbn; lia|]. split; [exact Hlen|].
      intros q' Hin i Hi'.
      assert (Hin' : In q' rest) by (rewrite <- Hsp'; exact Hin).
      assert (Lq' : level q' = 0%nat) by (apply Hfresh; right; exact Hin').
      rewrite Hq.
      destruct ((q' =? fst e) && (i =? snd e)) eqn:E.
      + apply Hcell in E. destruct E as [E _]. rewrite E in Lq'. congruence.
      + apply Hz; [|exact Hi']. rewrite Hsp. right. exact Hin'. }
  split; [exact (conj B1 (conj B2 B3))|].
  split.
  { intros t Lt. apply Hl. intros ->. contradiction. }
  split.
  { intros t i Lt Hi' Hv.
    assert (Ht : t <> q) by (intros ->; rewrite Lq in Lt; lia).
    apply Hother; [exact Ht|].
    destruct ((t =? fst e) && (i =? snd e)) eqn:E; [|reflexivity].
    apply Hcell in E. destruct E as [-> ->].
    unfold load in Hinvalid. rewrite Hinvalid in Hv. discriminate. }
  split; [rewrite He; apply built_entry_Valid|].
  split; [rewrite He; apply built_entry_PageFrameNumber_small; exact Rq|].
  split; [exact Lq|exact Hqpage].
Qed.

Lemma set_UsedPreAllocatedEntriesCount_same hd :
  set_UsedPreAllocatedEntriesCount hd (UsedPreAllocatedEntriesCount hd + 0) = hd.
Proof. rewrite Z.add_0_r. destruct hd; reflexivity. Qed.

Lemma count_advanced_zero H : count_advanced H H 0.
Proof.
  destruct H as [hd|]; cbn; [|reflexivity].
  rewrite set_UsedPreAllocatedEntriesCount_same. reflexivity.
Qed.

Lemma count_advanced_trans H1 H2 H3 n m :
  count_advanced H1 H2 n -> count_advanced H2 H3 m ->
  count_advanced H1 H3 (n + m).
Proof.
  destruct H1 as [hd|]; cbn.
  - intros ->. cbn. intros ->. f_equal. unfold set_UsedPreAllocatedEntriesCount.
    cbn. f_equal. lia.
  - intros ->. cbn. auto.
Qed.

Lemma count_advanced_not_None H H' n :
  count_advanced H H' n -> H <> None -> H' <> None.
Proof. destruct H; cbn; [intros ->; discriminate|contradiction]. Qed.

Lemma cell_in_app t i a b :
  cell_in t i (a ++ b) = cell_in t i a || cell_in t i b.
Proof. apply existsb_app. Qed.

Lemma cell_in_single_false t i e :
  (t, i) <> e -> cell_in t i [e] = false.
Proof.
  intros Hne. destruct (cell_in t i [e]) eqn:E; [|reflexivity].
  apply cell_in_spec in E. destruct E as [E|[]]. congruence.
Qed.

Lemma cell_in_single t i e :
  cell_in t i [e] = (t =? fst e) && (i =? snd e).
Proof. cbn. apply orb_false_r. Qed.

Lemma EnsureSubTable_build_invariant p pml4 level H e k ok p' H' :
  build_invariant p pml4 level H ->
  level (fst e) = S (S k) -> 0 <= snd e < 512 ->
  EnsureSubTable p e BuildOperation H = Done (ok, p', H') ->
  exists level' created,
    build_invariant p' pml4 level' H' /\
    level_extends level level' /\
    interior_preserved p p' level /\
    (ok = true ->
     Fields.Valid (load p' e) = 1 /\
     level' (Fields.PageFrameNumber (load p' e)) = S k) /\
    (ok = false -> H = None) /\
    (created = [] \/
     (created = [e] /\ Fields.Valid (load p e) = 0 /\
      Fields.Write (load p' e) = 1 /\ Fields.User (load p' e) = 1 /\
      page_zeroed p' (Fields.PageFrameNumber (load p' e)))) /\
    cells_kept p p' H level created /\
    count_advanced H H' (List.length created).
Proof.
  intros Hinv Le Hi Hrun.
  destruct (EnsureSubTable_build_cases p level H e ok p' H'
              (proj2 (proj2 Hinv)) Hrun)
    as [[Hv [-> [-> ->]]]|[[Hv [-> [-> [-> ->]]]]|[Hv [-> [q [p1 [Ha [Hf Hq]]]]]]]].
  - exists level, []. split; [exact Hinv|]. split; [apply level_extends_refl|].
    split; [apply interior_preserved_refl|]. split.
    { intros _. split; [exact Hv|].
      destruct Hinv as [[_ Hchild] _]. destruct e as [t i].
      apply (Hchild t i k Le Hi Hv). }
    split; [discriminate|].
    split; [left; reflexivity|]. split; [intros t i _ _; reflexivity|].
    apply count_advanced_zero.
  - exists level, []. split; [exact Hinv|]. split; [apply level_extends_refl|].
    split; [apply interior_preserved_refl|]. split; [discriminate|].
    split; [reflexivity|].
    split; [left; reflexivity|]. split; [intros t i _ _; reflexivity|].
    reflexivity.
  - destruct (build_invariant_created p pml4 level H e k q p1 H' p'
                Hinv Le Hi Hv Ha Hf Hq)
      as [B [Hext [Hpres [Hv' [Hpfn [Lq Hzq]]]]]].
    destruct (AllocateNptEntry_Some _ _ _ _ _ _ (proj2 (proj2 Hinv)) Ha)
      as [rest [Hsp [Hsp' [Hzero [Hframe Hcase]]]]].
    assert (He : load p' e = built_entry (qword p1 (fst e) (snd e)) q).
    { unfold load. rewrite Hq, !Z.eqb_refl. reflexivity. }
    eexists. exists [e]. split; [exact B|]. split; [exact Hext|].
    split; [exact Hpres|]. split.
    { intros _. split; [exact Hv'|]. rewrite Hpfn, Z.eqb_refl. reflexivity. }
    split; [discriminate|].
    split.
    { right. split; [reflexivity|]. split; [exact Hv|].
      rewrite Hpfn. rewrite He.
      split; [apply built_entry_Write|]. split; [apply built_entry_User|].
      exact Hzq. }
    split.
    { intros t i Hout Hcond. rewrite cell_in_single in Hout.
      rewrite Hq, Hout.
      destruct H as [hd|].
      - destruct Hcase as [-> _]. reflexivity.
      - destruct Hcond as [Hc|Hc]; [contradiction|].
        apply Hframe. intros ->. contradiction. }
    destruct H as [hd|]; cbn.
    + destruct Hcase as [_ [-> _]]. reflexivity.
    + exact Hcase.
Qed.

(** Writing a leaf: the hierarchy is not concerned. *)
Lemma build_invariant_leaf p pml4 level H e pfn p' :
  build_invariant p pml4 level H ->
  level (fst e) = 1%nat ->
  free_pages p' = free_pages p ->
  (forall t i,
      qword p' t i
      = if (t =? fst e) && (i =? snd e) then built_entry (qword p t i) pfn
        else qword p t i) ->
  build_invariant p' pml4 level H /\ interior_preserved p p' level.
Proof.
  intros [[Hroot Hchild] [Hx [[Hnodup Hfresh] Hpool]]] Le Hf Hq.
  assert (Hother : forall t i, level t <> 1%nat -> qword p' t i = qword p t i).
  { intros t i Lt. rewrite Hq.
    destruct (Z.eqb_spec t (fst e)) as [->|]; [contradiction|]. reflexivity. }
  assert (Hsrc : source_pages p' H = source_pages p H).
  { destruct H; cbn [source_pages]; [reflexivity|exact Hf]. }
  split; [split; [|split; [|split]]|].
  - split; [exact Hroot|]. intros t i k Lt Hi Hv.
    rewrite Hother in * by lia. apply (Hchild t i k Lt Hi Hv).
  - intros t i Lt Hi. rewrite Hq.
    destruct ((t =? fst e) && (i =? snd e)).
    + rewrite built_entry_NoExecute. apply Hx; assumption.
    + apply Hx; assumption.
  - rewrite Hsrc. split; assumption.
  - destruct H as [hd|]; [|exact I].
    destruct Hpool as [Hused [Hlen Hz]].
    split; [exact Hused|]. split; [exact Hlen|].
    intros q Hin i Hi. rewrite Hsrc in Hin.
    rewrite Hother; [apply Hz; assumption|].
    destruct (Hfresh q Hin) as [Lq _]. rewrite Lq. discriminate.
  - intros t i Lt Hi Hv. apply Hother. lia.
Qed.

Lemma count_advanced_None H H' n : count_advanced H H' n -> H' = None -> H = None.
Proof. destruct H; cbn; [intros -> E; discriminate|reflexivity]. Qed.

Lemma count_advanced_from_None H' n : count_advanced None H' n -> H' = None.
Proof. cbn. auto. Qed.

(** What BuildSubTables does to a hierarchy, for either source of pages. *)
Lemma BuildSubTables_invariant dbg p pml4 level H pa r p' H' :
  build_invariant p pml4 level H ->
  pa <> MAXULONG64 ->
  BuildSubTables dbg p pml4 pa H = Done (r, p', H') ->
  exists level',
    build_invariant p' pml4 level' H' /\
    level_extends level level' /\
    interior_preserved p p' level /\
    (H = None -> H' = None) /\
    (r = None -> H = None) /\
    forall e, r = Some e ->
      walk_succeeds p' pml4 pa /\
      e = pt_entry p' pml4 pa /\
      Fields.Valid (load p' e) = 1 /\
      Fields.Write (load p' e) = 1 /\
      Fields.User (load p' e) = 1 /\
      Fields.PageFrameNumber (load p' e) = Z.land (GetPfnFromPa pa) (Z.ones 40) /\
      exists created,
        (List.length created <= 3)%nat /\
        count_advanced H H' (List.length created) /\
        cells_kept p p' H level (e :: created) /\
        forall c, In c created ->
          (2 <= level' (fst c))%nat /\ 0 <= snd c < 512 /\
          Fields.Valid (load p' c) = 1 /\
          Fields.Write (load p' c) = 1 /\
          Fields.User (load p' c) = 1 /\
          (H <> None -> Fields.Valid (load p c) = 0).
Proof.
  intros Hinv Hpa Hrun.
  unfold BuildSubTables, OperateOnNestedPageTables in Hrun.
  (* PML4 *)
  bind_inv Hrun. destruct a as [[ok1 p1] H1].
  destruct (EnsureSubTable_build_invariant p pml4 level H (pml4, GetPxeIndex pa)
              2%nat ok1 p1 H1
              Hinv (proj1 (proj1 Hinv)) (GetPxeIndex_range pa) Hc)
    as [l1 [c1 [B1 [X1 [I1 [K1 [N1 [D1 [C1 A1]]]]]]]]].
  destruct ok1; cbn [negb] in Hrun.
  2:{ injection Hrun as E1 E2 E3. subst r p' H'. exists l1.
      split; [exact B1|]. split; [exact X1|]. split; [exact I1|].
      split; [intros ->; exact (count_advanced_from_None _ _ A1)|].
      split; [intros _; apply N1; reflexivity|].
      intros; discriminate. }
  destruct (K1 eq_refl) as [V4 L3]. clear K1 N1.
  set (e4 := (pml4, GetPxeIndex pa)) in *.
  set (t3 := Fields.PageFrameNumber (load p1 e4)) in *.
  (* PDPT *)
  bind_inv Hrun. destruct a as [[ok2 p2] H2].
  destruct (EnsureSubTable_build_invariant p1 pml4 l1 H1 (t3, GetPpeIndex pa)
              1%nat ok2 p2 H2 B1 L3 (GetPpeIndex_range pa) Hc0)
    as [l2 [c2 [B2 [X2 [I2 [K2 [N2 [D2 [C2 A2]]]]]]]]].
  assert (A12 := count_advanced_trans _ _ _ _ _ A1 A2).
  assert (X12 : level_extends level l2)
    by exact (level_extends_trans _ _ _ X1 X2).
  assert (I12 : interior_preserved p p2 level)
    by exact (interior_preserved_trans _ _ _ _ _ I1 I2 X1).
  destruct ok2; cbn [negb] in Hrun.
  2:{ injection Hrun as E1 E2 E3. subst r p' H'. exists l2.
      split; [exact B2|]. split; [exact X12|]. split; [exact I12|].
      split; [intros ->; exact (count_advanced_from_None _ _ A12)|].
      split; [intros _; apply (count_advanced_None _ _ _ A1), N2; reflexivity|].
      intros; discriminate. }
  destruct (K2 eq_refl) as [V3 L2]. clear K2 N2.
  set (e3 := (t3, GetPpeIndex pa)) in *.
  set (t2 := Fields.PageFrameNumber (load p2 e3)) in *.
  (* PDT *)
  bind_inv Hrun. destruct a as [[ok3 p3] H3].
  destruct (EnsureSubTable_build_invariant p2 pml4 l2 H2 (t2, GetPdeIndex pa)
              0%nat ok3 p3 H3 B2 L2 (GetPdeIndex_range pa) Hc1)
    as [l3 [c3 [B3 [X3 [I3 [K3 [N3 [D3 [C3 A3]]]]]]]]].
  assert (A13 := count_advanced_trans _ _ _ _ _ A12 A3).
  assert (X13 : level_extends level l3)
    by exact (level_extends_trans _ _ _ X12 X3).
  assert (I13 : interior_preserved p p3 level)
    by exact (interior_preserved_trans _ _ _ _ _ I12 I3 X12).
  destruct ok3; cbn [negb] in Hrun.
  2:{ injection Hrun as E1 E2 E3. subst r p' H'. exists l3.
      split; [exact B3|]. split; [exact X13|]. split; [exact I13|].
      split; [intros ->; exact (count_advanced_from_None _ _ A13)|].
      split; [intros _; apply (count_advanced_None _ _ _ A12), N3; reflexivity|].
      intros; discriminate. }
  destruct (K3 eq_refl) as [V2 L1]. clear K3 N3.
  set (e2 := (t2, GetPdeIndex pa)) in *.
  set (t1 := Fields.PageFrameNumber (load p3 e2)) in *.
  set (e1 := (t1, GetPteIndex pa)) in *.
  (* PT *)
  bind_inv Hrun. clear Hc2.
  destruct (BuildNestedPageTableEntry_address p3 e1 pa H3 Hpa)
    as [p4 [Hleaf [Hf4 Hq4]]].
  rewrite Hleaf in Hrun. cbn [bind] in Hrun.
  injection Hrun as E1 E2 E3. subst r p' H'.
  destruct (build_invariant_leaf p3 pml4 l3 H3 e1 (GetPfnFromPa pa) p4
              B3 L1 Hf4 Hq4) as [B4 I4].
  exists l3. split; [exact B4|]. split; [exact X13|].
  split; [exact (interior_preserved_trans _ _ _ _ _ I13 I4 X13)|].
  split; [intros ->; exact (count_advanced_from_None _ _ A13)|].
  split; [discriminate|].
  intros e [= <-].
  (* the levels of the tables on the way *)
  assert (L4_1 : l1 pml4 = 4%nat) by apply B1.
  assert (L4_2 : l2 pml4 = 4%nat) by apply B2.
  assert (L4_3 : l3 pml4 = 4%nat) by apply B3.
  assert (L3_2 : l2 t3 = 3%nat) by (rewrite X2; [exact L3|rewrite L3; discriminate]).
  assert (L3_3 : l3 t3 = 3%nat) by (rewrite X3; [exact L3_2|rewrite L3_2; discriminate]).
  assert (L2_3 : l3 t2 = 2%nat) by (rewrite X3; [exact L2|rewrite L2; discriminate]).
  assert (T34 : t3 <> pml4) by (intros E; rewrite E in L3; congruence).
  assert (T24 : t2 <> pml4) by (intros E; rewrite E in L2; congruence).
  assert (T23 : t2 <> t3) by (intros E; rewrite E in L2; congruence).
  assert (T14 : t1 <> pml4) by (intros E; rewrite E in L1; congruence).
  assert (T13 : t1 <> t3) by (intros E; rewrite E in L1; congruence).
  assert (T12 : t1 <> t2) by (intros E; rewrite E in L1; congruence).
  (* the interior entries stay as the steps left them *)
  assert (E4_2 : load p2 e4 = load p1 e4).
  { apply I2; [cbn [fst e4]; lia|apply GetPxeIndex_range|exact V4]. }
  assert (E4_3 : load p3 e4 = load p1 e4).
  { rewrite <- E4_2. apply I3; [cbn [fst e4]; lia|apply GetPxeIndex_range|].
    unfold load in E4_2. cbn [fst snd e4] in *. rewrite E4_2. exact V4. }
  assert (E4_4 : load p4 e4 = load p1 e4).
  { rewrite <- E4_3. apply I4; [cbn [fst e4]; lia|apply GetPxeIndex_range|].
    unfold load in E4_3. cbn [fst snd e4] in *. rewrite E4_3. exact V4. }
  assert (E3_3 : load p3 e3 = load p2 e3).
  { apply I3; [cbn [fst e3]; lia|apply GetPpeIndex_range|exact V3]. }
  assert (E3_4 : load p4 e3 = load p2 e3).
  { rewrite <- E3_3. apply I4; [cbn [fst e3]; lia|apply GetPpeIndex_range|].
    unfold load in E3_3. cbn [fst snd e3] in *. rewrite E3_3. exact V3. }
  assert (E2_4 : load p4 e2 = load p3 e2).
  { apply I4; [cbn [fst e2]; lia|apply GetPdeIndex_range|exact V2]. }
  assert (P3 : pdpt_entry p4 pml4 pa = e3).
  { unfold pdpt_entry. change (pml4_entry pml4 pa) with e4.
    rewrite E4_4. reflexivity. }
  assert (P2 : pdt_entry p4 pml4 pa = e2).
  { unfold pdt_entry. rewrite P3, E3_4. reflexivity. }
  assert (P1 : pt_entry p4 pml4 pa = e1).
  { unfold pt_entry. rewrite P2, E2_4. reflexivity. }
  assert (E1 : load p4 e1 = built_entry (load p3 e1) (GetPfnFromPa pa)).
  { unfold load. rewrite Hq4, !Z.eqb_refl. reflexivity. }
  split.
  { unfold walk_succeeds. rewrite P2, P3.
    change (pml4_entry pml4 pa) with e4.
    rewrite E4_4, E3_4, E2_4. auto. }
  split; [symmetry; exact P1|].
  rewrite E1.
  split; [apply built_entry_Valid|].
  split; [apply built_entry_Write|].
  split; [apply built_entry_User|].
  split; [apply built_entry_PageFrameNumber|].
  (* the entries created on the way *)
  assert (F1 : forall c, In c c1 ->
             c = e4 /\ Fields.Valid (load p c) = 0 /\
             Fields.Write (load p1 c) = 1 /\ Fields.User (load p1 c) = 1).
  { intros c Hin. destruct D1 as [->|[-> [Q1 [Q2 [Q3 _]]]]]; [destruct Hin|].
    destruct Hin as [<-|[]]. auto. }
  assert (F2 : forall c, In c c2 ->
             c = e3 /\ Fields.Valid (load p1 c) = 0 /\
             Fields.Write (load p2 c) = 1 /\ Fields.User (load p2 c) = 1).
  { intros c Hin. destruct D2 as [->|[-> [Q1 [Q2 [Q3 _]]]]]; [destruct Hin|].
    destruct Hin as [<-|[]]. auto. }
  assert (F3 : forall c, In c c3 ->
             c = e2 /\ Fields.Valid (load p2 c) = 0 /\
             Fields.Write (load p3 c) = 1 /\ Fields.User (load p3 c) = 1).
  { intros c Hin. destruct D3 as [->|[-> [Q1 [Q2 [Q3 _]]]]]; [destruct Hin|].
    destruct Hin as [<-|[]]. auto. }
  assert (G1 : forall t i, t <> pml4 -> cell_in t i c1 = false).
  { intros t i Ht. destruct (cell_in t i c1) eqn:E; [|reflexivity].
    apply cell_in_spec in E. destruct (F1 _ E) as [Q _].
    inversion Q. contradiction. }
  assert (G2 : forall t i, t <> t3 -> cell_in t i c2 = false).
  { intros t i Ht. destruct (cell_in t i c2) eqn:E; [|reflexivity].
    apply cell_in_spec in E. destruct (F2 _ E) as [Q _].
    inversion Q. contradiction. }
  assert (G3 : forall t i, t <> t2 -> cell_in t i c3 = false).
  { intros t i Ht. destruct (cell_in t i c3) eqn:E; [|reflexivity].
    apply cell_in_spec in E. destruct (F3 _ E) as [Q _].
    inversion Q. contradiction. }
  assert (Len1 : (List.length c1 <= 1)%nat)
    by (destruct D1 as [->|[-> _]]; cbn; lia).
  assert (Len2 : (List.length c2 <= 1)%nat)
    by (destruct D2 as [->|[-> _]]; cbn; lia).
  assert (Len3 : (List.length c3 <= 1)%nat)
    by (destruct D3 as [->|[-> _]]; cbn; lia).
  exists (c1 ++ c2 ++ c3).
  rewrite !length_app.
  split; [lia|].
  split; [rewrite Nat.add_assoc; exact A13|].
  split.
  { intros t i Hout Hcond. rewrite cell_in_cons in Hout.
    apply orb_false_iff in Hout. destruct Hout as [Hne Hout].
    rewrite !cell_in_app in Hout.
    apply orb_false_iff in Hout. destruct Hout as [O1 Hout].
    apply orb_false_iff in Hout. destruct Hout as [O2 O3].
    rewrite Hq4, Hne.
    rewrite (C3 t i O3).
    2:{ destruct Hcond as [Hc'|Hc'].
        - left. exact (count_advanced_not_None _ _ _ A12 Hc').
        - right. rewrite X12; assumption. }
    rewrite (C2 t i O2).
    2:{ destruct Hcond as [Hc'|Hc'].
        - left. exact (count_advanced_not_None _ _ _ A1 Hc').
        - right. rewrite X1; assumption. }
    apply (C1 t i O1 Hcond). }
  intros c Hin. apply in_app_or in Hin. destruct Hin as [Hin|Hin].
  - destruct (F1 c Hin) as [-> [Q1 [Q2 Q3]]].
    split; [cbn [fst e4]; lia|]. split; [apply GetPxeIndex_range|].
    rewrite E4_4. auto.
  - apply in_app_or in Hin. destruct Hin as [Hin|Hin].
    + destruct (F2 c Hin) as [-> [Q1 [Q2 Q3]]].
      split; [cbn [fst e3]; lia|]. split; [apply GetPpeIndex_range|].
      rewrite E3_4. split; [exact V3|]. split; [exact Q2|].
      split; [exact Q3|].
      intros HH. unfold load. rewrite <- (C1 (fst e3) (snd e3)).
      * exact Q1.
      * apply G1. exact T34.
      * left. exact HH.
    + destruct (F3 c Hin) as [-> [Q1 [Q2 Q3]]].
      split; [cbn [fst e2]; lia|]. split; [apply GetPdeIndex_range|].
      rewrite E2_4. split; [exact V2|]. split; [exact Q2|].
      split; [exact Q3|].
      intros HH. unfold load. rewrite <- (C1 (fst e2) (snd e2)).
      * rewrite <- (C2 (fst e2) (snd e2)).
        -- exact Q1.
        -- apply G2. exact T23.
        -- left. exact (count_advanced_not_None _ _ _ A1 HH).
      * apply G1. exact T24.
      * left. exact HH.
Qed.

(** ** Building from the pre-allocated pool *)

Lemma EnsureSubTable_pool_returns p hd e :
  0 <= UsedPreAllocatedEntriesCount hd < NumberOfPreAllocatedNptEntries ->
  Z.of_nat (List.length (PreAllocatedNptEntries hd))
  = NumberOfPreAllocatedNptEntries ->
  exists p' H', EnsureSubTable p e BuildOperation (Some hd) = Done (true, p', H').
Proof.
  intros Hused Hlen. unfold EnsureSubTable.
  destruct (Fields.Valid (load p e) =? 0); [|eauto].
  cbn [negb is_BuildOperation]. unfold BuildNestedPageTableEntry.
  rewrite Z.eqb_refl.
  destruct (AllocateNptEntry_pool_cases p hd ltac:(lia) Hlen) as [Hroom _].
  destruct Hroom as [entry [_ [-> _]]]; [lia|].
  cbn [bind]. eauto.
Qed.

Lemma cells_kept_nil_pool p p' H level t i :
  cells_kept p p' H level [] -> H <> None -> qword p' t i = qword p t i.
Proof. intros Hk Hn. apply Hk; [reflexivity|left; exact Hn]. Qed.


(** ** Building while hooks are enabled *)

(** The same steps on a hierarchy whose NoExecute bits are whatever the
    hook engine left: building neither reads nor needs them. *)
Lemma table_invariant_created p pml4 level H e k q p1 H' p' :
  table_invariant p pml4 level H ->
  level (fst e) = S (S k) -> 0 <= snd e < 512 ->
  Fields.Valid (load p e) = 0 ->
  AllocateNptEntry p H = Done (Some q, p1, H') ->
  free_pages p' = free_pages p1 ->
  (forall t i,
      qword p' t i
      = if (t =? fst e) && (i =? snd e) then built_entry (qword p1 t i) q
        else qword p1 t i) ->
  let level' := fun t => if t =? q then S k else level t in
  table_invariant p' pml4 level' H' /\
  level_extends level level' /\
  interior_preserved p p' level /\
  Fields.Valid (load p' e) = 1 /\
  Fields.PageFrameNumber (load p' e) = q /\
  level q = 0%nat /\
  page_zeroed p' q.
Proof.
  intros [[Hroot Hchild] Hsrc] Le Hi Hinvalid Halloc Hfree Hq level'.
  destruct (AllocateNptEntry_Some _ _ _ _ _ _ Hsrc Halloc)
    as [rest [Hsp [Hsp' [Hzero [Hframe Hcase]]]]].
  destruct Hsrc as [[Hnodup Hfresh] Hpool].
  rewrite Hsp in Hnodup, Hfresh.
  destruct (Hfresh q (or_introl eq_refl)) as [Lq Rq].
  assert (Hnotin : ~ In q rest) by (inversion Hnodup; assumption).
  assert (Hnodup' : NoDup rest) by (inversion Hnodup; assumption).
  assert (Heq : fst e <> q) by (intros E; rewrite E in Le; congruence).
  assert (Hcell : forall t i, (t =? fst e) && (i =? snd e) = true ->
                              t = fst e /\ i = snd e).
  { intros t i E. apply andb_true_iff in E. destruct E as [E1 E2].
    apply Z.eqb_eq in E1, E2. auto. }
  assert (Hqpage : forall i, 0 <= i < 512 -> qword p' q i = 0).
  { intros i Hi'. rewrite Hq.
    destruct ((q =? fst e) && (i =? snd e)) eqn:E.
    - apply Hcell in E. destruct E as [E _]. congruence.
    - apply Hzero. exact Hi'. }
  assert (Hother : forall t i, t <> q ->
             (t =? fst e) && (i =? snd e) = false ->
             qword p' t i = qword p t i).
  { intros t i Ht E. rewrite Hq, E. apply Hframe. exact Ht. }
  assert (He : load p' e = built_entry (qword p1 (fst e) (snd e)) q).
  { unfold load. rewrite Hq, !Z.eqb_refl. reflexivity. }
  assert (Hlq : level' q = S k) by (unfold level'; rewrite Z.eqb_refl; reflexivity).
  assert (Hl : forall t, t <> q -> level' t = level t).
  { intros t Ht. unfold level'. destruct (Z.eqb_spec t q); [contradiction|].
    reflexivity. }
  assert (Hsrc' : source_pages p' H' = rest).
  { destruct H as [hd|].
    - destruct Hcase as [-> [-> _]]. exact Hsp'.
    - subst H'. cbn [source_pages] in *. rewrite Hfree. exact Hsp'. }
  assert (B1 : NptHierarchy p' pml4 level').
  { split.
    - rewrite Hl; [exact Hroot|]. intros E. rewrite E in Hroot. congruence.
    - intros t i k' Lt Hi' Hv.
      destruct (Z.eq_dec t q) as [->|Ht].
      + rewrite Hqpage in Hv by exact Hi'. rewrite Valid_zero in Hv.
        discriminate.
      + rewrite Hl in Lt by exact Ht.
        destruct ((t =? fst e) && (i =? snd e)) eqn:E.
        * apply Hcell in E. destruct E as [-> ->].
          change (qword p' (fst e) (snd e)) with (load p' e).
          rewrite He, built_entry_PageFrameNumber_small by exact Rq.
          rewrite Hlq. congruence.
        * rewrite Hother in * by assumption.
          specialize (Hchild t i k' Lt Hi' Hv).
          rewrite Hl; [exact Hchild|].
          intros Eq. rewrite Eq in Hchild. congruence. }
  assert (B3 : source_ok p' level' H').
  { split.
    - rewrite Hsrc'. split; [exact Hnodup'|].
      intros q' Hin.
      rewrite Hl by (intros ->; contradiction).
      apply Hfresh. right. exact Hin.
    - destruct H as [hd|]; [|subst H'; exact I].
      destruct Hcase as [-> [-> Hle]].
      destruct Hpool as [Hused [Hlen Hz]].
      split; [cbn; lia|]. split; [exact Hlen|].
      intros q' Hin i Hi'.
      assert (Hin' : In q' rest) by (rewrite <- Hsp'; exact Hin).
      assert (Lq' : level q' = 0%nat) by (apply Hfresh; right; exact Hin').
      rewrite Hq.
      destruct ((q' =? fst e) && (i =? snd e)) eqn:E.
      + apply Hcell in E. destruct E as [E _]. rewrite E in Lq'. congruence.
      + apply Hz; [|exact Hi']. rewrite Hsp. right. exact Hin'. }
  split; [exact (conj B1 B3)|].
  split.
  { intros t Lt. apply Hl. intros ->. contradiction. }
  split.
  { intros t i Lt Hi' Hv.
    assert (Ht : t <> q) by (intros ->; rewrite Lq in Lt; lia).
    apply Hother; [exact Ht|].
    destruct ((t =? fst e) && (i =? snd e)) eqn:E; [|reflexivity].
    apply Hcell in E. destruct E as [-> ->].
    unfold load in Hinvalid. rewrite Hinvalid in Hv. discriminate. }
  split; [rewrite He; apply built_entry_Valid|].
  split; [rewrite He; apply built_entry_PageFrameNumber_small; exact Rq|].
  split; [exact Lq|exact Hqpage].
Qed.

Lemma EnsureSubTable_table_invariant p pml4 level H e k ok p' H' :
  table_invariant p pml4 level H ->
  level (fst e) = S (S k) -> 0 <= snd e < 512 ->
  EnsureSubTable p e BuildOperation H = Done (ok, p', H') ->
  exists level' created,
    table_invariant p' pml4 level' H' /\
    level_extends level level' /\
    interior_preserved p p' level /\
    (ok = true ->
     Fields.Valid (load p' e) = 1 /\
     level' (Fields.PageFrameNumber (load p' e)) = S k) /\
    (ok = false -> H = None) /\
    (created = [] \/
     (created = [e] /\ Fields.Valid (load p e) = 0 /\
      Fields.Write (load p' e) = 1 /\ Fields.User (load p' e) = 1 /\
      page_zeroed p' (Fields.PageFrameNumber (load p' e)))) /\
    cells_kept p p' H level created /\
    count_advanced H H' (List.length created).
Proof.
  intros Hinv Le Hi Hrun.
  destruct (EnsureSubTable_build_cases p level H e ok p' H'
              (proj2 Hinv) Hrun)
    as [[Hv [-> [-> ->]]]|[[Hv [-> [-> [-> ->]]]]|[Hv [-> [q [p1 [Ha [Hf Hq]]]]]]]].
  - exists level, []. split; [exact Hinv|]. split; [apply level_extends_refl|].
    split; [apply interior_preserved_refl|]. split.
    { intros _. split; [exact Hv|].
      destruct Hinv as [[_ Hchild] _]. destruct e as [t i].
      apply (Hchild t i k Le Hi Hv). }
    split; [discriminate|].
    split; [left; reflexivity|]. split; [intros t i _ _; reflexivity|].
    apply count_advanced_zero.
  - exists level, []. split; [exact Hinv|]. split; [apply level_extends_refl|].
    split; [apply interior_preserved_refl|]. split; [discriminate|].
    split; [reflexivity|].
    split; [left; reflexivity|]. split; [intros t i _ _; reflexivity|].
    reflexivity.
  - destruct (table_invariant_created p pml4 level H e k q p1 H' p'
                Hinv Le Hi Hv Ha Hf Hq)
      as [B [Hext [Hpres [Hv' [Hpfn [Lq Hzq]]]]]].
    destruct (AllocateNptEntry_Some _ _ _ _ _ _ (proj2 Hinv) Ha)
      as [rest [Hsp [Hsp' [Hzero [Hframe Hcase]]]]].
    assert (He : load p' e = built_entry (qword p1 (fst e) (snd e)) q).
    { unfold load. rewrite Hq, !Z.eqb_refl. reflexivity. }
    eexists. exists [e]. split; [exact B|]. split; [exact Hext|].
    split; [exact Hpres|]. split.
    { intros _. split; [exact Hv'|]. rewrite Hpfn, Z.eqb_refl. reflexivity. }
    split; [discriminate|].
    split.
    { right. split; [reflexivity|]. split; [exact Hv|].
      rewrite Hpfn. rewrite He.
      split; [apply built_entry_Write|]. split; [apply built_entry_User|].
      exact Hzq. }
    split.
    { intros t i Hout Hcond. rewrite cell_in_single in Hout.
      rewrite Hq, Hout.
      destruct H as [hd|].
      - destruct Hcase as [-> _]. reflexivity.
      - destruct Hcond as [Hc|Hc]; [contradiction|].
        apply Hframe. intros ->. contradiction. }
    destruct H as [hd|]; cbn.
    + destruct Hcase as [_ [-> _]]. reflexivity.
    + exact Hcase.
Qed.

Lemma table_invariant_leaf p pml4 level H e pfn p' :
  table_invariant p pml4 level H ->
  level (fst e) = 1%nat ->
  free_pages p' = free_pages p ->
  (forall t i,
      qword p' t i
      = if (t =? fst e) && (i =? snd e) then built_entry (qword p t i) pfn
        else qword p t i) ->
  table_invariant p' pml4 level H /\ interior_preserved p p' level.
Proof.
  intros [[Hroot Hchild] [[Hnodup Hfresh] Hpool]] Le Hf Hq.
  assert (Hother : forall t i, level t <> 1%nat -> qword p' t i = qword p t i).
  { intros t i Lt. rewrite Hq.
    destruct (Z.eqb_spec t (fst e)) as [->|]; [contradiction|]. reflexivity. }
  assert (Hsrc : source_pages p' H = source_pages p H).
  { destruct H; cbn [source_pages]; [reflexivity|exact Hf]. }
  split; [split; [|split]|].
  - split; [exact Hroot|]. intros t i k Lt Hi Hv.
    rewrite Hother in * by lia. apply (Hchild t i k Lt Hi Hv).
  - rewrite Hsrc. split; assumption.
  - destruct H as [hd|]; [|exact I].
    destruct Hpool as [Hused [Hlen Hz]].
    split; [exact Hused|]. split; [exact Hlen|].
    intros q Hin i Hi. rewrite Hsrc in Hin.
    rewrite Hother; [apply Hz; assumption|].
    destruct (Hfresh q Hin) as [Lq _]. rewrite Lq. discriminate.
  - intros t i Lt Hi Hv. apply Hother. lia.
Qed.

Lemma BuildSubTables_table_invariant dbg p pml4 level H pa r p' H' :
  table_invariant p pml4 level H ->
  pa <> MAXULONG64 ->
  BuildSubTables dbg p pml4 pa H = Done (r, p', H') ->
  exists level',
    table_invariant p' pml4 level' H' /\
    level_extends level level' /\
    interior_preserved p p' level /\
    (H = None -> H' = None) /\
    (r = None -> H = None) /\
    forall e, r = Some e ->
      walk_succeeds p' pml4 pa /\
      e = pt_entry p' pml4 pa /\
      Fields.Valid (load p' e) = 1 /\
      Fields.Write (load p' e) = 1 /\
      Fields.User (load p' e) = 1 /\
      Fields.PageFrameNumber (load p' e) = Z.land (GetPfnFromPa pa) (Z.ones 40) /\
      exists created,
        (List.length created <= 3)%nat /\
        count_advanced H H' (List.length created) /\
        cells_kept p p' H level (e :: created) /\
        forall c, In c created ->
          (2 <= level' (fst c))%nat /\ 0 <= snd c < 512 /\
          Fields.Valid (load p' c) = 1 /\
          Fields.Write (load p' c) = 1 /\
          Fields.User (load p' c) = 1 /\
          (H <> None -> Fields.Valid (load p c) = 0).
Proof.
  intros Hinv Hpa Hrun.
  unfold BuildSubTables, OperateOnNestedPageTables in Hrun.
  (* PML4 *)
  bind_inv Hrun. destruct a as [[ok1 p1] H1].
  destruct (EnsureSubTable_table_invariant p pml4 level H (pml4, GetPxeIndex pa)
              2%nat ok1 p1 H1
              Hinv (proj1 (proj1 Hinv)) (GetPxeIndex_range pa) Hc)
    as [l1 [c1 [B1 [X1 [I1 [K1 [N1 [D1 [C1 A1]]]]]]]]].
  destruct ok1; cbn [negb] in Hrun.
  2:{ injection Hrun as E1 E2 E3. subst r p' H'. exists l1.
      split; [exact B1|]. split; [exact X1|]. split; [exact I1|].
      split; [intros ->; exact (count_advanced_from_None _ _ A1)|].
      split; [intros _; apply N1; reflexivity|].
      intros; discriminate. }
  destruct (K1 eq_refl) as [V4 L3]. clear K1 N1.
  set (e4 := (pml4, GetPxeIndex pa)) in *.
  set (t3 := Fields.PageFrameNumber (load p1 e4)) in *.
  (* PDPT *)
  bind_inv Hrun. destruct a as [[ok2 p2] H2].
  destruct (EnsureSubTable_table_invariant p1 pml4 l1 H1 (t3, GetPpeIndex pa)
              1%nat ok2 p2 H2 B1 L3 (GetPpeIndex_range pa) Hc0)
    as [l2 [c2 [B2 [X2 [I2 [K2 [N2 [D2 [C2 A2]]]]]]]]].
  assert (A12 := count_advanced_trans _ _ _ _ _ A1 A2).
  assert (X12 : level_extends level l2)
    by exact (level_extends_trans _ _ _ X1 X2).
  assert (I12 : interior_preserved p p2 level)
    by exact (interior_preserved_trans _ _ _ _ _ I1 I2 X1).
  destruct ok2; cbn [negb] in Hrun.
  2:{ injection Hrun as E1 E2 E3. subst r p' H'. exists l2.
      split; [exact B2|]. split; [exact X12|]. split; [exact I12|].
      split; [intros ->; exact (count_advanced_from_None _ _ A12)|].
      split; [intros _; apply (count_advanced_None _ _ _ A1), N2; reflexivity|].
      intros; discriminate. }
  destruct (K2 eq_refl) as [V3 L2]. clear K2 N2.
  set (e3 := (t3, GetPpeIndex pa)) in *.
  set (t2 := Fields.PageFrameNumber (load p2 e3)) in *.
  (* PDT *)
  bind_inv Hrun. destruct a as [[ok3 p3] H3].
  destruct (EnsureSubTable_table_invariant p2 pml4 l2 H2 (t2, GetPdeIndex pa)
              0%nat ok3 p3 H3 B2 L2 (GetPdeIndex_range pa) Hc1)
    as [l3 [c3 [B3 [X3 [I3 [K3 [N3 [D3 [C3 A3]]]]]]]]].
  assert (A13 := count_advanced_trans _ _ _ _ _ A12 A3).
  assert (X13 : level_extends level l3)
    by exact (level_extends_trans _ _ _ X12 X3).
  assert (I13 : interior_preserved p p3 level)
    by exact (interior_preserved_trans _ _ _ _ _ I12 I3 X12).
  destruct ok3; cbn [negb] in Hrun.
  2:{ injection Hrun as E1 E2 E3. subst r p' H'. exists l3.
      split; [exact B3|]. split; [exact X13|]. split; [exact I13|].
      split; [intros ->; exact (count_advanced_from_None _ _ A13)|].
      split; [intros _; apply (count_advanced_None _ _ _ A12), N3; reflexivity|].
      intros; discriminate. }
  destruct (K3 eq_refl) as [V2 L1]. clear K3 N3.
  set (e2 := (t2, GetPdeIndex pa)) in *.
  set (t1 := Fields.PageFrameNumber (load p3 e2)) in *.
  set (e1 := (t1, GetPteIndex pa)) in *.
  (* PT *)
  bind_inv Hrun. clear Hc2.
  destruct (BuildNestedPageTableEntry_address p3 e1 pa H3 Hpa)
    as [p4 [Hleaf [Hf4 Hq4]]].
  rewrite Hleaf in Hrun. cbn [bind] in Hrun.
  injection Hrun as E1 E2 E3. subst r p' H'.
  destruct (table_invariant_leaf p3 pml4 l3 H3 e1 (GetPfnFromPa pa) p4
              B3 L1 Hf4 Hq4) as [B4 I4].
  exists l3. split; [exact B4|]. split; [exact X13|].
  split; [exact (interior_preserved_trans _ _ _ _ _ I13 I4 X13)|].
  split; [intros ->; exact (count_advanced_from_None _ _ A13)|].
  split; [discriminate|].
  intros e [= <-].
  (* the levels of the tables on the way *)
  assert (L4_1 : l1 pml4 = 4%nat) by apply B1.
  assert (L4_2 : l2 pml4 = 4%nat) by apply B2.
  assert (L4_3 : l3 pml4 = 4%nat) by apply B3.
  assert (L3_2 : l2 t3 = 3%nat) by (rewrite X2; [exact L3|rewrite L3; discriminate]).
  assert (L3_3 : l3 t3 = 3%nat) by (rewrite X3; [exact L3_2|rewrite L3_2; discriminate]).
  assert (L2_3 : l3 t2 = 2%nat) by (rewrite X3; [exact L2|rewrite L2; discriminate]).
  assert (T34 : t3 <> pml4) by (intros E; rewrite E in L3; congruence).
  assert (T24 : t2 <> pml4) by (intros E; rewrite E in L2; congruence).
  assert (T23 : t2 <> t3) by (intros E; rewrite E in L2; congruence).
  assert (T14 : t1 <> pml4) by (intros E; rewrite E in L1; congruence).
  assert (T13 : t1 <> t3) by (intros E; rewrite E in L1; congruence).
  assert (T12 : t1 <> t2) by (intros E; rewrite E in L1; congruence).
  (* the interior entries stay as the steps left them *)
  assert (E4_2 : load p2 e4 = load p1 e4).
  { apply I2; [cbn [fst e4]; lia|apply GetPxeIndex_range|exact V4]. }
  assert (E4_3 : load p3 e4 = load p1 e4).
  { rewrite <- E4_2. apply I3; [cbn [fst e4]; lia|apply GetPxeIndex_range|].
    unfold load in E4_2. cbn [fst snd e4] in *. rewrite E4_2. exact V4. }
  assert (E4_4 : load p4 e4 = load p1 e4).
  { rewrite <- E4_3. apply I4; [cbn [fst e4]; lia|apply GetPxeIndex_range|].
    unfold load in E4_3. cbn [fst snd e4] in *. rewrite E4_3. exact V4. }
  assert (E3_3 : load p3 e3 = load p2 e3).
  { apply I3; [cbn [fst e3]; lia|apply GetPpeIndex_range|exact V3]. }
  assert (E3_4 : load p4 e3 = load p2 e3).
  { rewrite <- E3_3. apply I4; [cbn [fst e3]; lia|apply GetPpeIndex_range|].
    unfold load in E3_3. cbn [fst snd e3] in *. rewrite E3_3. exact V3. }
  assert (E2_4 : load p4 e2 = load p3 e2).
  { apply I4; [cbn [fst e2]; lia|apply GetPdeIndex_range|exact V2]. }
  assert (P3 : pdpt_entry p4 pml4 pa = e3).
  { unfold pdpt_entry. change (pml4_entry pml4 pa) with e4.
    rewrite E4_4. reflexivity. }
  assert (P2 : pdt_entry p4 pml4 pa = e2).
  { unfold pdt_entry. rewrite P3, E3_4. reflexivity. }
  assert (P1 : pt_entry p4 pml4 pa = e1).
  { unfold pt_entry. rewrite P2, E2_4. reflexivity. }
  assert (E1 : load p4 e1 = built_entry (load p3 e1) (GetPfnFromPa pa)).
  { unfold load. rewrite Hq4, !Z.eqb_refl. reflexivity. }
  split.
  { unfold walk_succeeds. rewrite P2, P3.
    change (pml4_entry pml4 pa) with e4.
    rewrite E4_4, E3_4, E2_4. auto. }
  split; [symmetry; exact P1|].
  rewrite E1.
  split; [apply built_entry_Valid|].
  split; [apply built_entry_Write|].
  split; [apply built_entry_User|].
  split; [apply built_entry_PageFrameNumber|].
  (* the entries created on the way *)
  assert (F1 : forall c, In c c1 ->
             c = e4 /\ Fields.Valid (load p c) = 0 /\
             Fields.Write (load p1 c) = 1 /\ Fields.User (load p1 c) = 1).
  { intros c Hin. destruct D1 as [->|[-> [Q1 [Q2 [Q3 _]]]]]; [destruct Hin|].
    destruct Hin as [<-|[]]. auto. }
  assert (F2 : forall c, In c c2 ->
             c = e3 /\ Fields.Valid (load p1 c) = 0 /\
             Fields.Write (load p2 c) = 1 /\ Fields.User (load p2 c) = 1).
  { intros c Hin. destruct D2 as [->|[-> [Q1 [Q2 [Q3 _]]]]]; [destruct Hin|].
    destruct Hin as [<-|[]]. auto. }
  assert (F3 : forall c, In c c3 ->
             c = e2 /\ Fields.Valid (load p2 c) = 0 /\
             Fields.Write (load p3 c) = 1 /\ Fields.User (load p3 c) = 1).
  { intros c Hin. destruct D3 as [->|[-> [Q1 [Q2 [Q3 _]]]]]; [destruct Hin|].
    destruct Hin as [<-|[]]. auto. }
  assert (G1 : forall t i, t <> pml4 -> cell_in t i c1 = false).
  { intros t i Ht. destruct (cell_in t i c1) eqn:E; [|reflexivity].
    apply cell_in_spec in E. destruct (F1 _ E) as [Q _].
    inversion Q. contradiction. }
  assert (G2 : forall t i, t <> t3 -> cell_in t i c2 = false).
  { intros t i Ht. destruct (cell_in t i c2) eqn:E; [|reflexivity].
    apply cell_in_spec in E. destruct (F2 _ E) as [Q _].
    inversion Q. contradiction. }
  assert (G3 : forall t i, t <> t2 -> cell_in t i c3 = false).
  { intros t i Ht. destruct (cell_in t i c3) eqn:E; [|reflexivity].
    apply cell_in_spec in E. destruct (F3 _ E) as [Q _].
    inversion Q. contradiction. }
  assert (Len1 : (List.length c1 <= 1)%nat)
    by (destruct D1 as [->|[-> _]]; cbn; lia).
  assert (Len2 : (List.length c2 <= 1)%nat)
    by (destruct D2 as [->|[-> _]]; cbn; lia).
  assert (Len3 : (List.length c3 <= 1)%nat)
    by (destruct D3 as [->|[-> _]]; cbn; lia).
  exists (c1 ++ c2 ++ c3).
  rewrite !length_app.
  split; [lia|].
  split; [rewrite Nat.add_assoc; exact A13|].
  split.
  { intros t i Hout Hcond. rewrite cell_in_cons in Hout.
    apply orb_false_iff in Hout. destruct Hout as [Hne Hout].
    rewrite !cell_in_app in Hout.
    apply orb_false_iff in Hout. destruct Hout as [O1 Hout].
    apply orb_false_iff in Hout. destruct Hout as [O2 O3].
    rewrite Hq4, Hne.
    rewrite (C3 t i O3).
    2:{ destruct Hcond as [Hc'|Hc'].
        - left. exact (count_advanced_not_None _ _ _ A12 Hc').
        - right. rewrite X12; assumption. }
    rewrite (C2 t i O2).
    2:{ destruct Hcond as [Hc'|Hc'].
        - left. exact (count_advanced_not_None _ _ _ A1 Hc').
        - right. rewrite X1; assumption. }
    apply (C1 t i O1 Hcond). }
  intros c Hin. apply in_app_or in Hin. destruct Hin as [Hin|Hin].
  - destruct (F1 c Hin) as [-> [Q1 [Q2 Q3]]].
    split; [cbn [fst e4]; lia|]. split; [apply GetPxeIndex_range|].
    rewrite E4_4. auto.
  - apply in_app_or in Hin. destruct Hin as [Hin|Hin].
    + destruct (F2 c Hin) as [-> [Q1 [Q2 Q3]]].
      split; [cbn [fst e3]; lia|]. split; [apply GetPpeIndex_range|].
      rewrite E3_4. split; [exact V3|]. split; [exact Q2|].
      split; [exact Q3|].
      intros HH. unfold load. rewrite <- (C1 (fst e3) (snd e3)).
      * exact Q1.
      * apply G1. exact T34.
      * left. exact HH.
    + destruct (F3 c Hin) as [-> [Q1 [Q2 Q3]]].
      split; [cbn [fst e2]; lia|]. split; [apply GetPdeIndex_range|].
      rewrite E2_4. split; [exact V2|]. split; [exact Q2|].
      split; [exact Q3|].
      intros HH. unfold load. rewrite <- (C1 (fst e2) (snd e2)).
      * rewrite <- (C2 (fst e2) (snd e2)).
        -- exact Q1.
        -- apply G2. exact T23.
        -- left. exact (count_advanced_not_None _ _ _ A1 HH).
      * apply G1. exact T24.
      * left. exact HH.
Qed.

Lemma BuildSubTables_pool_returns_tables dbg p pml4 level hd pa :
  table_invariant p pml4 level (Some hd) ->
  pa <> MAXULONG64 ->
  UsedPreAllocatedEntriesCount hd + 3 <= NumberOfPreAllocatedNptEntries ->
  (walk_succeeds p pml4 pa ->
   Fields.Valid (load p (pt_entry p pml4 pa)) = 0) ->
  exists e p' H',
    BuildSubTables dbg p pml4 pa (Some hd) = Done (Some e, p', H').
Proof.
  intros Hinv Hpa Hroom Hnew.
  assert (Hpool := proj2 (proj2 Hinv)). cbn in Hpool.
  destruct Hpool as [Hused [Hlen _]].
  unfold BuildSubTables, OperateOnNestedPageTables.
  set (e4 := (pml4, GetPxeIndex pa)).
  (* PML4 *)
  destruct (EnsureSubTable_pool_returns p hd e4 ltac:(lia) Hlen)
    as [p1 [H1 R1]].
  rewrite R1. cbn [bind negb].
  destruct (EnsureSubTable_table_invariant p pml4 level (Some hd) e4 2%nat
              true p1 H1 Hinv (proj1 (proj1 Hinv)) (GetPxeIndex_range pa) R1)
    as [l1 [c1 [B1 [X1 [I1 [K1 [_ [D1 [C1 A1]]]]]]]]].
  destruct (K1 eq_refl) as [V4 L3]. clear K1.
  cbn [count_advanced] in A1. subst H1.
  set (hd1 := set_UsedPreAllocatedEntriesCount hd _) in *.
  assert (Len1 : (List.length c1 <= 1)%nat)
    by (destruct D1 as [->|[-> _]]; cbn; lia).
  assert (U1 : 0 <= UsedPreAllocatedEntriesCount hd1
               < NumberOfPreAllocatedNptEntries) by (subst hd1; cbn; lia).
  set (t3 := Fields.PageFrameNumber (load p1 e4)) in *.
  set (e3 := (t3, GetPpeIndex pa)) in *.
  (* PDPT *)
  destruct (EnsureSubTable_pool_returns p1 hd1 e3 U1 Hlen) as [p2 [H2 R2]].
  rewrite R2. cbn [bind negb].
  destruct (EnsureSubTable_table_invariant p1 pml4 l1 (Some hd1) e3 1%nat
              true p2 H2 B1 L3 (GetPpeIndex_range pa) R2)
    as [l2 [c2 [B2 [X2 [I2 [K2 [_ [D2 [C2 A2]]]]]]]]].
  destruct (K2 eq_refl) as [V3 L2]. clear K2.
  cbn [count_advanced] in A2. subst H2.
  set (hd2 := set_UsedPreAllocatedEntriesCount hd1 _) in *.
  assert (Len2 : (List.length c2 <= 1)%nat)
    by (destruct D2 as [->|[-> _]]; cbn; lia).
  assert (U2 : 0 <= UsedPreAllocatedEntriesCount hd2
               < NumberOfPreAllocatedNptEntries)
    by (subst hd2 hd1; cbn; lia).
  set (t2 := Fields.PageFrameNumber (load p2 e3)) in *.
  set (e2 := (t2, GetPdeIndex pa)) in *.
  (* PDT *)
  destruct (EnsureSubTable_pool_returns p2 hd2 e2 U2 Hlen) as [p3 [H3 R3]].
  rewrite R3. cbn [bind negb].
  destruct (EnsureSubTable_table_invariant p2 pml4 l2 (Some hd2) e2 0%nat
              true p3 H3 B2 L2 (GetPdeIndex_range pa) R3)
    as [l3 [c3 [B3 [X3 [I3 [K3 [_ [D3 [C3 A3]]]]]]]]].
  destruct (K3 eq_refl) as [V2 L1]. clear K3.
  set (t1 := Fields.PageFrameNumber (load p3 e2)) in *.
  set (e1 := (t1, GetPteIndex pa)) in *.
  (* the leaf is not valid yet *)
  assert (Hleaf : Fields.Valid (load p3 e1) = 0).
  { destruct D3 as [->|[_ [_ [_ [_ Z3]]]]].
    2:{ unfold load. cbn [fst snd e1]. rewrite Z3 by apply GetPteIndex_range.
        reflexivity. }
    assert (Q3 : forall t i, qword p3 t i = qword p2 t i)
      by (intros; apply (cells_kept_nil_pool _ _ _ _ _ _ C3); discriminate).
    destruct D2 as [->|[_ [_ [_ [_ Z2]]]]].
    2:{ exfalso. unfold load in V2. cbn [fst snd e2] in V2.
        rewrite Q3, Z2 in V2 by apply GetPdeIndex_range. discriminate. }
    assert (Q2 : forall t i, qword p2 t i = qword p1 t i)
      by (intros; apply (cells_kept_nil_pool _ _ _ _ _ _ C2); discriminate).
    destruct D1 as [->|[_ [_ [_ [_ Z1]]]]].
    2:{ exfalso. unfold load in V3. cbn [fst snd e3] in V3.
        rewrite Q2, Z1 in V3 by apply GetPpeIndex_range. discriminate. }
    assert (Q1 : forall t i, qword p1 t i = qword p t i)
      by (intros; apply (cells_kept_nil_pool _ _ _ _ _ _ C1); discriminate).
    assert (W3 : pdpt_entry p pml4 pa = e3).
    { unfold pdpt_entry, pml4_entry, load. cbn [fst snd].
      rewrite <- Q1. reflexivity. }
    assert (W2 : pdt_entry p pml4 pa = e2).
    { unfold pdt_entry. rewrite W3. unfold load.
      rewrite <- Q1, <- Q2. reflexivity. }
    assert (W1 : pt_entry p pml4 pa = e1).
    { unfold pt_entry. rewrite W2. unfold load.
      rewrite <- Q1, <- Q2, <- Q3. reflexivity. }
    unfold load. rewrite Q3, Q2, Q1.
    change (Fields.Valid (load p e1) = 0). rewrite <- W1. apply Hnew.
    unfold walk_succeeds. rewrite W2, W3. unfold pml4_entry. fold e4.
    unfold load in *. rewrite <- !Q1. split; [exact V4|].
    rewrite <- !Q2. split; [exact V3|]. rewrite <- !Q3. exact V2. }
  rewrite NT_ASSERT_holds by (rewrite Hleaf; reflexivity).
  cbn [bind].
  destruct (BuildNestedPageTableEntry_address p3 e1 pa H3 Hpa)
    as [p4 [R4 _]].
  rewrite R4. cbn [bind]. eauto.
Qed.

(** ** Finding a leaf *)

Lemma GetNestedPageTableEntry_walk p pml4 pa :
  walk_succeeds p pml4 pa ->
  GetNestedPageTableEntry p pml4 pa = Some (pt_entry p pml4 pa).
Proof.
  intros [V4 [V3 V2]].
  unfold GetNestedPageTableEntry, OperateOnNestedPageTables, EnsureSubTable.
  fold (pml4_entry pml4 pa). rewrite V4. cbn.
  fold (pml4_entry pml4 pa). fold (pdpt_entry p pml4 pa). rewrite V3. cbn.
  fold (pml4_entry pml4 pa). fold (pdpt_entry p pml4 pa).
  fold (pdt_entry p pml4 pa). rewrite V2. cbn. reflexivity.
Qed.

Lemma GetNestedPageTableEntry_Some p pml4 pa e :
  GetNestedPageTableEntry p pml4 pa = Some e ->
  walk_succeeds p pml4 pa /\ e = pt_entry p pml4 pa.
Proof.
  unfold GetNestedPageTableEntry, OperateOnNestedPageTables, EnsureSubTable.
  fold (pml4_entry pml4 pa).
  destruct (Valid_bit (load p (pml4_entry pml4 pa))) as [V4|V4]; rewrite V4;
    cbn; [discriminate|].
  fold (pml4_entry pml4 pa). fold (pdpt_entry p pml4 pa).
  destruct (Valid_bit (load p (pdpt_entry p pml4 pa))) as [V3|V3]; rewrite V3;
    cbn; [discriminate|].
  fold (pml4_entry pml4 pa). fold (pdpt_entry p pml4 pa).
  fold (pdt_entry p pml4 pa).
  destruct (Valid_bit (load p (pdt_entry p pml4 pa))) as [V2|V2]; rewrite V2;
    cbn; [discriminate|].
  intros [= <-]. split; [split; auto|reflexivity].
Qed.

Lemma GetNestedPageTableEntry_None p pml4 pa :
  GetNestedPageTableEntry p pml4 pa = None -> ~ walk_succeeds p pml4 pa.
Proof.
  intros E Hw. rewrite (GetNestedPageTableEntry_walk _ _ _ Hw) in E.
  discriminate.
Qed.

Lemma GetPfnFromPa_fits pa :
  0 <= pa < 2 ^ 52 -> Z.land (GetPfnFromPa pa) (Z.ones 40) = GetPfnFromPa pa.
Proof.
  intros H. apply land_ones_small; [lia|].
  unfold GetPfnFromPa, PAGE_SHIFT. rewrite Z.shiftr_div_pow2 by lia.
  split; [apply Z.div_pos; lia|].
  apply Z.div_lt_upper_bound; lia.
Qed.

(** ** C7: a nested page fault on an address without NPT entry *)

(** C7.  An NPF exit with ExitInfo1.Valid = 0 at a physical address
    (below 2^52) that has no valid leaf yet, with at least three
    pre-allocated entries left.  The tables are a hierarchy with whatever
    NoExecute bits the hook engine has set in them, and the unused
    pre-allocated entries are zeroed pages that are no tables
    ([table_invariant]): so initialisation leaves them, and EnableHooks,
    both transitions and this handler keep them so.  The handler returns
    in every build, and
    - the walk of the address now succeeds, and its leaf is valid,
      writable, user, with PageFrameNumber = pa >> 12;
    - at most three interior entries were created, each invalid before
      and valid, writable, user now;
    - no other entry of physical memory changed;
    - the counter of used pre-allocated entries advanced by the number of
      interior entries created, so by at most three (hence at most four),
      and nothing else of HOOK_DATA changed: NptState and ActiveHookEntry
      are as before;
    - the tables are again such a hierarchy, now with the new tables. *)
Theorem HandleNestedPageFault_unmapped_builds_identity_leaf
    (dbg : bool) (g : list HOOK_REGISTRATION_ENTRY) (p : phys)
    (GuestVmcb : VMCB) (hd : HOOK_DATA) (level : Z -> nat) :
  let pa := ExitInfo2 (ControlArea GuestVmcb) in
  let pml4 := Pml4Table hd in
  NPF_EXITINFO1.Valid (ExitInfo1 (ControlArea GuestVmcb)) = 0 ->
  0 <= pa < 2 ^ 52 ->
  table_invariant p pml4 level (Some hd) ->
  (walk_succeeds p pml4 pa -> Fields.Valid (load p (pt_entry p pml4 pa)) = 0) ->
  UsedPreAllocatedEntriesCount hd + 3 <= NumberOfPreAllocatedNptEntries ->
  exists p' hd' created,
    HandleNestedPageFault dbg g p GuestVmcb hd = Done (p', hd') /\
    walk_succeeds p' pml4 pa /\
    Fields.Valid (load p' (pt_entry p' pml4 pa)) = 1 /\
    Fields.Write (load p' (pt_entry p' pml4 pa)) = 1 /\
    Fields.User (load p' (pt_entry p' pml4 pa)) = 1 /\
    Fields.PageFrameNumber (load p' (pt_entry p' pml4 pa)) = Z.shiftr pa 12 /\
    (List.length created <= 3)%nat /\
    (forall c, In c created ->
       Fields.Valid (load p c) = 0 /\
       Fields.Valid (load p' c) = 1 /\
       Fields.Write (load p' c) = 1 /\
       Fields.User (load p' c) = 1) /\
    (forall t i, cell_in t i (pt_entry p' pml4 pa :: created) = false ->
                 qword p' t i = qword p t i) /\
    hd' = set_UsedPreAllocatedEntriesCount hd
            (UsedPreAllocatedEntriesCount hd + Z.of_nat (List.length created)) /\
    UsedPreAllocatedEntriesCount hd' <= UsedPreAllocatedEntriesCount hd + 4 /\
    NptState hd' = NptState hd /\
    ActiveHookEntry hd' = ActiveHookEntry hd /\
    exists level',
      level_extends level level' /\
      table_invariant p' pml4 level' (Some hd').
Proof.
  intros pa pml4 Hvalid Hpa Hinv Hnew Hroom.
  assert (Hne : pa <> MAXULONG64) by (unfold MAXULONG64; lia).
  destruct (BuildSubTables_pool_returns_tables dbg p pml4 level hd pa
              Hinv Hne Hroom Hnew) as [e [p' [H' Hrun]]].
  destruct (BuildSubTables_table_invariant dbg p pml4 level (Some hd) pa
              (Some e) p' H' Hinv Hne Hrun)
    as [l' [B' [X' [I' [_ [_ K]]]]]].
  destruct (K e eq_refl)
    as [Hw [He [V [W [U [Pfn [created [Len [A [Ck Hc]]]]]]]]]].
  cbn [count_advanced] in A. subst H'.
  exists p', (set_UsedPreAllocatedEntriesCount hd
                (UsedPreAllocatedEntriesCount hd
                 + Z.of_nat (List.length created))), created.
  split.
  { unfold HandleNestedPageFault. fold pa. fold pml4. rewrite Hvalid.
    cbn [Z.eqb].
    assert (Hpre : (if dbg
                    then match GetNestedPageTableEntry p pml4 pa with
                         | Some nptEntry =>
                             NT_ASSERT dbg (Fields.Valid (load p nptEntry) =? 0)
                         | None => Done tt
                         end
                    else Done tt) = Done tt).
    { destruct dbg; [|reflexivity].
      destruct (GetNestedPageTableEntry p pml4 pa) as [n|] eqn:F;
        [|reflexivity].
      destruct (GetNestedPageTableEntry_Some _ _ _ _ F) as [Hw0 ->].
      rewrite (Hnew Hw0). reflexivity. }
    rewrite Hpre. cbn [bind]. rewrite Hrun. cbn [bind]. reflexivity. }
  rewrite <- He.
  split; [exact Hw|]. split; [exact V|]. split; [exact W|].
  split; [exact U|].
  split; [rewrite Pfn; apply GetPfnFromPa_fits; exact Hpa|].
  split; [exact Len|].
  split.
  { intros c Hin. destruct (Hc c Hin) as [_ [_ [Q1 [Q2 [Q3 Q4]]]]].
    split; [apply Q4; discriminate|]. auto. }
  split.
  { intros t i Hout. apply Ck; [exact Hout|left; discriminate]. }
  split; [reflexivity|].
  split; [cbn; lia|]. split; [reflexivity|]. split; [reflexivity|].
  exists l'. split; [exact X'|exact B'].
Qed.


(** ** Initialisation builds a hierarchy *)

Lemma to_ULONG64_page_aligned x :
  x mod PAGE_SIZE = 0 -> to_ULONG64 x mod PAGE_SIZE = 0.
Proof.
  intros H. unfold to_ULONG64, PAGE_SIZE in *.
  rewrite Z.mod_mod_divide; [exact H|].
  exists (2 ^ 52). reflexivity.
Qed.

Lemma page_aligned_not_MAXULONG64 x : x mod PAGE_SIZE = 0 -> x <> MAXULONG64.
Proof. intros H ->. vm_compute in H. discriminate. Qed.

Lemma page_address_aligned base k :
  base mod PAGE_SIZE = 0 ->
  to_ULONG64 (base + k * PAGE_SIZE) mod PAGE_SIZE = 0.
Proof.
  intros H. apply to_ULONG64_page_aligned.
  rewrite Z.mod_add by (unfold PAGE_SIZE; lia). exact H.
Qed.

Lemma BuildRun_invariant dbg pml4 base n :
  base mod PAGE_SIZE = 0 ->
  forall idx p level ok p',
    build_invariant p pml4 level None ->
    BuildRun dbg n idx p pml4 base = Done (ok, p') ->
    exists level',
      build_invariant p' pml4 level' None /\
      level_extends level level' /\
      interior_preserved p p' level /\
      (ok = true ->
       forall k, idx <= k < idx + Z.of_nat n ->
                 walk_succeeds p' pml4 (to_ULONG64 (base + k * PAGE_SIZE))).
Proof.
  intros Hbase. induction n as [|n IH]; intros idx p level ok p' Hinv Hrun.
  - injection Hrun as <- <-. exists level.
    split; [exact Hinv|]. split; [apply level_extends_refl|].
    split; [apply interior_preserved_refl|]. intros _ k Hk. lia.
  - cbn [BuildRun] in Hrun. bind_inv Hrun. destruct a as [[entry p1] H1].
    assert (Hne : to_ULONG64 (base + idx * PAGE_SIZE) <> MAXULONG64)
      by (apply page_aligned_not_MAXULONG64, page_address_aligned; exact Hbase).
    destruct (BuildSubTables_invariant dbg p pml4 level None _ entry p1 H1
                Hinv Hne Hc) as [l1 [B1 [X1 [I1 [HN [_ K1]]]]]].
    rewrite (HN eq_refl) in B1. clear HN.
    destruct entry as [e|].
    + destruct (IH (idx + 1) p1 l1 ok p' B1 Hrun) as [l' [B' [X' [I' K']]]].
      exists l'. split; [exact B'|].
      split; [exact (level_extends_trans _ _ _ X1 X')|].
      split; [exact (interior_preserved_trans _ _ _ _ _ I1 I' X1)|].
      intros Hok k Hk.
      destruct (Z.eq_dec k idx) as [->|Hneq].
      * destruct (K1 e eq_refl) as [Hw _].
        exact (proj1 (interior_preserved_walk _ _ _ _ _ (proj1 B1) I' Hw)).
      * apply (K' Hok). lia.
    + injection Hrun as <- <-. exists l1.
      split; [exact B1|]. split; [exact X1|]. split; [exact I1|].
      discriminate.
Qed.

Lemma BuildRuns_invariant dbg pml4 runs :
  forall p level ok p',
    build_invariant p pml4 level None ->
    BuildRuns dbg runs p pml4 = Done (ok, p') ->
    exists level',
      build_invariant p' pml4 level' None /\
      level_extends level level' /\
      interior_preserved p p' level /\
      (ok = true -> forall pa, ram_address runs pa -> walk_succeeds p' pml4 pa).
Proof.
  induction runs as [|run runs IH]; intros p level ok p' Hinv Hrun.
  - injection Hrun as <- <-. exists level.
    split; [exact Hinv|]. split; [apply level_extends_refl|].
    split; [apply interior_preserved_refl|].
    intros _ pa [run [k [[] _]]].
  - cbn [BuildRuns] in Hrun. bind_inv Hrun. destruct a as [ok1 p1].
    assert (Hbase : to_ULONG64 (BasePage run * PAGE_SIZE) mod PAGE_SIZE = 0).
    { apply to_ULONG64_page_aligned. apply Z.mod_mul.
      unfold PAGE_SIZE. lia. }
    destruct (BuildRun_invariant dbg pml4 _ _ Hbase 0 p level ok1 p1 Hinv Hc)
      as [l1 [B1 [X1 [I1 K1]]]].
    destruct ok1.
    + destruct (IH p1 l1 ok p' B1 Hrun) as [l' [B' [X' [I' K']]]].
      exists l'. split; [exact B'|].
      split; [exact (level_extends_trans _ _ _ X1 X')|].
      split; [exact (interior_preserved_trans _ _ _ _ _ I1 I' X1)|].
      intros Hok pa [r [k [[<-|Hin] [Hk ->]]]].
      * apply (interior_preserved_walk _ _ _ _ _ (proj1 B1) I').
        apply (K1 eq_refl). lia.
      * apply (K' Hok). exists r, k. auto.
    + injection Hrun as <- <-. exists l1.
      split; [exact B1|]. split; [exact X1|]. split; [exact I1|].
      discriminate.
Qed.

(** Zeroing the next free page and taking it off the free list keeps the
    invariant: the page is no table. *)
Lemma build_invariant_take_free p pml4 level e rest :
  build_invariant p pml4 level None ->
  free_pages p = e :: rest ->
  build_invariant (RtlZeroMemory (mkPhys (qword p) rest) e) pml4 level None /\
  page_zeroed (RtlZeroMemory (mkPhys (qword p) rest) e) e /\
  (forall t i, t <> e ->
     qword (RtlZeroMemory (mkPhys (qword p) rest) e) t i = qword p t i) /\
  level e = 0%nat /\ ~ In e rest.
Proof.
  intros [[Hroot Hchild] [Hx [[Hnodup Hfresh] _]]] Hfree.
  cbn [source_pages] in Hnodup, Hfresh. rewrite Hfree in Hnodup, Hfresh.
  destruct (Hfresh e (or_introl eq_refl)) as [Le _].
  assert (Hother : forall t i, t <> e ->
            qword (RtlZeroMemory (mkPhys (qword p) rest) e) t i = qword p t i).
  { intros t i Ht. cbn [RtlZeroMemory qword].
    destruct (Z.eqb_spec t e); [contradiction|]. reflexivity. }
  assert (Hlevel : forall t, level t <> 0%nat -> t <> e)
    by (intros t Lt ->; contradiction).
  split; [split; [|split; [|split]]|].
  - split; [exact Hroot|]. intros t i k Lt Hi Hv.
    rewrite Hother in * by (apply Hlevel; lia).
    apply (Hchild t i k Lt Hi Hv).
  - intros t i Lt Hi. rewrite Hother by (apply Hlevel; exact Lt).
    apply Hx; assumption.
  - cbn [source_pages RtlZeroMemory free_pages]. split.
    + inversion Hnodup; assumption.
    + intros q Hin. apply Hfresh. right. exact Hin.
  - exact I.
  - split.
    { intros i Hi. cbn [RtlZeroMemory qword]. rewrite Z.eqb_refl.
      destruct (Z.leb_spec 0 i), (Z.ltb_spec i 512); try lia. reflexivity. }
    split; [exact Hother|]. split; [exact Le|].
    inversion Hnodup; assumption.
Qed.

Lemma InitializePreAllocatedEntries_invariant pml4 level n :
  forall p pool p',
    build_invariant p pml4 level None ->
    InitializePreAllocatedEntries n p = Done (Some pool, p') ->
    build_invariant p' pml4 level None /\
    free_pages p = pool ++ free_pages p' /\
    List.length pool = n /\
    (forall t i, ~ In t pool -> qword p' t i = qword p t i) /\
    (forall q, In q pool -> page_zeroed p' q).
Proof.
  induction n as [|n IH]; intros p pool p' Hinv Hrun.
  - injection Hrun as <- <-.
    split; [exact Hinv|]. split; [reflexivity|]. split; [reflexivity|].
    split; [intros; reflexivity|]. intros q [].
  - cbn [InitializePreAllocatedEntries] in Hrun.
    unfold AllocateNptEntry in Hrun.
    destruct (free_pages p) as [|e rest] eqn:Hfree; cbn [bind] in Hrun;
      [discriminate|].
    destruct (build_invariant_take_free p pml4 level e rest Hinv Hfree)
      as [B1 [Z1 [O1 [Le Hnotin]]]].
    set (p1 := RtlZeroMemory (mkPhys (qword p) rest) e) in *.
    bind_inv Hrun. destruct a as [entries p2].
    destruct entries as [pool'|]; cbn [option_map] in Hrun; [|discriminate].
    injection Hrun as <- <-.
    destruct (IH p1 pool' p2 B1 Hc) as [B2 [F2 [L2 [O2 Z2]]]].
    assert (Hrest : rest = pool' ++ free_pages p2) by exact F2.
    split; [exact B2|].
    split; [cbn; rewrite Hrest; reflexivity|].
    split; [cbn; rewrite L2; reflexivity|].
    split.
    { intros t i Hout. rewrite O2 by (intros Hin; apply Hout; right; exact Hin).
      apply O1. intros ->. apply Hout. left. reflexivity. }
    intros q [<-|Hin].
    + intros i Hi. rewrite O2; [apply Z1; exact Hi|].
      intros Hin. apply Hnotin. rewrite Hrest. apply in_or_app. left. exact Hin.
    + apply Z2. exact Hin.
Qed.

Lemma BuildNestedPageTables_invariant dbg p runs apicBaseMsr pml4 maxPpeIndex p' :
  NoDup (free_pages p) ->
  (forall q, In q (free_pages p) -> 0 <= q < 2 ^ 40) ->
  BuildNestedPageTables dbg p runs apicBaseMsr
  = Done (Some (pml4, maxPpeIndex), p') ->
  exists level,
    build_invariant p' pml4 level None /\
    (forall pa, ram_address runs pa -> walk_succeeds p' pml4 pa) /\
    walk_succeeds p' pml4
      (to_ULONG64 (APIC_BASE.ApicBase apicBaseMsr * PAGE_SIZE)) /\
    0 <= maxPpeIndex < 2 ^ 32.
Proof.
  intros Hnodup Hrange Hrun. unfold BuildNestedPageTables in Hrun.
  unfold AllocateContiguousMemory in Hrun.
  destruct (free_pages p) as [|q0 rest] eqn:Hfree; [discriminate|].
  set (p1 := RtlZeroMemory (mkPhys (qword p) rest) q0) in *.
  set (level0 := fun t => if t =? q0 then 4%nat else 0%nat).
  assert (B0 : build_invariant p1 q0 level0 None).
  { assert (Hz : forall i, 0 <= i < 512 -> qword p1 q0 i = 0).
    { intros i Hi. subst p1. cbn [RtlZeroMemory qword]. rewrite Z.eqb_refl.
      destruct (Z.leb_spec 0 i), (Z.ltb_spec i 512); try lia. reflexivity. }
    assert (Hl : forall t, level0 t <> 0%nat -> t = q0).
    { intros t. unfold level0. destruct (Z.eqb_spec t q0); congruence. }
    split; [split|split; [|split]].
    - unfold level0. rewrite Z.eqb_refl. reflexivity.
    - intros t i k Lt Hi Hv.
      rewrite (Hl t) in Hv by (rewrite Lt; discriminate).
      rewrite Hz in Hv by exact Hi. discriminate.
    - intros t i Lt Hi. rewrite (Hl t Lt), Hz by exact Hi. reflexivity.
    - cbn [source_pages]. subst p1. cbn [RtlZeroMemory free_pages]. split.
      + inversion Hnodup; assumption.
      + intros q Hin. split.
        * unfold level0. destruct (Z.eqb_spec q q0) as [->|]; [|reflexivity].
          inversion Hnodup; contradiction.
        * apply Hrange. right. exact Hin.
    - exact I. }
  bind_inv Hrun. destruct a as [ok p2].
  destruct (BuildRuns_invariant dbg q0 runs p1 level0 ok p2 B0 Hc)
    as [l2 [B2 [X2 [I2 K2]]]].
  destruct ok; cbn [negb] in Hrun; [|discriminate].
  bind_inv Hrun. destruct a as [[entry p3] H3].
  assert (Hne : to_ULONG64 (APIC_BASE.ApicBase apicBaseMsr * PAGE_SIZE)
                <> MAXULONG64).
  { apply page_aligned_not_MAXULONG64, to_ULONG64_page_aligned.
    apply Z.mod_mul. unfold PAGE_SIZE. lia. }
  destruct (BuildSubTables_invariant dbg p2 q0 l2 None _ entry p3 H3 B2 Hne Hc0)
    as [l3 [B3 [X3 [I3 [HN [_ K3]]]]]].
  rewrite (HN eq_refl) in B3.
  destruct entry as [e|]; [|discriminate].
  bind_inv Hrun. injection Hrun as <- <- <-.
  exists l3. split; [exact B3|]. split.
  { intros pa Hpa.
    apply (interior_preserved_walk _ _ _ _ _ (proj1 B2) I3).
    apply (K2 eq_refl). exact Hpa. }
  split; [apply (K3 e eq_refl)|].
  apply to_ULONG_range.
Qed.

(** What initialisation establishes: a HOOK_DATA in NptDefault with no
    active hook and an untouched pool of 50 zeroed pages, over a hierarchy
    without any NoExecute bit in which every page of RAM is mapped. *)
Lemma InitializeHookData_invariant dbg p runs apicBaseMsr hd p' :
  NoDup (free_pages p) ->
  (forall q, In q (free_pages p) -> 0 <= q < 2 ^ 40) ->
  InitializeHookData dbg p runs apicBaseMsr = Done (Some hd, p') ->
  exists level,
    build_invariant p' (Pml4Table hd) level (Some hd) /\
    (forall pa, ram_address runs pa -> walk_succeeds p' (Pml4Table hd) pa) /\
    NptState hd = NptDefault /\
    ActiveHookEntry hd = None /\
    UsedPreAllocatedEntriesCount hd = 0 /\
    0 <= MaxNptPdpEntriesUsed hd < 2 ^ 32.
Proof.
  intros Hnodup Hrange Hrun. unfold InitializeHookData in Hrun.
  bind_inv Hrun. destruct a as [tables p1].
  destruct tables as [[pml4 maxPpeIndex]|]; [|discriminate].
  destruct (BuildNestedPageTables_invariant dbg p runs apicBaseMsr pml4
              maxPpeIndex p1 Hnodup Hrange Hc) as [level [B1 [W1 [_ Hmax]]]].
  bind_inv Hrun. destruct a as [entries p2].
  destruct entries as [pool|]; [|discriminate].
  injection Hrun as <- <-.
  destruct (InitializePreAllocatedEntries_invariant pml4 level _ p1 pool p2
              B1 Hc0) as [B2 [F2 [L2 [O2 Z2]]]].
  cbn [Pml4Table NptState ActiveHookEntry UsedPreAllocatedEntriesCount
       MaxNptPdpEntriesUsed].
  exists level.
  destruct B1 as [Hh1 [Hx1 [[Hnd1 Hfr1] _]]]. cbn [source_pages] in Hnd1, Hfr1.
  assert (Hpool_level : forall q, In q pool -> level q = 0%nat /\ 0 <= q < 2 ^ 40).
  { intros q Hin. apply Hfr1. rewrite F2. apply in_or_app. left. exact Hin. }
  assert (Htables : forall t i, level t <> 0%nat -> qword p2 t i = qword p1 t i).
  { intros t i Lt. apply O2. intros Hin.
    destruct (Hpool_level t Hin) as [L0 _]. contradiction. }
  split.
  { destruct B2 as [Hh2 [Hx2 _]].
    split; [exact Hh2|]. split; [exact Hx2|]. split.
    - cbn [source_pages UsedPreAllocatedEntriesCount PreAllocatedNptEntries
           Z.to_nat skipn]. split; [|exact Hpool_level].
      rewrite F2 in Hnd1. apply NoDup_app_remove_r in Hnd1. exact Hnd1.
    - split; [cbn; unfold NumberOfPreAllocatedNptEntries; lia|].
      split; [cbn [PreAllocatedNptEntries]; rewrite L2;
              unfold NumberOfPreAllocatedNptEntries; lia|].
      intros q Hin. apply Z2. exact Hin. }
  split.
  { intros pa Hpa.
    apply (interior_preserved_walk p1 p2 pml4 level pa Hh1); [|apply W1; exact Hpa].
    intros t i Lt Hi Hv. apply Htables. lia. }
  auto.
Qed.

(** ** The sample machine *)

Lemma sample_free_pages_fresh :
  NoDup (free_pages sample_boot_phys) /\
  forall q, In q (free_pages sample_boot_phys) -> 0 <= q < 2 ^ 40.
Proof.
  cbn [free_pages sample_boot_phys]. unfold sample_free_pages. split.
  - apply NoDup_map_NoDup_ForallPairs; [|apply seq_NoDup].
    intros a b _ _. apply Nat2Z.inj.
  - intros q Hin. apply in_map_iff in Hin. destruct Hin as [n [<- Hn]].
    apply in_seq in Hn. lia.
Qed.

Lemma sample_machine_invariant :
  exists level,
    build_invariant sample_phys (Pml4Table sample_hook_data) level
                    (Some sample_hook_data) /\
    hooks_mapped sample_registrations sample_phys (Pml4Table sample_hook_data) /\
    NptState sample_hook_data = NptDefault /\
    ActiveHookEntry sample_hook_data = None /\
    UsedPreAllocatedEntriesCount sample_hook_data = 0.
Proof.
  destruct sample_free_pages_fresh as [Hnodup Hrange].
  unfold sample_phys, sample_hook_data, sample_initialised.
  destruct (InitializeHookData true sample_boot_phys sample_runs 0xFEE00900)
    as [[[hd|] p']| | |] eqn:E;
    try (exfalso; vm_compute in E; discriminate).
  destruct (InitializeHookData_invariant true sample_boot_phys sample_runs
              0xFEE00900 hd p' Hnodup Hrange E)
    as [level [B [W [S [A [U _]]]]]].
  exists level. split; [exact B|]. split; [|auto].
  intros r Hr. apply W. cbn in Hr.
  destruct Hr as [<-|[<-|[]]].
  - exists (mkRun 0x2A31 1), 0. cbn. split; [auto|]. split; [lia|reflexivity].
  - exists (mkRun 0x2C45 1), 0. cbn. split; [auto|]. split; [lia|reflexivity].
Qed.

(** ** Witnesses on the sample machine *)

Lemma EnableHooks_then_DisableHooks_restores_npt_witness :
  exists p1 hd1 p2 hd2,
    EnableHooks true sample_registrations sample_phys sample_hook_data
    = Done (p1, hd1) /\
    NptState hd1 = NptHookEnabledInvisible /\
    DisableHooks true sample_registrations p1 hd1 = Done (p2, hd2) /\
    same_contents sample_phys p2 /\
    hd2 = sample_hook_data.
Proof.
  destruct sample_machine_invariant as [level [[Hh [Hx _]] [Hm [S [A _]]]]].
  destruct (EnableHooks_then_DisableHooks_restores_npt
              true sample_registrations sample_phys sample_hook_data level
              Hh Hx Hm S A)
    as [p1 [hd1 [p2 [hd2 [H1 [H2 [H3 [H4 [H5 _]]]]]]]]].
  exists p1, hd1, p2, hd2. auto.
Defined.

Lemma ChangePermissionOfPage_masks_siblings_before_leaf_witness :
  let pml4 := Pml4Table sample_hook_data in
  let pa := PhyPageBase sample_entry_1 in
  let p := store_NoExecute sample_phys (pdpt_entry sample_phys pml4 pa) true in
  exists tr,
    ChangePermissionOfPage_stages true p pml4 pa false = Done tr /\
    Fields.NoExecute (load p (pdpt_entry p pml4 pa)) = 1 /\
    Fields.NoExecute (load (after_pdpt_stage tr) (pdpt_entry p pml4 pa)) = 0 /\
    Fields.NoExecute (qword (after_pdpt_stage tr) (fst (pdt_entry p pml4 pa)) 7) = 1 /\
    Fields.NoExecute (qword (after_pdt_stage tr) (fst (pt_entry p pml4 pa)) 7) = 1 /\
    Fields.NoExecute (load (after_leaf_write tr) (pt_entry p pml4 pa)) = 0.
Proof.
  intros pml4 pa p.
  assert (Hw : walk_succeeds p pml4 pa) by (vm_compute; auto).
  assert (Hd : walk_tables_distinct p pml4 pa)
    by (vm_compute; repeat split; discriminate).
  assert (Hnx : Fields.NoExecute (load p (pdpt_entry p pml4 pa)) = 1)
    by (vm_compute; reflexivity).
  destruct (ChangePermissionOfPage_masks_siblings_before_leaf true p pml4 pa
              Hw Hd) as [[tr [Hrun [_ [H3 [H2 [H2' [_ [_ [_ H1]]]]]]]]] _].
  exists tr. split; [exact Hrun|]. split; [exact Hnx|].
  destruct (H3 Hnx) as [A3 A2].
  split; [exact A3|]. split; [apply A2; lia|].
  destruct (H2' (H2 (or_introl Hnx))) as [_ B1].
  split; [apply B1; lia|exact H1].
Defined.

(** ** Memories with the same walks *)

Lemma same_interior_refl p level : same_interior p p level.
Proof. intros t i _. auto. Qed.

Lemma same_interior_trans p q r level :
  same_interior p q level -> same_interior q r level -> same_interior p r level.
Proof.
  intros H1 H2 t i L. destruct (H1 t i L) as [A1 B1].
  destruct (H2 t i L) as [A2 B2]. split; congruence.
Qed.

Lemma same_but_nx_same_interior p q level :
  same_but_nx p q -> same_interior p q level.
Proof.
  intros H t i _. split.
  - apply (same_but_nx_PageFrameNumber p q (t, i) H).
  - apply (same_but_nx_Valid p q (t, i) H).
Qed.

Lemma same_interior_store_PageFrameNumber p e pfn level :
  level (fst e) = 1%nat -> same_interior p (store_PageFrameNumber p e pfn) level.
Proof.
  intros Le t i L. unfold store_PageFrameNumber. rewrite qword_store.
  destruct (Z.eqb_spec t (fst e)) as [->|]; [lia|]. auto.
Qed.

Lemma same_interior_hierarchy p q pml4 level :
  NptHierarchy p pml4 level -> same_interior p q level ->
  NptHierarchy q pml4 level.
Proof.
  intros [Hroot Hchild] Hs. split; [exact Hroot|].
  intros t i k L Hi Hv.
  destruct (Hs t i ltac:(lia)) as [A B]. rewrite A. rewrite B in Hv.
  apply (Hchild t i k L Hi Hv).
Qed.

Lemma same_interior_walk p q pml4 level pa :
  NptHierarchy p pml4 level -> same_interior p q level ->
  walk_succeeds p pml4 pa ->
  walk_succeeds q pml4 pa /\
  pdpt_entry q pml4 pa = pdpt_entry p pml4 pa /\
  pdt_entry q pml4 pa = pdt_entry p pml4 pa /\
  pt_entry q pml4 pa = pt_entry p pml4 pa.
Proof.
  intros Hh Hs Hw.
  destruct (hierarchy_walk_levels _ _ _ _ Hh Hw) as [L3 [L2 L1]].
  destruct Hh as [L4 _]. destruct Hw as [V4 [V3 V2]].
  destruct (Hs pml4 (GetPxeIndex pa) ltac:(lia)) as [A4 B4].
  assert (P3 : pdpt_entry q pml4 pa = pdpt_entry p pml4 pa).
  { unfold pdpt_entry, pml4_entry, load. cbn [fst snd]. rewrite A4. reflexivity. }
  destruct (Hs (fst (pdpt_entry p pml4 pa)) (GetPpeIndex pa) ltac:(lia))
    as [A3 B3].
  assert (P2 : pdt_entry q pml4 pa = pdt_entry p pml4 pa).
  { unfold pdt_entry. rewrite P3. unfold load.
    change (snd (pdpt_entry p pml4 pa)) with (GetPpeIndex pa).
    rewrite A3. reflexivity. }
  destruct (Hs (fst (pdt_entry p pml4 pa)) (GetPdeIndex pa) ltac:(lia))
    as [A2 B2].
  assert (P1 : pt_entry q pml4 pa = pt_entry p pml4 pa).
  { unfold pt_entry. rewrite P2. unfold load.
    change (snd (pdt_entry p pml4 pa)) with (GetPdeIndex pa).
    rewrite A2. reflexivity. }
  split; [|auto].
  unfold walk_succeeds. rewrite P2, P3. unfold load, pml4_entry in *.
  cbn [fst snd] in *.
  change (snd (pdpt_entry p pml4 pa)) with (GetPpeIndex pa).
  change (snd (pdt_entry p pml4 pa)) with (GetPdeIndex pa).
  rewrite B4, B3, B2. auto.
Qed.

Lemma same_interior_hooks_mapped g p q pml4 level :
  NptHierarchy p pml4 level -> same_interior p q level ->
  hooks_mapped g p pml4 -> hooks_mapped g q pml4.
Proof.
  intros Hh Hs Hm r Hr. apply (same_interior_walk p q pml4 level _ Hh Hs).
  apply Hm. exact Hr.
Qed.

Lemma same_interior_engine_frame g p q pml4 level :
  same_interior p q level ->
  engine_frame g p pml4 level -> engine_frame g q pml4 level.
Proof.
  intros Hs [Hh [Hm Hr]]. split; [|split; [|exact Hr]].
  - apply (same_interior_hierarchy p q); assumption.
  - apply (same_interior_hooks_mapped g p q pml4 level); assumption.
Qed.

Lemma same_interior_hook_leaf g p q pml4 level r :
  same_interior p q level -> engine_frame g p pml4 level -> In r g ->
  hook_leaf q pml4 (HookEntry r) = hook_leaf p pml4 (HookEntry r).
Proof.
  intros Hs [Hh [Hm _]] Hr. unfold hook_leaf.
  apply (same_interior_walk p q pml4 level _ Hh Hs). apply Hm. exact Hr.
Qed.

(** ** ChangePermissionsOfAllPages *)

Lemma ChangePermissionsOfAllPages_disallow dbg p pml4 pa max :
  ChangePermissionsOfAllPages dbg p pml4 pa true max
  = Done (ForEachEntrySetNoExecute (Z.to_nat max) 0
            (Fields.PageFrameNumber (load p (pml4, 0))) true p).
Proof. reflexivity. Qed.

Lemma low_address_pxe pa : 0 <= pa < 2 ^ 39 -> GetPxeIndex pa = 0.
Proof.
  intros H. unfold GetPxeIndex, k_PxiShift.
  rewrite Z.shiftr_div_pow2 by lia. rewrite Z.div_small by lia. reflexivity.
Qed.

Lemma ChangePermissionsOfAllPages_allow dbg p pml4 pa max :
  dbg = false \/ (GetPxeIndex pa = 0 /\ walk_succeeds p pml4 pa) ->
  exists q,
    ChangePermissionsOfAllPages dbg p pml4 pa false max = Done q /\
    same_but_nx p q.
Proof.
  intros Hok. unfold ChangePermissionsOfAllPages, MakeAllSubTablesExecutable.
  cbn [negb].
  set (t3 := Fields.PageFrameNumber (load p (pml4, 0))).
  set (p1 := ForEachEntrySetNoExecute (Z.to_nat max) 0 t3 false p).
  assert (S1 : same_but_nx p p1) by apply same_but_nx_ForEachEntry.
  set (e3 := (t3, GetPpeIndex pa)).
  set (t2 := Fields.PageFrameNumber (load p1 e3)).
  set (p2 := ForEachEntrySetNoExecute 512 0 t2 false p1).
  assert (S2 : same_but_nx p p2)
    by (eapply same_but_nx_trans; [exact S1|apply same_but_nx_ForEachEntry]).
  set (e2 := (t2, GetPdeIndex pa)).
  set (t1 := Fields.PageFrameNumber (load p2 e2)).
  assert (A1 : NT_ASSERT dbg (negb (Fields.Valid (load p1 e3) =? 0)) = Done tt).
  { destruct Hok as [->|[Hx [V4 [V3 V2]]]]; [reflexivity|].
    apply NT_ASSERT_holds. rewrite (same_but_nx_Valid p p1) by exact S1.
    replace e3 with (pdpt_entry p pml4 pa); [rewrite V3; reflexivity|].
    unfold pdpt_entry, pml4_entry. rewrite Hx. reflexivity. }
  assert (A2 : NT_ASSERT dbg (negb (Fields.Valid (load p2 e2) =? 0)) = Done tt).
  { destruct Hok as [->|[Hx [V4 [V3 V2]]]]; [reflexivity|].
    apply NT_ASSERT_holds. rewrite (same_but_nx_Valid p p2) by exact S2.
    replace e2 with (pdt_entry p pml4 pa); [rewrite V2; reflexivity|].
    unfold pdt_entry, pdpt_entry, pml4_entry. rewrite Hx.
    subst e2 t2 e3 t3.
    rewrite (same_but_nx_PageFrameNumber p p1) by exact S1. reflexivity. }
  rewrite A1. cbn [bind]. rewrite A2. cbn [bind].
  eexists. split; [reflexivity|].
  eapply same_but_nx_trans; [exact S2|apply same_but_nx_ForEachEntry].
Qed.

Lemma ChangePermissionOfPage_allow_result dbg p pml4 pa :
  walk_succeeds p pml4 pa -> walk_tables_distinct p pml4 pa ->
  exists q,
    ChangePermissionOfPage dbg p pml4 pa false = Done q /\
    same_but_nx p q /\
    Fields.NoExecute (load q (pdpt_entry p pml4 pa)) = 0 /\
    Fields.NoExecute (load q (pdt_entry p pml4 pa)) = 0 /\
    Fields.NoExecute (load q (pt_entry p pml4 pa)) = 0.
Proof.
  intros Hwalk [H32 [H31 H21]].
  set (e3 := pdpt_entry p pml4 pa) in *.
  set (e2 := pdt_entry p pml4 pa) in *.
  set (e1 := pt_entry p pml4 pa) in *.
  assert (Hi3 : 0 <= snd e3 < 512) by apply GetPpeIndex_range.
  assert (Hi2 : 0 <= snd e2 < 512) by apply GetPdeIndex_range.
  exists (store_NoExecute (stage_pdt p pml4 pa false) e1 false).
  split.
  { unfold ChangePermissionOfPage.
    rewrite ChangePermissionOfPage_stages_eq by auto. reflexivity. }
  split.
  { eapply same_but_nx_trans;
      [apply stage_pdt_same_but_nx|apply same_but_nx_store_NoExecute]. }
  set (q1 := stage_pdpt p pml4 pa false).
  assert (A3 : Fields.NoExecute (load q1 e3) = 0).
  { subst q1. unfold stage_pdpt. fold e3 e2.
    destruct (NoExecute_bit (load p e3)) as [E|E]; rewrite E.
    - change (negb false && negb (0 =? 0)) with false. cbv iota. exact E.
    - change (negb false && negb (1 =? 0)) with true. cbv iota.
      rewrite load_ForEachEntry_512 by exact Hi3.
      destruct (Z.eqb_spec (fst e3) (fst e2)); [contradiction|].
      rewrite load_store_NoExecute_same. apply NoExecute_set_NoExecute_0. }
  set (q2 := stage_pdt p pml4 pa false).
  assert (B : Fields.NoExecute (load q2 e3) = 0 /\
              Fields.NoExecute (load q2 e2) = 0).
  { subst q2. unfold stage_pdt. fold q1 e2 e1.
    destruct (NoExecute_bit (load q1 e2)) as [E|E]; rewrite E.
    - change (negb false && negb (0 =? 0)) with false. cbv iota. auto.
    - change (negb false && negb (1 =? 0)) with true. cbv iota.
      rewrite !load_ForEachEntry_512 by assumption.
      destruct (Z.eqb_spec (fst e3) (fst e1)); [contradiction|].
      destruct (Z.eqb_spec (fst e2) (fst e1)); [contradiction|].
      rewrite load_store_NoExecute_other_table by auto.
      rewrite load_store_NoExecute_same.
      split; [exact A3|apply NoExecute_set_NoExecute_0]. }
  destruct B as [B3 B2].
  split; [rewrite load_store_NoExecute_other_table by auto; exact B3|].
  split; [rewrite load_store_NoExecute_other_table by auto; exact B2|].
  rewrite load_store_NoExecute_same. apply NoExecute_set_NoExecute_0.
Qed.

Lemma NoExecute_ForEachEntry_disallow count first table p e :
  Fields.NoExecute (load p e) = 1 ->
  Fields.NoExecute (load (ForEachEntrySetNoExecute count first table true p) e)
  = 1.
Proof.
  intros H. unfold load in *. rewrite qword_ForEachEntrySetNoExecute.
  destruct (_ && _); [apply NoExecute_set_NoExecute_1|exact H].
Qed.

Lemma load_store_PageFrameNumber_same p e v :
  load (store_PageFrameNumber p e v) e
  = Fields.set_PageFrameNumber (load p e) v.
Proof. unfold store_PageFrameNumber. apply load_store_same. Qed.

Lemma load_store_PageFrameNumber_other p e e' v :
  e' <> e -> load (store_PageFrameNumber p e v) e' = load p e'.
Proof. unfold store_PageFrameNumber. apply load_store_other. Qed.

Lemma GetPfnFromPa_range pa : 0 <= pa < 2 ^ 52 -> 0 <= GetPfnFromPa pa < 2 ^ 40.
Proof.
  intros H. unfold GetPfnFromPa, PAGE_SHIFT. rewrite Z.shiftr_div_pow2 by lia.
  split; [apply Z.div_pos; lia|]. apply Z.div_lt_upper_bound; lia.
Qed.

Lemma entry_ptr_eq_dec (e e' : entry_ptr) : {e = e'} + {e <> e'}.
Proof.
  destruct e as [t i], e' as [t' i'].
  destruct (Z.eq_dec t t') as [->|Ht]; [|right; congruence].
  destruct (Z.eq_dec i i') as [->|Hi]; [left; reflexivity|right; congruence].
Qed.

Lemma FindHookEntryByPhysicalPage_in_Some rs pa e :
  FindHookEntryByPhysicalPage_in rs pa = Some e ->
  In e (map HookEntry rs) /\ PAGE_ALIGN pa = PAGE_ALIGN (PhyPageBase e).
Proof.
  induction rs as [|r rs IH]; cbn [FindHookEntryByPhysicalPage_in].
  - discriminate.
  - destruct (Z.eqb_spec (PAGE_ALIGN pa) (PAGE_ALIGN (PhyPageBase (HookEntry r))))
      as [E|E].
    + intros H. injection H as <-. split; [left; reflexivity|exact E].
    + intros H. destruct (IH H) as [Hin Hp]. split; [right; exact Hin|exact Hp].
Qed.

Lemma in_map_HookEntry g e :
  In e (map HookEntry g) -> exists r, In r g /\ HookEntry r = e.
Proof.
  intros H. apply in_map_iff in H. destruct H as [r [E Hr]]. exists r. auto.
Qed.

(** ** The transitions between state 1 and state 2 *)

Lemma TransitionNptState1To2_from_armed dbg g p hd level e :
  armed_state g p hd level -> In e (map HookEntry g) ->
  exists p',
    TransitionNptState1To2 dbg p hd e
    = Done (p', set_NptState (set_ActiveHookEntry hd (Some e))
                             NptHookEnabledVisible) /\
    same_interior p p' level /\
    Fields.NoExecute (load p' (hook_leaf p (Pml4Table hd) e)) = 0 /\
    visible_state g p'
      (set_NptState (set_ActiveHookEntry hd (Some e)) NptHookEnabledVisible)
      level e.
Proof.
  intros [Hf [Hst [Hact Hleaf]]] He.
  destruct (in_map_HookEntry g e He) as [r0 [Hr0 <-]].
  pose proof Hf as [Hh [Hm Hr]].
  set (pml4 := Pml4Table hd) in *.
  set (pa := PhyPageBase (HookEntry r0)).
  set (l := hook_leaf p pml4 (HookEntry r0)).
  pose proof (Hm r0 Hr0) as Hw. fold pa in Hw.
  destruct (Hleaf r0 Hr0) as [Hnx Hpfn]. fold l in Hnx, Hpfn. fold pa in Hpfn.
  destruct (Hr r0 Hr0) as [Hlow Hexec].
  destruct (hierarchy_walk_levels _ _ _ _ Hh Hw) as [_ [_ L1]].
  change (pt_entry p pml4 pa) with l in L1.
  unfold TransitionNptState1To2. rewrite Hst, Hact.
  cbn [NPT_STATE_eqb is_some negb]. rewrite NT_ASSERT_true. cbn [bind].
  rewrite ChangePermissionsOfAllPages_disallow. cbn [bind]. fold pml4 pa.
  set (q4 := ForEachEntrySetNoExecute _ _ _ _ _).
  assert (S4 : same_but_nx p q4) by apply same_but_nx_ForEachEntry.
  rewrite (GetNestedPageTableEntry_walk q4 pml4 pa)
    by (apply (same_but_nx_walk_succeeds p); assumption).
  rewrite (same_but_nx_pt_entry p q4) by exact S4.
  change (pt_entry p pml4 pa) with l.
  cbn [is_some deref]. rewrite NT_ASSERT_true. cbn [bind].
  assert (N4 : Fields.NoExecute (load q4 l) = 1)
    by (apply NoExecute_ForEachEntry_disallow; exact Hnx).
  assert (P4 : forall c, Fields.PageFrameNumber (load q4 c)
                         = Fields.PageFrameNumber (load p c))
    by (intros c; apply same_but_nx_PageFrameNumber; exact S4).
  rewrite N4, P4, Hpfn, Z.eqb_refl.
  change (negb (1 =? 0)) with true. rewrite NT_ASSERT_true. cbn [bind].
  set (v := GetPfnFromPa (PhyPageBaseForExecution (HookEntry r0))).
  assert (Hv : 0 <= v < 2 ^ 40) by (apply GetPfnFromPa_range; exact Hexec).
  set (q5 := store_PageFrameNumber q4 l v).
  assert (I5 : same_interior p q5 level).
  { eapply same_interior_trans;
      [apply same_but_nx_same_interior; exact S4|].
    apply same_interior_store_PageFrameNumber. exact L1. }
  destruct (same_interior_walk p q5 pml4 level pa Hh I5 Hw)
    as [W5 [E3 [E2 E1]]].
  pose proof (same_interior_hierarchy p q5 pml4 level Hh I5) as H5.
  destruct (ChangePermissionOfPage_allow_result dbg q5 pml4 pa W5
              (hierarchy_walk_tables_distinct _ _ _ _ H5 W5))
    as [q6 [Hrun [S6 [_ [_ N6]]]]].
  rewrite E1 in N6. change (pt_entry p pml4 pa) with l in N6.
  rewrite Hrun. cbn [bind].
  assert (I6 : same_interior p q6 level).
  { eapply same_interior_trans;
      [exact I5|apply same_but_nx_same_interior; exact S6]. }
  exists q6. split; [reflexivity|]. split; [exact I6|].
  split; [exact N6|].
  assert (Hl : forall r, In r g ->
             hook_leaf q6 pml4 (HookEntry r) = hook_leaf p pml4 (HookEntry r))
    by (intros r Hin; apply (same_interior_hook_leaf g p q6 pml4 level);
        assumption).
  assert (P6 : forall c, Fields.PageFrameNumber (load q6 c)
                         = Fields.PageFrameNumber (load q5 c))
    by (intros c; apply same_but_nx_PageFrameNumber; exact S6).
  split; [|split; [reflexivity|split; [reflexivity|split; [exact He|]]]].
  { apply (same_interior_engine_frame g p); assumption. }
  change (Pml4Table (set_NptState (set_ActiveHookEntry hd (Some (HookEntry r0)))
                                  NptHookEnabledVisible)) with pml4.
  rewrite (Hl r0 Hr0). fold l. split.
  - rewrite P6. subst q5. rewrite load_store_PageFrameNumber_same.
    apply PageFrameNumber_set_PageFrameNumber. exact Hv.
  - intros r Hin. rewrite (Hl r Hin).
    destruct (Hleaf r Hin) as [_ Hp].
    destruct (entry_ptr_eq_dec (hook_leaf p pml4 (HookEntry r)) l) as [E|E].
    + left. split; [exact E|]. rewrite <- Hp, E. exact Hpfn.
    + right. split; [exact E|]. rewrite P6. subst q5.
      rewrite load_store_PageFrameNumber_other by exact E.
      rewrite P4. exact Hp.
Qed.

Lemma TransitionNtpState2To1_from_visible dbg g p hd level a :
  visible_state g p hd level a ->
  exists p',
    TransitionNtpState2To1 dbg g p hd
    = Done (p', set_NptState (set_ActiveHookEntry hd None)
                             NptHookEnabledInvisible) /\
    same_interior p p' level /\
    armed_state g p' (set_NptState (set_ActiveHookEntry hd None)
                                   NptHookEnabledInvisible) level.
Proof.
  intros [Hf [Hst [Hact [Ha [Hpfn Hothers]]]]].
  destruct (in_map_HookEntry g a Ha) as [r0 [Hr0 Ea]].
  pose proof Hf as [Hh [Hm Hr]].
  set (pml4 := Pml4Table hd) in *.
  set (pa := PhyPageBase a).
  set (l := hook_leaf p pml4 a) in *.
  assert (Hw : walk_succeeds p pml4 pa)
    by (subst pa; rewrite <- Ea; apply Hm; exact Hr0).
  assert (Hlow : 0 <= pa < 2 ^ 39)
    by (subst pa; rewrite <- Ea; apply Hr; exact Hr0).
  assert (Hexec : 0 <= PhyPageBaseForExecution a < 2 ^ 52)
    by (rewrite <- Ea; apply Hr; exact Hr0).
  destruct (hierarchy_walk_levels _ _ _ _ Hh Hw) as [_ [_ L1]].
  change (pt_entry p pml4 pa) with l in L1.
  unfold TransitionNtpState2To1. rewrite Hst, Hact.
  cbn [NPT_STATE_eqb is_some deref]. rewrite NT_ASSERT_true. cbn [bind].
  fold pml4 pa.
  destruct (ChangePermissionsOfAllPages_allow dbg p pml4 pa
              (MaxNptPdpEntriesUsed hd))
    as [q1 [Hrun1 S1]].
  { right. split; [apply low_address_pxe; exact Hlow|exact Hw]. }
  rewrite Hrun1. cbn [bind].
  destruct (ForEachRegistration_arm dbg q1 pml4 g q1 (same_but_nx_refl q1))
    as [q2 [Hrun2 [Hfree2 Hq2]]].
  { intros r Hin. apply (same_but_nx_walk_succeeds p); [exact S1|].
    apply Hm. exact Hin. }
  rewrite Hrun2. cbn [bind].
  assert (S12 : same_but_nx q1 q2).
  { split; [|exact Hfree2]. intros t i. rewrite Hq2.
    destruct (cell_in t i _); [apply set_NoExecute_idem|reflexivity]. }
  assert (S2 : same_but_nx p q2) by (eapply same_but_nx_trans; eassumption).
  assert (N2 : forall r, In r g ->
             Fields.NoExecute (load q2 (hook_leaf p pml4 (HookEntry r))) = 1).
  { intros r Hin. unfold load. rewrite Hq2.
    assert (C : cell_in (fst (hook_leaf p pml4 (HookEntry r)))
                        (snd (hook_leaf p pml4 (HookEntry r)))
                        (hook_leaves g q1 pml4) = true).
    { apply cell_in_spec. rewrite <- surjective_pairing.
      unfold hook_leaves. apply in_map_iff. exists r. split; [|exact Hin].
      unfold hook_leaf. apply same_but_nx_pt_entry. exact S1. }
    rewrite C. apply NoExecute_set_NoExecute_1. }
  assert (P2 : forall c, Fields.PageFrameNumber (load q2 c)
                         = Fields.PageFrameNumber (load p c))
    by (intros c; apply same_but_nx_PageFrameNumber; exact S2).
  rewrite (GetNestedPageTableEntry_walk q2 pml4 pa)
    by (apply (same_but_nx_walk_succeeds p); assumption).
  rewrite (same_but_nx_pt_entry p q2) by exact S2.
  change (pt_entry p pml4 pa) with l.
  cbn [is_some deref]. rewrite NT_ASSERT_true. cbn [bind].
  assert (N2a : Fields.NoExecute (load q2 l) = 1)
    by (subst l; rewrite <- Ea; apply N2; exact Hr0).
  rewrite N2a, P2, Hpfn, Z.eqb_refl.
  change (negb (1 =? 0)) with true. rewrite NT_ASSERT_true. cbn [bind].
  set (v := GetPfnFromPa pa).
  assert (Hv : 0 <= v < 2 ^ 40) by (apply GetPfnFromPa_range; lia).
  set (q3 := store_PageFrameNumber q2 l v).
  assert (I3 : same_interior p q3 level).
  { eapply same_interior_trans;
      [apply same_but_nx_same_interior; exact S2|].
    apply same_interior_store_PageFrameNumber. exact L1. }
  exists q3. split; [reflexivity|]. split; [exact I3|].
  split; [|split; [reflexivity|split; [reflexivity|]]].
  { apply (same_interior_engine_frame g p); assumption. }
  change (Pml4Table (set_NptState (set_ActiveHookEntry hd None)
                                  NptHookEnabledInvisible)) with pml4.
  intros r Hin.
  rewrite (same_interior_hook_leaf g p q3 pml4 level r I3 Hf Hin).
  destruct (entry_ptr_eq_dec (hook_leaf p pml4 (HookEntry r)) l) as [E|E].
  - rewrite E. subst q3. rewrite load_store_PageFrameNumber_same.
    rewrite NoExecute_set_PageFrameNumber.
    rewrite PageFrameNumber_set_PageFrameNumber by exact Hv.
    split; [exact N2a|].
    destruct (Hothers r Hin) as [[_ Hp]|[Hne _]]; [|contradiction].
    symmetry. exact Hp.
  - subst q3. rewrite load_store_PageFrameNumber_other by exact E.
    split; [apply N2; exact Hin|].
    rewrite P2.
    destruct (Hothers r Hin) as [[He _]|[_ Hp]]; [contradiction|exact Hp].
Qed.

Lemma EnableHooks_reaches_armed dbg g p hd level :
  engine_frame g p (Pml4Table hd) level ->
  NptState hd = NptDefault -> ActiveHookEntry hd = None ->
  (forall r, In r g ->
     Fields.PageFrameNumber (load p (hook_leaf p (Pml4Table hd) (HookEntry r)))
     = GetPfnFromPa (PhyPageBase (HookEntry r))) ->
  exists p1,
    EnableHooks dbg g p hd = Done (p1, set_NptState hd NptHookEnabledInvisible) /\
    same_interior p p1 level /\
    armed_state g p1 (set_NptState hd NptHookEnabledInvisible) level.
Proof.
  intros Hf Hst Hact Hpfn. pose proof Hf as [Hh [Hm Hr]].
  destruct (EnableHooks_arms_leaves dbg g p hd Hm Hst Hact)
    as [p1 [Hrun [Hfree Hq]]].
  assert (S1 : same_but_nx p p1).
  { split; [|exact Hfree]. intros t i. rewrite Hq.
    destruct (cell_in t i _); [apply set_NoExecute_idem|reflexivity]. }
  pose proof (same_but_nx_same_interior p p1 level S1) as I1.
  exists p1. split; [exact Hrun|]. split; [exact I1|].
  split; [|split; [reflexivity|split; [exact Hact|]]].
  { apply (same_interior_engine_frame g p); assumption. }
  change (Pml4Table (set_NptState hd NptHookEnabledInvisible))
    with (Pml4Table hd).
  intros r Hin.
  rewrite (same_interior_hook_leaf g p p1 (Pml4Table hd) level r I1 Hf Hin).
  split.
  - unfold load. rewrite Hq.
    assert (C : cell_in (fst (hook_leaf p (Pml4Table hd) (HookEntry r)))
                        (snd (hook_leaf p (Pml4Table hd) (HookEntry r)))
                        (hook_leaves g p (Pml4Table hd)) = true).
    { apply cell_in_spec. rewrite <- surjective_pairing.
      unfold hook_leaves. apply in_map_iff. exists r. split; [reflexivity|].
      exact Hin. }
    rewrite C. apply NoExecute_set_NoExecute_1.
  - rewrite (same_but_nx_PageFrameNumber p p1) by exact S1.
    apply Hpfn. exact Hin.
Qed.




(* ================================================================== *)
(** * Part III: further properties of the code                         *)
(* ================================================================== *)

(** ** HookCommon.cpp: finding and building translations *)

Lemma OperateOnNestedPageTables_find dbg p pml4 pa H :
  OperateOnNestedPageTables dbg p pml4 pa FindOperation H
  = Done (GetNestedPageTableEntry p pml4 pa, p, H).
Proof.
  unfold GetNestedPageTableEntry, OperateOnNestedPageTables, EnsureSubTable.
  cbn [is_BuildOperation negb].
  destruct (Fields.Valid (load p (pml4, GetPxeIndex pa)) =? 0); [reflexivity|].
  cbn [bind negb].
  destruct (Fields.Valid (load p (Fields.PageFrameNumber
                                    (load p (pml4, GetPxeIndex pa)),
                                  GetPpeIndex pa)) =? 0); [reflexivity|].
  cbn [bind negb].
  destruct (Fields.Valid (load p _) =? 0); reflexivity.
Qed.

Lemma walk_succeeds_dec p pml4 pa :
  walk_succeeds p pml4 pa \/ ~ walk_succeeds p pml4 pa.
Proof.
  unfold walk_succeeds.
  destruct (Valid_bit (load p (pml4_entry pml4 pa))) as [E4|E4];
    [right; intros [H _]; congruence|].
  destruct (Valid_bit (load p (pdpt_entry p pml4 pa))) as [E3|E3];
    [right; intros [_ [H _]]; congruence|].
  destruct (Valid_bit (load p (pdt_entry p pml4 pa))) as [E2|E2];
    [right; intros [_ [_ H]]; congruence|].
  left. auto.
Qed.

Lemma GetNestedPageTableEntry_no_walk p pml4 pa :
  ~ walk_succeeds p pml4 pa -> GetNestedPageTableEntry p pml4 pa = None.
Proof.
  intros Hn. destruct (GetNestedPageTableEntry p pml4 pa) as [e|] eqn:E;
    [|reflexivity].
  exfalso. apply Hn. apply (GetNestedPageTableEntry_Some p pml4 pa e E).
Qed.

(** X1.  A find (GetNestedPageTableEntry, OperateOnNestedPageTables with
    FindOperation) only reads: memory and HOOK_DATA come back as they
    were, nothing is allocated and no assertion is involved, in either
    build.  The result is the leaf entry of the address when the PML4, PDPT
    and PDT entries of its walk are valid, and nullptr as soon as one of
    them is not. *)
Theorem OperateOnNestedPageTables_find_reads_only dbg p pml4 pa H :
  OperateOnNestedPageTables dbg p pml4 pa FindOperation H
  = Done (GetNestedPageTableEntry p pml4 pa, p, H) /\
  (walk_succeeds p pml4 pa ->
   GetNestedPageTableEntry p pml4 pa = Some (pt_entry p pml4 pa)) /\
  (~ walk_succeeds p pml4 pa -> GetNestedPageTableEntry p pml4 pa = None) /\
  (GetNestedPageTableEntry p pml4 pa = None -> ~ walk_succeeds p pml4 pa).
Proof.
  split; [apply OperateOnNestedPageTables_find|].
  split; [apply GetNestedPageTableEntry_walk|].
  split; [apply GetNestedPageTableEntry_no_walk|].
  apply GetNestedPageTableEntry_None.
Qed.



(** X3.  On a hierarchy, with whatever NoExecute bits the hook engine
    has set in it, and with a good source of pages, building the
    translation of one address keeps the translations that exist: an
    address whose walk succeeded before the build is found at the same
    leaf entry after it, and unless that is the very entry the build
    wrote, the entry holds what it held. *)
Theorem BuildSubTables_keeps_other_translations
    dbg p pml4 level H pa e p' H' pa' :
  table_invariant p pml4 level H ->
  pa <> MAXULONG64 ->
  BuildSubTables dbg p pml4 pa H = Done (Some e, p', H') ->
  walk_succeeds p pml4 pa' ->
  GetNestedPageTableEntry p pml4 pa' = Some (pt_entry p pml4 pa') /\
  GetNestedPageTableEntry p' pml4 pa' = Some (pt_entry p pml4 pa') /\
  (pt_entry p pml4 pa' <> e ->
   load p' (pt_entry p pml4 pa') = load p (pt_entry p pml4 pa')).
Proof.
  intros Hinv Hpa Hrun Hw'.
  destruct (BuildSubTables_table_invariant dbg p pml4 level H pa (Some e) p' H'
              Hinv Hpa Hrun)
    as [level' [_ [Hext [Hip [_ [_ Hsome]]]]]].
  destruct (Hsome e eq_refl) as [_ [_ [_ [_ [_ [_ [created [_ [_ [Hk Hc]]]]]]]]]].
  pose proof Hinv as [Hh _].
  destruct (interior_preserved_walk p p' pml4 level pa' Hh Hip Hw')
    as [Hw2 [_ [_ E1]]].
  split; [apply GetNestedPageTableEntry_walk; exact Hw'|].
  split; [rewrite <- E1; apply GetNestedPageTableEntry_walk; exact Hw2|].
  intros Hne. unfold load. apply Hk.
  - destruct (hierarchy_walk_levels _ _ _ _ Hh Hw') as [_ [_ L1]].
    set (l := pt_entry p pml4 pa') in *.
    rewrite cell_in_cons.
    destruct (Z.eqb_spec (fst l) (fst e)) as [Et|Et];
      [destruct (Z.eqb_spec (snd l) (snd e)) as [Ei|Ei]|]; cbn [andb orb].
    + exfalso. apply Hne. destruct l, e; simpl in *; congruence.
    + destruct (cell_in (fst l) (snd l) created) eqn:C; [|reflexivity].
      apply cell_in_spec in C. rewrite <- surjective_pairing in C.
      destruct (Hc l C) as [L2 _].
      rewrite (Hext (fst l)) in L2 by (rewrite L1; discriminate). lia.
    + destruct (cell_in (fst l) (snd l) created) eqn:C; [|reflexivity].
      apply cell_in_spec in C. rewrite <- surjective_pairing in C.
      destruct (Hc l C) as [L2 _].
      rewrite (Hext (fst l)) in L2 by (rewrite L1; discriminate). lia.
  - right. destruct (hierarchy_walk_levels _ _ _ _ Hh Hw') as [_ [_ L1]].
    rewrite L1. discriminate.
Qed.


Lemma AllocateNptEntry_no_free_pages p :
  free_pages p = [] -> AllocateNptEntry p None = Done (None, p, None).
Proof. intros E. unfold AllocateNptEntry. rewrite E. reflexivity. Qed.

Lemma EnsureSubTable_no_free_pages p e :
  free_pages p = [] ->
  EnsureSubTable p e BuildOperation None
  = Done (negb (Fields.Valid (load p e) =? 0), p, None).
Proof.
  intros E. unfold EnsureSubTable, BuildNestedPageTableEntry.
  cbn [is_BuildOperation negb]. rewrite Z.eqb_refl.
  rewrite (AllocateNptEntry_no_free_pages p E).
  destruct (Fields.Valid (load p e) =? 0); reflexivity.
Qed.

(** X4.  Out of memory.  With no page left in the kernel's pool,
    BuildSubTables(..., nullptr-HookData) for an address that still needs
    a table returns nullptr and leaves memory as it was, and
    InitializeHookData reports failure; neither bug-checks nor asserts. *)
Theorem BuildSubTables_without_free_pages dbg p pml4 pa runs apicBaseMsr :
  free_pages p = [] ->
  ~ walk_succeeds p pml4 pa ->
  BuildSubTables dbg p pml4 pa None = Done (None, p, None) /\
  InitializeHookData dbg p runs apicBaseMsr = Done (None, p).
Proof.
  intros E Hn. split.
  - unfold BuildSubTables, OperateOnNestedPageTables.
    rewrite (EnsureSubTable_no_free_pages p _ E). cbn [bind].
    fold (pml4_entry pml4 pa).
    destruct (Valid_bit (load p (pml4_entry pml4 pa))) as [E4|E4]; rewrite E4;
      [reflexivity|].
    change (negb (negb (1 =? 0))) with false. cbv iota.
    rewrite (EnsureSubTable_no_free_pages p _ E). cbn [bind].
    fold (pdpt_entry p pml4 pa).
    destruct (Valid_bit (load p (pdpt_entry p pml4 pa))) as [E3|E3]; rewrite E3;
      [reflexivity|].
    change (negb (negb (1 =? 0))) with false. cbv iota.
    rewrite (EnsureSubTable_no_free_pages p _ E). cbn [bind].
    fold (pdt_entry p pml4 pa).
    destruct (Valid_bit (load p (pdt_entry p pml4 pa))) as [E2|E2]; rewrite E2;
      [reflexivity|].
    exfalso. apply Hn. unfold walk_succeeds. auto.
  - unfold InitializeHookData, BuildNestedPageTables, AllocateContiguousMemory.
    rewrite E. reflexivity.
Qed.

Lemma BuildSubTables_without_free_pages_witness :
  let p := mkPhys (qword sample_phys) [] in
  BuildSubTables true p (Pml4Table sample_hook_data) 0xFED00010 None
  = Done (None, p, None) /\
  InitializeHookData true p sample_runs 0xFEE00900 = Done (None, p).
Proof.
  intros p.
  apply (BuildSubTables_without_free_pages true p (Pml4Table sample_hook_data)
           0xFED00010 sample_runs 0xFEE00900).
  - reflexivity.
  - intros [_ [_ H]]. vm_compute in H. discriminate.
Defined.

Lemma AllocateNptEntry_pool_exhausted p hd :
  NumberOfPreAllocatedNptEntries <= UsedPreAllocatedEntriesCount hd < 2 ^ 31 - 1 ->
  AllocateNptEntry p (Some hd) = BugCheck.
Proof.
  unfold NumberOfPreAllocatedNptEntries. intros Hu. unfold AllocateNptEntry.
  rewrite to_LONG_small by lia. rewrite to_ULONG_small by lia.
  unfold NumberOfPreAllocatedNptEntries.
  destruct (Z.gtb_spec (UsedPreAllocatedEntriesCount hd + 1) 50); [reflexivity|lia].
Qed.

Lemma EnsureSubTable_pool_exhausted p e hd :
  NumberOfPreAllocatedNptEntries <= UsedPreAllocatedEntriesCount hd < 2 ^ 31 - 1 ->
  Fields.Valid (load p e) = 0 ->
  EnsureSubTable p e BuildOperation (Some hd) = BugCheck.
Proof.
  intros Hu E. unfold EnsureSubTable, BuildNestedPageTableEntry.
  rewrite E. cbn [Z.eqb is_BuildOperation negb]. rewrite Z.eqb_refl.
  rewrite (AllocateNptEntry_pool_exhausted p hd Hu). reflexivity.
Qed.

Lemma EnsureSubTable_valid p e op H :
  Fields.Valid (load p e) = 1 -> EnsureSubTable p e op H = Done (true, p, H).
Proof. intros E. unfold EnsureSubTable. rewrite E. reflexivity. Qed.

Lemma BuildSubTables_pool_exhausted dbg p pml4 pa hd :
  NumberOfPreAllocatedNptEntries <= UsedPreAllocatedEntriesCount hd < 2 ^ 31 - 1 ->
  ~ walk_succeeds p pml4 pa ->
  BuildSubTables dbg p pml4 pa (Some hd) = BugCheck.
Proof.
  intros Hu Hn. unfold BuildSubTables, OperateOnNestedPageTables.
  fold (pml4_entry pml4 pa).
  destruct (Valid_bit (load p (pml4_entry pml4 pa))) as [E4|E4];
    [rewrite (EnsureSubTable_pool_exhausted p _ hd Hu E4); reflexivity|].
  rewrite (EnsureSubTable_valid p _ _ _ E4). cbn [bind negb].
  fold (pdpt_entry p pml4 pa).
  destruct (Valid_bit (load p (pdpt_entry p pml4 pa))) as [E3|E3];
    [rewrite (EnsureSubTable_pool_exhausted p _ hd Hu E3); reflexivity|].
  rewrite (EnsureSubTable_valid p _ _ _ E3). cbn [bind negb].
  fold (pdt_entry p pml4 pa).
  destruct (Valid_bit (load p (pdt_entry p pml4 pa))) as [E2|E2];
    [rewrite (EnsureSubTable_pool_exhausted p _ hd Hu E2); reflexivity|].
  exfalso. apply Hn. unfold walk_succeeds. auto.
Qed.

(** X5.  An exhausted pool.  A nested page fault on a non-present
    translation (ExitInfo1.Valid = 0) that needs a new table when all 50
    pre-allocated entries are used ends in the bug check, in both builds:
    no entry beyond the pool is handed out and nothing is written. *)
Theorem HandleNestedPageFault_pool_exhausted_bug_checks
    dbg g p (GuestVmcb : VMCB) hd :
  NPF_EXITINFO1.Valid (ExitInfo1 (ControlArea GuestVmcb)) = 0 ->
  NumberOfPreAllocatedNptEntries <= UsedPreAllocatedEntriesCount hd < 2 ^ 31 - 1 ->
  ~ walk_succeeds p (Pml4Table hd) (ExitInfo2 (ControlArea GuestVmcb)) ->
  HandleNestedPageFault dbg g p GuestVmcb hd = BugCheck.
Proof.
  intros Hv Hu Hn. unfold HandleNestedPageFault. rewrite Hv.
  change (0 =? 0) with true. cbv iota.
  rewrite (GetNestedPageTableEntry_no_walk _ _ _ Hn).
  rewrite (BuildSubTables_pool_exhausted dbg p _ _ hd Hu Hn).
  destruct dbg; reflexivity.
Qed.

Lemma HandleNestedPageFault_pool_exhausted_bug_checks_witness :
  HandleNestedPageFault true sample_registrations sample_phys
    (sample_vmcb VMEXIT_NPF 0x100000006 0xFED00010
                 0xFFFFF80002000010 0xFFFFF80002000012 0x0093)
    (set_UsedPreAllocatedEntriesCount sample_hook_data 50)
  = BugCheck.
Proof.
  apply HandleNestedPageFault_pool_exhausted_bug_checks.
  - reflexivity.
  - cbn [UsedPreAllocatedEntriesCount set_UsedPreAllocatedEntriesCount].
    unfold NumberOfPreAllocatedNptEntries. lia.
  - intros [_ [_ H]]. vm_compute in H. discriminate.
Defined.

(** ** HookKernelProcessorData.cpp: initialisation *)

(** X6.  What a successful InitializeHookData hands to the VMM, whatever
    the memory held before (the allocator's pages being distinct 40-bit
    frames): a hierarchy of tables under the PML4 in which no entry has
    NoExecute set and through which every page of every run of the memory
    descriptor can be found; NptDefault with no active hook; and a pool of
    exactly 50 distinct, zero-filled pages, none of them part of the
    hierarchy and none used yet. *)
Theorem InitializeHookData_establishes_tables_and_pool
    dbg p runs apicBaseMsr hd p' :
  NoDup (free_pages p) ->
  (forall q, In q (free_pages p) -> 0 <= q < 2 ^ 40) ->
  InitializeHookData dbg p runs apicBaseMsr = Done (Some hd, p') ->
  exists level,
    NptHierarchy p' (Pml4Table hd) level /\
    AllExecutable p' level /\
    (forall pa, ram_address runs pa ->
       exists e, GetNestedPageTableEntry p' (Pml4Table hd) pa = Some e /\
                 level (fst e) = 1%nat) /\
    NptState hd = NptDefault /\
    ActiveHookEntry hd = None /\
    UsedPreAllocatedEntriesCount hd = 0 /\
    List.length (PreAllocatedNptEntries hd) = 50%nat /\
    NoDup (PreAllocatedNptEntries hd) /\
    (forall q, In q (PreAllocatedNptEntries hd) ->
       level q = 0%nat /\ page_zeroed p' q).
Proof.
  intros Hnodup Hrange Hrun.
  destruct (InitializeHookData_invariant dbg p runs apicBaseMsr hd p'
              Hnodup Hrange Hrun)
    as [level [[Hh [Hx [[Hnd Hfr] [_ [Hlen Hz]]]]] [W [S [A [U _]]]]]].
  cbn [source_pages] in Hnd, Hfr, Hz. rewrite U in Hnd, Hfr, Hz.
  cbn [Z.to_nat skipn] in Hnd, Hfr, Hz.
  exists level. split; [exact Hh|]. split; [exact Hx|].
  split.
  { intros pa Hpa. exists (pt_entry p' (Pml4Table hd) pa). split.
    - apply GetNestedPageTableEntry_walk, W, Hpa.
    - apply (hierarchy_walk_levels _ _ _ _ Hh (W pa Hpa)). }
  split; [exact S|]. split; [exact A|]. split; [exact U|].
  split.
  { unfold NumberOfPreAllocatedNptEntries in Hlen. lia. }
  split; [exact Hnd|].
  intros q Hin. split; [apply Hfr, Hin|apply Hz, Hin].
Qed.

Lemma InitializeHookData_establishes_tables_and_pool_witness :
  exists hd p' level,
    InitializeHookData true sample_boot_phys sample_runs 0xFEE00900
    = Done (Some hd, p') /\
    AllExecutable p' level /\
    List.length (PreAllocatedNptEntries hd) = 50%nat /\
    NptState hd = NptDefault.
Proof.
  destruct sample_free_pages_fresh as [Hnodup Hrange].
  destruct (InitializeHookData true sample_boot_phys sample_runs 0xFEE00900)
    as [[[hd|] p']| | |] eqn:E;
    try (exfalso; vm_compute in E; discriminate).
  destruct (InitializeHookData_establishes_tables_and_pool
              true sample_boot_phys sample_runs 0xFEE00900 hd p' Hnodup Hrange E)
    as [level [_ [Hx [_ [S [_ [_ [Hlen _]]]]]]]].
  exists hd, p', level. auto.
Defined.

Lemma ROUND_TO_SIZE_oneGigabyte x :
  0 <= x < 2 ^ 63 ->
  ROUND_TO_SIZE x oneGigabyte / oneGigabyte = (x + (2 ^ 30 - 1)) / 2 ^ 30.
Proof.
  intros Hx. unfold ROUND_TO_SIZE, oneGigabyte, to_ULONG64.
  change (1024 * 1024 * 1024) with (2 ^ 30).
  rewrite Z.mod_small by lia.
  change (2 ^ 30 - 1) with (Z.ones 30).
  rewrite Z.ldiff_ones_r by lia.
  rewrite Z.shiftl_mul_pow2, Z.shiftr_div_pow2 by lia.
  apply Z.div_mul. lia.
Qed.

Lemma GetPpeIndex_low pa : 0 <= pa < 2 ^ 39 -> GetPpeIndex pa = pa / 2 ^ 30.
Proof.
  intros H. unfold GetPpeIndex, k_PpiShift. change k_PtxMask with (Z.ones 9).
  rewrite Z.shiftr_div_pow2 by lia.
  apply land_ones_small; [lia|].
  split; [apply Z.div_pos; lia|]. apply Z.div_lt_upper_bound; lia.
Qed.

(** X7.  MaxPpeIndex.  When BuildNestedPageTables succeeds and the last
    run of the descriptor ends at or below 512 GB, the MaxPpeIndex it
    returns is the end of that run rounded up to whole gigabytes: it is
    at most 512, and every address below the end of the run falls under
    the first PML4 entry and under a PDPT entry with an index below
    MaxPpeIndex, the entries ChangePermissionsOfAllPages flips. *)
Theorem BuildNestedPageTables_MaxPpeIndex_covers_last_run
    dbg p runs apicBaseMsr pml4 maxPpeIndex p' :
  BuildNestedPageTables dbg p runs apicBaseMsr
  = Done (Some (pml4, maxPpeIndex), p') ->
  (forall run, In run runs -> 0 <= BasePage run /\ 0 <= PageCount run /\
     (BasePage run + PageCount run) * PAGE_SIZE <= 2 ^ 39) ->
  exists lastRun,
    nth_error runs (List.length runs - 1) = Some lastRun /\
    let top := (BasePage lastRun + PageCount lastRun) * PAGE_SIZE in
    maxPpeIndex = (top + (2 ^ 30 - 1)) / 2 ^ 30 /\
    0 <= maxPpeIndex <= 512 /\
    forall pa, 0 <= pa < top ->
      GetPxeIndex pa = 0 /\ 0 <= GetPpeIndex pa < maxPpeIndex.
Proof.
  intros Hrun Hruns. unfold BuildNestedPageTables in Hrun.
  destruct (AllocateContiguousMemory p) as [[t|] p1]; [|discriminate].
  bind_inv Hrun. destruct a as [ok p2].
  destruct ok; cbn [negb] in Hrun; [|discriminate].
  bind_inv Hrun. destruct a as [[entry p3] H3].
  destruct entry as [e|]; [|discriminate].
  bind_inv Hrun. rename a into lastRun.
  destruct (nth_error runs (List.length runs - 1)) as [r|] eqn:En;
    [|discriminate].
  injection Hc1 as ->. injection Hrun as _ Hmax _.
  exists lastRun. split; [reflexivity|].
  destruct (Hruns lastRun (nth_error_In _ _ En)) as [Hb [Hn Htop]].
  unfold PAGE_SIZE in *.
  assert (E1 : to_ULONG64 (BasePage lastRun * 4096) = BasePage lastRun * 4096)
    by (unfold to_ULONG64; apply Z.mod_small; lia).
  assert (E2 : to_ULONG64 (PageCount lastRun * 4096) = PageCount lastRun * 4096)
    by (unfold to_ULONG64; apply Z.mod_small; lia).
  rewrite E1, E2 in Hmax.
  assert (E3 : to_ULONG64 (BasePage lastRun * 4096 + PageCount lastRun * 4096)
               = (BasePage lastRun + PageCount lastRun) * 4096)
    by (unfold to_ULONG64; rewrite Z.mod_small by lia; lia).
  rewrite E3 in Hmax. rewrite ROUND_TO_SIZE_oneGigabyte in Hmax by lia.
  set (top := (BasePage lastRun + PageCount lastRun) * 4096) in *.
  assert (Hq : 0 <= (top + (2 ^ 30 - 1)) / 2 ^ 30 <= 512).
  { split; [apply Z.div_pos; lia|].
    apply Z.lt_succ_r. apply Z.div_lt_upper_bound; lia. }
  rewrite to_ULONG_small in Hmax by lia. subst maxPpeIndex.
  split; [reflexivity|]. split; [exact Hq|].
  intros pa Hpa. split; [apply low_address_pxe; lia|].
  rewrite GetPpeIndex_low by lia.
  split; [apply Z.div_pos; lia|].
  apply Z.div_lt_upper_bound; [lia|].
  pose proof (Z.mul_div_le (top + (2 ^ 30 - 1)) (2 ^ 30) ltac:(lia)).
  pose proof (Z.mod_pos_bound (top + (2 ^ 30 - 1)) (2 ^ 30) ltac:(lia)).
  pose proof (Z.div_mod (top + (2 ^ 30 - 1)) (2 ^ 30) ltac:(lia)).
  lia.
Qed.

Lemma BuildNestedPageTables_MaxPpeIndex_covers_last_run_witness :
  exists pml4 p',
    BuildNestedPageTables true sample_boot_phys sample_runs 0xFEE00900
    = Done (Some (pml4, 1), p') /\
    GetPpeIndex 0x2C45FFF < 1.
Proof.
  destruct (BuildNestedPageTables true sample_boot_phys sample_runs 0xFEE00900)
    as [[[[pml4 maxPpeIndex]|] p']| | |] eqn:E;
    try (exfalso; vm_compute in E; discriminate).
  destruct (BuildNestedPageTables_MaxPpeIndex_covers_last_run
              true sample_boot_phys sample_runs 0xFEE00900 pml4 maxPpeIndex p' E)
    as [lastRun [Hlast [Hmax [_ Hcover]]]].
  - intros run Hin. cbn in Hin.
    destruct Hin as [<-|[<-|[<-|[]]]]; cbn; lia.
  - cbn in Hlast. injection Hlast as <-.
    cbn in Hmax. subst maxPpeIndex.
    exists pml4, p'. split; [reflexivity|].
    apply (Hcover 0x2C45FFF). cbn. lia.
Defined.

(** ** The engine, entry by entry *)

Lemma in_table_spec i : in_table i = true <-> 0 <= i < 512.
Proof.
  unfold in_table. rewrite andb_true_iff, Z.leb_le, Z.ltb_lt. tauto.
Qed.

Lemma qword_ForEachEntry_table table nx p t i :
  qword (ForEachEntrySetNoExecute 512 0 table nx p) t i
  = if (t =? table) && in_table i
    then Fields.set_NoExecute (qword p t i) (BOOLEAN nx)
    else qword p t i.
Proof.
  rewrite qword_ForEachEntrySetNoExecute. unfold in_table.
  change (0 + Z.of_nat 512) with 512. rewrite andb_assoc. reflexivity.
Qed.

Lemma qword_ForEachEntry_upto max table nx p t i :
  0 <= max ->
  qword (ForEachEntrySetNoExecute (Z.to_nat max) 0 table nx p) t i
  = if (t =? table) && ((0 <=? i) && (i <? max))
    then Fields.set_NoExecute (qword p t i) (BOOLEAN nx)
    else qword p t i.
Proof.
  intros Hm. rewrite qword_ForEachEntrySetNoExecute.
  rewrite Z2Nat.id by exact Hm. rewrite Z.add_0_l, andb_assoc. reflexivity.
Qed.

(** Decide the tests of a goal about entries. *)
Ltac entry_cases :=
  repeat match goal with
  | |- context [Z.eqb ?a ?b] => destruct (Z.eqb_spec a b)
  | |- context [in_table ?i] =>
      let E := fresh "E" in
      destruct (in_table i) eqn:E;
      [apply in_table_spec in E
      |assert (~ 0 <= i < 512) by (rewrite <- in_table_spec; congruence);
       clear E]
  | |- context [Z.leb ?a ?b] => destruct (Z.leb_spec a b)
  | |- context [Z.ltb ?a ?b] => destruct (Z.ltb_spec a b)
  end;
  cbn [andb orb negb].

(** ChangePermissionOfPage(..., FALSE) on a page whose PDPT entry is
    masked: the path of the page is opened and its siblings in the PDT
    and in the PT are masked. *)
Lemma ChangePermissionOfPage_allow_memory dbg q pml4 pa :
  walk_succeeds q pml4 pa -> walk_tables_distinct q pml4 pa ->
  Fields.NoExecute (load q (pdpt_entry q pml4 pa)) = 1 ->
  exists q',
    ChangePermissionOfPage dbg q pml4 pa false = Done q' /\
    same_but_nx q q' /\
    forall t i,
      qword q' t i
      = if t =? fst (pt_entry q pml4 pa) then
          if i =? snd (pt_entry q pml4 pa)
          then Fields.set_NoExecute (qword q t i) 0
          else if in_table i then Fields.set_NoExecute (qword q t i) 1
          else qword q t i
        else if t =? fst (pdt_entry q pml4 pa) then
          if i =? snd (pdt_entry q pml4 pa)
          then Fields.set_NoExecute (qword q t i) 0
          else if in_table i then Fields.set_NoExecute (qword q t i) 1
          else qword q t i
        else if (t =? fst (pdpt_entry q pml4 pa))
                && (i =? snd (pdpt_entry q pml4 pa))
        then Fields.set_NoExecute (qword q t i) 0
        else qword q t i.
Proof.
  intros Hw [H32 [H31 H21]] Hnx3.
  set (e3 := pdpt_entry q pml4 pa) in *.
  set (e2 := pdt_entry q pml4 pa) in *.
  set (e1 := pt_entry q pml4 pa) in *.
  assert (Hi2 : 0 <= snd e2 < 512) by apply GetPdeIndex_range.
  assert (Hi1 : 0 <= snd e1 < 512) by apply GetPteIndex_range.
  assert (S1 : stage_pdpt q pml4 pa false
               = ForEachEntrySetNoExecute 512 0 (fst e2) true
                   (store_NoExecute q e3 false)).
  { unfold stage_pdpt. fold e3 e2. rewrite Hnx3. reflexivity. }
  assert (N2 : Fields.NoExecute (load (stage_pdpt q pml4 pa false) e2) = 1).
  { rewrite S1, load_ForEachEntry_512 by exact Hi2. rewrite Z.eqb_refl.
    apply NoExecute_set_NoExecute_1. }
  assert (S2 : stage_pdt q pml4 pa false
               = ForEachEntrySetNoExecute 512 0 (fst e1) true
                   (store_NoExecute (stage_pdpt q pml4 pa false) e2 false)).
  { unfold stage_pdt. fold e2 e1. rewrite N2. reflexivity. }
  exists (store_NoExecute (stage_pdt q pml4 pa false) e1 false).
  split.
  { unfold ChangePermissionOfPage.
    rewrite ChangePermissionOfPage_stages_eq by auto. reflexivity. }
  split.
  { eapply same_but_nx_trans;
      [apply stage_pdt_same_but_nx|apply same_but_nx_store_NoExecute]. }
  intros t i. rewrite S2, S1.
  rewrite qword_store_NoExecute, qword_ForEachEntry_table,
    qword_store_NoExecute, qword_ForEachEntry_table, qword_store_NoExecute.
  cbn [BOOLEAN].
  destruct (Z.eqb_spec t (fst e1)) as [T1|T1].
  - destruct (Z.eqb_spec t (fst e2)) as [T2|T2]; [congruence|].
    destruct (Z.eqb_spec t (fst e3)) as [T3|T3]; [congruence|].
    cbn [andb].
    destruct (Z.eqb_spec i (snd e1)) as [I1|I1].
    + assert (E : in_table i = true) by (apply in_table_spec; lia).
      rewrite E. apply set_NoExecute_idem.
    + reflexivity.
  - cbn [andb].
    destruct (Z.eqb_spec t (fst e2)) as [T2|T2].
    + destruct (Z.eqb_spec t (fst e3)) as [T3|T3]; [congruence|].
      cbn [andb].
      destruct (Z.eqb_spec i (snd e2)) as [I2|I2].
      * assert (E : in_table i = true) by (apply in_table_spec; lia).
        rewrite E. apply set_NoExecute_idem.
      * reflexivity.
    + cbn [andb]. reflexivity.
Qed.

Lemma hook_leaves_same_but_nx g p q pml4 :
  same_but_nx p q -> hook_leaves g q pml4 = hook_leaves g p pml4.
Proof.
  intros H. unfold hook_leaves. apply map_ext. intros r.
  apply same_but_nx_pt_entry. exact H.
Qed.

Lemma first_pdpt p pml4 pa :
  GetPxeIndex pa = 0 ->
  Fields.PageFrameNumber (load p (pml4, 0)) = fst (pdpt_entry p pml4 pa).
Proof. intros Hx. unfold pdpt_entry, pml4_entry. rewrite Hx. reflexivity. Qed.

(** TransitionNptState1To2, entry by entry. *)
Lemma TransitionNptState1To2_memory dbg g p hd level e :
  armed_state g p hd level -> In e (map HookEntry g) ->
  0 <= MaxNptPdpEntriesUsed hd ->
  GetPpeIndex (PhyPageBase e) < MaxNptPdpEntriesUsed hd ->
  let pml4 := Pml4Table hd in
  let e3 := pdpt_entry p pml4 (PhyPageBase e) in
  let e2 := pdt_entry p pml4 (PhyPageBase e) in
  let e1 := pt_entry p pml4 (PhyPageBase e) in
  exists p',
    TransitionNptState1To2 dbg p hd e
    = Done (p', set_NptState (set_ActiveHookEntry hd (Some e))
                             NptHookEnabledVisible) /\
    same_interior p p' level /\
    free_pages p' = free_pages p /\
    forall t i,
      qword p' t i
      = if t =? fst e1 then
          if i =? snd e1
          then Fields.set_PageFrameNumber
                 (Fields.set_NoExecute (qword p t i) 0)
                 (GetPfnFromPa (PhyPageBaseForExecution e))
          else if in_table i then Fields.set_NoExecute (qword p t i) 1
          else qword p t i
        else if t =? fst e2 then
          if i =? snd e2 then Fields.set_NoExecute (qword p t i) 0
          else if in_table i then Fields.set_NoExecute (qword p t i) 1
          else qword p t i
        else if t =? fst e3 then
          if i =? snd e3 then Fields.set_NoExecute (qword p t i) 0
          else if (0 <=? i) && (i <? MaxNptPdpEntriesUsed hd)
          then Fields.set_NoExecute (qword p t i) 1
          else qword p t i
        else qword p t i.
Proof.
  intros [Hf [Hst [Hact Hleaf]]] He Hmax Hppe pml4.
  destruct (in_map_HookEntry g e He) as [r0 [Hr0 <-]].
  pose proof Hf as [Hh [Hm Hr]]. fold pml4 in Hf, Hh, Hm, Hleaf.
  set (pa := PhyPageBase (HookEntry r0)) in *.
  intros e3 e2 e1.
  pose proof (Hm r0 Hr0) as Hw. fold pa in Hw.
  destruct (Hleaf r0 Hr0) as [Hnx Hpfn].
  change (hook_leaf p pml4 (HookEntry r0)) with e1 in Hnx, Hpfn.
  fold pa in Hpfn.
  destruct (Hr r0 Hr0) as [Hlow Hexec]. fold pa in Hlow.
  pose proof (low_address_pxe pa Hlow) as Hx.
  destruct (hierarchy_walk_levels _ _ _ _ Hh Hw) as [L3 [L2 L1]].
  fold e3 in L3. fold e2 in L2. fold e1 in L1.
  assert (D31 : fst e3 <> fst e1) by congruence.
  assert (D32 : fst e3 <> fst e2) by congruence.
  assert (D21 : fst e2 <> fst e1) by congruence.
  assert (Hi3 : 0 <= GetPpeIndex pa < 512) by apply GetPpeIndex_range.
  unfold TransitionNptState1To2. rewrite Hst, Hact.
  cbn [NPT_STATE_eqb is_some negb]. rewrite NT_ASSERT_true. cbn [bind].
  rewrite ChangePermissionsOfAllPages_disallow. cbn [bind]. fold pml4 pa.
  rewrite (first_pdpt p pml4 pa Hx). fold e3.
  set (q4 := ForEachEntrySetNoExecute _ _ _ _ _).
  assert (S4 : same_but_nx p q4) by apply same_but_nx_ForEachEntry.
  assert (Q4 : forall t i,
             qword q4 t i
             = if (t =? fst e3) && ((0 <=? i) && (i <? MaxNptPdpEntriesUsed hd))
               then Fields.set_NoExecute (qword p t i) 1 else qword p t i)
    by (intros t i; subst q4; apply qword_ForEachEntry_upto; exact Hmax).
  rewrite (GetNestedPageTableEntry_walk q4 pml4 pa)
    by (apply (same_but_nx_walk_succeeds p); assumption).
  rewrite (same_but_nx_pt_entry p q4) by exact S4. fold e1.
  cbn [is_some deref]. rewrite NT_ASSERT_true. cbn [bind].
  assert (N4 : Fields.NoExecute (load q4 e1) = 1)
    by (apply NoExecute_ForEachEntry_disallow; exact Hnx).
  assert (P4 : forall c, Fields.PageFrameNumber (load q4 c)
                         = Fields.PageFrameNumber (load p c))
    by (intros c; apply same_but_nx_PageFrameNumber; exact S4).
  rewrite N4, P4, Hpfn, Z.eqb_refl.
  change (negb (1 =? 0)) with true. rewrite NT_ASSERT_true. cbn [bind].
  set (v := GetPfnFromPa (PhyPageBaseForExecution (HookEntry r0))).
  set (q5 := store_PageFrameNumber q4 e1 v).
  assert (I5 : same_interior p q5 level).
  { eapply same_interior_trans;
      [apply same_but_nx_same_interior; exact S4|].
    apply same_interior_store_PageFrameNumber. exact L1. }
  destruct (same_interior_walk p q5 pml4 level pa Hh I5 Hw)
    as [W5 [E3 [E2 E1]]].
  fold e3 in E3. fold e2 in E2. fold e1 in E1.
  pose proof (same_interior_hierarchy p q5 pml4 level Hh I5) as H5.
  assert (N5 : Fields.NoExecute (load q5 (pdpt_entry q5 pml4 pa)) = 1).
  { rewrite E3. subst q5. rewrite load_store_PageFrameNumber_other
      by (intros E; apply D31; rewrite E; reflexivity).
    unfold load. rewrite Q4, Z.eqb_refl.
    change (snd e3) with (GetPpeIndex pa).
    destruct (Z.leb_spec 0 (GetPpeIndex pa)); [|lia].
    destruct (Z.ltb_spec (GetPpeIndex pa) (MaxNptPdpEntriesUsed hd)); [|lia].
    apply NoExecute_set_NoExecute_1. }
  destruct (ChangePermissionOfPage_allow_memory dbg q5 pml4 pa W5
              (hierarchy_walk_tables_distinct _ _ _ _ H5 W5) N5)
    as [q6 [Hrun [S6 Q6]]].
  rewrite E1, E2, E3 in Q6.
  rewrite Hrun. cbn [bind].
  exists q6. split; [reflexivity|]. split.
  { eapply same_interior_trans;
      [exact I5|apply same_but_nx_same_interior; exact S6]. }
  split.
  { destruct S6 as [_ ->]. subst q5.
    cbn [store_PageFrameNumber store free_pages]. apply S4. }
  intros t i. rewrite Q6.
  assert (Q5 : qword q5 t i
               = if (t =? fst e1) && (i =? snd e1)
                 then Fields.set_PageFrameNumber (qword q4 t i) v
                 else qword q4 t i).
  { subst q5. unfold store_PageFrameNumber. rewrite qword_store.
    destruct (Z.eqb_spec t (fst e1)) as [->|]; [|reflexivity].
    destruct (Z.eqb_spec i (snd e1)) as [->|]; reflexivity. }
  rewrite Q5, Q4.
  destruct (Z.eqb_spec t (fst e1)) as [T1|T1].
  - destruct (Z.eqb_spec t (fst e3)) as [T3|T3]; [congruence|].
    cbn [andb].
    destruct (Z.eqb_spec i (snd e1)) as [I1|I1]; [|reflexivity].
    apply set_NoExecute_set_PageFrameNumber.
  - cbn [andb].
    destruct (Z.eqb_spec t (fst e2)) as [T2|T2].
    + destruct (Z.eqb_spec t (fst e3)) as [T3|T3]; [congruence|reflexivity].
    + destruct (Z.eqb_spec t (fst e3)) as [T3|T3]; [|reflexivity].
      cbn [andb].
      destruct (Z.eqb_spec i (snd e3)) as [I3|I3]; [|reflexivity].
      change (snd e3) with (GetPpeIndex pa) in I3. rewrite I3.
      destruct (Z.leb_spec 0 (GetPpeIndex pa)); [|lia].
      destruct (Z.ltb_spec (GetPpeIndex pa) (MaxNptPdpEntriesUsed hd)); [|lia].
      cbn [andb]. apply set_NoExecute_idem.
Qed.

Lemma ChangePermissionsOfAllPages_allow_eq dbg p pml4 pa max :
  GetPxeIndex pa = 0 -> walk_succeeds p pml4 pa ->
  ChangePermissionsOfAllPages dbg p pml4 pa false max
  = Done (ForEachEntrySetNoExecute 512 0 (fst (pt_entry p pml4 pa)) false
            (ForEachEntrySetNoExecute 512 0 (fst (pdt_entry p pml4 pa)) false
               (ForEachEntrySetNoExecute (Z.to_nat max) 0
                  (fst (pdpt_entry p pml4 pa)) false p))).
Proof.
  intros Hx [V4 [V3 V2]].
  unfold ChangePermissionsOfAllPages, MakeAllSubTablesExecutable.
  cbn [negb]. rewrite (first_pdpt p pml4 pa Hx).
  set (e3 := pdpt_entry p pml4 pa) in *.
  set (e2 := pdt_entry p pml4 pa) in *.
  set (p1 := ForEachEntrySetNoExecute (Z.to_nat max) 0 (fst e3) false p).
  assert (S1 : same_but_nx p p1) by apply same_but_nx_ForEachEntry.
  change (fst e3, GetPpeIndex pa) with e3.
  rewrite (same_but_nx_Valid p p1) by exact S1. rewrite V3.
  change (negb (1 =? 0)) with true. rewrite NT_ASSERT_true. cbn [bind].
  rewrite (same_but_nx_PageFrameNumber p p1) by exact S1.
  change (Fields.PageFrameNumber (load p e3), GetPdeIndex pa) with e2.
  change (Fields.PageFrameNumber (load p e3)) with (fst e2).
  set (p2 := ForEachEntrySetNoExecute 512 0 (fst e2) false p1).
  assert (S2 : same_but_nx p p2)
    by (eapply same_but_nx_trans; [exact S1|apply same_but_nx_ForEachEntry]).
  rewrite (same_but_nx_Valid p p2) by exact S2. rewrite V2.
  change (negb (1 =? 0)) with true. rewrite NT_ASSERT_true. cbn [bind].
  rewrite (same_but_nx_PageFrameNumber p p2) by exact S2. reflexivity.
Qed.

(** TransitionNtpState2To1, in its three steps: everything under the
    flipped PDPT entries and in the PDT and PT of the active hook is made
    executable, the hook leaves are armed, the leaf of the active hook is
    backed by the original page. *)
Lemma TransitionNtpState2To1_memory dbg g p hd level a :
  visible_state g p hd level a ->
  0 <= MaxNptPdpEntriesUsed hd ->
  let pml4 := Pml4Table hd in
  let e3 := pdpt_entry p pml4 (PhyPageBase a) in
  let e2 := pdt_entry p pml4 (PhyPageBase a) in
  let e1 := pt_entry p pml4 (PhyPageBase a) in
  exists q1 q2 p',
    TransitionNtpState2To1 dbg g p hd
    = Done (p', set_NptState (set_ActiveHookEntry hd None)
                             NptHookEnabledInvisible) /\
    free_pages p' = free_pages p /\
    (forall t i,
       qword q1 t i
       = if ((t =? fst e1) && in_table i)
            || ((t =? fst e2) && in_table i)
            || ((t =? fst e3)
                && ((0 <=? i) && (i <? MaxNptPdpEntriesUsed hd)))
         then Fields.set_NoExecute (qword p t i) 0
         else qword p t i) /\
    (forall t i,
       qword q2 t i
       = if cell_in t i (hook_leaves g p pml4)
         then Fields.set_NoExecute (qword q1 t i) 1
         else qword q1 t i) /\
    (forall t i,
       qword p' t i
       = if (t =? fst e1) && (i =? snd e1)
         then Fields.set_PageFrameNumber (qword q2 t i)
                (GetPfnFromPa (PhyPageBase a))
         else qword q2 t i).
Proof.
  intros [Hf [Hst [Hact [Ha [Hpfn Hothers]]]]] Hmax pml4.
  destruct (in_map_HookEntry g a Ha) as [r0 [Hr0 Ea]].
  pose proof Hf as [Hh [Hm Hr]]. fold pml4 in Hf, Hh, Hm, Hpfn.
  set (pa := PhyPageBase a) in *.
  intros e3 e2 e1.
  change (hook_leaf p pml4 a) with e1 in Hpfn.
  assert (Hw : walk_succeeds p pml4 pa)
    by (subst pa; rewrite <- Ea; apply Hm; exact Hr0).
  assert (Hlow : 0 <= pa < 2 ^ 39)
    by (subst pa; rewrite <- Ea; apply Hr; exact Hr0).
  pose proof (low_address_pxe pa Hlow) as Hx.
  destruct (hierarchy_walk_levels _ _ _ _ Hh Hw) as [L3 [L2 L1]].
  fold e3 in L3. fold e2 in L2. fold e1 in L1.
  unfold TransitionNtpState2To1. rewrite Hst, Hact.
  cbn [NPT_STATE_eqb is_some deref]. rewrite NT_ASSERT_true. cbn [bind].
  fold pml4 pa.
  rewrite (ChangePermissionsOfAllPages_allow_eq dbg p pml4 pa _ Hx Hw).
  cbn [bind]. fold e3 e2 e1.
  set (q1 := ForEachEntrySetNoExecute 512 0 (fst e1) false _).
  assert (S1 : same_but_nx p q1).
  { subst q1.
    eapply same_but_nx_trans; [|apply same_but_nx_ForEachEntry].
    eapply same_but_nx_trans; [|apply same_but_nx_ForEachEntry].
    apply same_but_nx_ForEachEntry. }
  assert (Q1 : forall t i,
             qword q1 t i
             = if ((t =? fst e1) && in_table i)
                  || ((t =? fst e2) && in_table i)
                  || ((t =? fst e3)
                      && ((0 <=? i) && (i <? MaxNptPdpEntriesUsed hd)))
               then Fields.set_NoExecute (qword p t i) 0
               else qword p t i).
  { intros t i. subst q1.
    rewrite !qword_ForEachEntry_table, qword_ForEachEntry_upto by exact Hmax.
    cbn [BOOLEAN].
    destruct ((t =? fst e1) && in_table i);
      destruct ((t =? fst e2) && in_table i);
      destruct ((t =? fst e3) && ((0 <=? i) && (i <? MaxNptPdpEntriesUsed hd)));
      cbn [orb]; rewrite ?set_NoExecute_idem; reflexivity. }
  destruct (ForEachRegistration_arm dbg q1 pml4 g q1 (same_but_nx_refl q1))
    as [q2 [Hrun2 [Hfree2 Hq2]]].
  { intros r Hin. apply (same_but_nx_walk_succeeds p); [exact S1|].
    apply Hm. exact Hin. }
  rewrite Hrun2. cbn [bind].
  rewrite (hook_leaves_same_but_nx g p q1 pml4 S1) in Hq2.
  assert (S12 : same_but_nx q1 q2).
  { split; [|exact Hfree2]. intros t i. rewrite Hq2.
    destruct (cell_in t i _); [apply set_NoExecute_idem|reflexivity]. }
  assert (S2 : same_but_nx p q2) by (eapply same_but_nx_trans; eassumption).
  rewrite (GetNestedPageTableEntry_walk q2 pml4 pa)
    by (apply (same_but_nx_walk_succeeds p); assumption).
  rewrite (same_but_nx_pt_entry p q2) by exact S2. fold e1.
  cbn [is_some deref]. rewrite NT_ASSERT_true. cbn [bind].
  assert (N2 : Fields.NoExecute (load q2 e1) = 1).
  { unfold load. rewrite Hq2.
    assert (C : cell_in (fst e1) (snd e1) (hook_leaves g p pml4) = true).
    { apply cell_in_spec. rewrite <- surjective_pairing.
      unfold hook_leaves. apply in_map_iff. exists r0. split; [|exact Hr0].
      rewrite Ea. reflexivity. }
    rewrite C. apply NoExecute_set_NoExecute_1. }
  rewrite N2, (same_but_nx_PageFrameNumber p q2) by exact S2.
  rewrite Hpfn, Z.eqb_refl.
  change (negb (1 =? 0)) with true. rewrite NT_ASSERT_true. cbn [bind].
  exists q1, q2, (store_PageFrameNumber q2 e1 (GetPfnFromPa pa)).
  split; [reflexivity|].
  split.
  { cbn [store_PageFrameNumber store free_pages].
    rewrite Hfree2. apply S1. }
  split; [exact Q1|]. split; [exact Hq2|].
  intros t i. unfold store_PageFrameNumber. rewrite qword_store.
  destruct (Z.eqb_spec t (fst e1)) as [->|]; [|reflexivity].
  destruct (Z.eqb_spec i (snd e1)) as [->|]; reflexivity.
Qed.

Lemma page_of_indices a b :
  0 <= a < 2 ^ 39 -> 0 <= b < 2 ^ 39 ->
  GetPpeIndex a = GetPpeIndex b -> GetPdeIndex a = GetPdeIndex b ->
  GetPteIndex a = GetPteIndex b ->
  GetPfnFromPa a = GetPfnFromPa b.
Proof.
  intros Ha Hb. unfold GetPpeIndex, GetPdeIndex, GetPteIndex, GetPfnFromPa,
    k_PpiShift, k_PdiShift, k_PtiShift, PAGE_SHIFT.
  change k_PtxMask with (Z.ones 9).
  intros E3 E2 E1. apply Z.bits_inj'. intros n Hn.
  rewrite !Z.shiftr_spec by lia.
  destruct (Z.lt_ge_cases n 9) as [H9|H9].
  - apply (f_equal (fun z => Z.testbit z n)) in E1.
    rewrite !Z.land_spec, !Z.shiftr_spec, !Z.ones_spec_low in E1 by lia.
    rewrite !andb_true_r in E1. exact E1.
  - destruct (Z.lt_ge_cases n 18) as [H18|H18].
    + apply (f_equal (fun z => Z.testbit z (n - 9))) in E2.
      rewrite !Z.land_spec, !Z.shiftr_spec, !Z.ones_spec_low in E2 by lia.
      rewrite !andb_true_r in E2.
      replace (n - 9 + 21) with (n + 12) in E2 by lia. exact E2.
    + destruct (Z.lt_ge_cases n 27) as [H27|H27].
      * apply (f_equal (fun z => Z.testbit z (n - 18))) in E3.
        rewrite !Z.land_spec, !Z.shiftr_spec, !Z.ones_spec_low in E3 by lia.
        rewrite !andb_true_r in E3.
        replace (n - 18 + 30) with (n + 12) in E3 by lia. exact E3.
      * assert (Hhigh : forall x, 0 <= x < 2 ^ 39 ->
                                  Z.testbit x (n + 12) = false).
        { intros x Hx. destruct (Z.eq_dec x 0) as [->|]; [apply Z.bits_0|].
          apply Z.bits_above_log2; [lia|].
          apply Z.lt_le_trans with 39; [apply Z.log2_lt_pow2; lia|lia]. }
        rewrite (Hhigh a Ha), (Hhigh b Hb). reflexivity.
Qed.

(** X8.  Entering a hooked page.  In state 1 (hooks enabled, none
    active), a nested page fault for execution on a present translation
    whose page holds a registered hook runs TransitionNptState1To2 for the
    first registration on that page: the outcome is state 2 with that hook
    active, its leaf entry executable and backed by its exec page, and
    nothing else of HOOK_DATA changed.  Every assertion of a checked build
    holds on the way. *)
Theorem HandleNestedPageFault_enters_hook_page
    dbg g p (GuestVmcb : VMCB) hd level e :
  armed_state g p hd level ->
  NPF_EXITINFO1.Valid (ExitInfo1 (ControlArea GuestVmcb)) = 1 ->
  NPF_EXITINFO1.Execute (ExitInfo1 (ControlArea GuestVmcb)) = 1 ->
  FindHookEntryByPhysicalPage g (ExitInfo2 (ControlArea GuestVmcb)) = Some e ->
  exists p',
    HandleNestedPageFault dbg g p GuestVmcb hd
    = Done (p', set_NptState (set_ActiveHookEntry hd (Some e))
                             NptHookEnabledVisible) /\
    In e (map HookEntry g) /\
    PAGE_ALIGN (PhyPageBase e) = PAGE_ALIGN (ExitInfo2 (ControlArea GuestVmcb)) /\
    GetNestedPageTableEntry p' (Pml4Table hd) (PhyPageBase e)
    = Some (hook_leaf p (Pml4Table hd) e) /\
    Fields.NoExecute (load p' (hook_leaf p (Pml4Table hd) e)) = 0 /\
    Fields.PageFrameNumber (load p' (hook_leaf p (Pml4Table hd) e))
    = GetPfnFromPa (PhyPageBaseForExecution e) /\
    visible_state g p'
      (set_NptState (set_ActiveHookEntry hd (Some e)) NptHookEnabledVisible)
      level e.
Proof.
  intros Harmed Hvalid Hexecute Hfind.
  destruct (FindHookEntryByPhysicalPage_in_Some g _ e Hfind) as [He Hpage].
  destruct (TransitionNptState1To2_from_armed dbg g p hd level e Harmed He)
    as [p' [Hrun [I [Hnx Hvis]]]].
  exists p'.
  pose proof Harmed as [Hf [Hst [Hact _]]].
  split.
  { unfold HandleNestedPageFault. rewrite Hvalid, Hexecute.
    change (1 =? 0) with false. cbv iota. cbn [negb].
    rewrite NT_ASSERT_true. cbn [bind].
    unfold TransitionNptState. rewrite Hst, Hfind, Hact.
    cbn [NPT_STATE_eqb negb]. rewrite NT_ASSERT_true. cbn [bind]. exact Hrun. }
  split; [exact He|]. split; [symmetry; exact Hpage|].
  destruct (in_map_HookEntry g e He) as [r0 [Hr0 E0]].
  pose proof Hvis as [[_ [Hm' _]] [_ [_ [_ [Hpfn _]]]]].
  change (Pml4Table (set_NptState (set_ActiveHookEntry hd (Some e))
                                  NptHookEnabledVisible))
    with (Pml4Table hd) in Hm', Hpfn.
  assert (El : hook_leaf p' (Pml4Table hd) e = hook_leaf p (Pml4Table hd) e).
  { rewrite <- E0.
    apply (same_interior_hook_leaf g p p' (Pml4Table hd) level r0 I Hf Hr0). }
  split.
  { rewrite <- El. apply GetNestedPageTableEntry_walk.
    rewrite <- E0. apply Hm'. exact Hr0. }
  split; [exact Hnx|]. split; [rewrite <- El; exact Hpfn|exact Hvis].
Qed.

(** X9.  Isolation in state 2.  After TransitionNptState1To2 for a hooked
    page whose PDPT entry is among those ChangePermissionsOfAllPages
    flips, the hooked page is open for execution at its PDPT, PDT and PT
    entries, and every other page below 512 GB whose PDPT index is below
    MaxNptPdpEntriesUsed is closed: NoExecute is set in its PDPT entry,
    or in its PDT entry, or in its leaf entry.  So the next instruction
    fetch outside the hooked page faults. *)
Theorem TransitionNptState1To2_isolates_hook_page dbg g p hd level e :
  armed_state g p hd level -> In e (map HookEntry g) ->
  0 <= MaxNptPdpEntriesUsed hd ->
  GetPpeIndex (PhyPageBase e) < MaxNptPdpEntriesUsed hd ->
  exists p' hd',
    TransitionNptState1To2 dbg p hd e = Done (p', hd') /\
    execution_open p' (Pml4Table hd) (PhyPageBase e) /\
    forall pa,
      0 <= pa < 2 ^ 39 ->
      GetPpeIndex pa < MaxNptPdpEntriesUsed hd ->
      GetPfnFromPa pa <> GetPfnFromPa (PhyPageBase e) ->
      execution_blocked p' (Pml4Table hd) pa.
Proof.
  intros Harmed He Hmax Hppe.
  destruct (TransitionNptState1To2_memory dbg g p hd level e Harmed He Hmax Hppe)
    as [p' [Hrun [I [_ Q]]]].
  exists p', (set_NptState (set_ActiveHookEntry hd (Some e))
                           NptHookEnabledVisible).
  split; [exact Hrun|].
  destruct Harmed as [[Hh [Hm Hr]] _].
  destruct (in_map_HookEntry g e He) as [r0 [Hr0 E0]].
  set (pml4 := Pml4Table hd) in *.
  set (pe := PhyPageBase e) in *.
  assert (Hw : walk_succeeds p pml4 pe)
    by (subst pe; rewrite <- E0; apply Hm; exact Hr0).
  assert (Hlow : 0 <= pe < 2 ^ 39)
    by (subst pe; rewrite <- E0; apply Hr; exact Hr0).
  destruct (hierarchy_walk_levels _ _ _ _ Hh Hw) as [L3 [L2 L1]].
  destruct (same_interior_walk p p' pml4 level pe Hh I Hw)
    as [_ [E3 [E2 E1]]].
  set (e3 := pdpt_entry p pml4 pe) in *.
  set (e2 := pdt_entry p pml4 pe) in *.
  set (e1 := pt_entry p pml4 pe) in *.
  assert (D31 : fst e3 <> fst e1) by congruence.
  assert (D32 : fst e3 <> fst e2) by congruence.
  assert (D21 : fst e2 <> fst e1) by congruence.
  assert (N3 : Fields.NoExecute (load p' e3) = 0).
  { unfold load. rewrite Q.
    destruct (Z.eqb_spec (fst e3) (fst e1)); [contradiction|].
    destruct (Z.eqb_spec (fst e3) (fst e2)); [contradiction|].
    rewrite !Z.eqb_refl. apply NoExecute_set_NoExecute_0. }
  assert (N2 : Fields.NoExecute (load p' e2) = 0).
  { unfold load. rewrite Q.
    destruct (Z.eqb_spec (fst e2) (fst e1)); [contradiction|].
    rewrite !Z.eqb_refl. apply NoExecute_set_NoExecute_0. }
  assert (N1 : Fields.NoExecute (load p' e1) = 0).
  { unfold load. rewrite Q. rewrite !Z.eqb_refl.
    rewrite NoExecute_set_PageFrameNumber. apply NoExecute_set_NoExecute_0. }
  split.
  { unfold execution_open. rewrite E3, E2, E1. auto. }
  intros pa Hpa Hpp Hne.
  assert (P3 : pdpt_entry p' pml4 pa = (fst e3, GetPpeIndex pa)).
  { unfold pdpt_entry, pml4_entry.
    rewrite (low_address_pxe pa Hpa).
    rewrite <- (low_address_pxe pe Hlow).
    change (pml4, GetPxeIndex pe) with (pml4_entry pml4 pe).
    change (Fields.PageFrameNumber (load p' (pml4_entry pml4 pe)))
      with (fst (pdpt_entry p' pml4 pe)).
    rewrite E3. reflexivity. }
  pose proof (GetPpeIndex_range pa) as R3.
  pose proof (GetPdeIndex_range pa) as R2.
  pose proof (GetPteIndex_range pa) as R1.
  unfold execution_blocked.
  destruct (Z.eq_dec (GetPpeIndex pa) (GetPpeIndex pe)) as [I3|I3].
  - assert (P3' : pdpt_entry p' pml4 pa = e3)
      by (rewrite P3, I3; reflexivity).
    assert (P2 : pdt_entry p' pml4 pa = (fst e2, GetPdeIndex pa)).
    { rewrite <- E2. unfold pdt_entry. rewrite P3', E3. reflexivity. }
    destruct (Z.eq_dec (GetPdeIndex pa) (GetPdeIndex pe)) as [I2|I2].
    + assert (P2' : pdt_entry p' pml4 pa = e2)
        by (rewrite P2, I2; reflexivity).
      assert (P1 : pt_entry p' pml4 pa = (fst e1, GetPteIndex pa)).
      { rewrite <- E1. unfold pt_entry. rewrite P2', E2. reflexivity. }
      destruct (Z.eq_dec (GetPteIndex pa) (GetPteIndex pe)) as [I1|I1].
      * exfalso. apply Hne. apply page_of_indices; assumption.
      * right. right. rewrite P1. unfold load. cbn [fst snd]. rewrite Q.
        rewrite Z.eqb_refl.
        destruct (Z.eqb_spec (GetPteIndex pa) (snd e1)) as [E|E];
          [exfalso; apply I1; exact E|].
        assert (T : in_table (GetPteIndex pa) = true)
          by (apply in_table_spec; exact R1).
        rewrite T. apply NoExecute_set_NoExecute_1.
    + right. left. rewrite P2. unfold load. cbn [fst snd]. rewrite Q.
      destruct (Z.eqb_spec (fst e2) (fst e1)); [contradiction|].
      rewrite Z.eqb_refl.
      destruct (Z.eqb_spec (GetPdeIndex pa) (snd e2)) as [E|E];
        [exfalso; apply I2; exact E|].
      assert (T : in_table (GetPdeIndex pa) = true)
        by (apply in_table_spec; exact R2).
      rewrite T. apply NoExecute_set_NoExecute_1.
  - left. rewrite P3. unfold load. cbn [fst snd]. rewrite Q.
    destruct (Z.eqb_spec (fst e3) (fst e1)); [contradiction|].
    destruct (Z.eqb_spec (fst e3) (fst e2)); [contradiction|].
    rewrite Z.eqb_refl.
    destruct (Z.eqb_spec (GetPpeIndex pa) (snd e3)) as [E|E];
      [exfalso; apply I3; exact E|].
    destruct (Z.leb_spec 0 (GetPpeIndex pa)); [|lia].
    destruct (Z.ltb_spec (GetPpeIndex pa) (MaxNptPdpEntriesUsed hd)); [|lia].
    apply NoExecute_set_NoExecute_1.
Qed.

Lemma hook_leaves_same_interior g p q pml4 level :
  same_interior p q level -> engine_frame g p pml4 level ->
  hook_leaves g q pml4 = hook_leaves g p pml4.
Proof.
  intros I Hf. unfold hook_leaves. apply map_ext_in. intros r Hr.
  apply (same_interior_hook_leaf g p q pml4 level r I Hf Hr).
Qed.

Lemma hook_leaf_in_hook_leaves g p pml4 r :
  In r g ->
  cell_in (fst (hook_leaf p pml4 (HookEntry r)))
          (snd (hook_leaf p pml4 (HookEntry r))) (hook_leaves g p pml4) = true.
Proof.
  intros Hr. apply cell_in_spec. rewrite <- surjective_pairing.
  unfold hook_leaves. apply in_map_iff. exists r. split; [reflexivity|exact Hr].
Qed.

Lemma HOOK_DATA_restored hd e :
  NptState hd = NptHookEnabledInvisible -> ActiveHookEntry hd = None ->
  set_NptState
    (set_ActiveHookEntry
       (set_NptState (set_ActiveHookEntry hd (Some e)) NptHookEnabledVisible)
       None)
    NptHookEnabledInvisible = hd.
Proof. destruct hd; cbn. intros -> ->. reflexivity. Qed.

(** X10.  In and out.  From state 1 as EnableHooks leaves it (NoExecute on
    the hook leaves and nowhere else, at most 512 PDPT entries to flip),
    TransitionNptState1To2 for a hook followed by TransitionNtpState2To1
    gives back the nested page tables entry for entry, and HOOK_DATA as it
    was: the visit to the exec page leaves no trace. *)
Theorem TransitionNptState1To2_then_2To1_restores_npt dbg g p hd level e :
  armed_exactly g p hd level -> In e (map HookEntry g) ->
  exists p1 hd1 p2 hd2,
    TransitionNptState1To2 dbg p hd e = Done (p1, hd1) /\
    NptState hd1 = NptHookEnabledVisible /\
    ActiveHookEntry hd1 = Some e /\
    TransitionNtpState2To1 dbg g p1 hd1 = Done (p2, hd2) /\
    same_contents p p2 /\
    hd2 = hd.
Proof.
  intros [Harmed [Hmax [Hcov Hnx]]] He.
  destruct (in_map_HookEntry g e He) as [r0 [Hr0 E0]].
  assert (Hppe : GetPpeIndex (PhyPageBase e) < MaxNptPdpEntriesUsed hd)
    by (rewrite <- E0; apply Hcov; exact Hr0).
  destruct (TransitionNptState1To2_memory dbg g p hd level e Harmed He
              ltac:(lia) Hppe) as [p1 [Hrun1 [I1 [F1 Q1]]]].
  destruct (TransitionNptState1To2_from_armed dbg g p hd level e Harmed He)
    as [p1' [Hrun1' [_ [_ Hvis]]]].
  rewrite Hrun1 in Hrun1'. injection Hrun1' as <-.
  set (hd1 := set_NptState (set_ActiveHookEntry hd (Some e))
                           NptHookEnabledVisible) in *.
  destruct (TransitionNtpState2To1_memory dbg g p1 hd1 level e Hvis
              ltac:(cbn; lia)) as [q1 [q2 [p2 [Hrun2 [Hfree [Hq1 [Hq2 Hp2]]]]]]].
  change (Pml4Table hd1) with (Pml4Table hd) in Hq1, Hq2, Hp2.
  change (MaxNptPdpEntriesUsed hd1) with (MaxNptPdpEntriesUsed hd) in Hq1.
  pose proof Harmed as [Hf [Hst [Hact Hleaf]]].
  pose proof Hf as [Hh [Hm Hr]].
  set (pml4 := Pml4Table hd) in *.
  set (pe := PhyPageBase e) in *.
  assert (Hw : walk_succeeds p pml4 pe)
    by (subst pe; rewrite <- E0; apply Hm; exact Hr0).
  destruct (same_interior_walk p p1 pml4 level pe Hh I1 Hw)
    as [_ [E3 [E2 E1]]].
  rewrite E3, E2, E1 in Hq1. rewrite E1 in Hp2.
  rewrite (hook_leaves_same_interior g p p1 pml4 level I1 Hf) in Hq2.
  destruct (hierarchy_walk_levels _ _ _ _ Hh Hw) as [L3 [L2 L1]].
  set (e3 := pdpt_entry p pml4 pe) in *.
  set (e2 := pdt_entry p pml4 pe) in *.
  set (e1 := pt_entry p pml4 pe) in *.
  assert (D31 : fst e3 <> fst e1) by congruence.
  assert (D32 : fst e3 <> fst e2) by congruence.
  assert (D21 : fst e2 <> fst e1) by congruence.
  assert (R3 : 0 <= snd e3 < 512) by apply GetPpeIndex_range.
  assert (R2 : 0 <= snd e2 < 512) by apply GetPdeIndex_range.
  assert (R1 : 0 <= snd e1 < 512) by apply GetPteIndex_range.
  assert (C1 : cell_in (fst e1) (snd e1) (hook_leaves g p pml4) = true).
  { subst e1 pe. rewrite <- E0. apply (hook_leaf_in_hook_leaves g p pml4 r0 Hr0). }
  destruct (Hleaf r0 Hr0) as [Hnx1 Hpfn1]. rewrite E0 in Hnx1, Hpfn1.
  change (hook_leaf p pml4 e) with e1 in Hnx1, Hpfn1. fold pe in Hpfn1.
  (* a leaf cell holds NoExecute; any other table cell does not *)
  assert (Hkeep : forall t i, level t <> 0%nat -> 0 <= i < 512 ->
            Fields.set_NoExecute (qword p t i)
              (if cell_in t i (hook_leaves g p pml4) then 1 else 0)
            = qword p t i).
  { intros t i Lt Hi. rewrite <- (Hnx t i Lt Hi). apply set_NoExecute_same. }
  assert (Hleafcell : forall t i,
            cell_in t i (hook_leaves g p pml4) = true ->
            level t = 1%nat /\ 0 <= i < 512).
  { intros t i C. apply cell_in_spec in C.
    apply (hook_leaves_level g p pml4 level t i Hh Hm C). }
  assert (Hnoleaf : forall t i, level t <> 1%nat ->
            cell_in t i (hook_leaves g p pml4) = false).
  { intros t i Lt. destruct (cell_in t i _) eqn:C; [|reflexivity].
    destruct (Hleafcell t i C). contradiction. }
  exists p1, hd1, p2, (set_NptState (set_ActiveHookEntry hd1 None)
                                    NptHookEnabledInvisible).
  split; [exact Hrun1|]. split; [reflexivity|]. split; [reflexivity|].
  split; [exact Hrun2|].
  split; [|apply HOOK_DATA_restored; assumption].
  split.
  2:{ rewrite Hfree. exact F1. }
  intros t i. rewrite Hp2, Hq2, Hq1, Q1.
  destruct (Z.eqb_spec t (fst e1)) as [T1|T1].
  - (* the page table of the hook *)
    destruct (Z.eqb_spec t (fst e2)) as [T2|T2]; [congruence|].
    destruct (Z.eqb_spec t (fst e3)) as [T3|T3]; [congruence|].
    cbn [andb orb]. rewrite ?orb_false_r.
    assert (Lt : level t <> 0%nat) by (rewrite T1, L1; discriminate).
    destruct (Z.eqb_spec i (snd e1)) as [I1'|I1'].
    + assert (T : in_table i = true) by (apply in_table_spec; lia).
      rewrite T. subst t i. rewrite C1.
      rewrite !set_NoExecute_set_PageFrameNumber, !set_NoExecute_idem.
      rewrite set_PageFrameNumber_idem.
      replace (Fields.set_NoExecute (qword p (fst e1) (snd e1)) 1)
        with (qword p (fst e1) (snd e1)).
      * rewrite <- Hpfn1. apply set_PageFrameNumber_same.
      * pose proof (set_NoExecute_same (qword p (fst e1) (snd e1))) as S.
        unfold load in Hnx1. rewrite Hnx1 in S. symmetry. exact S.
    + destruct (in_table i) eqn:T.
      * apply in_table_spec in T.
        rewrite !set_NoExecute_idem.
        pose proof (Hkeep t i Lt T) as K.
        destruct (cell_in t i (hook_leaves g p pml4));
          rewrite ?set_NoExecute_idem; exact K.
      * destruct (cell_in t i (hook_leaves g p pml4)) eqn:C; [|reflexivity].
        destruct (Hleafcell t i C) as [_ Hi].
        apply in_table_spec in Hi. congruence.
  - cbn [andb orb].
    destruct (Z.eqb_spec t (fst e2)) as [T2|T2].
    + (* the page directory of the hook *)
      destruct (Z.eqb_spec t (fst e3)) as [T3|T3]; [congruence|].
      cbn [andb orb]. rewrite ?orb_false_r.
      assert (Lt : level t <> 0%nat) by (rewrite T2, L2; discriminate).
      rewrite (Hnoleaf t i) by (rewrite T2, L2; discriminate).
      pose proof (Hnoleaf t i ltac:(rewrite T2, L2; discriminate)) as C.
      destruct (Z.eqb_spec i (snd e2)) as [I2|I2].
      * assert (T : in_table i = true) by (apply in_table_spec; lia).
        rewrite T, set_NoExecute_idem.
        pose proof (Hkeep t i Lt ltac:(lia)) as K. rewrite C in K. exact K.
      * destruct (in_table i) eqn:T; [|reflexivity].
        apply in_table_spec in T. rewrite set_NoExecute_idem.
        pose proof (Hkeep t i Lt T) as K. rewrite C in K. exact K.
    + cbn [andb orb].
      destruct (Z.eqb_spec t (fst e3)) as [T3|T3].
      * (* the PDPT *)
        cbn [andb].
        assert (Lt : level t <> 0%nat) by (rewrite T3, L3; discriminate).
        pose proof (Hnoleaf t i ltac:(rewrite T3, L3; discriminate)) as C.
        rewrite C.
        change (snd e3) with (GetPpeIndex pe) in *.
        destruct (Z.eqb_spec i (GetPpeIndex pe)) as [I3|I3].
        -- destruct (Z.leb_spec 0 i); [|lia].
           destruct (Z.ltb_spec i (MaxNptPdpEntriesUsed hd)); [|lia].
           cbn [andb]. rewrite set_NoExecute_idem.
           pose proof (Hkeep t i Lt ltac:(lia)) as K. rewrite C in K. exact K.
        -- destruct ((0 <=? i) && (i <? MaxNptPdpEntriesUsed hd)) eqn:B;
             [|reflexivity].
           apply andb_true_iff in B. destruct B as [B1 B2].
           apply Z.leb_le in B1. apply Z.ltb_lt in B2.
           rewrite set_NoExecute_idem.
           pose proof (Hkeep t i Lt ltac:(lia)) as K. rewrite C in K. exact K.
      * (* any other page *)
        cbn [andb].
        destruct (cell_in t i (hook_leaves g p pml4)) eqn:C; [|reflexivity].
        destruct (Hleafcell t i C) as [Lt Hi].
        pose proof (Hkeep t i ltac:(rewrite Lt; discriminate) Hi) as K.
        rewrite C in K. exact K.
Qed.

(** X11.  Leaving a hooked page.  In state 2, a nested page fault for
    execution on a present translation whose page holds no registered
    hook runs TransitionNtpState2To1: the outcome is state 1 with no hook
    active, the leaf of the hook that was active backed by its original
    page again, and every hook leaf non-executable and backed by its
    original page.  Every assertion of a checked build holds on the way. *)
Theorem HandleNestedPageFault_leaves_hook_page
    dbg g p (GuestVmcb : VMCB) hd level active :
  visible_state g p hd level active ->
  NPF_EXITINFO1.Valid (ExitInfo1 (ControlArea GuestVmcb)) = 1 ->
  NPF_EXITINFO1.Execute (ExitInfo1 (ControlArea GuestVmcb)) = 1 ->
  FindHookEntryByPhysicalPage g (ExitInfo2 (ControlArea GuestVmcb)) = None ->
  exists p',
    HandleNestedPageFault dbg g p GuestVmcb hd
    = Done (p', set_NptState (set_ActiveHookEntry hd None)
                             NptHookEnabledInvisible) /\
    Fields.PageFrameNumber (load p' (hook_leaf p (Pml4Table hd) active))
    = GetPfnFromPa (PhyPageBase active) /\
    (forall r, In r g ->
       GetNestedPageTableEntry p' (Pml4Table hd) (PhyPageBase (HookEntry r))
       = Some (hook_leaf p (Pml4Table hd) (HookEntry r)) /\
       Fields.NoExecute (load p' (hook_leaf p (Pml4Table hd) (HookEntry r))) = 1 /\
       Fields.PageFrameNumber
         (load p' (hook_leaf p (Pml4Table hd) (HookEntry r)))
       = GetPfnFromPa (PhyPageBase (HookEntry r))) /\
    armed_state g p'
      (set_NptState (set_ActiveHookEntry hd None) NptHookEnabledInvisible)
      level.
Proof.
  intros Hvis Hvalid Hexecute Hfind.
  destruct (TransitionNtpState2To1_from_visible dbg g p hd level active Hvis)
    as [p' [Hrun [I Harmed]]].
  exists p'.
  pose proof Hvis as [Hf [Hst [Hact [Ha _]]]].
  split.
  { unfold HandleNestedPageFault. rewrite Hvalid, Hexecute.
    change (1 =? 0) with false. cbv iota. cbn [negb].
    rewrite NT_ASSERT_true. cbn [bind].
    unfold TransitionNptState. rewrite Hst, Hfind.
    cbn [NPT_STATE_eqb negb]. rewrite NT_ASSERT_true. cbn [bind]. exact Hrun. }
  pose proof Harmed as [[_ [Hm' _]] [_ [_ Hleaf]]].
  change (Pml4Table (set_NptState (set_ActiveHookEntry hd None)
                                  NptHookEnabledInvisible))
    with (Pml4Table hd) in Hm', Hleaf.
  assert (El : forall r, In r g ->
             hook_leaf p' (Pml4Table hd) (HookEntry r)
             = hook_leaf p (Pml4Table hd) (HookEntry r))
    by (intros r Hr;
        apply (same_interior_hook_leaf g p p' (Pml4Table hd) level r I Hf Hr)).
  assert (Hall : forall r, In r g ->
       GetNestedPageTableEntry p' (Pml4Table hd) (PhyPageBase (HookEntry r))
       = Some (hook_leaf p (Pml4Table hd) (HookEntry r)) /\
       Fields.NoExecute (load p' (hook_leaf p (Pml4Table hd) (HookEntry r))) = 1 /\
       Fields.PageFrameNumber
         (load p' (hook_leaf p (Pml4Table hd) (HookEntry r)))
       = GetPfnFromPa (PhyPageBase (HookEntry r))).
  { intros r Hr. rewrite <- (El r Hr). split.
    - apply GetNestedPageTableEntry_walk. apply Hm'. exact Hr.
    - apply Hleaf. exact Hr. }
  split.
  { destruct (in_map_HookEntry g active Ha) as [r0 [Hr0 <-]].
    apply (Hall r0 Hr0). }
  split; [exact Hall|exact Harmed].
Qed.

(** X12.  EnableHooks sets NoExecute in the leaf entry of every hooked
    page and changes nothing else: every other entry of memory, every
    other bit of a hook leaf and the allocator are as before, and only
    NptState of HOOK_DATA moves, to NptHookEnabledInvisible. *)
Theorem EnableHooks_marks_only_hook_leaves dbg g p hd :
  hooks_mapped g p (Pml4Table hd) ->
  NptState hd = NptDefault -> ActiveHookEntry hd = None ->
  exists p1,
    EnableHooks dbg g p hd = Done (p1, set_NptState hd NptHookEnabledInvisible) /\
    free_pages p1 = free_pages p /\
    (forall r, In r g ->
       GetNestedPageTableEntry p1 (Pml4Table hd) (PhyPageBase (HookEntry r))
       = Some (hook_leaf p (Pml4Table hd) (HookEntry r)) /\
       load p1 (hook_leaf p (Pml4Table hd) (HookEntry r))
       = Fields.set_NoExecute
           (load p (hook_leaf p (Pml4Table hd) (HookEntry r))) 1 /\
       Fields.NoExecute (load p1 (hook_leaf p (Pml4Table hd) (HookEntry r))) = 1) /\
    (forall t i,
       ~ In (t, i) (hook_leaves g p (Pml4Table hd)) ->
       qword p1 t i = qword p t i).
Proof.
  intros Hm Hst Hact.
  destruct (EnableHooks_arms_leaves dbg g p hd Hm Hst Hact)
    as [p1 [Hrun [Hfree Hq]]].
  exists p1. split; [exact Hrun|]. split; [exact Hfree|].
  assert (S1 : same_but_nx p p1).
  { split; [|exact Hfree]. intros t i. rewrite Hq.
    destruct (cell_in t i _); [apply set_NoExecute_idem|reflexivity]. }
  split.
  - intros r Hr.
    assert (E : load p1 (hook_leaf p (Pml4Table hd) (HookEntry r))
                = Fields.set_NoExecute
                    (load p (hook_leaf p (Pml4Table hd) (HookEntry r))) 1).
    { unfold load. rewrite Hq, (hook_leaf_in_hook_leaves g p _ r Hr).
      reflexivity. }
    split.
    + unfold hook_leaf. rewrite <- (same_but_nx_pt_entry p p1) by exact S1.
      apply GetNestedPageTableEntry_walk.
      apply (same_but_nx_walk_succeeds p); [exact S1|apply Hm; exact Hr].
    + split; [exact E|]. rewrite E. apply NoExecute_set_NoExecute_1.
  - intros t i Hn. rewrite Hq.
    destruct (cell_in t i _) eqn:C; [|reflexivity].
    apply cell_in_spec in C. contradiction.
Qed.

Lemma EnableHooks_reaches_armed_exactly dbg g p hd level :
  engine_frame g p (Pml4Table hd) level ->
  AllExecutable p level ->
  NptState hd = NptDefault -> ActiveHookEntry hd = None ->
  (forall r, In r g ->
     Fields.PageFrameNumber (load p (hook_leaf p (Pml4Table hd) (HookEntry r)))
     = GetPfnFromPa (PhyPageBase (HookEntry r))) ->
  0 <= MaxNptPdpEntriesUsed hd <= 512 ->
  (forall r, In r g ->
     GetPpeIndex (PhyPageBase (HookEntry r)) < MaxNptPdpEntriesUsed hd) ->
  exists p1,
    EnableHooks dbg g p hd = Done (p1, set_NptState hd NptHookEnabledInvisible) /\
    same_but_nx p p1 /\
    armed_exactly g p1 (set_NptState hd NptHookEnabledInvisible) level.
Proof.
  intros Hf Hx Hst Hact Hpfn Hmax Hcov.
  destruct (EnableHooks_reaches_armed dbg g p hd level Hf Hst Hact Hpfn)
    as [p1 [Hrun [I1 Harmed]]].
  pose proof Hf as [Hh [Hm Hr]].
  destruct (EnableHooks_arms_leaves dbg g p hd Hm Hst Hact)
    as [p1' [Hrun' [Hfree Hq]]].
  rewrite Hrun in Hrun'. injection Hrun' as <-.
  exists p1. split; [exact Hrun|].
  split.
  { split; [|exact Hfree]. intros t i. rewrite Hq.
    destruct (cell_in t i _); [apply set_NoExecute_idem|reflexivity]. }
  split; [exact Harmed|]. split; [exact Hmax|]. split; [exact Hcov|].
  change (Pml4Table (set_NptState hd NptHookEnabledInvisible))
    with (Pml4Table hd).
  intros t i Lt Hi.
  rewrite (hook_leaves_same_interior g p p1 (Pml4Table hd) level I1 Hf).
  rewrite Hq. destruct (cell_in t i _).
  - apply NoExecute_set_NoExecute_1.
  - apply Hx; assumption.
Qed.

(** The sample machine after EnableHooks. *)
Lemma sample_armed_exactly :
  exists level p0,
    EnableHooks true sample_registrations sample_phys sample_hook_data
    = Done (p0, set_NptState sample_hook_data NptHookEnabledInvisible) /\
    same_but_nx sample_phys p0 /\
    armed_exactly sample_registrations p0
      (set_NptState sample_hook_data NptHookEnabledInvisible) level.
Proof.
  destruct sample_machine_invariant as [level [[Hh [Hx _]] [Hm [S [A _]]]]].
  assert (Hr : hooks_in_range sample_registrations).
  { intros r Hin. cbn in Hin. destruct Hin as [<-|[<-|[]]]; cbn; lia. }
  assert (Hmax : MaxNptPdpEntriesUsed sample_hook_data = 1)
    by (vm_compute; reflexivity).
  destruct (EnableHooks_reaches_armed_exactly true sample_registrations
              sample_phys sample_hook_data level) as [p0 [Hrun [S0 Harmed]]].
  - split; [exact Hh|split; [exact Hm|exact Hr]].
  - exact Hx.
  - exact S.
  - exact A.
  - intros r Hin. cbn in Hin.
    destruct Hin as [<-|[<-|[]]]; vm_compute; reflexivity.
  - rewrite Hmax. lia.
  - rewrite Hmax. intros r Hin. cbn in Hin.
    destruct Hin as [<-|[<-|[]]]; vm_compute; reflexivity.
  - exists level, p0. auto.
Qed.

Lemma build_invariant_table_invariant p pml4 level H :
  build_invariant p pml4 level H -> table_invariant p pml4 level H.
Proof. intros [A [_ B]]. split; assumption. Qed.

Lemma same_interior_sym p q level : same_interior p q level -> same_interior q p level.
Proof. intros H t i L. destruct (H t i L). split; congruence. Qed.

(** ** The hook engine keeps the tables a hierarchy *)

(** The engine writes to entries of tables only and keeps Valid and
    PageFrameNumber of PML4, PDPT and PDT entries; the pool and its
    counter are not its concern. *)
Lemma table_invariant_tables_rewritten p p' pml4 level hd hd' :
  table_invariant p pml4 level (Some hd) ->
  same_interior p p' level ->
  (forall t i, level t = 0%nat -> qword p' t i = qword p t i) ->
  PreAllocatedNptEntries hd' = PreAllocatedNptEntries hd ->
  UsedPreAllocatedEntriesCount hd' = UsedPreAllocatedEntriesCount hd ->
  table_invariant p' pml4 level (Some hd').
Proof.
  intros [Hh [[Hnodup Hfresh] Hpool]] Hs Hz E1 E2.
  split; [exact (same_interior_hierarchy _ _ _ _ Hh Hs)|].
  unfold source_ok, pool_ok, fresh_pages in *. cbn [source_pages] in *.
  rewrite E1, E2.
  split; [split; assumption|].
  destruct Hpool as [A [B C]]. split; [exact A|]. split; [exact B|].
  intros q Hq i Hi. rewrite Hz; [apply C; assumption|].
  apply (Hfresh q Hq).
Qed.

Lemma EnableHooks_table_invariant dbg g p hd level p1 hd1 :
  table_invariant p (Pml4Table hd) level (Some hd) ->
  hooks_mapped g p (Pml4Table hd) ->
  NptState hd = NptDefault -> ActiveHookEntry hd = None ->
  EnableHooks dbg g p hd = Done (p1, hd1) ->
  table_invariant p1 (Pml4Table hd) level (Some hd1).
Proof.
  intros Hinv Hm Hs Ha Hrun.
  destruct (EnableHooks_arms_leaves dbg g p hd Hm Hs Ha)
    as [p1' [Hrun' [_ Hq]]].
  rewrite Hrun' in Hrun. injection Hrun as <- <-.
  apply (table_invariant_tables_rewritten p p1' _ level hd); auto.
  - intros t i _. rewrite Hq.
    destruct (cell_in t i _);
      [rewrite PageFrameNumber_set_NoExecute, Valid_set_NoExecute|]; auto.
  - intros t i L. rewrite Hq.
    destruct (cell_in t i (hook_leaves g p (Pml4Table hd))) eqn:C;
      [|reflexivity].
    apply cell_in_spec in C. unfold hook_leaves in C.
    apply in_map_iff in C. destruct C as [r [E Hr]].
    destruct (hierarchy_walk_levels _ _ _ _ (proj1 Hinv) (Hm r Hr))
      as [_ [_ L1]].
    rewrite E in L1. cbn [fst] in L1. congruence.
Qed.

Lemma TransitionNptState1To2_table_invariant dbg g p hd level e p' hd' :
  armed_state g p hd level -> source_ok p level (Some hd) ->
  In e (map HookEntry g) ->
  0 <= MaxNptPdpEntriesUsed hd ->
  GetPpeIndex (PhyPageBase e) < MaxNptPdpEntriesUsed hd ->
  TransitionNptState1To2 dbg p hd e = Done (p', hd') ->
  table_invariant p' (Pml4Table hd) level (Some hd').
Proof.
  intros Harmed Hsrc He Hmax Hppe Hrun.
  pose proof (TransitionNptState1To2_memory dbg g p hd level e
                Harmed He Hmax Hppe) as M.
  cbv zeta in M. destruct M as [p'' [Hrun' [Hs [_ Hq]]]].
  rewrite Hrun' in Hrun. injection Hrun as <- <-.
  pose proof Harmed as [[Hh [Hm _]] _].
  destruct (in_map_HookEntry g e He) as [r [Hr <-]].
  destruct (hierarchy_walk_levels _ _ _ _ Hh (Hm r Hr)) as [L3 [L2 L1]].
  apply (table_invariant_tables_rewritten p p'' _ level hd); auto.
  - split; assumption.
  - intros t i L. rewrite Hq.
    destruct (Z.eqb_spec t (fst (pt_entry p (Pml4Table hd)
                                   (PhyPageBase (HookEntry r)))))
      as [->|_]; [congruence|].
    destruct (Z.eqb_spec t (fst (pdt_entry p (Pml4Table hd)
                                   (PhyPageBase (HookEntry r)))))
      as [->|_]; [congruence|].
    destruct (Z.eqb_spec t (fst (pdpt_entry p (Pml4Table hd)
                                   (PhyPageBase (HookEntry r)))))
      as [->|_]; [congruence|].
    reflexivity.
Qed.

Lemma TransitionNtpState2To1_table_invariant dbg g p hd level a p' hd' :
  visible_state g p hd level a -> source_ok p level (Some hd) ->
  0 <= MaxNptPdpEntriesUsed hd ->
  TransitionNtpState2To1 dbg g p hd = Done (p', hd') ->
  table_invariant p' (Pml4Table hd) level (Some hd').
Proof.
  intros Hvis Hsrc Hmax Hrun.
  pose proof (TransitionNtpState2To1_memory dbg g p hd level a Hvis Hmax) as M.
  cbv zeta in M. destruct M as [q1 [q2 [p'' [Hrun' [_ [Hq1 [Hq2 Hq]]]]]]].
  destruct (TransitionNtpState2To1_from_visible dbg g p hd level a Hvis)
    as [p3 [Hrun3 [Hs _]]].
  assert (E : p3 = p'') by congruence. subst p3.
  rewrite Hrun' in Hrun. injection Hrun as <- <-.
  pose proof Hvis as [[Hh [Hm _]] [_ [_ [Ha _]]]].
  destruct (in_map_HookEntry g a Ha) as [r [Hr <-]].
  destruct (hierarchy_walk_levels _ _ _ _ Hh (Hm r Hr)) as [L3 [L2 L1]].
  apply (table_invariant_tables_rewritten p p'' _ level hd); auto.
  - split; assumption.
  - intros t i L.
    assert (N1 : (t =? fst (pt_entry p (Pml4Table hd)
                              (PhyPageBase (HookEntry r)))) = false)
      by (apply Z.eqb_neq; intros ->; congruence).
    assert (N2 : (t =? fst (pdt_entry p (Pml4Table hd)
                              (PhyPageBase (HookEntry r)))) = false)
      by (apply Z.eqb_neq; intros ->; congruence).
    assert (N3 : (t =? fst (pdpt_entry p (Pml4Table hd)
                              (PhyPageBase (HookEntry r)))) = false)
      by (apply Z.eqb_neq; intros ->; congruence).
    rewrite Hq, N1. cbn [andb]. rewrite Hq2.
    destruct (cell_in t i (hook_leaves g p (Pml4Table hd))) eqn:C.
    + apply cell_in_spec in C. unfold hook_leaves in C.
      apply in_map_iff in C. destruct C as [r' [E Hr']].
      destruct (hierarchy_walk_levels _ _ _ _ Hh (Hm r' Hr')) as [_ [_ L1']].
      rewrite E in L1'. cbn [fst] in L1'. congruence.
    + rewrite Hq1, N1, N2, N3. reflexivity.
Qed.

(** Entering a hook page, with everything the later steps need: the
    state is visible, the tables are still a hierarchy with the pool
    untouched, and the other entries of the page table of the hook have
    NoExecute set. *)
Lemma TransitionNptState1To2_visible_tables dbg g p hd level e :
  armed_state g p hd level -> source_ok p level (Some hd) ->
  In e (map HookEntry g) ->
  0 <= MaxNptPdpEntriesUsed hd ->
  GetPpeIndex (PhyPageBase e) < MaxNptPdpEntriesUsed hd ->
  let hd' := set_NptState (set_ActiveHookEntry hd (Some e))
                          NptHookEnabledVisible in
  exists p',
    TransitionNptState1To2 dbg p hd e = Done (p', hd') /\
    same_interior p p' level /\
    table_invariant p' (Pml4Table hd) level (Some hd') /\
    visible_state g p' hd' level e /\
    forall i, in_table i = true -> i <> GetPteIndex (PhyPageBase e) ->
      level (fst (pt_entry p (Pml4Table hd) (PhyPageBase e))) = 1%nat /\
      Fields.NoExecute
        (qword p' (fst (pt_entry p (Pml4Table hd) (PhyPageBase e))) i) = 1.
Proof.
  intros Harmed Hsrc He Hmax Hppe hd'.
  pose proof (TransitionNptState1To2_memory dbg g p hd level e
                Harmed He Hmax Hppe) as M.
  cbv zeta in M. destruct M as [p' [Hrun [Hs [_ Hq]]]].
  destruct (TransitionNptState1To2_from_armed dbg g p hd level e Harmed He)
    as [p'' [Hrun' [_ [_ Hvis]]]].
  assert (Ep : p'' = p') by congruence. subst p''.
  exists p'. split; [exact Hrun|]. split; [exact Hs|].
  split.
  { exact (TransitionNptState1To2_table_invariant dbg g p hd level e p' hd'
             Harmed Hsrc He Hmax Hppe Hrun). }
  split; [exact Hvis|].
  intros i Hi Hne.
  pose proof Harmed as [[Hh [Hm _]] _].
  destruct (in_map_HookEntry g e He) as [r [Hr Er]].
  pose proof (Hm r Hr) as Hw. rewrite Er in Hw.
  destruct (hierarchy_walk_levels _ _ _ _ Hh Hw) as [_ [_ L1]].
  split; [exact L1|].
  rewrite Hq, Z.eqb_refl.
  change (snd (pt_entry p (Pml4Table hd) (PhyPageBase e)))
    with (GetPteIndex (PhyPageBase e)).
  destruct (Z.eqb_spec i (GetPteIndex (PhyPageBase e))); [contradiction|].
  rewrite Hi. apply NoExecute_set_NoExecute_1.
Qed.

(** The sample machine with the first hook visible: the tables carry
    NoExecute bits, and are a hierarchy with the pool untouched. *)
Lemma sample_visible_tables :
  exists level p0 p1,
    let pml4 := Pml4Table sample_hook_data in
    let hd0 := set_NptState sample_hook_data NptHookEnabledInvisible in
    let hd1 := set_NptState (set_ActiveHookEntry hd0 (Some sample_entry_1))
                            NptHookEnabledVisible in
    EnableHooks true sample_registrations sample_phys sample_hook_data
    = Done (p0, hd0) /\
    TransitionNptState1To2 true p0 hd0 sample_entry_1 = Done (p1, hd1) /\
    NptHierarchy sample_phys pml4 level /\
    same_interior sample_phys p1 level /\
    table_invariant p1 pml4 level (Some hd1) /\
    visible_state sample_registrations p1 hd1 level sample_entry_1 /\
    ~ AllExecutable p1 level.
Proof.
  destruct sample_machine_invariant as [level [B [Hm [S [A U]]]]].
  pose proof B as [Hh [Hx _]].
  assert (Hr : hooks_in_range sample_registrations).
  { intros r Hin. cbn in Hin. destruct Hin as [<-|[<-|[]]]; cbn; lia. }
  assert (Hmax : MaxNptPdpEntriesUsed sample_hook_data = 1)
    by (vm_compute; reflexivity).
  destruct (EnableHooks_reaches_armed_exactly true sample_registrations
              sample_phys sample_hook_data level)
    as [p0 [Hrun0 [S0 [Harmed [Hmax0 [Hcov0 _]]]]]].
  { split; [exact Hh|split; [exact Hm|exact Hr]]. }
  { exact Hx. }
  { exact S. }
  { exact A. }
  { intros r Hin. cbn in Hin.
    destruct Hin as [<-|[<-|[]]]; vm_compute; reflexivity. }
  { rewrite Hmax. lia. }
  { rewrite Hmax. intros r Hin. cbn in Hin.
    destruct Hin as [<-|[<-|[]]]; vm_compute; reflexivity. }
  set (hd0 := set_NptState sample_hook_data NptHookEnabledInvisible) in *.
  pose proof (EnableHooks_table_invariant true sample_registrations sample_phys
                sample_hook_data level p0 hd0
                (build_invariant_table_invariant _ _ _ _ B) Hm S A Hrun0) as T0.
  assert (He : In sample_entry_1 (map HookEntry sample_registrations))
    by (left; reflexivity).
  assert (Hppe : GetPpeIndex (PhyPageBase sample_entry_1)
                 < MaxNptPdpEntriesUsed hd0).
  { apply (Hcov0 (mkRegistration "ZwQuerySystemInformation"
                                 0xFFFFF88003C01000 sample_entry_1)).
    left. reflexivity. }
  destruct (TransitionNptState1To2_visible_tables true sample_registrations
              p0 hd0 level sample_entry_1 Harmed (proj2 T0) He (proj1 Hmax0) Hppe)
    as [p1 [Hrun1 [I1 [T1 [Hvis Hnx]]]]].
  exists level, p0, p1.
  split; [exact Hrun0|]. split; [exact Hrun1|]. split; [exact Hh|].
  split.
  { apply (same_interior_trans _ p0); [|exact I1].
    apply same_but_nx_same_interior. exact S0. }
  split; [exact T1|]. split; [exact Hvis|].
  intros Hall.
  destruct (Hnx 0 eq_refl ltac:(vm_compute; discriminate)) as [L1 N1].
  rewrite Hall in N1; [discriminate|rewrite L1; discriminate|lia].
Qed.

Lemma HandleNestedPageFault_unmapped_builds_identity_leaf_witness :
  let vmcb := sample_vmcb VMEXIT_NPF 0x100000006 0xFED00010
                          0xFFFFF80002000010 0xFFFFF80002000012 0x0093 in
  exists level p0 hd0 p1 hd1 p' hd' (created : list entry_ptr),
    EnableHooks true sample_registrations sample_phys sample_hook_data
    = Done (p0, hd0) /\
    TransitionNptState1To2 true p0 hd0 sample_entry_1 = Done (p1, hd1) /\
    ~ AllExecutable p1 level /\
    table_invariant p1 (Pml4Table hd1) level (Some hd1) /\
    HandleNestedPageFault true sample_registrations p1 vmcb hd1
    = Done (p', hd') /\
    Fields.PageFrameNumber
      (load p' (pt_entry p' (Pml4Table hd1) 0xFED00010)) = 0xFED00 /\
    (List.length created <= 3)%nat /\
    UsedPreAllocatedEntriesCount hd' <= 4 /\
    NptState hd' = NptHookEnabledVisible /\
    ActiveHookEntry hd' = Some sample_entry_1.
Proof.
  intros vmcb.
  destruct sample_visible_tables
    as [level [p0 [p1 [Hrun0 [Hrun1 [Hh [I1 [T1 [Hvis Hnx]]]]]]]]].
  destruct sample_machine_invariant as [_ [_ [_ [_ [_ U]]]]].
  set (hd0 := set_NptState sample_hook_data NptHookEnabledInvisible) in *.
  set (hd1 := set_NptState (set_ActiveHookEntry hd0 (Some sample_entry_1))
                           NptHookEnabledVisible) in *.
  assert (U1 : UsedPreAllocatedEntriesCount hd1 = 0) by exact U.
  destruct (HandleNestedPageFault_unmapped_builds_identity_leaf
              true sample_registrations p1 vmcb hd1 level)
    as [p' [hd' [created [Hrun [_ [_ [_ [_ [Hpfn [Hlen [_ [_ [_ [Hu [Hs [Ha _]
       ]]]]]]]]]]]]]]].
  - reflexivity.
  - vm_compute. split; [discriminate|reflexivity].
  - exact T1.
  - intros Hw. exfalso.
    destruct (same_interior_walk p1 sample_phys (Pml4Table sample_hook_data)
                level 0xFED00010 (proj1 T1) (same_interior_sym _ _ _ I1) Hw)
      as [[_ [_ H]] _].
    vm_compute in H. discriminate.
  - rewrite U1. vm_compute. discriminate.
  - exists level, p0, hd0, p1, hd1, p', hd', created.
    split; [exact Hrun0|]. split; [exact Hrun1|]. split; [exact Hnx|].
    split; [exact T1|]. split; [exact Hrun|].
    split; [exact Hpfn|]. split; [exact Hlen|].
    split; [rewrite U1 in Hu; exact Hu|].
    split; [rewrite Hs; reflexivity|rewrite Ha; reflexivity].
Defined.

Lemma BuildSubTables_keeps_other_translations_witness :
  exists level p0 hd0 p1 hd1 e p' H',
    EnableHooks true sample_registrations sample_phys sample_hook_data
    = Done (p0, hd0) /\
    TransitionNptState1To2 true p0 hd0 sample_entry_1 = Done (p1, hd1) /\
    ~ AllExecutable p1 level /\
    BuildSubTables true p1 (Pml4Table hd1) 0xFED00010 (Some hd1)
    = Done (Some e, p', H') /\
    GetNestedPageTableEntry p' (Pml4Table hd1) 0x2A31000
    = GetNestedPageTableEntry p1 (Pml4Table hd1) 0x2A31000.
Proof.
  destruct sample_visible_tables
    as [level [p0 [p1 [Hrun0 [Hrun1 [Hh [I1 [T1 [Hvis Hnx]]]]]]]]].
  destruct sample_machine_invariant as [_ [_ [_ [_ [_ U]]]]].
  set (hd0 := set_NptState sample_hook_data NptHookEnabledInvisible) in *.
  set (hd1 := set_NptState (set_ActiveHookEntry hd0 (Some sample_entry_1))
                           NptHookEnabledVisible) in *.
  assert (U1 : UsedPreAllocatedEntriesCount hd1 = 0) by exact U.
  destruct (BuildSubTables_pool_returns_tables true p1
              (Pml4Table hd1) level hd1 0xFED00010 T1)
    as [e [p' [H' Hrun]]].
  - vm_compute. discriminate.
  - rewrite U1. vm_compute. discriminate.
  - intros Hw. exfalso.
    destruct (same_interior_walk p1 sample_phys (Pml4Table sample_hook_data)
                level 0xFED00010 (proj1 T1) (same_interior_sym _ _ _ I1) Hw)
      as [[_ [_ H]] _].
    vm_compute in H. discriminate.
  - destruct (BuildSubTables_keeps_other_translations
                true p1 (Pml4Table hd1) level
                (Some hd1) 0xFED00010 e p' H' 0x2A31000 T1)
      as [Hget [Hget' _]].
    + vm_compute. discriminate.
    + exact Hrun.
    + destruct Hvis as [[_ [Hm1 _]] _].
      apply (Hm1 (mkRegistration "ZwQuerySystemInformation"
                                 0xFFFFF88003C01000 sample_entry_1)).
      left. reflexivity.
    + exists level, p0, hd0, p1, hd1, e, p', H'.
      split; [exact Hrun0|]. split; [exact Hrun1|]. split; [exact Hnx|].
      split; [exact Hrun|]. rewrite Hget, Hget'. reflexivity.
Defined.

(** ** C1: EnableHooks with a hook active *)








Lemma HandleNestedPageFault_enters_hook_page_witness :
  let vmcb := sample_vmcb VMEXIT_NPF 0x100000011 0x2A31234
                          0xFFFFF80002A31234 0xFFFFF80002A31236 0x0093 in
  exists p0 hd0 p',
    EnableHooks true sample_registrations sample_phys sample_hook_data
    = Done (p0, hd0) /\
    HandleNestedPageFault true sample_registrations p0 vmcb hd0
    = Done (p', set_NptState (set_ActiveHookEntry hd0 (Some sample_entry_1))
                             NptHookEnabledVisible) /\
    Fields.PageFrameNumber
      (load p' (hook_leaf p0 (Pml4Table sample_hook_data) sample_entry_1))
    = 0x7F.
Proof.
  intros vmcb.
  destruct sample_armed_exactly as [level [p0 [Hrun0 [_ [Harmed _]]]]].
  set (hd0 := set_NptState sample_hook_data NptHookEnabledInvisible) in *.
  destruct (HandleNestedPageFault_enters_hook_page
              true sample_registrations p0 vmcb hd0 level sample_entry_1 Harmed)
    as [p' [Hrun [_ [_ [_ [_ [Hpfn _]]]]]]];
    [reflexivity|reflexivity|reflexivity|].
  exists p0, hd0, p'. split; [exact Hrun0|]. split; [exact Hrun|exact Hpfn].
Defined.

Lemma TransitionNptState1To2_isolates_hook_page_witness :
  exists p0 hd0 p' hd',
    EnableHooks true sample_registrations sample_phys sample_hook_data
    = Done (p0, hd0) /\
    TransitionNptState1To2 true p0 hd0 sample_entry_1 = Done (p', hd') /\
    execution_open p' (Pml4Table hd0) 0x2A31000 /\
    execution_blocked p' (Pml4Table hd0) 0x2C45000 /\
    execution_blocked p' (Pml4Table hd0) 0x7E000.
Proof.
  destruct sample_armed_exactly as [level [p0 [Hrun0 [_ [Harmed [Hmax [Hcov _]]]]]]].
  set (hd0 := set_NptState sample_hook_data NptHookEnabledInvisible) in *.
  destruct (TransitionNptState1To2_isolates_hook_page
              true sample_registrations p0 hd0 level sample_entry_1 Harmed)
    as [p' [hd' [Hrun [Hopen Hblocked]]]].
  - left. reflexivity.
  - lia.
  - apply (Hcov (mkRegistration "ZwQuerySystemInformation"
                                0xFFFFF88003C01000 sample_entry_1)).
    left. reflexivity.
  - assert (M : MaxNptPdpEntriesUsed hd0 = 1) by (vm_compute; reflexivity).
    exists p0, hd0, p', hd'. split; [exact Hrun0|]. split; [exact Hrun|].
    split; [exact Hopen|]. split.
    + apply Hblocked; [lia|rewrite M; vm_compute; reflexivity|].
      vm_compute. discriminate.
    + apply Hblocked; [lia|rewrite M; vm_compute; reflexivity|].
      vm_compute. discriminate.
Defined.

Lemma TransitionNptState1To2_then_2To1_restores_npt_witness :
  exists p0 hd0 p1 hd1 p2 hd2,
    EnableHooks true sample_registrations sample_phys sample_hook_data
    = Done (p0, hd0) /\
    TransitionNptState1To2 true p0 hd0 sample_entry_2 = Done (p1, hd1) /\
    TransitionNtpState2To1 true sample_registrations p1 hd1 = Done (p2, hd2) /\
    same_contents p0 p2 /\ hd2 = hd0.
Proof.
  destruct sample_armed_exactly as [level [p0 [Hrun0 [_ Harmed]]]].
  set (hd0 := set_NptState sample_hook_data NptHookEnabledInvisible) in *.
  destruct (TransitionNptState1To2_then_2To1_restores_npt
              true sample_registrations p0 hd0 level sample_entry_2 Harmed)
    as [p1 [hd1 [p2 [hd2 [H1 [_ [_ [H2 [Hsame Hhd]]]]]]]]].
  - right. left. reflexivity.
  - exists p0, hd0, p1, hd1, p2, hd2. auto.
Defined.

Lemma HandleNestedPageFault_leaves_hook_page_witness :
  let vmcb := sample_vmcb VMEXIT_NPF 0x100000011 0x7E010
                          0xFFFFF80002000010 0xFFFFF80002000012 0x0093 in
  exists p0 hd0 p1 hd1 p2,
    EnableHooks true sample_registrations sample_phys sample_hook_data
    = Done (p0, hd0) /\
    TransitionNptState1To2 true p0 hd0 sample_entry_1 = Done (p1, hd1) /\
    HandleNestedPageFault true sample_registrations p1 vmcb hd1
    = Done (p2, set_NptState (set_ActiveHookEntry hd1 None)
                             NptHookEnabledInvisible) /\
    Fields.PageFrameNumber
      (load p2 (hook_leaf p1 (Pml4Table hd1) sample_entry_1)) = 0x2A31.
Proof.
  intros vmcb.
  destruct sample_armed_exactly as [level [p0 [Hrun0 [_ [Harmed _]]]]].
  set (hd0 := set_NptState sample_hook_data NptHookEnabledInvisible) in *.
  destruct (TransitionNptState1To2_from_armed
              true sample_registrations p0 hd0 level sample_entry_1 Harmed)
    as [p1 [Hrun1 [_ [_ Hvis]]]]; [left; reflexivity|].
  set (hd1 := set_NptState (set_ActiveHookEntry hd0 (Some sample_entry_1))
                           NptHookEnabledVisible) in *.
  destruct (HandleNestedPageFault_leaves_hook_page
              true sample_registrations p1 vmcb hd1 level sample_entry_1 Hvis)
    as [p2 [Hrun2 [Hpfn _]]]; [reflexivity|reflexivity|reflexivity|].
  exists p0, hd0, p1, hd1, p2.
  split; [exact Hrun0|]. split; [exact Hrun1|]. split; [exact Hrun2|exact Hpfn].
Defined.

Lemma EnableHooks_marks_only_hook_leaves_witness :
  exists p1,
    EnableHooks true sample_registrations sample_phys sample_hook_data
    = Done (p1, set_NptState sample_hook_data NptHookEnabledInvisible) /\
    Fields.NoExecute
      (load p1 (hook_leaf sample_phys (Pml4Table sample_hook_data)
                          sample_entry_2)) = 1.
Proof.
  destruct sample_machine_invariant as [level [_ [Hm [S [A _]]]]].
  destruct (EnableHooks_marks_only_hook_leaves
              true sample_registrations sample_phys sample_hook_data Hm S A)
    as [p1 [Hrun [_ [Hleaf _]]]].
  exists p1. split; [exact Hrun|].
  apply (Hleaf (mkRegistration "ExAllocatePoolWithTag"
                               0xFFFFF88003C02000 sample_entry_2)).
  right. left. reflexivity.
Defined.

(** X13.  DisableHooks while a hook is active (state 2), a path the
    source marks with NT_ASSERT(FALSE).  A checked build stops at that
    assertion.  A free build returns to NptDefault with no active hook,
    backs the page of the hook that was active by its original page and
    opens it for execution; but it does not visit the other
    registrations: the leaf of a hook that lies in another page table
    keeps NoExecute, although the state now says NptDefault. *)
Theorem DisableHooks_in_state_2 dbg g p hd level e :
  armed_state g p hd level -> In e (map HookEntry g) ->
  0 <= MaxNptPdpEntriesUsed hd ->
  GetPpeIndex (PhyPageBase e) < MaxNptPdpEntriesUsed hd ->
  exists p1 hd1 p2,
    TransitionNptState1To2 dbg p hd e = Done (p1, hd1) /\
    DisableHooks true g p1 hd1 = AssertionFailure /\
    DisableHooks false g p1 hd1
    = Done (p2, set_NptState (set_ActiveHookEntry hd1 None) NptDefault) /\
    Fields.PageFrameNumber (load p2 (hook_leaf p (Pml4Table hd) e))
    = GetPfnFromPa (PhyPageBase e) /\
    execution_open p2 (Pml4Table hd) (PhyPageBase e) /\
    forall r, In r g ->
      fst (hook_leaf p (Pml4Table hd) (HookEntry r))
      <> fst (hook_leaf p (Pml4Table hd) e) ->
      Fields.NoExecute (load p2 (hook_leaf p (Pml4Table hd) (HookEntry r))) = 1.
Proof.
  intros Harmed He Hmax Hppe.
  destruct (TransitionNptState1To2_memory dbg g p hd level e Harmed He Hmax Hppe)
    as [p1 [Hrun1 [I1 [F1 Q1]]]].
  set (hd1 := set_NptState (set_ActiveHookEntry hd (Some e))
                           NptHookEnabledVisible) in *.
  pose proof Harmed as [Hf [Hst [Hact Hleaf]]].
  pose proof Hf as [Hh [Hm Hr]].
  destruct (in_map_HookEntry g e He) as [r0 [Hr0 E0]].
  set (pml4 := Pml4Table hd) in *.
  set (pe := PhyPageBase e) in *.
  assert (Hw : walk_succeeds p pml4 pe)
    by (subst pe; rewrite <- E0; apply Hm; exact Hr0).
  assert (Hlow : 0 <= pe < 2 ^ 39)
    by (subst pe; rewrite <- E0; apply Hr; exact Hr0).
  assert (Hexec : 0 <= PhyPageBaseForExecution e < 2 ^ 52)
    by (rewrite <- E0; apply Hr; exact Hr0).
  pose proof (low_address_pxe pe Hlow) as Hx.
  destruct (same_interior_walk p p1 pml4 level pe Hh I1 Hw)
    as [W1 [E3 [E2 E1]]].
  destruct (hierarchy_walk_levels _ _ _ _ Hh Hw) as [L3 [L2 L1]].
  change (hook_leaf p pml4 e) with (pt_entry p pml4 pe).
  set (e3 := pdpt_entry p pml4 pe) in *.
  set (e2 := pdt_entry p pml4 pe) in *.
  set (e1 := pt_entry p pml4 pe) in *.
  assert (D31 : fst e3 <> fst e1) by congruence.
  assert (D32 : fst e3 <> fst e2) by congruence.
  assert (D21 : fst e2 <> fst e1) by congruence.
  assert (R3 : 0 <= GetPpeIndex pe < 512) by apply GetPpeIndex_range.
  assert (R2 : 0 <= snd e2 < 512) by apply GetPdeIndex_range.
  assert (R1 : 0 <= snd e1 < 512) by apply GetPteIndex_range.
  pose proof (ChangePermissionsOfAllPages_allow_eq false p1 pml4 pe
                (MaxNptPdpEntriesUsed hd) Hx W1) as Hcp.
  rewrite E3, E2, E1 in Hcp.
  set (q := ForEachEntrySetNoExecute 512 0 (fst e1) false _) in Hcp.
  assert (Sq : same_but_nx p1 q).
  { subst q.
    eapply same_but_nx_trans; [|apply same_but_nx_ForEachEntry].
    eapply same_but_nx_trans; [|apply same_but_nx_ForEachEntry].
    apply same_but_nx_ForEachEntry. }
  assert (Qq : forall t i,
             qword q t i
             = if ((t =? fst e1) && in_table i)
                  || ((t =? fst e2) && in_table i)
                  || ((t =? fst e3)
                      && ((0 <=? i) && (i <? MaxNptPdpEntriesUsed hd)))
               then Fields.set_NoExecute (qword p1 t i) 0
               else qword p1 t i).
  { intros t i. subst q.
    rewrite !qword_ForEachEntry_table, qword_ForEachEntry_upto by exact Hmax.
    cbn [BOOLEAN].
    destruct ((t =? fst e1) && in_table i);
      destruct ((t =? fst e2) && in_table i);
      destruct ((t =? fst e3) && ((0 <=? i) && (i <? MaxNptPdpEntriesUsed hd)));
      cbn [orb]; rewrite ?set_NoExecute_idem; reflexivity. }
  set (p2 := store_PageFrameNumber q e1 (GetPfnFromPa pe)).
  exists p1, hd1, p2.
  split; [exact Hrun1|].
  split.
  { unfold DisableHooks. cbn [NptState hd1 set_NptState NPT_STATE_eqb negb
                              ActiveHookEntry set_ActiveHookEntry is_some].
    reflexivity. }
  split.
  { unfold DisableHooks.
    cbn [NptState hd1 set_NptState NPT_STATE_eqb negb ActiveHookEntry
         set_ActiveHookEntry is_some deref NT_ASSERT andb bind
         Pml4Table MaxNptPdpEntriesUsed].
    fold pml4 pe. rewrite Hcp. cbn [bind].
    rewrite (GetNestedPageTableEntry_walk q pml4 pe)
      by (apply (same_but_nx_walk_succeeds p1); assumption).
    rewrite (same_but_nx_pt_entry p1 q) by exact Sq. rewrite E1.
    cbn [deref bind]. reflexivity. }
  assert (T1 : in_table (snd e1) = true) by (apply in_table_spec; exact R1).
  assert (T2 : in_table (snd e2) = true) by (apply in_table_spec; exact R2).
  split.
  { subst p2. rewrite load_store_PageFrameNumber_same.
    apply PageFrameNumber_set_PageFrameNumber. apply GetPfnFromPa_range. lia. }
  assert (I2 : same_interior p p2 level).
  { eapply same_interior_trans; [exact I1|].
    eapply same_interior_trans;
      [apply same_but_nx_same_interior; exact Sq|].
    apply same_interior_store_PageFrameNumber. exact L1. }
  destruct (same_interior_walk p p2 pml4 level pe Hh I2 Hw)
    as [_ [E3' [E2' E1']]].
  split.
  { unfold execution_open. rewrite E3', E2', E1'. fold e3 e2 e1.
    split; [|split].
    - subst p2. rewrite load_store_PageFrameNumber_other
        by (intros E; apply D31; rewrite E; reflexivity).
      unfold load. rewrite Qq.
      destruct (Z.eqb_spec (fst e3) (fst e1)); [contradiction|].
      destruct (Z.eqb_spec (fst e3) (fst e2)); [contradiction|].
      rewrite Z.eqb_refl. change (snd e3) with (GetPpeIndex pe).
      destruct (Z.leb_spec 0 (GetPpeIndex pe)); [|lia].
      destruct (Z.ltb_spec (GetPpeIndex pe) (MaxNptPdpEntriesUsed hd)); [|lia].
      cbn [andb orb]. apply NoExecute_set_NoExecute_0.
    - subst p2. rewrite load_store_PageFrameNumber_other
        by (intros E; apply D21; rewrite E; reflexivity).
      unfold load. rewrite Qq.
      destruct (Z.eqb_spec (fst e2) (fst e1)); [contradiction|].
      rewrite Z.eqb_refl, T2. cbn [andb orb]. apply NoExecute_set_NoExecute_0.
    - subst p2. rewrite load_store_PageFrameNumber_same.
      rewrite NoExecute_set_PageFrameNumber.
      unfold load. rewrite Qq, Z.eqb_refl, T1. cbn [andb orb].
      apply NoExecute_set_NoExecute_0. }
  intros r Hin Hne.
  change (hook_leaf p pml4 (HookEntry r))
    with (pt_entry p pml4 (PhyPageBase (HookEntry r))) in *.
  set (l := pt_entry p pml4 (PhyPageBase (HookEntry r))) in *.
  destruct (hierarchy_walk_levels _ _ _ _ Hh (Hm r Hin)) as [_ [_ Ll]].
  fold l in Ll.
  destruct (Hleaf r Hin) as [Hnxl _].
  change (hook_leaf p (Pml4Table hd) (HookEntry r)) with l in Hnxl.
  assert (N2 : fst l <> fst e2) by congruence.
  assert (N3 : fst l <> fst e3) by congruence.
  subst p2. rewrite load_store_PageFrameNumber_other
    by (intros E; apply Hne; rewrite E; reflexivity).
  unfold load. rewrite Qq, Q1.
  destruct (Z.eqb_spec (fst l) (fst e1)); [contradiction|].
  destruct (Z.eqb_spec (fst l) (fst e2)); [contradiction|].
  destruct (Z.eqb_spec (fst l) (fst e3)); [contradiction|].
  cbn [andb orb]. exact Hnxl.
Qed.

Lemma DisableHooks_in_state_2_witness :
  exists p0 hd0 p1 hd1 p2,
    EnableHooks true sample_registrations sample_phys sample_hook_data
    = Done (p0, hd0) /\
    TransitionNptState1To2 true p0 hd0 sample_entry_1 = Done (p1, hd1) /\
    DisableHooks true sample_registrations p1 hd1 = AssertionFailure /\
    DisableHooks false sample_registrations p1 hd1
    = Done (p2, set_NptState (set_ActiveHookEntry hd1 None) NptDefault) /\
    Fields.NoExecute
      (load p2 (hook_leaf p0 (Pml4Table hd0) sample_entry_2)) = 1.
Proof.
  destruct sample_armed_exactly
    as [level [p0 [Hrun0 [S0 [Harmed [Hmax [Hcov _]]]]]]].
  set (hd0 := set_NptState sample_hook_data NptHookEnabledInvisible) in *.
  destruct (DisableHooks_in_state_2
              true sample_registrations p0 hd0 level sample_entry_1 Harmed)
    as [p1 [hd1 [p2 [H1 [H2 [H3 [_ [_ Hkeep]]]]]]]].
  - left. reflexivity.
  - lia.
  - apply (Hcov (mkRegistration "ZwQuerySystemInformation"
                                0xFFFFF88003C01000 sample_entry_1)).
    left. reflexivity.
  - exists p0, hd0, p1, hd1, p2.
    split; [exact Hrun0|]. split; [exact H1|]. split; [exact H2|].
    split; [exact H3|].
    apply (Hkeep (mkRegistration "ExAllocatePoolWithTag"
                                 0xFFFFF88003C02000 sample_entry_2)).
    + right. left. reflexivity.
    + unfold hook_leaf.
      rewrite !(same_but_nx_pt_entry sample_phys p0) by exact S0.
      vm_compute. discriminate.
Defined.

(** ** HookVmmCommon.cpp: looking up hooks *)

Lemma PAGE_ALIGN_idem a : PAGE_ALIGN (PAGE_ALIGN a) = PAGE_ALIGN a.
Proof. unfold PAGE_ALIGN. Z.bitblast. Qed.

(** X15.  FindHookEntryByPhysicalPage looks only at the page of the
    address: it answers the same for every address of a page.  Its answer
    is the HookEntry of the first registration, in the order of
    g_HookRegistrationEntries, whose PhyPageBase lies on that page, and
    nullptr exactly when no registration does. *)
Theorem FindHookEntryByPhysicalPage_first_on_page g pa :
  FindHookEntryByPhysicalPage g (PAGE_ALIGN pa)
  = FindHookEntryByPhysicalPage g pa /\
  (forall e, FindHookEntryByPhysicalPage g pa = Some e ->
     exists before r after,
       g = before ++ r :: after /\ HookEntry r = e /\
       PAGE_ALIGN (PhyPageBase e) = PAGE_ALIGN pa /\
       forall r', In r' before ->
         PAGE_ALIGN (PhyPageBase (HookEntry r')) <> PAGE_ALIGN pa) /\
  (FindHookEntryByPhysicalPage g pa = None <->
   forall r, In r g -> PAGE_ALIGN (PhyPageBase (HookEntry r)) <> PAGE_ALIGN pa).
Proof.
  unfold FindHookEntryByPhysicalPage. split; [|split].
  - induction g as [|r g IH]; cbn [FindHookEntryByPhysicalPage_in];
      [reflexivity|].
    rewrite PAGE_ALIGN_idem, IH. reflexivity.
  - induction g as [|r g IH]; cbn [FindHookEntryByPhysicalPage_in];
      [discriminate|].
    intros e.
    destruct (Z.eqb_spec (PAGE_ALIGN pa) (PAGE_ALIGN (PhyPageBase (HookEntry r))))
      as [E|E].
    + intros H. injection H as <-.
      exists [], r, g. split; [reflexivity|]. split; [reflexivity|].
      split; [symmetry; exact E|]. intros r' [].
    + intros H. destruct (IH e H) as [before [r1 [after [Eg [Er [Ep Hb]]]]]].
      exists (r :: before), r1, after.
      split; [rewrite Eg; reflexivity|]. split; [exact Er|].
      split; [exact Ep|].
      intros r' [<-|Hin]; [congruence|apply Hb; exact Hin].
  - induction g as [|r g IH]; cbn [FindHookEntryByPhysicalPage_in].
    + split; [intros _ r []|reflexivity].
    + destruct (Z.eqb_spec (PAGE_ALIGN pa)
                           (PAGE_ALIGN (PhyPageBase (HookEntry r)))) as [E|E].
      * split; [discriminate|].
        intros H. exfalso. apply (H r); [left; reflexivity|congruence].
      * rewrite IH. split.
        -- intros H r' [<-|Hin]; [congruence|apply H; exact Hin].
        -- intros H r' Hin. apply H. right. exact Hin.
Qed.

(** ** VmmMain.cpp: the exit dispatcher *)

Lemma HandleCpuid_ExitVm dbg g cpuidex p VpData gc p' VpData' gc' :
  HandleCpuid dbg g cpuidex p VpData gc = Done (p', VpData', gc') ->
  ExitVm gc = false -> ExitVm gc' = true ->
  to_ULONG (GprRax (VpRegs gc)) = CPUID_LEAF_SIMPLE_SVM_CALL /\
  to_ULONG (Rcx (VpRegs gc)) = CPUID_SUBLEAF_UNLOAD_SIMPLE_SVM /\
  SEGMENT_ATTRIBUTE.Dpl (SsAttrib (StateSaveArea (GuestVmcb VpData))) = DPL_SYSTEM /\
  p' = p /\
  VpData' = mkVpData (set_Rip (GuestVmcb VpData)
                              (NRip (ControlArea (GuestVmcb VpData))))
                     (HookData VpData).
Proof.
  unfold HandleCpuid. intros H Hin Hout.
  set (leaf := to_ULONG (GprRax (VpRegs gc))) in *.
  set (subLeaf := to_ULONG (Rcx (VpRegs gc))) in *.
  destruct (leaf =? CPUID_PROCESSOR_AND_PROCESSOR_FEATURE_IDENTIFIERS);
    [cbn in H; injection H as _ _ <-; cbn in Hout; congruence|].
  destruct (leaf =? CPUID_HV_VENDOR_AND_MAX_FUNCTIONS);
    [cbn in H; injection H as _ _ <-; cbn in Hout; congruence|].
  destruct (leaf =? CPUID_HV_INTERFACE);
    [cbn in H; injection H as _ _ <-; cbn in Hout; congruence|].
  destruct (Z.eqb_spec leaf CPUID_LEAF_SIMPLE_SVM_CALL) as [El|El];
    [|cbn in H; injection H as _ _ <-; cbn in Hout; congruence].
  destruct (Z.eqb_spec (SEGMENT_ATTRIBUTE.Dpl
                          (SsAttrib (StateSaveArea (GuestVmcb VpData))))
                       DPL_SYSTEM) as [Ed|Ed]; cbn [negb] in H;
    [|cbn in H; injection H as _ _ <-; cbn in Hout; congruence].
  destruct (Z.eqb_spec subLeaf CPUID_SUBLEAF_UNLOAD_SIMPLE_SVM) as [Es|Es].
  - cbn in H. injection H as <- <- _. auto.
  - destruct (subLeaf =? CPUID_SUBLEAF_ENABLE_HOOKS).
    + destruct (EnableHooks dbg g p (HookData VpData)) as [[p1 h1]| | |];
        cbn in H; try discriminate.
      injection H as _ _ <-. cbn in Hout. congruence.
    + destruct (subLeaf =? CPUID_SUBLEAF_DISABLE_HOOKS).
      * destruct (DisableHooks dbg g p (HookData VpData)) as [[p1 h1]| | |];
          cbn in H; try discriminate.
        injection H as _ _ <-. cbn in Hout. congruence.
      * destruct dbg; cbn in H; [discriminate|].
        injection H as _ _ <-. cbn in Hout. congruence.
Qed.

(** X16.  An exit code HandleVmExit has no case for (anything but CPUID,
    MSR, VMRUN, #BP and NPF) ends in the bug check, whatever the state of
    the guest: the default case of the switch does not return. *)
Theorem HandleVmExit_unknown_exit_code_bug_checks
    dbg g cpuidex env p VpData GuestRegisters :
  let exitCode := ExitCode (ControlArea (GuestVmcb VpData)) in
  exitCode <> VMEXIT_CPUID -> exitCode <> VMEXIT_MSR ->
  exitCode <> VMEXIT_VMRUN -> exitCode <> VMEXIT_EXCEPTION_BP ->
  exitCode <> VMEXIT_NPF ->
  Reserved1 env = MAXUINT64 ->
  HandleVmExit dbg g cpuidex env p VpData GuestRegisters = BugCheck.
Proof.
  intros exitCode H1 H2 H3 H4 H5 Hr. unfold HandleVmExit.
  rewrite Hr, Z.eqb_refl, NT_ASSERT_true. cbn [bind]. fold exitCode.
  destruct (Z.eqb_spec exitCode VMEXIT_CPUID); [contradiction|].
  destruct (Z.eqb_spec exitCode VMEXIT_MSR); [contradiction|].
  destruct (Z.eqb_spec exitCode VMEXIT_VMRUN); [contradiction|].
  destruct (Z.eqb_spec exitCode VMEXIT_EXCEPTION_BP); [contradiction|].
  destruct (Z.eqb_spec exitCode VMEXIT_NPF); [contradiction|].
  reflexivity.
Qed.

Lemma HandleVmExit_unknown_exit_code_bug_checks_witness :
  HandleVmExit true sample_registrations sample_cpuidex sample_environment
    sample_phys
    (mkVpData (sample_vmcb 0x60 0 0 0xFFFFF80002000010 0xFFFFF80002000012
                           0x0093)
              sample_hook_data)
    (sample_registers 1 0 0)
  = BugCheck.
Proof.
  apply HandleVmExit_unknown_exit_code_bug_checks;
    try (cbn; discriminate); reflexivity.
Defined.

(** X17.  HandleVmExit returns TRUE, and so ends virtualisation of the
    processor, only for the unload request: a CPUID exit whose leaf (the
    low half of the RAX saved in the VMCB) is 0x41414141, whose sub-leaf
    (the low half of RCX) is 0x41414141, made with SS.DPL = 0.  Then
    memory and HOOK_DATA are untouched, RAX and RDX carry the low and high
    halves of the address of VpData, RBX carries NRip, RCX the guest RSP,
    the RAX of the VMCB is left alone, and EFER is written back with SVME
    cleared. *)
Theorem HandleVmExit_terminates_only_on_kernel_unload
    dbg g cpuidex env p VpData GuestRegisters p' VpData' regs' actions :
  HandleVmExit dbg g cpuidex env p VpData GuestRegisters
  = Done (true, p', VpData', regs', actions) ->
  ExitCode (ControlArea (GuestVmcb VpData)) = VMEXIT_CPUID /\
  to_ULONG (Rax (StateSaveArea (GuestVmcb VpData))) = CPUID_LEAF_SIMPLE_SVM_CALL /\
  to_ULONG (Rcx GuestRegisters) = CPUID_SUBLEAF_UNLOAD_SIMPLE_SVM /\
  SEGMENT_ATTRIBUTE.Dpl (SsAttrib (StateSaveArea (GuestVmcb VpData))) = DPL_SYSTEM /\
  p' = p /\
  HookData VpData' = HookData VpData /\
  GprRax regs' = Z.land (VpDataAddress env) MAXUINT32 /\
  Rdx regs' = Z.shiftr (VpDataAddress env) 32 /\
  Rbx regs' = NRip (ControlArea (GuestVmcb VpData)) /\
  Rcx regs' = Rsp (StateSaveArea (GuestVmcb VpData)) /\
  Rax (StateSaveArea (GuestVmcb VpData')) = Rax (StateSaveArea (GuestVmcb VpData)) /\
  In (writemsr IA32_MSR_EFER (Z.land (HostEfer env) not_EFER_SVME)) actions.
Proof.
  unfold HandleVmExit. intros H. cbv zeta in H.
  bind_inv H. clear Hc a.
  bind_inv H. destruct a as [[p1 vp1] gc1].
  destruct (ExitVm gc1) eqn:Hexit.
  2:{ bind_inv H. discriminate. }
  set (gc := mkGuestContext
               (set_GprRax GuestRegisters
                  (Rax (StateSaveArea (GuestVmcb VpData)))) false) in *.
  destruct (Z.eqb_spec (ExitCode (ControlArea (GuestVmcb VpData))) VMEXIT_CPUID)
    as [Ec|Ec].
  - destruct (HandleCpuid_ExitVm dbg g cpuidex p VpData gc p1 vp1 gc1 Hc
                eq_refl Hexit) as [El [Es [Ed [-> ->]]]].
    bind_inv H. bind_inv H. injection H as <- <- <- <-.
    cbn in El, Es.
    split; [exact Ec|]. split; [exact El|]. split; [exact Es|].
    split; [exact Ed|]. split; [reflexivity|]. split; [reflexivity|].
    split; [reflexivity|]. split; [reflexivity|]. split; [reflexivity|].
    split; [reflexivity|]. split; [reflexivity|].
    right. apply in_or_app. right. cbn. auto.
  - exfalso.
    destruct (ExitCode (ControlArea (GuestVmcb VpData)) =? VMEXIT_MSR).
    { bind_inv Hc. injection Hc as _ _ <-. discriminate. }
    destruct (ExitCode (ControlArea (GuestVmcb VpData)) =? VMEXIT_VMRUN).
    { injection Hc as _ _ <-. discriminate. }
    destruct (ExitCode (ControlArea (GuestVmcb VpData)) =? VMEXIT_EXCEPTION_BP).
    { injection Hc as _ _ <-. discriminate. }
    destruct (ExitCode (ControlArea (GuestVmcb VpData)) =? VMEXIT_NPF).
    { bind_inv Hc. injection Hc as _ _ <-. discriminate. }
    discriminate.
Qed.

Lemma HandleVmExit_terminates_only_on_kernel_unload_witness :
  exists p' VpData' regs' actions,
    HandleVmExit true sample_registrations sample_cpuidex sample_environment
      (mkPhys (fun _ _ => 0) []) (sample_cpuid_vp 0x41414141)
      (sample_registers 0 0x41414141 0)
    = Done (true, p', VpData', regs', actions) /\
    GprRax regs' = 0xA1B2C000 /\ Rdx regs' = 0xFFFFD000 /\
    Rbx regs' = 0xFFFFF80002000012 /\
    In (writemsr IA32_MSR_EFER 0xD01) actions.
Proof.
  eexists _, _, _, _.
  eassert (Hrun : HandleVmExit true sample_registrations sample_cpuidex
                    sample_environment (mkPhys (fun _ _ => 0) [])
                    (sample_cpuid_vp 0x41414141)
                    (sample_registers 0 0x41414141 0)
                  = Done (true, _, _, _, _)) by (vm_compute; reflexivity).
  split; [exact Hrun|].
  destruct (HandleVmExit_terminates_only_on_kernel_unload _ _ _ _ _ _ _ _ _ _ _
              Hrun)
    as [_ [_ [_ [_ [_ [_ [Hrax [Hrdx [Hrbx [_ [_ Hin]]]]]]]]]]].
  split; [exact Hrax|]. split; [exact Hrdx|]. split; [exact Hrbx|exact Hin].
Defined.

(** The 64-bit address that DevirtualizeProcessor rebuilds from EDX:EAX. *)
Lemma DevirtualizeProcessor_vpData_halves (address : Z) (regs : GUEST_REGISTERS) :
  0 <= address < 2 ^ 64 ->
  GprRax regs = Z.land address MAXUINT32 ->
  Rdx regs = Z.shiftr address 32 ->
  DevirtualizeProcessor_vpData (unloaded_cpuid_registers regs) = address.
Proof.
  intros Ha Hrax Hrdx.
  unfold DevirtualizeProcessor_vpData, unloaded_cpuid_registers.
  cbn [registers0 registers3]. rewrite Hrax, Hrdx.
  change MAXUINT32 with (Z.ones 32).
  rewrite !Z.land_ones by lia. rewrite Z.shiftr_div_pow2 by lia.
  set (h := address / 2 ^ 32). set (l := address mod 2 ^ 32).
  assert (Hh : 0 <= h < 2 ^ 32).
  { subst h. split; [apply Z.div_pos; lia|].
    apply Z.div_lt_upper_bound; lia. }
  assert (Hl : 0 <= l < 2 ^ 32) by (subst l; apply Z.mod_pos_bound; lia).
  assert (Hal : address = h * 2 ^ 32 + l).
  { subst h l. rewrite Z.mul_comm. apply Z.div_mod. lia. }
  unfold to_ULONG. rewrite !(Z.mod_small l (2 ^ 32)) by lia.
  rewrite (Z.mod_small h (2 ^ 32)) by lia.
  assert (Hhigh : to_ULONG64 (Z.shiftl (int_to_UINT64 h) 32) = h * 2 ^ 32).
  { unfold to_ULONG64, int_to_UINT64, to_LONG.
    rewrite (Z.mod_small h (2 ^ 32)) by lia. rewrite Z.shiftl_mul_pow2 by lia.
    destruct (Z.ltb_spec h (2 ^ 31)).
    - rewrite (Z.mod_small h) by lia. apply Z.mod_small. lia.
    - replace ((h - 2 ^ 32) mod 2 ^ 64) with (h + (2 ^ 32 - 1) * 2 ^ 32)
        by (apply Z.mod_unique with (q := -1); lia).
      symmetry. apply Z.mod_unique with (q := 2 ^ 32 - 1); lia. }
  rewrite Hhigh. clearbody h l. clear Ha. subst address.
  rewrite <- Z.shiftl_mul_pow2 by lia.
  assert (Hland : Z.land (Z.shiftl h 32) l = 0).
  { apply Z.bits_inj'. intros i Hi. rewrite Z.land_spec, Z.bits_0.
    destruct (Z.ltb_spec i 32).
    - rewrite Z.shiftl_spec_low by lia. reflexivity.
    - rewrite <- (Z.mod_small l (2 ^ 32)) by lia.
      rewrite Z.mod_pow2_bits_high by lia. apply andb_false_r. }
  rewrite <- Z.lxor_lor by exact Hland.
  rewrite <- Z.add_nocarry_lxor by exact Hland. reflexivity.
Qed.

(** X18.  The unload request round-trips the address of the per
    processor data: when HandleVmExit returns TRUE, the registers the
    kernel finds in [registers] after SvLaunchVm left through SvLV20 give
    DevirtualizeProcessor back the address of the VpData that HandleVmExit
    was called with, whatever its upper half, and ECX holds the pool tag
    that DevirtualizeProcessor asserts.  The host actions are, in order:
    VMLOAD of the host VMCB, the IRQL raised and lowered again when it was
    below DISPATCH_LEVEL, VMLOAD of the guest VMCB, interrupts off, STGI,
    EFER written back with bit 12 and the upper 32 bits cleared, and the
    guest RFLAGS restored. *)
Theorem HandleVmExit_unload_hands_back_VpData
    dbg g cpuidex env p VpData GuestRegisters p' VpData' regs' actions :
  0 <= VpDataAddress env < 2 ^ 64 ->
  HandleVmExit dbg g cpuidex env p VpData GuestRegisters
  = Done (true, p', VpData', regs', actions) ->
  DevirtualizeProcessor_vpData (unloaded_cpuid_registers regs')
  = VpDataAddress env /\
  registers2 (unloaded_cpuid_registers regs') = k_PoolTag /\
  actions
  = [svm_vmload (HostVmcbPa env)]
    ++ (if CurrentIrql env <? DISPATCH_LEVEL
        then [KeRaiseIrqlToDpcLevel; KeLowerIrql (CurrentIrql env)] else [])
    ++ [svm_vmload (GuestVmcbPa env); disable_interrupts; svm_stgi;
        writemsr IA32_MSR_EFER (Z.land (HostEfer env) 0xFFFFEFFF);
        writeeflags (Rflags (StateSaveArea (GuestVmcb VpData)))].
Proof.
  intros Ha H.
  assert (Hregs : GprRax regs' = Z.land (VpDataAddress env) MAXUINT32 /\
                  Rdx regs' = Z.shiftr (VpDataAddress env) 32 /\
                  actions
                  = [svm_vmload (HostVmcbPa env)]
                    ++ (if CurrentIrql env <? DISPATCH_LEVEL
                        then [KeRaiseIrqlToDpcLevel;
                              KeLowerIrql (CurrentIrql env)] else [])
                    ++ [svm_vmload (GuestVmcbPa env); disable_interrupts;
                        svm_stgi;
                        writemsr IA32_MSR_EFER
                                 (Z.land (HostEfer env) 0xFFFFEFFF);
                        writeeflags
                          (Rflags (StateSaveArea (GuestVmcb VpData)))]).
  { revert H. unfold HandleVmExit. intros H. cbv zeta in H.
    bind_inv H. clear Hc a.
    bind_inv H. destruct a as [[p1 vp1] gc1].
    destruct (ExitVm gc1) eqn:Hexit.
    2:{ bind_inv H. discriminate. }
    set (gc := mkGuestContext
                 (set_GprRax GuestRegisters
                    (Rax (StateSaveArea (GuestVmcb VpData)))) false) in *.
    destruct (Z.eqb_spec (ExitCode (ControlArea (GuestVmcb VpData)))
                         VMEXIT_CPUID) as [Ec|Ec].
    - destruct (HandleCpuid_ExitVm dbg g cpuidex p VpData gc p1 vp1 gc1 Hc
                  eq_refl Hexit) as [El [Es [Ed [-> ->]]]].
      bind_inv H. bind_inv H. injection H as <- <- <- <-.
      split; [reflexivity|]. split; [reflexivity|].
      destruct (CurrentIrql env <? DISPATCH_LEVEL); reflexivity.
    - exfalso.
      destruct (ExitCode (ControlArea (GuestVmcb VpData)) =? VMEXIT_MSR).
      { bind_inv Hc. injection Hc as _ _ <-. discriminate. }
      destruct (ExitCode (ControlArea (GuestVmcb VpData)) =? VMEXIT_VMRUN).
      { injection Hc as _ _ <-. discriminate. }
      destruct (ExitCode (ControlArea (GuestVmcb VpData)) =? VMEXIT_EXCEPTION_BP).
      { injection Hc as _ _ <-. discriminate. }
      destruct (ExitCode (ControlArea (GuestVmcb VpData)) =? VMEXIT_NPF).
      { bind_inv Hc. injection Hc as _ _ <-. discriminate. }
      discriminate. }
  destruct Hregs as [Hrax [Hrdx Hact]].
  split; [apply DevirtualizeProcessor_vpData_halves; assumption|].
  split; [reflexivity|exact Hact].
Qed.

Lemma HandleVmExit_unload_hands_back_VpData_witness :
  exists p' VpData' regs' actions,
    HandleVmExit true sample_registrations sample_cpuidex sample_environment
      (mkPhys (fun _ _ => 0) []) (sample_cpuid_vp 0x41414141)
      (sample_registers 0 0x41414141 0)
    = Done (true, p', VpData', regs', actions) /\
    DevirtualizeProcessor_vpData (unloaded_cpuid_registers regs')
    = 0xFFFFD000A1B2C000.
Proof.
  eexists _, _, _, _.
  eassert (Hrun : HandleVmExit true sample_registrations sample_cpuidex
                    sample_environment (mkPhys (fun _ _ => 0) [])
                    (sample_cpuid_vp 0x41414141)
                    (sample_registers 0 0x41414141 0)
                  = Done (true, _, _, _, _)) by (vm_compute; reflexivity).
  split; [exact Hrun|].
  assert (Ha : 0 <= VpDataAddress sample_environment < 2 ^ 64)
    by (vm_compute; split; [discriminate|reflexivity]).
  destruct (HandleVmExit_unload_hands_back_VpData _ _ _ _ _ _ _ _ _ _ _
              Ha Hrun) as [Hback _].
  exact Hback.
Defined.

(** HandleMsrAccess touches EventInj, EFER and RIP only. *)
Lemma HandleMsrAccess_frame dbg vp gc vp' :
  HandleMsrAccess dbg vp gc = Done vp' ->
  HookData vp' = HookData vp /\
  Rax (StateSaveArea (GuestVmcb vp')) = Rax (StateSaveArea (GuestVmcb vp)) /\
  Rsp (StateSaveArea (GuestVmcb vp')) = Rsp (StateSaveArea (GuestVmcb vp)) /\
  Rflags (StateSaveArea (GuestVmcb vp'))
  = Rflags (StateSaveArea (GuestVmcb vp)).
Proof.
  unfold HandleMsrAccess. intros H. bind_inv H. bind_inv H.
  cbv zeta in H. injection H as <-.
  match goal with |- context [if ?c then _ else _] => destruct c end;
    repeat split; reflexivity.
Qed.

(** X19.  Outside CPUID exits HandleVmExit never ends virtualisation and
    never changes what the guest finds in its general purpose registers:
    whenever it returns for an MSR, VMRUN, #BP or NPF exit it returns
    FALSE, GUEST_REGISTERS is as it was but for Rax, which mirrors the RAX
    of the VMCB, and the RAX, RSP and RFLAGS of the VMCB are unchanged.
    The only host actions are the VMLOAD of the host state and, when the
    IRQL was below DISPATCH_LEVEL, raising it and lowering it back. *)
Theorem HandleVmExit_keeps_guest_registers_outside_cpuid
    dbg g cpuidex env p VpData GuestRegisters b p' VpData' regs' actions :
  ExitCode (ControlArea (GuestVmcb VpData)) <> VMEXIT_CPUID ->
  HandleVmExit dbg g cpuidex env p VpData GuestRegisters
  = Done (b, p', VpData', regs', actions) ->
  b = false /\
  regs' = set_GprRax GuestRegisters (Rax (StateSaveArea (GuestVmcb VpData))) /\
  Rax (StateSaveArea (GuestVmcb VpData'))
  = Rax (StateSaveArea (GuestVmcb VpData)) /\
  Rsp (StateSaveArea (GuestVmcb VpData'))
  = Rsp (StateSaveArea (GuestVmcb VpData)) /\
  Rflags (StateSaveArea (GuestVmcb VpData'))
  = Rflags (StateSaveArea (GuestVmcb VpData)) /\
  actions
  = svm_vmload (HostVmcbPa env)
    :: (if CurrentIrql env <? DISPATCH_LEVEL
        then [KeRaiseIrqlToDpcLevel; KeLowerIrql (CurrentIrql env)] else []).
Proof.
  intros Hcode. unfold HandleVmExit. intros H. cbv zeta in H.
  bind_inv H. clear Hc a.
  bind_inv H. destruct a as [[p1 vp1] gc1].
  apply Z.eqb_neq in Hcode. rewrite Hcode in Hc.
  set (gc := mkGuestContext
               (set_GprRax GuestRegisters
                  (Rax (StateSaveArea (GuestVmcb VpData)))) false) in *.
  assert (Hframe : gc1 = gc /\
                   Rax (StateSaveArea (GuestVmcb vp1))
                   = Rax (StateSaveArea (GuestVmcb VpData)) /\
                   Rsp (StateSaveArea (GuestVmcb vp1))
                   = Rsp (StateSaveArea (GuestVmcb VpData)) /\
                   Rflags (StateSaveArea (GuestVmcb vp1))
                   = Rflags (StateSaveArea (GuestVmcb VpData))).
  { destruct (ExitCode (ControlArea (GuestVmcb VpData)) =? VMEXIT_MSR).
    { bind_inv Hc. injection Hc as _ <- <-.
      apply HandleMsrAccess_frame in Hc0. split; [reflexivity|]. tauto. }
    destruct (ExitCode (ControlArea (GuestVmcb VpData)) =? VMEXIT_VMRUN).
    { injection Hc as _ <- <-. repeat split; reflexivity. }
    destruct (ExitCode (ControlArea (GuestVmcb VpData)) =? VMEXIT_EXCEPTION_BP).
    { injection Hc as _ <- <-. unfold HandleBreakPointException.
      destruct (FindHookEntryByAddress g (Rip (StateSaveArea (GuestVmcb VpData))));
        repeat split; reflexivity. }
    destruct (ExitCode (ControlArea (GuestVmcb VpData)) =? VMEXIT_NPF).
    { bind_inv Hc. injection Hc as _ <- <-. repeat split; reflexivity. }
    discriminate. }
  destruct Hframe as [-> [Hrax [Hrsp Hflags]]].
  cbn [ExitVm gc] in H. unfold gc in H. cbn [ExitVm VpRegs] in H.
  bind_inv H. injection H as <- <- <- <- <-.
  split; [reflexivity|]. split; [reflexivity|].
  split; [reflexivity|]. split; [exact Hrsp|]. split; [exact Hflags|].
  destruct (CurrentIrql env <? DISPATCH_LEVEL); reflexivity.
Qed.

Lemma HandleVmExit_keeps_guest_registers_outside_cpuid_witness :
  exists p' VpData' actions,
    HandleVmExit true sample_registrations sample_cpuidex sample_environment
      (mkPhys (fun _ _ => 0) [])
      (mkVpData (sample_vmcb VMEXIT_VMRUN 0 0 0xFFFFF80002000010
                             0xFFFFF80002000013 0x0093)
                (mkHookData 1 [] 0 1 None NptDefault))
      (sample_registers 7 8 9)
    = Done (false, p', VpData', sample_registers 0 8 9, actions) /\
    actions = [svm_vmload 0x11000; KeRaiseIrqlToDpcLevel; KeLowerIrql 0].
Proof.
  eexists _, _, _.
  eassert (Hrun : HandleVmExit true sample_registrations sample_cpuidex
                    sample_environment (mkPhys (fun _ _ => 0) [])
                    (mkVpData (sample_vmcb VMEXIT_VMRUN 0 0 0xFFFFF80002000010
                                           0xFFFFF80002000013 0x0093)
                              (mkHookData 1 [] 0 1 None NptDefault))
                    (sample_registers 7 8 9)
                  = Done (false, _, _, sample_registers 0 8 9, _))
    by (vm_compute; reflexivity).
  split; [exact Hrun|].
  assert (Hcode : VMEXIT_VMRUN <> VMEXIT_CPUID) by discriminate.
  destruct (HandleVmExit_keeps_guest_registers_outside_cpuid
              true sample_registrations sample_cpuidex sample_environment
              (mkPhys (fun _ _ => 0) [])
              (mkVpData (sample_vmcb VMEXIT_VMRUN 0 0 0xFFFFF80002000010
                                     0xFFFFF80002000013 0x0093)
                        (mkHookData 1 [] 0 1 None NptDefault))
              (sample_registers 7 8 9) _ _ _ _ _ Hcode Hrun)
    as [_ [_ [_ [_ [_ Hact]]]]].
  exact Hact.
Defined.

(** What HandleVmExit does on a CPUID exit whose leaf HandleCpuid has no
    case for, or whose case only replaces the registers. *)
Lemma HandleVmExit_cpuid_plain dbg g cpuidex env p VpData GuestRegisters :
  Reserved1 env = MAXUINT64 ->
  ExitCode (ControlArea (GuestVmcb VpData)) = VMEXIT_CPUID ->
  let leaf := to_ULONG (Rax (StateSaveArea (GuestVmcb VpData))) in
  let subLeaf := to_ULONG (Rcx GuestRegisters) in
  leaf <> CPUID_LEAF_SIMPLE_SVM_CALL ->
  let registers :=
    if leaf =? CPUID_PROCESSOR_AND_PROCESSOR_FEATURE_IDENTIFIERS then
      mkCpuidRegisters
        (registers0 (cpuidex leaf subLeaf)) (registers1 (cpuidex leaf subLeaf))
        (registers2 (cpuidex leaf subLeaf))
        (Z.lor (registers3 (cpuidex leaf subLeaf))
               CPUID_FN0000_0001_ECX_HYPERVISOR_PRESENT)
    else if leaf =? CPUID_HV_VENDOR_AND_MAX_FUNCTIONS then
      mkCpuidRegisters CPUID_HV_MAX 0x706D6953 0x7653656C 0x2020206D
    else if leaf =? CPUID_HV_INTERFACE then
      mkCpuidRegisters 0x30237648 0 0 0
    else cpuidex leaf subLeaf in
  exists VpData' regs' actions,
    HandleVmExit dbg g cpuidex env p VpData GuestRegisters
    = Done (false, p, VpData', regs', actions) /\
    resumed_cpuid_registers VpData' regs'
    = mkCpuidRegisters (to_ULONG (registers0 registers))
                       (to_ULONG (registers1 registers))
                       (to_ULONG (registers2 registers))
                       (to_ULONG (registers3 registers)) /\
    HookData VpData' = HookData VpData /\
    ControlArea (GuestVmcb VpData') = ControlArea (GuestVmcb VpData) /\
    Rip (StateSaveArea (GuestVmcb VpData'))
    = NRip (ControlArea (GuestVmcb VpData)).
Proof.
  intros Hres Hcode leaf subLeaf Hcall registers.
  unfold HandleVmExit. rewrite Hres, Z.eqb_refl, NT_ASSERT_true.
  cbn [bind]. rewrite Hcode, Z.eqb_refl.
  unfold HandleCpuid. cbn [VpRegs GprRax Rcx set_GprRax].
  fold leaf subLeaf.
  apply Z.eqb_neq in Hcall. rewrite Hcall.
  subst registers.
  destruct (leaf =? CPUID_PROCESSOR_AND_PROCESSOR_FEATURE_IDENTIFIERS);
    [|destruct (leaf =? CPUID_HV_VENDOR_AND_MAX_FUNCTIONS);
      [|destruct (leaf =? CPUID_HV_INTERFACE)]];
    cbn [bind ExitVm VpRegs]; rewrite ?NT_ASSERT_true; cbn [bind];
    (eexists _, _, _; split; [reflexivity|]);
    unfold resumed_cpuid_registers;
    cbn [GuestVmcb StateSaveArea ControlArea Rax Rbx Rcx Rdx GprRax set_Rax
         set_Rip set_GprRax set_Rbx set_Rcx set_Rdx HookData Rip
         registers0 registers1 registers2 registers3];
    rewrite !to_ULONG_int_to_UINT64; repeat split; reflexivity.
Qed.

(** X20.  A CPUID exit for a leaf other than 1, 0x40000000, 0x40000001 and
    0x41414141 is passed through: HandleVmExit returns FALSE, and the
    guest, once resumed, reads in EAX, EBX, ECX and EDX exactly what the
    hardware CPUID answered for that leaf and sub-leaf (the leaf taken
    from the RAX saved in the VMCB, not from the stale GUEST_REGISTERS).
    Memory, HOOK_DATA and the control area of the VMCB are untouched and
    RIP moves to NRip. *)
Theorem HandleVmExit_cpuid_passes_ordinary_leaves
    dbg g cpuidex env p VpData GuestRegisters :
  Reserved1 env = MAXUINT64 ->
  ExitCode (ControlArea (GuestVmcb VpData)) = VMEXIT_CPUID ->
  let leaf := to_ULONG (Rax (StateSaveArea (GuestVmcb VpData))) in
  let subLeaf := to_ULONG (Rcx GuestRegisters) in
  leaf <> CPUID_PROCESSOR_AND_PROCESSOR_FEATURE_IDENTIFIERS ->
  leaf <> CPUID_HV_VENDOR_AND_MAX_FUNCTIONS ->
  leaf <> CPUID_HV_INTERFACE ->
  leaf <> CPUID_LEAF_SIMPLE_SVM_CALL ->
  0 <= registers0 (cpuidex leaf subLeaf) < 2 ^ 32 ->
  0 <= registers1 (cpuidex leaf subLeaf) < 2 ^ 32 ->
  0 <= registers2 (cpuidex leaf subLeaf) < 2 ^ 32 ->
  0 <= registers3 (cpuidex leaf subLeaf) < 2 ^ 32 ->
  exists VpData' regs' actions,
    HandleVmExit dbg g cpuidex env p VpData GuestRegisters
    = Done (false, p, VpData', regs', actions) /\
    resumed_cpuid_registers VpData' regs' = cpuidex leaf subLeaf /\
    HookData VpData' = HookData VpData /\
    ControlArea (GuestVmcb VpData') = ControlArea (GuestVmcb VpData) /\
    Rip (StateSaveArea (GuestVmcb VpData'))
    = NRip (ControlArea (GuestVmcb VpData)).
Proof.
  intros Hres Hcode leaf subLeaf H1 H2 H3 H4 R0 R1 R2 R3.
  destruct (HandleVmExit_cpuid_plain dbg g cpuidex env p VpData GuestRegisters
              Hres Hcode H4)
    as [VpData' [regs' [actions [Hrun [Hregs Hrest]]]]].
  fold leaf subLeaf in Hregs.
  apply Z.eqb_neq in H1, H2, H3. rewrite H1, H2, H3 in Hregs.
  rewrite !to_ULONG_small in Hregs by assumption.
  exists VpData', regs', actions. split; [exact Hrun|].
  split; [|exact Hrest].
  rewrite Hregs. destruct (cpuidex leaf subLeaf). reflexivity.
Qed.

Lemma HandleVmExit_cpuid_passes_ordinary_leaves_witness :
  exists VpData' regs' actions,
    HandleVmExit true sample_registrations sample_cpuidex sample_environment
      (mkPhys (fun _ _ => 0) []) (sample_cpuid_vp 0x80000001)
      (sample_registers 0 0 0)
    = Done (false, mkPhys (fun _ _ => 0) [], VpData', regs', actions) /\
    resumed_cpuid_registers VpData' regs'
    = mkCpuidRegisters 0x00800F11 0x00100800 0x7ED8320B 0x178BFBFF.
Proof.
  destruct (HandleVmExit_cpuid_passes_ordinary_leaves
              true sample_registrations sample_cpuidex sample_environment
              (mkPhys (fun _ _ => 0) []) (sample_cpuid_vp 0x80000001)
              (sample_registers 0 0 0))
    as [VpData' [regs' [actions [Hrun [Hregs _]]]]].
  - reflexivity.
  - reflexivity.
  - vm_compute. discriminate.
  - vm_compute. discriminate.
  - vm_compute. discriminate.
  - vm_compute. discriminate.
  - vm_compute. split; [discriminate|reflexivity].
  - vm_compute. split; [discriminate|reflexivity].
  - vm_compute. split; [discriminate|reflexivity].
  - vm_compute. split; [discriminate|reflexivity].
  - exists VpData', regs', actions. split; [exact Hrun|exact Hregs].
Defined.

(** X21.  The vendor leaf identifies the hypervisor to its own driver: on
    a CPUID exit for leaf 0x40000000 HandleVmExit returns FALSE with the
    guest registers set so that IsOurHypervisorInstalled, run in the
    resumed guest, reads the vendor string and answers TRUE; EAX is the
    highest hypervisor leaf, 0x40000001.  This holds whatever the hardware
    CPUID answers and whatever the sub-leaf. *)
Theorem HandleVmExit_vendor_leaf_satisfies_IsOurHypervisorInstalled
    dbg g cpuidex env p VpData GuestRegisters :
  Reserved1 env = MAXUINT64 ->
  ExitCode (ControlArea (GuestVmcb VpData)) = VMEXIT_CPUID ->
  to_ULONG (Rax (StateSaveArea (GuestVmcb VpData)))
  = CPUID_HV_VENDOR_AND_MAX_FUNCTIONS ->
  exists VpData' regs' actions,
    HandleVmExit dbg g cpuidex env p VpData GuestRegisters
    = Done (false, p, VpData', regs', actions) /\
    IsOurHypervisorInstalled
      (fun _ => resumed_cpuid_registers VpData' regs') = true /\
    registers0 (resumed_cpuid_registers VpData' regs') = CPUID_HV_MAX /\
    HookData VpData' = HookData VpData.
Proof.
  intros Hres Hcode Hleaf.
  destruct (HandleVmExit_cpuid_plain dbg g cpuidex env p VpData GuestRegisters
              Hres Hcode)
    as [VpData' [regs' [actions [Hrun [Hregs [Hhd _]]]]]].
  { rewrite Hleaf. discriminate. }
  rewrite Hleaf in Hregs. cbn [Z.eqb] in Hregs.
  change (CPUID_HV_VENDOR_AND_MAX_FUNCTIONS
          =? CPUID_PROCESSOR_AND_PROCESSOR_FEATURE_IDENTIFIERS)
    with false in Hregs.
  change (CPUID_HV_VENDOR_AND_MAX_FUNCTIONS =? CPUID_HV_VENDOR_AND_MAX_FUNCTIONS)
    with true in Hregs.
  cbv iota in Hregs.
  exists VpData', regs', actions. split; [exact Hrun|].
  unfold IsOurHypervisorInstalled. rewrite Hregs.
  split; [vm_compute; reflexivity|]. split; [reflexivity|exact Hhd].
Qed.

Lemma HandleVmExit_vendor_leaf_satisfies_IsOurHypervisorInstalled_witness :
  exists VpData' regs' actions,
    HandleVmExit true sample_registrations sample_cpuidex sample_environment
      (mkPhys (fun _ _ => 0) []) (sample_cpuid_vp 0x40000000)
      (sample_registers 0 0 0)
    = Done (false, mkPhys (fun _ _ => 0) [], VpData', regs', actions) /\
    IsOurHypervisorInstalled
      (fun _ => resumed_cpuid_registers VpData' regs') = true.
Proof.
  destruct (HandleVmExit_vendor_leaf_satisfies_IsOurHypervisorInstalled
              true sample_registrations sample_cpuidex sample_environment
              (mkPhys (fun _ _ => 0) []) (sample_cpuid_vp 0x40000000)
              (sample_registers 0 0 0))
    as [VpData' [regs' [actions [Hrun [Hours _]]]]]; try reflexivity.
  exists VpData', regs', actions. split; [exact Hrun|exact Hours].
Defined.

(** X22.  A write to EFER that keeps SVME set goes through untouched: on an
    MSR exit with RCX = 0xC0000080, ExitInfo1 not 0 and bit 12 of the RAX
    saved in the VMCB set, HandleVmExit returns FALSE, the EFER of the
    VMCB becomes EDX:EAX (EAX from the VMCB, EDX from GUEST_REGISTERS,
    both cut to 32 bits) with SVME set, nothing is injected, RIP moves to
    NRip, and memory and HOOK_DATA are as before. *)
Theorem HandleVmExit_efer_write_keeping_svme
    dbg g cpuidex env p VpData GuestRegisters :
  Reserved1 env = MAXUINT64 ->
  ExitCode (ControlArea (GuestVmcb VpData)) = VMEXIT_MSR ->
  Rcx GuestRegisters = IA32_MSR_EFER ->
  ExitInfo1 (ControlArea (GuestVmcb VpData)) <> 0 ->
  Z.testbit (Rax (StateSaveArea (GuestVmcb VpData))) 12 = true ->
  exists VpData' actions,
    HandleVmExit dbg g cpuidex env p VpData GuestRegisters
    = Done (false, p, VpData',
            set_GprRax GuestRegisters (Rax (StateSaveArea (GuestVmcb VpData))),
            actions) /\
    Efer (StateSaveArea (GuestVmcb VpData'))
    = Z.lor (Z.shiftl (Z.land (Rdx GuestRegisters) MAXUINT32) 32)
            (Z.land (Rax (StateSaveArea (GuestVmcb VpData))) MAXUINT32) /\
    Z.testbit (Efer (StateSaveArea (GuestVmcb VpData'))) 12 = true /\
    EventInj (ControlArea (GuestVmcb VpData'))
    = EventInj (ControlArea (GuestVmcb VpData)) /\
    Rip (StateSaveArea (GuestVmcb VpData'))
    = NRip (ControlArea (GuestVmcb VpData)) /\
    HookData VpData' = HookData VpData.
Proof.
  intros Hres Hcode Hrcx Hinfo Hbit.
  set (gc := mkGuestContext
               (set_GprRax GuestRegisters
                  (Rax (StateSaveArea (GuestVmcb VpData)))) false).
  destruct (HandleMsrAccess_always_writes dbg VpData gc Hrcx Hinfo)
    as [vp1 [Hrun [Hefer [Hrip Hev]]]].
  cbn [gc VpRegs GprRax Rdx set_GprRax] in Hefer, Hev.
  assert (Hvbit : Z.testbit
                    (Z.lor (Z.shiftl (Z.land (Rdx GuestRegisters) MAXUINT32) 32)
                       (Z.land (Rax (StateSaveArea (GuestVmcb VpData)))
                               MAXUINT32)) 12 = true).
  { rewrite Z.lor_spec, Z.shiftl_spec by lia.
    rewrite (Z.testbit_neg_r _ (12 - 32)) by lia.
    rewrite Z.land_spec, Hbit. reflexivity. }
  rewrite Hvbit in Hev.
  destruct (HandleMsrAccess_frame _ _ _ _ Hrun) as [Hhd [Hrax _]].
  unfold HandleVmExit. rewrite Hres, Z.eqb_refl, NT_ASSERT_true.
  cbn [bind]. rewrite Hcode.
  change (VMEXIT_MSR =? VMEXIT_CPUID) with false.
  change (VMEXIT_MSR =? VMEXIT_MSR) with true. cbv iota.
  fold gc. rewrite Hrun. cbn [bind ExitVm gc VpRegs].
  rewrite ?NT_ASSERT_true. cbn [bind].
  eexists _, _. split; [reflexivity|].
  cbn [GuestVmcb StateSaveArea ControlArea set_Rax Efer Rip EventInj HookData].
  rewrite Hefer. split; [reflexivity|]. split; [exact Hvbit|].
  split; [exact Hev|]. split; [exact Hrip|exact Hhd].
Qed.

Lemma HandleVmExit_efer_write_keeping_svme_witness :
  exists VpData' actions,
    HandleVmExit true sample_registrations sample_cpuidex sample_environment
      (mkPhys (fun _ _ => 0) [])
      (mkVpData (set_Rax (sample_vmcb VMEXIT_MSR 1 0 0xFFFFF80002000010
                                      0xFFFFF80002000012 0x0093) 0x1D01)
                (mkHookData 1 [] 0 1 None NptDefault))
      (sample_registers 0 IA32_MSR_EFER 0)
    = Done (false, mkPhys (fun _ _ => 0) [], VpData',
            sample_registers 0x1D01 IA32_MSR_EFER 0, actions) /\
    Efer (StateSaveArea (GuestVmcb VpData')) = 0x1D01 /\
    EventInj (ControlArea (GuestVmcb VpData')) = 0.
Proof.
  destruct (HandleVmExit_efer_write_keeping_svme
              true sample_registrations sample_cpuidex sample_environment
              (mkPhys (fun _ _ => 0) [])
              (mkVpData (set_Rax (sample_vmcb VMEXIT_MSR 1 0 0xFFFFF80002000010
                                              0xFFFFF80002000012 0x0093) 0x1D01)
                        (mkHookData 1 [] 0 1 None NptDefault))
              (sample_registers 0 IA32_MSR_EFER 0))
    as [VpData' [actions [Hrun [Hefer [_ [Hev _]]]]]];
    try reflexivity; try (vm_compute; discriminate).
  exists VpData', actions. split; [exact Hrun|]. split; [exact Hefer|exact Hev].
Defined.

(** * Part IV: installing the hooks *)

Lemma Add2Ptr_small P I : 0 <= P + I < 2 ^ 64 -> Add2Ptr P I = P + I.
Proof. intros. unfold Add2Ptr. apply Z.mod_small. assumption. Qed.

Lemma write_bytes_spec (bytes : list Z) : forall m a x,
  0 <= a -> a + Z.of_nat (List.length bytes) <= 2 ^ 64 ->
  write_bytes m a bytes x
  = if (a <=? x) && (x <? a + Z.of_nat (List.length bytes))
    then nth (Z.to_nat (x - a)) bytes 0 else m x.
Proof.
  induction bytes as [|b rest IH]; intros m a x Ha Hlen.
  - cbn [write_bytes List.length]. destruct (Z.leb_spec a x); cbn [andb]; [|reflexivity].
    destruct (Z.ltb_spec x (a + Z.of_nat 0)); [lia|reflexivity].
  - cbn [write_bytes]. cbn [List.length] in *.
    destruct rest as [|b' rest'].
    + cbn [write_bytes]. unfold write_byte. cbn [List.length].
      destruct (Z.eqb_spec x a) as [->|Hne].
      * rewrite Z.leb_refl. destruct (Z.ltb_spec a (a + Z.of_nat 1)); [|lia].
        rewrite Z.sub_diag. reflexivity.
      * destruct (Z.leb_spec a x); cbn [andb]; [|reflexivity].
        destruct (Z.ltb_spec x (a + Z.of_nat 1)); [lia|reflexivity].
    + remember (b' :: rest') as rest eqn:Er.
      assert (Hl : 1 <= Z.of_nat (List.length rest)) by (subst rest; cbn [List.length]; lia).
      rewrite Add2Ptr_small by lia. rewrite IH by lia.
      unfold write_byte.
      destruct (Z.leb_spec (a + 1) x); cbn [andb].
      * destruct (Z.leb_spec a x); [|lia]. cbn [andb].
        replace (a + 1 + Z.of_nat (List.length rest))
          with (a + Z.of_nat (S (List.length rest))) by lia.
        destruct (Z.ltb_spec x (a + Z.of_nat (S (List.length rest)))).
        -- replace (Z.to_nat (x - a)) with (S (Z.to_nat (x - (a + 1)))) by lia.
           reflexivity.
        -- destruct (Z.eqb_spec x a); [lia|reflexivity].
      * destruct (Z.eqb_spec x a) as [->|Hne].
        -- rewrite Z.leb_refl. cbn [andb].
           destruct (Z.ltb_spec a (a + Z.of_nat (S (List.length rest)))); [|lia].
           rewrite Z.sub_diag. reflexivity.
        -- destruct (Z.leb_spec a x); [lia|]. reflexivity.
Qed.

Lemma read_bytes_length m a n : List.length (read_bytes m a n) = n.
Proof. unfold read_bytes. rewrite length_map, length_seq. reflexivity. Qed.

Lemma read_bytes_nth m a n i :
  (i < n)%nat ->
  nth i (read_bytes m a n) 0 = m (Add2Ptr a (Z.of_nat i)).
Proof.
  intros Hi. unfold read_bytes.
  rewrite (nth_indep _ 0 ((fun i => m (Add2Ptr a (Z.of_nat i))) O))
    by (rewrite length_map, length_seq; exact Hi).
  rewrite (map_nth (fun i => m (Add2Ptr a (Z.of_nat i)))).
  rewrite seq_nth by exact Hi. reflexivity.
Qed.

Lemma read_bytes_ext m m' a n :
  (forall i, (i < n)%nat -> m' (Add2Ptr a (Z.of_nat i)) = m (Add2Ptr a (Z.of_nat i))) ->
  read_bytes m' a n = read_bytes m a n.
Proof.
  intros H. unfold read_bytes. apply map_ext_in. intros i Hi.
  apply in_seq in Hi. apply H. lia.
Qed.

Lemma read_write_bytes m a (bytes : list Z) :
  0 <= a -> a + Z.of_nat (List.length bytes) <= 2 ^ 64 ->
  read_bytes (write_bytes m a bytes) a (List.length bytes) = bytes.
Proof.
  intros Ha Hlen. apply (nth_ext _ _ 0 0).
  - apply read_bytes_length.
  - intros i Hi. rewrite read_bytes_length in Hi.
    rewrite read_bytes_nth by exact Hi.
    rewrite Add2Ptr_small by lia. rewrite write_bytes_spec by lia.
    destruct (Z.leb_spec a (a + Z.of_nat i)); [|lia].
    destruct (Z.ltb_spec (a + Z.of_nat i) (a + Z.of_nat (List.length bytes)));
      [|lia].
    cbn [andb]. f_equal. lia.
Qed.

Lemma PAGE_ALIGN_div a : PAGE_ALIGN a = 4096 * (a / 4096).
Proof.
  unfold PAGE_ALIGN. change (PAGE_SIZE - 1) with (Z.ones 12).
  rewrite Z.ldiff_ones_r by lia.
  rewrite Z.shiftl_mul_pow2, Z.shiftr_div_pow2 by lia.
  change (2 ^ 12) with 4096. lia.
Qed.

Lemma BYTE_OFFSET_mod a : BYTE_OFFSET a = a mod 4096.
Proof.
  unfold BYTE_OFFSET. change (PAGE_SIZE - 1) with (Z.ones 12).
  rewrite Z.land_ones by lia. reflexivity.
Qed.

Lemma BYTE_OFFSET_range a : 0 <= BYTE_OFFSET a < PAGE_SIZE.
Proof.
  rewrite BYTE_OFFSET_mod. unfold PAGE_SIZE. apply Z.mod_pos_bound. lia.
Qed.

Lemma PAGE_ALIGN_plus_BYTE_OFFSET a : PAGE_ALIGN a + BYTE_OFFSET a = a.
Proof.
  rewrite PAGE_ALIGN_div, BYTE_OFFSET_mod. symmetry. apply Z.div_mod. lia.
Qed.

(** Two addresses [a] and [a + d] lie on one page exactly when [d] does
    not carry [a] over the end of its page. *)
Lemma same_page a d :
  0 <= d ->
  (PAGE_ALIGN (a + d) =? PAGE_ALIGN a) = (BYTE_OFFSET a + d <? PAGE_SIZE).
Proof.
  intros Hd. rewrite !PAGE_ALIGN_div, BYTE_OFFSET_mod. unfold PAGE_SIZE.
  pose proof (Z.div_mod a 4096 ltac:(lia)) as Ha.
  pose proof (Z.mod_pos_bound a 4096 ltac:(lia)) as Hr.
  set (q := a / 4096) in *. set (r := a mod 4096) in *.
  replace (a + d) with (q * 4096 + (r + d)) by lia.
  rewrite Z.div_add_l by lia.
  destruct (Z.ltb_spec (r + d) 4096).
  - rewrite Z.div_small by lia. apply Z.eqb_eq. lia.
  - apply Z.eqb_neq.
    assert (1 <= (r + d) / 4096) by (apply Z.div_le_lower_bound; lia). lia.
Qed.

Lemma FindFirstInstruction_length m HookAddress_ ok n :
  FindFirstInstruction m HookAddress_ = (ok, n) ->
  if ok then 2 <= n <= 5 else n = 0.
Proof.
  unfold FindFirstInstruction, knownPatterns. cbn [FindFirstInstruction_in].
  intros H.
  repeat match type of H with
         | context [if ?c then _ else _] => destruct c
         end;
    injection H as <- <-; cbn; lia.
Qed.

(** A 64-bit value is the little-endian reading of its eight bytes. *)
Lemma bytes_of_PVOID_decode x :
  0 <= x < 2 ^ 64 ->
  fold_right (fun b acc => Z.lor b (Z.shiftl acc 8)) 0 (bytes_of_PVOID x) = x.
Proof.
  intros Hx. unfold bytes_of_PVOID. cbn [seq map fold_right].
  change 255 with (Z.ones 8).
  apply Z.bits_inj'. intros i Hi.
  assert (Hhigh : 64 <= i -> Z.testbit x i = false).
  { intros. destruct (Z.eq_dec x 0) as [->|Hne]; [apply Z.bits_0|].
    apply Z.bits_above_log2; [lia|].
    apply Z.log2_lt_pow2; [lia|].
    apply Z.lt_le_trans with (2 ^ 64); [lia|].
    apply Z.pow_le_mono_r; lia. }
  repeat (rewrite Z.lor_spec || rewrite Z.land_spec).
  repeat match goal with
         | |- context [Z.testbit (Z.shiftl ?a 8) ?j] =>
             destruct (Z.ltb_spec j 8);
             [rewrite (Z.shiftl_spec_low a 8 j) by lia
             |rewrite (Z.shiftl_spec a 8 j) by lia;
              rewrite ?Z.lor_spec, ?Z.land_spec]
         end;
    rewrite ?Z.shiftr_spec by lia; rewrite ?Z.bits_0;
    repeat match goal with
           | |- context [Z.testbit (Z.ones 8) ?j] =>
               first [rewrite (Z.ones_spec_low 8 j) by lia
                     |rewrite (Z.ones_spec_high 8 j) by lia]
           end;
    rewrite ?andb_true_r, ?andb_false_r, ?orb_false_r, ?orb_false_l;
    try (f_equal; lia).
  symmetry. apply Hhigh. lia.
Qed.

(** Memory after a successful InstallHookOnExecPage, address by address. *)
Lemma InstallHookOnExecPage_memory k m HookAddress_ ExecPage_ status stub m' :
  InstallHookOnExecPage k m HookAddress_ ExecPage_ = (status, stub, m') ->
  NT_SUCCESS status = true ->
  0 <= HookAddress_ -> HookAddress_ + 5 < 2 ^ 64 ->
  0 <= stub -> stub + 20 <= 2 ^ 64 ->
  0 <= ExecPage_ -> ExecPage_ + PAGE_SIZE <= 2 ^ 64 ->
  exists n,
    FindFirstInstruction m HookAddress_ = (true, n) /\ 2 <= n <= 5 /\
    BYTE_OFFSET HookAddress_ + n <= PAGE_SIZE /\
    stub = ExAllocatePoolWithTag k (n + sizeof_JMP_CODE) /\ stub <> 0 /\
    status = STATUS_SUCCESS /\
    forall a,
      m' a
      = if a =? ExecPage_ + BYTE_OFFSET HookAddress_ then 0xcc
        else if (stub + n <=? a) && (a <? stub + n + 15)
        then nth (Z.to_nat (a - (stub + n)))
                 (CreateJumpCode (HookAddress_ + n)) 0
        else if (stub <=? a) && (a <? stub + n)
        then m (HookAddress_ + (a - stub))
        else m a.
Proof.
  unfold InstallHookOnExecPage. intros H Hok HH0 HH1 Hs0 Hs1 He0 He1.
  destruct (FindFirstInstruction m HookAddress_) as [ok n] eqn:F.
  pose proof (FindFirstInstruction_length _ _ _ _ F) as Hn.
  destruct ok; cbn [negb] in H; [|injection H as <- _ _; discriminate].
  rewrite Add2Ptr_small in H by lia.
  rewrite same_page in H by lia.
  destruct (Z.ltb_spec (BYTE_OFFSET HookAddress_ + (n - 1)) PAGE_SIZE) as [Hp|Hp];
    cbn [negb] in H; [|injection H as <- _ _; discriminate].
  destruct (Z.eqb_spec (ExAllocatePoolWithTag k (n + sizeof_JMP_CODE)) 0)
    as [Ez|Ez]; [injection H as <- _ _; discriminate|].
  apply pair_equal_spec in H. destruct H as [H Hm'].
  apply pair_equal_spec in H. destruct H as [Hst Hstub].
  subst status stub m'.
  exists n. split; [reflexivity|]. split; [exact Hn|]. split; [lia|].
  split; [reflexivity|]. split; [exact Ez|]. split; [reflexivity|].
  set (stub := ExAllocatePoolWithTag k (n + sizeof_JMP_CODE)) in *.
  pose proof (BYTE_OFFSET_range HookAddress_) as Hoff. unfold PAGE_SIZE in *.
  intros a. unfold write_byte.
  rewrite (Add2Ptr_small ExecPage_) by lia.
  destruct (Z.eqb_spec a (ExecPage_ + BYTE_OFFSET HookAddress_)); [reflexivity|].
  rewrite (Add2Ptr_small stub) by lia.
  rewrite (Add2Ptr_small HookAddress_) by lia.
  rewrite write_bytes_spec by (cbn [List.length CreateJumpCode app bytes_of_PVOID map seq]; lia).
  change (Z.of_nat (List.length (CreateJumpCode (HookAddress_ + n)))) with 15.
  destruct ((stub + n <=? a) && (a <? stub + n + 15)) eqn:Ej; [reflexivity|].
  unfold RtlCopyMemory.
  rewrite write_bytes_spec by (rewrite ?read_bytes_length; lia).
  rewrite read_bytes_length. rewrite Z2Nat.id by lia.
  destruct (Z.leb_spec stub a); cbn [andb]; [|reflexivity].
  destruct (Z.ltb_spec a (stub + n)); [|reflexivity].
  rewrite read_bytes_nth by lia. rewrite Z2Nat.id by lia.
  rewrite Add2Ptr_small by lia. reflexivity.
Qed.

(** X23.  What a successful InstallHookOnExecPage leaves behind.  The
    first instruction at the hook address was recognised, is 2 to 5 bytes
    long and lies within one page.  The stub returned holds a copy of that
    instruction followed by the 15 bytes of [nop; jmp qword ptr [rip+0]]
    and the address of the next instruction of the hooked function, so
    calling the stub runs the original function.  The byte of the exec
    page at the page offset of the hook address is 0xCC.  No other byte of
    memory has changed; in particular the hooked function itself is
    untouched. *)
Theorem InstallHookOnExecPage_builds_stub_and_breakpoint
    k m HookAddress_ ExecPage_ status stub m' :
  InstallHookOnExecPage k m HookAddress_ ExecPage_ = (status, stub, m') ->
  NT_SUCCESS status = true ->
  0 <= HookAddress_ -> HookAddress_ + 5 < 2 ^ 64 ->
  0 <= stub -> stub + 20 <= 2 ^ 64 ->
  0 <= ExecPage_ -> ExecPage_ + PAGE_SIZE <= 2 ^ 64 ->
  let breakpoint := ExecPage_ + BYTE_OFFSET HookAddress_ in
  ~ stub <= breakpoint < stub + 20 ->
  exists n,
    FindFirstInstruction m HookAddress_ = (true, n) /\ 2 <= n <= 5 /\
    BYTE_OFFSET HookAddress_ + n <= PAGE_SIZE /\
    stub = ExAllocatePoolWithTag k (n + 15) /\ stub <> 0 /\
    read_bytes m' stub (Z.to_nat n) = read_bytes m HookAddress_ (Z.to_nat n) /\
    read_bytes m' (stub + n) 15
    = [0x90; 0xff; 0x25; 0; 0; 0; 0] ++ bytes_of_PVOID (HookAddress_ + n) /\
    read_ULONG64 m' (stub + n + 7) = HookAddress_ + n /\
    m' breakpoint = 0xcc /\
    forall a, ~ stub <= a < stub + n + 15 -> a <> breakpoint -> m' a = m a.
Proof.
  intros H Hok HH0 HH1 Hs0 Hs1 He0 He1 breakpoint Hbp.
  destruct (InstallHookOnExecPage_memory _ _ _ _ _ _ _ H Hok HH0 HH1 Hs0 Hs1
              He0 He1)
    as [n [F [Hn [Hpage [Hstub [Hnz [_ Hm]]]]]]].
  fold breakpoint in Hm.
  exists n. split; [exact F|]. split; [exact Hn|]. split; [exact Hpage|].
  split; [exact Hstub|]. split; [exact Hnz|].
  assert (Hjmp : read_bytes m' (stub + n) 15 = CreateJumpCode (HookAddress_ + n)).
  { apply (nth_ext _ _ 0 0); [reflexivity|].
    intros i Hi. rewrite read_bytes_length in Hi.
    rewrite read_bytes_nth by exact Hi. rewrite Add2Ptr_small by lia.
    rewrite Hm.
    destruct (Z.eqb_spec (stub + n + Z.of_nat i) breakpoint); [lia|].
    destruct (Z.leb_spec (stub + n) (stub + n + Z.of_nat i)); [|lia].
    destruct (Z.ltb_spec (stub + n + Z.of_nat i) (stub + n + 15)); [|lia].
    cbn [andb]. f_equal. lia. }
  split.
  { unfold read_bytes. apply map_ext_in. intros i Hi. apply in_seq in Hi.
    rewrite !Add2Ptr_small by lia. rewrite Hm.
    destruct (Z.eqb_spec (stub + Z.of_nat i) breakpoint); [lia|].
    destruct (Z.leb_spec (stub + n) (stub + Z.of_nat i)); [lia|].
    cbn [andb].
    destruct (Z.leb_spec stub (stub + Z.of_nat i)); [|lia].
    destruct (Z.ltb_spec (stub + Z.of_nat i) (stub + n)); [|lia].
    cbn [andb]. f_equal. lia. }
  split; [exact Hjmp|].
  split.
  { unfold read_ULONG64.
    replace (read_bytes m' (stub + n + 7) 8)
      with (bytes_of_PVOID (HookAddress_ + n)).
    - apply bytes_of_PVOID_decode. lia.
    - apply (nth_ext _ _ 0 0); [reflexivity|].
      intros i Hi. change (List.length (bytes_of_PVOID (HookAddress_ + n)))
        with 8%nat in Hi.
      rewrite read_bytes_nth by exact Hi. rewrite Add2Ptr_small by lia.
      replace (stub + n + 7 + Z.of_nat i)
        with (Add2Ptr (stub + n) (Z.of_nat (7 + i)))
        by (rewrite Add2Ptr_small by lia; lia).
      rewrite <- (read_bytes_nth m' (stub + n) 15) by lia.
      rewrite Hjmp. unfold CreateJumpCode.
      change ([144] ++ [255; 37; 0; 0; 0; 0] ++ bytes_of_PVOID (HookAddress_ + n))
        with ([144; 255; 37; 0; 0; 0; 0] ++ bytes_of_PVOID (HookAddress_ + n)).
      rewrite app_nth2 by (cbn [List.length]; lia).
      f_equal. cbn [List.length]. lia. }
  split.
  { rewrite Hm. rewrite Z.eqb_refl. reflexivity. }
  intros a Ha Hne. rewrite Hm.
  destruct (Z.eqb_spec a breakpoint); [contradiction|].
  destruct (Z.leb_spec (stub + n) a); cbn [andb].
  - destruct (Z.ltb_spec a (stub + n + 15)); [lia|].
    destruct (Z.leb_spec stub a); cbn [andb]; [|reflexivity].
    destruct (Z.ltb_spec a (stub + n)); [lia|reflexivity].
  - destruct (Z.leb_spec stub a); cbn [andb]; [|reflexivity].
    destruct (Z.ltb_spec a (stub + n)); [lia|reflexivity].
Qed.

Lemma InstallHookOnExecPage_builds_stub_and_breakpoint_witness :
  exists m',
    InstallHookOnExecPage sample_kernel sample_vmem
      0xFFFFF80002A31234 0xFFFFF88004000000
    = (STATUS_SUCCESS, 0xFFFFF88003D00000, m') /\
    read_bytes m' 0xFFFFF88003D00000 5 = [0x48; 0x89; 0x5c; 0x24; 0x08] /\
    read_ULONG64 m' 0xFFFFF88003D0000C = 0xFFFFF80002A31239 /\
    m' 0xFFFFF88004000234 = 0xcc.
Proof.
  eexists.
  eassert (Hrun : InstallHookOnExecPage sample_kernel sample_vmem
                    0xFFFFF80002A31234 0xFFFFF88004000000
                  = (STATUS_SUCCESS, 0xFFFFF88003D00000, _))
    by (vm_compute; reflexivity).
  split; [exact Hrun|].
  destruct (InstallHookOnExecPage_builds_stub_and_breakpoint _ _ _ _ _ _ _ Hrun)
    as [n [F [_ [_ [_ [_ [Hcopy [_ [Hjump [Hbp _]]]]]]]]]];
    [reflexivity|vm_compute; intuition discriminate..|].
  assert (En : n = 5) by (vm_compute in F; injection F as <-; reflexivity).
  subst n.
  split; [exact Hcopy|]. split; [exact Hjump|exact Hbp].
Defined.

(** X24.  InstallHookOnExecPage succeeds exactly when the bytes at the
    hook address start with a known pattern, the instruction found ends
    within the page it starts in, and the pool gives memory for the stub.
    When it fails it returns no stub and has written nothing: no 0xCC
    reaches the exec page. *)
Theorem InstallHookOnExecPage_success_iff
    k m HookAddress_ ExecPage_ status stub m' :
  InstallHookOnExecPage k m HookAddress_ ExecPage_ = (status, stub, m') ->
  0 <= HookAddress_ -> HookAddress_ + 5 < 2 ^ 64 ->
  (NT_SUCCESS status = true <->
   exists n, FindFirstInstruction m HookAddress_ = (true, n) /\
             BYTE_OFFSET HookAddress_ + n <= PAGE_SIZE /\
             ExAllocatePoolWithTag k (n + 15) <> 0) /\
  (NT_SUCCESS status = false -> stub = 0 /\ m' = m).
Proof.
  unfold InstallHookOnExecPage. intros H HH0 HH1.
  destruct (FindFirstInstruction m HookAddress_) as [ok n] eqn:F.
  pose proof (FindFirstInstruction_length _ _ _ _ F) as Hn.
  destruct ok; cbn [negb] in H.
  2:{ apply pair_equal_spec in H. destruct H as [H Hm'].
      apply pair_equal_spec in H. destruct H as [Hst Hstub].
      subst status stub m'. split; [|auto].
      split; [discriminate|]. intros [n' [E _]]. discriminate. }
  rewrite Add2Ptr_small in H by lia. rewrite same_page in H by lia.
  destruct (Z.ltb_spec (BYTE_OFFSET HookAddress_ + (n - 1)) PAGE_SIZE) as [Hp|Hp];
    cbn [negb] in H.
  2:{ apply pair_equal_spec in H. destruct H as [H Hm'].
      apply pair_equal_spec in H. destruct H as [Hst Hstub].
      subst status stub m'. split; [|auto].
      split; [discriminate|]. intros [n' [E [Hpage _]]].
      injection E as <-. lia. }
  change sizeof_JMP_CODE with 15 in H.
  destruct (Z.eqb_spec (ExAllocatePoolWithTag k (n + 15)) 0) as [Ez|Ez];
    apply pair_equal_spec in H; destruct H as [H Hm'];
    apply pair_equal_spec in H; destruct H as [Hst Hstub];
    subst status stub.
  - subst m'. split; [|auto].
    split; [discriminate|]. intros [n' [E [_ Hnz]]].
    injection E as <-. contradiction.
  - split; [|discriminate].
    split; [|reflexivity]. intros _. exists n.
    split; [reflexivity|]. split; [lia|exact Ez].
Qed.

Lemma InstallHookOnExecPage_success_iff_witness :
  InstallHookOnExecPage sample_kernel
    sample_vmem_page_end 0xFFFFF80002A31FFD 0xFFFFF88004000000
  = (STATUS_UNSUCCESSFUL, 0, sample_vmem_page_end) /\
  FindFirstInstruction sample_vmem_page_end 0xFFFFF80002A31FFD
  = (true, 5).
Proof.
  split; [|vm_compute; reflexivity].
  assert (Hrun : InstallHookOnExecPage sample_kernel
                   sample_vmem_page_end
                   0xFFFFF80002A31FFD 0xFFFFF88004000000
                 = (STATUS_UNSUCCESSFUL, 0,
                    snd (InstallHookOnExecPage sample_kernel
                           sample_vmem_page_end
                           0xFFFFF80002A31FFD 0xFFFFF88004000000)))
    by (vm_compute; reflexivity).
  destruct (InstallHookOnExecPage_success_iff _ _ _ _ _ _ _ Hrun) as [_ Hfail];
    [vm_compute; intuition discriminate..|].
  destruct (Hfail eq_refl) as [_ Hm]. rewrite Hm in Hrun. exact Hrun.
Defined.

(** ** The table of shared memory entries *)

Lemma GetSharedMemoryEntry_loop_spec entries base : forall j i found,
  GetSharedMemoryEntry_loop entries base j = Some (i, found) ->
  (j <= i < j + List.length entries)%nat /\
  exists e, nth_error entries (i - j) = Some e /\
            if found then HookAddressBase e = base
            else HookAddressBase e = 0 /\ base <> 0.
Proof.
  induction entries as [|e rest IH]; intros j i found H;
    cbn [GetSharedMemoryEntry_loop] in H; [discriminate|].
  destruct (Z.eqb_spec (HookAddressBase e) base) as [Eb|Eb].
  - injection H as <- <-. cbn [List.length]. split; [lia|].
    rewrite Nat.sub_diag. exists e. auto.
  - destruct (Z.eqb_spec (HookAddressBase e) 0) as [Ez|Ez].
    + injection H as <- <-. cbn [List.length]. split; [lia|].
      rewrite Nat.sub_diag. exists e. split; [reflexivity|].
      split; [exact Ez|congruence].
    + destruct (IH _ _ _ H) as [Hr [e' [He' Hf]]].
      cbn [List.length]. split; [lia|].
      exists e'. replace (i - j)%nat with (S (i - S j)) by lia.
      cbn [nth_error]. auto.
Qed.

Lemma GetSharedMemoryEntry_loop_unmanaged entries base : forall j i,
  (forall e, In e entries -> HookAddressBase e <> base) ->
  GetSharedMemoryEntry_loop entries base j <> Some (i, true).
Proof.
  induction entries as [|e rest IH]; intros j i Hno;
    cbn [GetSharedMemoryEntry_loop]; [discriminate|].
  destruct (Z.eqb_spec (HookAddressBase e) base) as [Eb|Eb].
  - exfalso. apply (Hno e); [left; reflexivity|exact Eb].
  - destruct (HookAddressBase e =? 0); [congruence|].
    apply IH. intros e' He'. apply Hno. right. exact He'.
Qed.

Lemma GetSharedMemoryEntry_loop_assigned entries base x : forall j i,
  GetSharedMemoryEntry_loop entries base j = Some (i, false) ->
  HookAddressBase x = base ->
  GetSharedMemoryEntry_loop (assign_entry entries (i - j) x) base j
  = Some (i, true).
Proof.
  induction entries as [|e rest IH]; intros j i H Hx;
    cbn [GetSharedMemoryEntry_loop] in H; [discriminate|].
  destruct (Z.eqb_spec (HookAddressBase e) base) as [Eb|Eb]; [discriminate|].
  destruct (Z.eqb_spec (HookAddressBase e) 0) as [Ez|Ez].
  - injection H as <-. rewrite Nat.sub_diag.
    cbn [assign_entry GetSharedMemoryEntry_loop].
    rewrite Hx, Z.eqb_refl. reflexivity.
  - pose proof (GetSharedMemoryEntry_loop_spec _ _ _ _ _ H) as [Hr _].
    replace (i - j)%nat with (S (i - S j)) by lia.
    cbn [assign_entry GetSharedMemoryEntry_loop].
    destruct (Z.eqb_spec (HookAddressBase e) base); [contradiction|].
    destruct (Z.eqb_spec (HookAddressBase e) 0); [contradiction|].
    apply IH; assumption.
Qed.

Lemma nth_error_assign_entry {A : Type} (l : list A) x : forall i,
  (i < List.length l)%nat -> nth_error (assign_entry l i x) i = Some x.
Proof.
  induction l as [|y rest IH]; intros i Hi; cbn [List.length] in Hi; [lia|].
  destruct i as [|i']; cbn [assign_entry nth_error]; [reflexivity|].
  apply IH. lia.
Qed.

Lemma Done_tuple5_inv {A B C D E : Type}
    (a a' : A) (b b' : B) (c c' : C) (d d' : D) (e e' : E) :
  Done (a, b, c, d, e) = Done (a', b', c', d', e') ->
  a = a' /\ b = b' /\ c = c' /\ d = d' /\ e = e'.
Proof. intros H. injection H. auto. Qed.

(** The two ways GetSharedMemoryEntry hands out an entry. *)
Lemma GetSharedMemoryEntry_Some dbg k table m HookAddress_
    status index table' m' released :
  GetSharedMemoryEntry dbg k table m HookAddress_
  = Done (status, Some index, table', m', released) ->
  let base := PAGE_ALIGN HookAddress_ in
  status = STATUS_SUCCESS /\ released = [] /\
  ((GetSharedMemoryEntry_loop table base 0 = Some (index, true) /\
    table' = table /\ m' = m)
   \/
   (GetSharedMemoryEntry_loop table base 0 = Some (index, false) /\
    ExAllocatePoolWithTag k PAGE_SIZE <> 0 /\
    table' = assign_entry table index
               (mkSharedMemoryEntry base (ExAllocatePoolWithTag k PAGE_SIZE)
                                    (IoAllocateMdl k base)) /\
    m' = RtlCopyMemory m (ExAllocatePoolWithTag k PAGE_SIZE) base PAGE_SIZE)).
Proof.
  intros H base. unfold GetSharedMemoryEntry in H. fold base in H.
  assert (Hcreate :
    forall found,
      GetSharedMemoryEntry_loop table base 0 = found ->
      (forall i, found <> Some (i, true)) ->
      (NT_ASSERT dbg (is_some match found with
                              | Some (i, _) => Some i | None => None end) ;;;
       (let execPage := ExAllocatePoolWithTag k PAGE_SIZE in
        if execPage =? 0
        then Done (STATUS_INSUFFICIENT_RESOURCES, None, table, m, [])
        else
          NT_ASSERT dbg (execPage =? PAGE_ALIGN execPage) ;;;
          (let m0 := RtlCopyMemory m execPage base PAGE_SIZE in
           let mdl := IoAllocateMdl k base in
           if mdl =? 0
           then Done (STATUS_UNSUCCESSFUL, None, table, m0,
                      [ExFreePoolWithTag execPage])
           else
             match MmProbeAndLockPages k mdl with
             | Some status0 =>
                 Done (status0, None, table, m0,
                       IoFreeMdl mdl
                       :: (if negb (NT_SUCCESS status0)
                           then [ExFreePoolWithTag execPage] else []))
             | None =>
                 index0 <- deref match found with
                                 | Some (i, _) => Some i | None => None end ;;
                 Done (STATUS_SUCCESS, Some index0,
                       assign_entry table index0
                         (mkSharedMemoryEntry base execPage mdl), m0, [])
             end)))
      = Done (status, Some index, table', m', released) ->
      status = STATUS_SUCCESS /\ released = [] /\
      found = Some (index, false) /\
      ExAllocatePoolWithTag k PAGE_SIZE <> 0 /\
      table' = assign_entry table index
                 (mkSharedMemoryEntry base (ExAllocatePoolWithTag k PAGE_SIZE)
                                      (IoAllocateMdl k base)) /\
      m' = RtlCopyMemory m (ExAllocatePoolWithTag k PAGE_SIZE) base PAGE_SIZE).
  { intros found Ef Hnot R. cbv zeta in R.
    remember (RtlCopyMemory m (ExAllocatePoolWithTag k PAGE_SIZE) base PAGE_SIZE)
      as m0 eqn:Em0.
    bind_inv R. clear Hc a.
    destruct (Z.eqb_spec (ExAllocatePoolWithTag k PAGE_SIZE) 0) as [Ez|Ez];
      [discriminate R|].
    bind_inv R. clear Hc a.
    destruct (IoAllocateMdl k base =? 0); [discriminate R|].
    destruct (MmProbeAndLockPages k (IoAllocateMdl k base)); [discriminate R|].
    bind_inv R.
    destruct found as [[i [|]]|]; cbn [deref] in Hc; try discriminate Hc.
    { exfalso. apply (Hnot i). reflexivity. }
    injection Hc as <-.
    apply Done_tuple5_inv in R. destruct R as [Hst [Hi [Ht [Hm' Hrel]]]].
    injection Hi as <-. subst. repeat split; try reflexivity. exact Ez. }
  destruct (GetSharedMemoryEntry_loop table base 0) as [[i [|]]|] eqn:L.
  - apply Done_tuple5_inv in H. destruct H as [Hst [Hi [Ht [Hm' Hrel]]]].
    injection Hi as <-. subst. split; [reflexivity|]. split; [reflexivity|].
    left. auto.
  - destruct (Hcreate (Some (i, false)) eq_refl ltac:(congruence) H)
      as [Hs [Hr [Hf [Hz [Ht Hm]]]]].
    injection Hf as <-. split; [exact Hs|]. split; [exact Hr|]. right. auto.
  - destruct (Hcreate None eq_refl ltac:(congruence) H)
      as [_ [_ [Hf _]]]. discriminate.
Qed.

(** X25.  Hooks on one page share one entry.  Once GetSharedMemoryEntry
    has handed out an entry for an address, a later call for any address
    on the same page returns that same entry with STATUS_SUCCESS, whatever
    the kernel would answer: nothing is allocated, copied or released, the
    table is unchanged, and the entry manages the page of the address. *)
Theorem GetSharedMemoryEntry_reuses_entry_of_page
    dbg k table m HookAddress_ status index table' m' released :
  GetSharedMemoryEntry dbg k table m HookAddress_
  = Done (status, Some index, table', m', released) ->
  (exists e, nth_error table' index = Some e /\
             HookAddressBase e = PAGE_ALIGN HookAddress_) /\
  forall dbg2 k2 m2 OtherAddress,
    PAGE_ALIGN OtherAddress = PAGE_ALIGN HookAddress_ ->
    GetSharedMemoryEntry dbg2 k2 table' m2 OtherAddress
    = Done (STATUS_SUCCESS, Some index, table', m2, []).
Proof.
  intros H.
  destruct (GetSharedMemoryEntry_Some _ _ _ _ _ _ _ _ _ _ H)
    as [_ [_ [[L [-> _]]|[L [_ [-> _]]]]]].
  - destruct (GetSharedMemoryEntry_loop_spec _ _ _ _ _ L) as [_ [e [He Hb]]].
    rewrite Nat.sub_0_r in He. split; [exists e; auto|].
    intros dbg2 k2 m2 B HB. unfold GetSharedMemoryEntry.
    rewrite HB, L. reflexivity.
  - destruct (GetSharedMemoryEntry_loop_spec _ _ _ _ _ L) as [Hr _].
    split.
    + eexists. split; [apply nth_error_assign_entry; lia|reflexivity].
    + intros dbg2 k2 m2 B HB. unfold GetSharedMemoryEntry. rewrite HB.
      pose proof (GetSharedMemoryEntry_loop_assigned table
                    (PAGE_ALIGN HookAddress_)
                    (mkSharedMemoryEntry (PAGE_ALIGN HookAddress_)
                       (ExAllocatePoolWithTag k PAGE_SIZE)
                       (IoAllocateMdl k (PAGE_ALIGN HookAddress_)))
                    0 index L eq_refl) as L'.
      rewrite Nat.sub_0_r in L'. rewrite L'. reflexivity.
Qed.

Lemma GetSharedMemoryEntry_reuses_entry_of_page_witness :
  let table' :=
    [mkSharedMemoryEntry 0xFFFFF80002A31000 0xFFFFF88004000000
                         0xFFFFFA8001000000;
     mkSharedMemoryEntry 0 0 0] in
  let m' := RtlCopyMemory sample_vmem 0xFFFFF88004000000 0xFFFFF80002A31000
                          PAGE_SIZE in
  GetSharedMemoryEntry true sample_kernel sample_shared_table sample_vmem
    0xFFFFF80002A31234
  = Done (STATUS_SUCCESS, Some O, table', m', []) /\
  GetSharedMemoryEntry true
    (mkKernelAnswers (fun _ => 0) (fun _ => 0) (fun _ => None) (fun _ => 0))
    table' m' 0xFFFFF80002A31800
  = Done (STATUS_SUCCESS, Some O, table', m', []).
Proof.
  intros table' m'.
  assert (Hrun : GetSharedMemoryEntry true sample_kernel sample_shared_table
                   sample_vmem 0xFFFFF80002A31234
                 = Done (STATUS_SUCCESS, Some O, table', m', []))
    by reflexivity.
  split; [exact Hrun|].
  destruct (GetSharedMemoryEntry_reuses_entry_of_page _ _ _ _ _ _ _ _ _ _ Hrun)
    as [_ Hshare].
  apply Hshare. reflexivity.
Defined.

Lemma PAGE_ALIGN_range a :
  0 <= a < 2 ^ 64 -> 0 <= PAGE_ALIGN a /\ PAGE_ALIGN a + PAGE_SIZE <= 2 ^ 64.
Proof.
  intros Ha. rewrite PAGE_ALIGN_div. unfold PAGE_SIZE.
  assert (0 <= a / 4096) by (apply Z.div_pos; lia).
  assert (a / 4096 < 2 ^ 52) by (apply Z.div_lt_upper_bound; lia).
  lia.
Qed.

Lemma RtlCopyMemory_page m Destination Source a :
  0 <= Destination -> Destination + PAGE_SIZE <= 2 ^ 64 ->
  0 <= Source -> Source + PAGE_SIZE <= 2 ^ 64 ->
  RtlCopyMemory m Destination Source PAGE_SIZE a
  = if (Destination <=? a) && (a <? Destination + PAGE_SIZE)
    then m (Source + (a - Destination)) else m a.
Proof.
  intros Hd0 Hd1 Hs0 Hs1. unfold RtlCopyMemory.
  rewrite write_bytes_spec by (rewrite ?read_bytes_length; unfold PAGE_SIZE in *; lia).
  rewrite read_bytes_length.
  replace (Z.of_nat (Z.to_nat PAGE_SIZE)) with PAGE_SIZE by (unfold PAGE_SIZE; lia).
  destruct (Z.leb_spec Destination a); cbn [andb]; [|reflexivity].
  destruct (Z.ltb_spec a (Destination + PAGE_SIZE)); [|reflexivity].
  unfold PAGE_SIZE in *.
  rewrite read_bytes_nth by lia. rewrite Z2Nat.id by lia.
  rewrite Add2Ptr_small by lia. reflexivity.
Qed.

(** X26.  The first hook installed on a page.  When InitializeHookEntry
    succeeds for an address whose page no shared memory entry manages yet,
    the exec page it records in the HOOK_ENTRY is a fresh pool page that
    holds a copy of the hooked page with the single byte at the hook
    address replaced by 0xCC, the hooked page itself is byte for byte
    unchanged (the hook is visible only through the exec page), the
    HOOK_ENTRY carries the handler, the hook address and the physical
    addresses of both pages, the new shared memory entry is in the table,
    and nothing was released.  OriginalCallStub of the HOOK_ENTRY is the
    stub InstallHookOnExecPage returned: with [n] the length of the first
    instruction found at the hook address (after the page was copied), it
    is the non-null pool allocation of [n + sizeof(JMP_CODE)] bytes, and
    holds the [n] bytes of that instruction as they are in the hooked
    page, followed by the jump to the instruction after it. *)
Theorem InitializeHookEntry_first_hook_on_page
    dbg k table m Handler_ HookAddress_ status entry table' m' released :
  InitializeHookEntry dbg k table m Handler_ HookAddress_
  = Done (status, entry, table', m', released) ->
  NT_SUCCESS status = true ->
  (forall e, In e table -> HookAddressBase e <> PAGE_ALIGN HookAddress_) ->
  let base := PAGE_ALIGN HookAddress_ in
  let execPage := PageBaseForExecution entry in
  let stub := OriginalCallStub entry in
  0 <= HookAddress_ -> HookAddress_ + 5 < 2 ^ 64 ->
  0 <= execPage -> execPage + PAGE_SIZE <= 2 ^ 64 ->
  0 <= stub -> stub + 20 <= 2 ^ 64 ->
  execPage + PAGE_SIZE <= base \/ base + PAGE_SIZE <= execPage ->
  stub + 20 <= execPage \/ execPage + PAGE_SIZE <= stub ->
  stub + 20 <= base \/ base + PAGE_SIZE <= stub ->
  execPage = ExAllocatePoolWithTag k PAGE_SIZE /\
  HookAddress entry = HookAddress_ /\ Handler entry = Handler_ /\
  PhyPageBase entry = GetPaFromVa k base /\
  PhyPageBaseForExecution entry = GetPaFromVa k execPage /\
  (exists n,
     FindFirstInstruction (RtlCopyMemory m execPage base PAGE_SIZE) HookAddress_
     = (true, n) /\
     2 <= n <= 5 /\ BYTE_OFFSET HookAddress_ + n <= PAGE_SIZE /\
     stub = ExAllocatePoolWithTag k (n + sizeof_JMP_CODE) /\ stub <> 0 /\
     read_bytes m' stub (Z.to_nat n) = read_bytes m HookAddress_ (Z.to_nat n) /\
     read_bytes m' (stub + n) 15 = CreateJumpCode (HookAddress_ + n)) /\
  In (mkSharedMemoryEntry base execPage (IoAllocateMdl k base)) table' /\
  released = [] /\
  (forall offset, 0 <= offset < PAGE_SIZE ->
     m' (execPage + offset)
     = if offset =? BYTE_OFFSET HookAddress_ then 0xcc
       else m (base + offset)) /\
  (forall offset, 0 <= offset < PAGE_SIZE ->
     m' (base + offset) = m (base + offset)).
Proof.
  intros H Hok Hno base execPage stub HH0 HH1 He0 He1 Hs0 Hs1 Dpages Dexec Dbase.
  unfold InitializeHookEntry in H. bind_inv H.
  destruct a as [[[[status1 idx] table1] m1] rel1].
  destruct (NT_SUCCESS status1) eqn:Hok1; cbn [negb] in H.
  2:{ apply Done_tuple5_inv in H. destruct H as [Hst _]. congruence. }
  bind_inv H. destruct idx as [i|]; [|discriminate Hc0].
  cbn [deref] in Hc0. injection Hc0 as <-.
  destruct (GetSharedMemoryEntry_Some _ _ _ _ _ _ _ _ _ _ Hc)
    as [_ [Hrel [[L _]|[L [Hnz [Ht Hm1]]]]]].
  { exfalso. exact (GetSharedMemoryEntry_loop_unmanaged _ _ _ _ Hno L). }
  fold base in L, Ht, Hm1. subst rel1.
  destruct (GetSharedMemoryEntry_loop_spec _ _ _ _ _ L) as [Hi _].
  assert (Hnth : nth_error table1 i
                 = Some (mkSharedMemoryEntry base
                           (ExAllocatePoolWithTag k PAGE_SIZE)
                           (IoAllocateMdl k base))).
  { rewrite Ht. apply nth_error_assign_entry. lia. }
  rewrite Hnth in H. cbn [deref bind] in H. bind_inv H. clear Hc0 a.
  cbn [ExecPage] in H.
  destruct (InstallHookOnExecPage k m1 HookAddress_
              (ExAllocatePoolWithTag k PAGE_SIZE))
    as [[status2 stub2] m2] eqn:I.
  destruct (NT_SUCCESS status2) eqn:Hok2; cbn [negb] in H.
  2:{ apply Done_tuple5_inv in H. destruct H as [Hst _]. congruence. }
  apply Done_tuple5_inv in H. destruct H as [Hst [Hentry [Htab [Hm' Hrel']]]].
  subst status entry table' m' released.
  cbn [PageBaseForExecution OriginalCallStub] in execPage, stub.
  subst execPage stub.
  set (execPage := ExAllocatePoolWithTag k PAGE_SIZE) in *.
  destruct (PAGE_ALIGN_range HookAddress_ ltac:(lia)) as [Hb0 Hb1].
  fold base in Hb0, Hb1.
  destruct (InstallHookOnExecPage_memory _ _ _ _ _ _ _ I Hok2 HH0 HH1 Hs0 Hs1
              He0 He1)
    as [n [F [Hn [Hpage [Hstub [Hsnz [_ Hm2]]]]]]].
  pose proof (BYTE_OFFSET_range HookAddress_) as Hoff.
  pose proof (PAGE_ALIGN_plus_BYTE_OFFSET HookAddress_) as Hsplit.
  fold base in Hsplit.
  assert (Hm1' : forall a, m1 a
                 = if (execPage <=? a) && (a <? execPage + PAGE_SIZE)
                   then m (base + (a - execPage)) else m a).
  { intros a. rewrite Hm1. apply RtlCopyMemory_page; assumption. }
  split; [reflexivity|]. split; [reflexivity|]. split; [reflexivity|].
  split; [reflexivity|]. split; [reflexivity|].
  split.
  { exists n. split; [rewrite <- Hm1; exact F|]. split; [exact Hn|].
    split; [exact Hpage|]. split; [exact Hstub|]. split; [exact Hsnz|].
    unfold PAGE_SIZE in *.
    split.
    - unfold read_bytes. apply map_ext_in. intros j Hj. apply in_seq in Hj.
      rewrite !Add2Ptr_small by lia. rewrite Hm2.
      destruct (Z.eqb_spec (stub2 + Z.of_nat j)
                           (execPage + BYTE_OFFSET HookAddress_)); [lia|].
      destruct (Z.leb_spec (stub2 + n) (stub2 + Z.of_nat j)); [lia|].
      cbn [andb].
      destruct (Z.leb_spec stub2 (stub2 + Z.of_nat j)); [|lia].
      destruct (Z.ltb_spec (stub2 + Z.of_nat j) (stub2 + n)); [|lia].
      cbn [andb]. rewrite Hm1'.
      destruct ((execPage <=? HookAddress_ + (stub2 + Z.of_nat j - stub2))
                && (HookAddress_ + (stub2 + Z.of_nat j - stub2)
                    <? execPage + 4096)) eqn:E;
        [apply andb_true_iff in E; destruct E as [E1 E2];
         apply Z.leb_le in E1; apply Z.ltb_lt in E2; lia|].
      f_equal. lia.
    - apply (nth_ext _ _ 0 0); [reflexivity|].
      intros j Hj. rewrite read_bytes_length in Hj.
      rewrite read_bytes_nth by exact Hj. rewrite Add2Ptr_small by lia.
      rewrite Hm2.
      destruct (Z.eqb_spec (stub2 + n + Z.of_nat j)
                           (execPage + BYTE_OFFSET HookAddress_)); [lia|].
      destruct (Z.leb_spec (stub2 + n) (stub2 + n + Z.of_nat j)); [|lia].
      destruct (Z.ltb_spec (stub2 + n + Z.of_nat j) (stub2 + n + 15)); [|lia].
      cbn [andb]. f_equal. lia. }
  split; [eapply nth_error_In; exact Hnth|].
  split; [reflexivity|].
  unfold PAGE_SIZE in *.
  split.
  - intros offset Ho. rewrite Hm2.
    destruct (Z.eqb_spec offset (BYTE_OFFSET HookAddress_)) as [->|Hne].
    + rewrite Z.eqb_refl. reflexivity.
    + destruct (Z.eqb_spec (execPage + offset)
                           (execPage + BYTE_OFFSET HookAddress_)); [lia|].
      destruct ((stub2 + n <=? execPage + offset)
                && (execPage + offset <? stub2 + n + 15)) eqn:E1;
        [apply andb_true_iff in E1; destruct E1 as [E1 E2];
         apply Z.leb_le in E1; apply Z.ltb_lt in E2; lia|].
      destruct ((stub2 <=? execPage + offset)
                && (execPage + offset <? stub2 + n)) eqn:E2;
        [apply andb_true_iff in E2; destruct E2 as [E2 E3];
         apply Z.leb_le in E2; apply Z.ltb_lt in E3; lia|].
      rewrite Hm1'.
      destruct (Z.leb_spec execPage (execPage + offset)); [|lia].
      destruct (Z.ltb_spec (execPage + offset) (execPage + 4096)); [|lia].
      cbn [andb]. f_equal. lia.
  - intros offset Ho. rewrite Hm2.
    destruct (Z.eqb_spec (base + offset)
                         (execPage + BYTE_OFFSET HookAddress_)); [lia|].
    destruct ((stub2 + n <=? base + offset)
              && (base + offset <? stub2 + n + 15)) eqn:E1;
      [apply andb_true_iff in E1; destruct E1 as [E1 E2];
       apply Z.leb_le in E1; apply Z.ltb_lt in E2; lia|].
    destruct ((stub2 <=? base + offset)
              && (base + offset <? stub2 + n)) eqn:E2;
      [apply andb_true_iff in E2; destruct E2 as [E2 E3];
       apply Z.leb_le in E2; apply Z.ltb_lt in E3; lia|].
    rewrite Hm1'.
    destruct ((execPage <=? base + offset)
              && (base + offset <? execPage + 4096)) eqn:E3;
      [apply andb_true_iff in E3; destruct E3 as [E3 E4];
       apply Z.leb_le in E3; apply Z.ltb_lt in E4; lia|].
    reflexivity.
Qed.

Lemma InitializeHookEntry_first_hook_on_page_witness :
  exists table' m',
    InitializeHookEntry true sample_kernel sample_shared_table sample_vmem
      0xFFFFF88003C01000 0xFFFFF80002A31234
    = Done (STATUS_SUCCESS, sample_entry_1, table', m', []) /\
    OriginalCallStub sample_entry_1 = 0xFFFFF88003D00000 /\
    read_bytes m' 0xFFFFF88003D00000 5 = [0x48; 0x89; 0x5c; 0x24; 0x08] /\
    read_bytes m' 0xFFFFF88003D00005 15
    = [0x90; 0xff; 0x25; 0; 0; 0; 0; 0x39; 0x12; 0xA3; 0x02; 0x00; 0xF8; 0xFF; 0xFF] /\
    m' 0xFFFFF88004000234 = 0xcc /\
    m' 0xFFFFF88004000235 = 0x89 /\
    m' 0xFFFFF80002A31234 = 0x48.
Proof.
  assert (Hs : match InitializeHookEntry true sample_kernel sample_shared_table
                       sample_vmem 0xFFFFF88003C01000 0xFFFFF80002A31234 with
               | Done (s, e, _, _, released) =>
                   s = STATUS_SUCCESS /\ e = sample_entry_1 /\ released = []
               | _ => False
               end) by (vm_compute; auto).
  destruct (InitializeHookEntry true sample_kernel sample_shared_table
              sample_vmem 0xFFFFF88003C01000 0xFFFFF80002A31234)
    as [[[[[s e] table'] m'] released]| | |] eqn:Hrun; try contradiction.
  destruct Hs as [-> [-> ->]].
  exists table', m'. split; [reflexivity|].
  assert (Hok : NT_SUCCESS STATUS_SUCCESS = true) by reflexivity.
  assert (Hno : forall e, In e sample_shared_table ->
                          HookAddressBase e <> PAGE_ALIGN 0xFFFFF80002A31234)
    by (intros e [<-|[<-|[]]]; vm_compute; discriminate).
  pose proof (InitializeHookEntry_first_hook_on_page
                true sample_kernel sample_shared_table sample_vmem
                0xFFFFF88003C01000 0xFFFFF80002A31234
                STATUS_SUCCESS sample_entry_1 table' m' [] Hrun Hok Hno) as T.
  cbv zeta in T.
  assert (H1 : 0 <= 0xFFFFF80002A31234) by (vm_compute; discriminate).
  assert (H2 : 0xFFFFF80002A31234 + 5 < 2 ^ 64) by (vm_compute; reflexivity).
  specialize (T H1 H2).
  specialize (T ltac:(vm_compute; discriminate) ltac:(vm_compute; discriminate)).
  specialize (T ltac:(vm_compute; discriminate) ltac:(vm_compute; discriminate)).
  specialize (T ltac:(right; vm_compute; discriminate)
                ltac:(left; vm_compute; discriminate)
                ltac:(right; vm_compute; discriminate)).
  destruct T as [_ [_ [_ [_ [_ [[n [F [_ [_ [Hstub [_ [Hcopy Hjmp]]]]]]]
                 [_ [_ [Hexec Hbase]]]]]]]]].
  cbv zeta in F.
  assert (En : n = 5) by (vm_compute in F; injection F as <-; reflexivity).
  subst n.
  change (OriginalCallStub sample_entry_1) with 0xFFFFF88003D00000 in *.
  change (Z.to_nat 5) with 5%nat in Hcopy.
  change (0xFFFFF88003D00000 + 5) with 0xFFFFF88003D00005 in Hjmp.
  assert (R1 : read_bytes sample_vmem 0xFFFFF80002A31234 5
               = [0x48; 0x89; 0x5c; 0x24; 0x08]) by (vm_compute; reflexivity).
  assert (R2 : CreateJumpCode (0xFFFFF80002A31234 + 5)
               = [0x90; 0xff; 0x25; 0; 0; 0; 0;
                  0x39; 0x12; 0xA3; 0x02; 0x00; 0xF8; 0xFF; 0xFF])
    by (vm_compute; reflexivity).
  rewrite R1 in Hcopy. rewrite R2 in Hjmp.
  pose proof (Hexec 0x234 ltac:(vm_compute; intuition discriminate)) as X1.
  pose proof (Hexec 0x235 ltac:(vm_compute; intuition discriminate)) as X2.
  pose proof (Hbase 0x234 ltac:(vm_compute; intuition discriminate)) as X3.
  vm_compute in X1, X2, X3.
  split; [reflexivity|]. split; [exact Hcopy|]. split; [exact Hjmp|].
  split; [exact X1|]. split; [exact X2|exact X3].
Defined.

(** * Part V: virtualising the processors; the hook handlers *)


(** ** GetSegmentAccessRight *)

Lemma testbit_get_field lo w e i :
  0 <= lo -> 0 <= w -> 0 <= i ->
  Z.testbit (get_field lo w e) i = (i <? w) && Z.testbit e (i + lo).
Proof.
  intros Hlo Hw Hi. unfold get_field.
  rewrite Z.land_spec, Z.shiftr_spec, Z.testbit_ones_nonneg by lia.
  apply andb_comm.
Qed.

Lemma testbit_set_field lo w e v i :
  0 <= lo -> 0 <= w -> 0 <= i ->
  Z.testbit (set_field lo w e v) i
  = if (lo <=? i) && (i <? lo + w) then Z.testbit v (i - lo)
    else Z.testbit e i.
Proof.
  intros Hlo Hw Hi. unfold set_field.
  rewrite Z.lor_spec, Z.ldiff_spec, !Z.shiftl_spec, Z.land_spec by lia.
  rewrite !Z.testbit_ones by lia.
  destruct (Z.leb_spec lo i); cbn [andb].
  - destruct (Z.leb_spec 0 (i - lo)); [|lia]. cbn [andb].
    replace (i - lo <? w) with (i <? lo + w)
      by (destruct (Z.ltb_spec i (lo + w)), (Z.ltb_spec (i - lo) w); lia).
    destruct (i <? lo + w); cbn [negb andb].
    + rewrite andb_false_r, andb_true_r. reflexivity.
    + rewrite andb_true_r, andb_false_r, orb_false_r. reflexivity.
  - destruct (Z.leb_spec 0 (i - lo)); [lia|]. cbn [andb negb].
    rewrite andb_true_r. rewrite (Z.testbit_neg_r v) by lia.
    cbn [andb]. apply orb_false_r.
Qed.

(** X27.  GetSegmentAccessRight returns bits 40 to 47 of the descriptor
    the selector names (type, S, DPL, P) followed by its bits 52 to 55
    (AVL, L, D/B, G), with the upper four bits zero.  Nothing of what the
    local variable held before reaches the result, the RPL bits of the
    selector are ignored, and the DPL the VMM later reads from the
    attribute is the DPL of the descriptor. *)
Theorem GetSegmentAccessRight_packs_descriptor_attributes
    read_descriptor uninitialised SegmentSelector GdtBase :
  0 <= uninitialised < 2 ^ 16 ->
  let descriptor :=
    read_descriptor
      (to_ULONG64 (GdtBase + Z.land SegmentSelector (Z.lnot RPL_MASK))) in
  let attribute :=
    GetSegmentAccessRight read_descriptor uninitialised SegmentSelector GdtBase in
  attribute = Z.lor (get_field 40 8 descriptor)
                    (Z.shiftl (get_field 52 4 descriptor) 8) /\
  0 <= attribute < 2 ^ 12 /\
  SEGMENT_ATTRIBUTE.Dpl attribute = SEGMENT_DESCRIPTOR.Dpl descriptor.
Proof.
  intros Hu descriptor attribute.
  assert (Hclosed : attribute = Z.lor (get_field 40 8 descriptor)
                                      (Z.shiftl (get_field 52 4 descriptor) 8)).
  { subst attribute. unfold GetSegmentAccessRight. fold descriptor.
    cbv zeta.
    unfold SEGMENT_ATTRIBUTE_set.Type_, SEGMENT_ATTRIBUTE_set.System,
      SEGMENT_ATTRIBUTE_set.Dpl, SEGMENT_ATTRIBUTE_set.Present,
      SEGMENT_ATTRIBUTE_set.Avl, SEGMENT_ATTRIBUTE_set.LongMode,
      SEGMENT_ATTRIBUTE_set.DefaultBit, SEGMENT_ATTRIBUTE_set.Granularity,
      SEGMENT_ATTRIBUTE_set.Reserved1,
      SEGMENT_DESCRIPTOR.Type_, SEGMENT_DESCRIPTOR.System,
      SEGMENT_DESCRIPTOR.Dpl, SEGMENT_DESCRIPTOR.Present,
      SEGMENT_DESCRIPTOR.Avl, SEGMENT_DESCRIPTOR.LongMode,
      SEGMENT_DESCRIPTOR.DefaultBit, SEGMENT_DESCRIPTOR.Granularity.
    clearbody descriptor.
    apply Z.bits_inj'. intros i Hi.
    assert (Hhigh : 16 <= i -> Z.testbit uninitialised i = false).
    { intros. destruct (Z.eq_dec uninitialised 0) as [->|Hne];
        [apply Z.bits_0|].
      apply Z.bits_above_log2; [lia|].
      apply Z.log2_lt_pow2; [lia|].
      apply Z.lt_le_trans with (2 ^ 16); [lia|].
      apply Z.pow_le_mono_r; lia. }
    rewrite Z.lor_spec, Z.shiftl_spec by lia.
    rewrite !testbit_set_field by lia.
    rewrite (testbit_get_field 40 8) by lia.
    rewrite Z.bits_0.
    repeat match goal with
           | |- context [(?a <=? i) && (i <? ?b)] =>
               let c := fresh "c" in
               destruct (Z.leb_spec a i); destruct (Z.ltb_spec i b);
               cbn [andb]; try lia
           end;
      rewrite ?testbit_get_field by lia;
      try rewrite (Z.testbit_neg_r _ (i - 8)) by lia;
      repeat match goal with
             | |- context [?a <? ?b] =>
                 destruct (Z.ltb_spec a b); try lia
             end;
      cbn [andb orb]; rewrite ?orb_false_r;
      try (f_equal; lia); try reflexivity.
    all: try (rewrite Hhigh by lia; reflexivity). }
  split; [exact Hclosed|].
  assert (Hrange : 0 <= attribute < 2 ^ 12).
  { rewrite Hclosed.
    pose proof (get_field_range 40 8 descriptor ltac:(lia)) as H1.
    pose proof (get_field_range 52 4 descriptor ltac:(lia)) as H2.
    set (x := get_field 40 8 descriptor) in *.
    set (y := get_field 52 4 descriptor) in *.
    assert (Hland : Z.land (Z.shiftl y 8) x = 0).
    { apply Z.bits_inj'. intros i Hi. rewrite Z.land_spec, Z.bits_0.
      destruct (Z.ltb_spec i 8).
      - rewrite Z.shiftl_spec_low by lia. reflexivity.
      - rewrite <- (Z.mod_small x (2 ^ 8)) by lia.
        rewrite Z.mod_pow2_bits_high by lia. apply andb_false_r. }
    rewrite Z.lor_comm.
    rewrite <- Z.lxor_lor by exact Hland.
    rewrite <- Z.add_nocarry_lxor by exact Hland.
    rewrite Z.shiftl_mul_pow2 by lia. lia. }
  split; [exact Hrange|].
  unfold SEGMENT_ATTRIBUTE.Dpl, SEGMENT_DESCRIPTOR.Dpl. rewrite Hclosed.
  apply Z.bits_inj'. intros i Hi.
  rewrite !testbit_get_field by lia.
  rewrite Z.lor_spec, Z.shiftl_spec by lia.
  rewrite !testbit_get_field by lia.
  destruct (Z.ltb_spec i 2); cbn [andb]; [|reflexivity].
  destruct (Z.ltb_spec (i + 5) 8); [|lia]. cbn [andb].
  rewrite (Z.testbit_neg_r _ (i + 5 - 8)) by lia.
  rewrite orb_false_r. f_equal. lia.
Qed.

Lemma GetSegmentAccessRight_packs_descriptor_attributes_witness :
  GetSegmentAccessRight
    (fun a => if a =? 0xFFFFF80000B95018 then 0x00CF93000000FFFF else 0)
    0xA5A5 0x1B 0xFFFFF80000B95000
  = 0xC93.
Proof.
  destruct (GetSegmentAccessRight_packs_descriptor_attributes
              (fun a => if a =? 0xFFFFF80000B95018 then 0x00CF93000000FFFF
                        else 0)
              0xA5A5 0x1B 0xFFFFF80000B95000) as [Hclosed _].
  - vm_compute. intuition discriminate.
  - rewrite Hclosed. vm_compute. reflexivity.
Defined.

(** ** ExecuteOnEachProcessor *)

Lemma ExecuteOnEachProcessor_loop_spec (State : Type)
    (KeGet : Z -> Z) (Callback : Z -> State -> Z * State) :
  forall remaining first status0 s,
    NT_SUCCESS status0 = true ->
    exists (k : nat) status s',
      ExecuteOnEachProcessor_loop State KeGet Callback remaining first status0 s
      = (status, first + Z.of_nat k, s') /\
      (k <= remaining)%nat /\
      (forall j, (j < k)%nat ->
         NT_SUCCESS (KeGet (first + Z.of_nat j)) = true /\
         NT_SUCCESS (fst (Callback (first + Z.of_nat j)
                            (state_after State Callback j first s))) = true) /\
      (k = remaining ->
         NT_SUCCESS status = true /\
         s' = state_after State Callback remaining first s) /\
      ((k < remaining)%nat ->
         NT_SUCCESS status = false /\
         let s_k := state_after State Callback k first s in
         (status = KeGet (first + Z.of_nat k) /\ s' = s_k) \/
         (NT_SUCCESS (KeGet (first + Z.of_nat k)) = true /\
          status = fst (Callback (first + Z.of_nat k) s_k) /\
          s' = snd (Callback (first + Z.of_nat k) s_k))).
Proof.
  induction remaining as [|r IH]; intros first status0 s Hst.
  - exists O, status0, s. cbn [ExecuteOnEachProcessor_loop state_after].
    change (Z.of_nat 0) with 0 in *; rewrite ?Z.add_0_r. split; [reflexivity|]. split; [lia|].
    split; [intros j Hj; lia|]. split; [auto|]. intros Hk. lia.
  - cbn [ExecuteOnEachProcessor_loop].
    destruct (NT_SUCCESS (KeGet first)) eqn:Hget; cbn [negb].
    2:{ exists O, (KeGet first), s. change (Z.of_nat 0) with 0 in *; rewrite ?Z.add_0_r.
        split; [reflexivity|]. split; [lia|].
        split; [intros j Hj; lia|]. split; [intros Hk; lia|].
        intros _. cbn [state_after]. change (Z.of_nat 0) with 0 in *.
        rewrite ?Z.add_0_r. split; [exact Hget|]. left. auto. }
    destruct (Callback first s) as [status1 s1] eqn:Hcb.
    destruct (NT_SUCCESS status1) eqn:Hs1; cbn [negb].
    2:{ exists O, status1, s1. change (Z.of_nat 0) with 0 in *; rewrite ?Z.add_0_r.
        split; [reflexivity|]. split; [lia|].
        split; [intros j Hj; lia|]. split; [intros Hk; lia|].
        intros _. cbn [state_after]. change (Z.of_nat 0) with 0 in *.
        rewrite ?Z.add_0_r, ?Hcb. split; [exact Hs1|]. right.
        cbn [fst snd]. auto. }
    destruct (IH (first + 1) status1 s1 Hs1)
      as [k [status [s' [Hrun [Hk [Hall [Hend Hstop]]]]]]].
    exists (S k), status, s'.
    replace (first + Z.of_nat (S k)) with (first + 1 + Z.of_nat k) by lia.
    split; [exact Hrun|]. split; [lia|].
    assert (Es1 : snd (Callback first s) = s1) by (rewrite Hcb; reflexivity).
    split.
    { intros [|j] Hj.
      - cbn [state_after]. change (Z.of_nat 0) with 0 in *; rewrite ?Z.add_0_r, ?Hcb. cbn [fst]. auto.
      - cbn [state_after]. rewrite Es1.
        replace (first + Z.of_nat (S j)) with (first + 1 + Z.of_nat j) by lia.
        apply Hall. lia. }
    split.
    { intros Ek. cbn [state_after]. rewrite Es1. apply Hend. lia. }
    intros Hlt. cbn [state_after]. rewrite Es1. apply Hstop. lia.
Qed.

(** X14.  ExecuteOnEachProcessor stops at the first failure and counts the
    processors that completed.  It always returns (the assertion at Exit
    holds in every run); the count i it stores is at most the number of
    processors; the callback ran with success, in order, on every
    processor below i; the status is a success exactly when i is the
    number of processors, and then the state is the one after all
    callbacks; otherwise processor i is the first for which either
    KeGetProcessorNumberFromIndex failed (the callback did not run there)
    or the callback failed, the status is that failure, and no later
    processor was touched. *)
Theorem ExecuteOnEachProcessor_stops_at_first_failure
    (State : Type) dbg (KeGet : Z -> Z) (Callback : Z -> State -> Z * State)
    numOfProcessors s :
  0 <= numOfProcessors ->
  exists status i s',
    ExecuteOnEachProcessor State dbg KeGet Callback numOfProcessors s
    = Done (status, i, s') /\
    0 <= i <= numOfProcessors /\
    (NT_SUCCESS status = true <-> i = numOfProcessors) /\
    (forall j, 0 <= j < i ->
       NT_SUCCESS (KeGet j) = true /\
       NT_SUCCESS (fst (Callback j (state_after State Callback (Z.to_nat j) 0 s)))
       = true) /\
    (i = numOfProcessors ->
       s' = state_after State Callback (Z.to_nat numOfProcessors) 0 s) /\
    (i < numOfProcessors ->
       let s_i := state_after State Callback (Z.to_nat i) 0 s in
       (status = KeGet i /\ s' = s_i) \/
       (NT_SUCCESS (KeGet i) = true /\ status = fst (Callback i s_i) /\
        s' = snd (Callback i s_i))).
Proof.
  intros Hn. unfold ExecuteOnEachProcessor.
  destruct (ExecuteOnEachProcessor_loop_spec State KeGet Callback
              (Z.to_nat numOfProcessors) 0 STATUS_SUCCESS s eq_refl)
    as [k [status [s' [Hrun [Hk [Hall [Hend Hstop]]]]]]].
  rewrite Hrun. cbn [Z.add] in *.
  exists status, (Z.of_nat k), s'.
  assert (Hiff : NT_SUCCESS status = true <-> Z.of_nat k = numOfProcessors).
  { split.
    - intros Hs. destruct (Nat.eq_dec k (Z.to_nat numOfProcessors)) as [E|E];
        [lia|].
      destruct (Hstop ltac:(lia)) as [Hf _]. congruence.
    - intros E. apply Hend. lia. }
  split.
  { rewrite NT_ASSERT_holds; [reflexivity|].
    destruct (NT_SUCCESS status) eqn:Hs; cbn [negb orb]; [|reflexivity].
    apply Z.eqb_eq. apply Hiff. reflexivity. }
  split; [lia|]. split; [exact Hiff|].
  split.
  { intros j Hj. specialize (Hall (Z.to_nat j) ltac:(lia)).
    rewrite Z2Nat.id in Hall by lia. exact Hall. }
  split.
  { intros E. apply Hend. lia. }
  intros Hlt. rewrite Nat2Z.id.
  destruct (Hstop ltac:(lia)) as [_ Hcase]. exact Hcase.
Qed.

Lemma ExecuteOnEachProcessor_stops_at_first_failure_witness :
  ExecuteOnEachProcessor (list Z) true (fun _ => STATUS_SUCCESS)
    (fun i log => (if i =? 2 then STATUS_UNSUCCESSFUL else STATUS_SUCCESS,
                   log ++ [i]))
    4 []
  = Done (STATUS_UNSUCCESSFUL, 2, [0; 1; 2]).
Proof.
  destruct (ExecuteOnEachProcessor_stops_at_first_failure (list Z) true
              (fun _ => STATUS_SUCCESS)
              (fun i log => (if i =? 2 then STATUS_UNSUCCESSFUL
                             else STATUS_SUCCESS, log ++ [i]))
              4 [] ltac:(lia))
    as [status [i [s' [Hrun _]]]].
  rewrite Hrun. vm_compute in Hrun. symmetry. exact Hrun.
Defined.

(** ** HookKernelHandlers.cpp *)

Lemma TagToString_char_printable isspace isprint c :
  isprint 0x20 = true -> isprint 0x2E = true ->
  isprint (TagToString_char isspace isprint c) = true /\
  TagToString_char isspace isprint c <> 0.
Proof.
  intros Hsp Hdot. unfold TagToString_char, ANSI_NULL.
  destruct (Z.eqb_spec c 0) as [->|Hc]; cbn [orb].
  - rewrite Hsp. cbn [negb]. split; [exact Hsp|discriminate].
  - destruct (isspace c).
    + rewrite Hsp. cbn [negb]. split; [exact Hsp|discriminate].
    + destruct (isprint c) eqn:Hp; cbn [negb].
      * split; [exact Hp|exact Hc].
      * split; [exact Hdot|discriminate].
Qed.

Lemma TagToString_char_kept isspace isprint c :
  c <> 0 -> isspace c = false -> isprint c = true ->
  TagToString_char isspace isprint c = c.
Proof.
  intros Hc Hs Hp. unfold TagToString_char, ANSI_NULL.
  destruct (Z.eqb_spec c 0); [contradiction|]. cbn [orb].
  rewrite Hs, Hp. reflexivity.
Qed.

(** X28.  TagToString always yields a printable C string of four
    characters.  Provided the run-time classifies ' ' and '.' as
    printable, each of the first four bytes of the result is printable and
    not NUL, the four bytes after them are NUL (so the [%s] of the caller
    stops there), and a byte of the tag that is already printable and
    neither NUL nor white space is passed on unchanged, the lowest byte of
    the tag first. *)
Theorem TagToString_is_printable_string
    (isspace isprint : Z -> bool) (TagValue : Z) :
  isprint 0x20 = true -> isprint 0x2E = true ->
  let tag := TagToString isspace isprint TagValue in
  List.length tag = 8%nat /\
  (forall i, (i < 4)%nat ->
     isprint (nth i tag 0) = true /\ nth i tag 0 <> 0) /\
  (forall i, (4 <= i < 8)%nat -> nth i tag 0 = 0) /\
  (forall i, (i < 4)%nat ->
     let c := Z.land (Z.shiftr (to_ULONG TagValue) (8 * Z.of_nat i)) 0xFF in
     c <> 0 -> isspace c = false -> isprint c = true -> nth i tag 0 = c).
Proof.
  intros Hsp Hdot tag. subst tag. unfold TagToString, bytes_of_PVOID.
  cbn [seq map firstn skipn app List.length].
  pose proof (to_ULONG_range TagValue) as Hr.
  set (x := to_ULONG TagValue) in *.
  assert (Hhigh : forall n, 32 <= n -> Z.land (Z.shiftr x n) 255 = 0).
  { intros n Hn. rewrite Z.shiftr_div_pow2 by lia.
    rewrite Z.div_small; [reflexivity|].
    split; [lia|]. apply Z.lt_le_trans with (2 ^ 32); [lia|].
    apply Z.pow_le_mono_r; lia. }
  split; [reflexivity|].
  split.
  { intros i Hi.
    destruct i as [|[|[|[|i]]]]; [| | | |lia]; cbn [nth];
      apply TagToString_char_printable; assumption. }
  split.
  { intros i Hi.
    destruct i as [|[|[|[|[|[|[|[|i]]]]]]]]; try lia; cbn [nth];
      apply Hhigh; cbn; lia. }
  intros i Hi Hc Hs Hp.
  destruct i as [|[|[|[|i]]]]; [| | | |lia]; cbn [nth];
    apply TagToString_char_kept; assumption.
Qed.

Lemma TagToString_is_printable_string_witness :
  TagToString isspace_C isprint_C 0x4D560053
  = [0x53; 0x20; 0x56; 0x4D; 0; 0; 0; 0] /\
  nth 2 (TagToString isspace_C isprint_C 0x01560053) 0 = 0x56.
Proof.
  split; [vm_compute; reflexivity|].
  destruct (TagToString_is_printable_string isspace_C isprint_C 0x01560053
              eq_refl eq_refl) as [_ [_ [_ Hkept]]].
  exact (Hkept 2%nat ltac:(lia) ltac:(vm_compute; discriminate)
               eq_refl eq_refl).
Defined.

(** X29.  GetOriginalCallStub is the inverse of registration: when the
    handlers of the registered hooks are pairwise different, asking for
    the handler of any registration whose stub has been built returns the
    stub of that very registration.  For a handler no registration has,
    the checked build stops at the assertion and the free build returns
    nullptr. *)
Theorem GetOriginalCallStub_finds_stub_of_registration
    dbg (g : list HOOK_REGISTRATION_ENTRY) :
  NoDup (map RegistrationHandler g) ->
  (forall r, In r g -> OriginalCallStub (HookEntry r) <> 0 ->
     GetOriginalCallStub dbg g (RegistrationHandler r)
     = Done (OriginalCallStub (HookEntry r))) /\
  (forall h, ~ In h (map RegistrationHandler g) ->
     GetOriginalCallStub dbg g h
     = if dbg then AssertionFailure else Done 0).
Proof.
  unfold GetOriginalCallStub. intros Hnd. split.
  - induction g as [|r0 g IH]; intros r Hin Hstub; [destruct Hin|].
    cbn [GetOriginalCallStub_in]. cbn [map] in Hnd.
    apply NoDup_cons_iff in Hnd. destruct Hnd as [Hnot Hnd].
    destruct Hin as [->|Hin].
    + rewrite Z.eqb_refl.
      rewrite NT_ASSERT_holds
        by (apply negb_true_iff, Z.eqb_neq; exact Hstub).
      reflexivity.
    + destruct (Z.eqb_spec (RegistrationHandler r0) (RegistrationHandler r))
        as [E|E].
      * exfalso. apply Hnot. rewrite E. apply in_map. exact Hin.
      * apply IH; assumption.
  - clear Hnd. induction g as [|r0 g IH]; intros h Hno.
    + cbn [GetOriginalCallStub_in]. destruct dbg; reflexivity.
    + cbn [GetOriginalCallStub_in]. cbn [map] in Hno.
      destruct (Z.eqb_spec (RegistrationHandler r0) h) as [E|E].
      * exfalso. apply Hno. left. exact E.
      * apply IH. intros Hin. apply Hno. right. exact Hin.
Qed.

Lemma GetOriginalCallStub_finds_stub_of_registration_witness :
  GetOriginalCallStub true sample_registrations 0xFFFFF88003C02000
  = Done 0xFFFFF88003D00100 /\
  GetOriginalCallStub true sample_registrations 0xFFFFF88003C09000
  = AssertionFailure.
Proof.
  assert (Hnd : NoDup (map RegistrationHandler sample_registrations)).
  { cbn [map sample_registrations RegistrationHandler].
    repeat constructor; cbn [In]; intuition discriminate. }
  destruct (GetOriginalCallStub_finds_stub_of_registration true
              sample_registrations Hnd) as [Hfound Hmissing].
  split.
  - apply (Hfound (mkRegistration "ExAllocatePoolWithTag" 0xFFFFF88003C02000
                                  sample_entry_2)).
    + right. left. reflexivity.
    + vm_compute. discriminate.
  - apply (Hmissing 0xFFFFF88003C09000).
    cbn [map sample_registrations RegistrationHandler In].
    intuition discriminate.
Defined.
